(** * buffer-optimize: the aggregation engine and the output assembler

    A shallow embedding of [cmdhash.c] (the two-family engine), [buffer.c]
    (the append-only command buffer), the driver loop of [buffer-optimize.c]
    and the add path of the older, ZINCRBY-only [zhash.c].

    Conventions of the embedding:
    - a [char *] buffer is a [string]; the byte with code 0 is C's NUL.  The
      C string functions below stop at the first NUL, as libc does, and the
      end of the Rocq string plays the terminator that hiredis and [strndup]
      write after the data;
    - [unsigned int] values are [Z] reduced modulo 2^32, [unsigned long]
      modulo 2^64.  A [size_t] is the byte count of an object that exists in
      memory and is kept as an unreduced [Z];
    - a linked chain is the list of its nodes in [next] order, an array of
      chains a list of lists, and a pointer to a node the pair (bucket index,
      position in the chain);
    - the anonymous union { double score; unsigned int hits; } of a member
      node is its eight bytes, read as a little-endian 64-bit pattern (the
      x86-64 layout): [hits] is the low 32 bits, [score] the IEEE-754
      binary64 number with that pattern;
    - every [malloc], [calloc], [realloc] and [strndup] asks an oracle whether
      it succeeds;
    - a computation has no result ([None]) where C leaves the behaviour
      undefined: a NULL string handed to a string function, a freed node that
      is read. *)

From Stdlib Require Import ZArith List String Ascii Lia Bool DecimalString.
From Stdlib Require Import Floats.PrimFloat Floats.FloatOps Floats.SpecFloat Uint63.
From stdpp Require Import base option list.
Import ListNotations.
Open Scope string_scope.
Open Scope list_scope.
Open Scope Z_scope.

(** ** Machine integers *)

Definition UINT_MOD : Z := 2 ^ 32.
Definition ULONG_MOD : Z := 2 ^ 64.

(** Conversion to [unsigned int]. *)
Definition to_uint (x : Z) : Z := x mod UINT_MOD.

(** Conversion of an [unsigned long] to [int] (two's complement, as gcc does). *)
Definition to_int (x : Z) : Z :=
  let r := x mod UINT_MOD in
  if r <? 2 ^ 31 then r else r - UINT_MOD.

(** [x++] and [x += n] on an [unsigned int]. *)
Definition uint_add (x n : Z) : Z := to_uint (x + n).

(** ** The C library on strings *)

Definition NUL : ascii := Ascii.zero.

Definition code (c : ascii) : Z := Z.of_N (N_of_ascii c).

Definition is_nul (c : ascii) : bool := (code c =? 0).

(** [s[0]], the terminator when [s] is exhausted. *)
Definition head (s : string) : ascii :=
  match s with
  | EmptyString => NUL
  | String c _ => c
  end.

Definition tail (s : string) : string :=
  match s with
  | EmptyString => EmptyString
  | String _ s' => s'
  end.

(** The bytes of [s] before its first NUL: what a C string function sees. *)
Fixpoint c_str (s : string) : string :=
  match s with
  | EmptyString => EmptyString
  | String c s' => if is_nul c then EmptyString else String c (c_str s')
  end.

(** The first [n] bytes of [s]. *)
Fixpoint first_bytes (n : nat) (s : string) : string :=
  match n, s with
  | O, _ => EmptyString
  | S _, EmptyString => EmptyString
  | S n', String c s' => String c (first_bytes n' s')
  end.

(** [strndup(s, n)]: a fresh copy of at most [n] bytes of [s], ending at the
    first NUL. *)
Definition strndup (s : string) (n : Z) : string :=
  c_str (first_bytes (Z.to_nat n) s).

(** [strncmp(s1, s2, n)]: the difference of the first bytes that differ among
    the first [n], 0 when there is none or a NUL is reached first. *)
Fixpoint strncmp (s1 s2 : string) (n : nat) : Z :=
  match n with
  | O => 0
  | S n' =>
      let c1 := head s1 in
      let c2 := head s2 in
      if negb (code c1 =? code c2) then code c1 - code c2
      else if is_nul c1 then 0
      else strncmp (tail s1) (tail s2) n'
  end.

(** [tolower] in the C locale. *)
Definition tolower (c : Z) : Z :=
  if (65 <=? c) && (c <=? 90) then c + 32 else c.

(** [strncasecmp(s1, s2, n)]. *)
Fixpoint strncasecmp (s1 s2 : string) (n : nat) : Z :=
  match n with
  | O => 0
  | S n' =>
      let c1 := tolower (code (head s1)) in
      let c2 := tolower (code (head s2)) in
      if negb (c1 =? c2) then c1 - c2
      else if c1 =? 0 then 0
      else strncasecmp (tail s1) (tail s2) n'
  end.

(** [sizeof("...")] of a string literal: its length and the terminator. *)
Definition sizeof_lit (s : string) : nat := S (String.length s).

(** The length hiredis records next to a string. *)
Definition strlen_Z (s : string) : Z := Z.of_nat (String.length s).

(** [snprintf(buf, 33, "%lld", n)] for a 64-bit [n]: at most 20 characters,
    always within the 33 bytes of the buffer. *)
Definition fmt_lld (n : Z) : string :=
  NilZero.string_of_int (Z.to_int n).

(** ** Doubles and the union of a member node *)

(** The IEEE-754 binary64 number whose bit pattern is [b]: sign in bit 63,
    biased exponent in bits 62..52, fraction in bits 51..0. *)
Definition spec_of_bits (b : Z) : spec_float :=
  let s := Z.testbit b 63 in
  let e := Z.land (Z.shiftr b 52) 2047 in
  let m := Z.land b (2 ^ 52 - 1) in
  if e =? 2047 then
    if m =? 0 then S754_infinity s else S754_nan
  else if e =? 0 then
    match m with
    | Zpos p => S754_finite s p (-1074)
    | _ => S754_zero s
    end
  else
    match m + 2 ^ 52 with
    | Zpos p => S754_finite s p (e - 1075)
    | _ => S754_zero s
    end.

Definition double_of_bits (b : Z) : float := SF2Prim (spec_of_bits b).

(** The bit pattern of a double.  A NaN is stored as the quiet NaN
    0x7ff8000000000000: its sign and payload are not tracked. *)
Definition bits_of_double (f : float) : Z :=
  let sign (s : bool) := if s then 2 ^ 63 else 0 in
  match Prim2SF f with
  | S754_zero s => sign s
  | S754_infinity s => sign s + Z.shiftl 2047 52
  | S754_nan => Z.shiftl 2047 52 + 2 ^ 51
  | S754_finite s m e =>
      if Zpos m <? 2 ^ 52 then sign s + Zpos m
      else sign s + Z.shiftl (e + 1075) 52 + (Zpos m - 2 ^ 52)
  end.

(** The member [hits] of the union: its first four bytes. *)
Definition hits_of (u : Z) : Z := u mod UINT_MOD.

(** [item->hits++]: the low four bytes are incremented as an [unsigned int],
    the other four are not touched. *)
Definition hits_incr (u : Z) : Z :=
  (u / UINT_MOD) * UINT_MOD + uint_add (hits_of u) 1.

(** The member [score] of the union. *)
Definition score_of (u : Z) : float := double_of_bits u.

(** [item->score += d]. *)
Definition score_add (u : Z) (d : float) : Z :=
  bits_of_double (PrimFloat.add (score_of u) d).

(** [!value] on a double: true for both zeros, false for a NaN. *)
Definition double_is_zero (d : float) : bool := PrimFloat.eqb d PrimFloat.zero.

(** ** Allocation and undefined behaviour *)

(** The outcomes of the allocations to come, in order; past the end of the
    list every allocation succeeds. *)
Definition oracle := list bool.

(** A computation reads and consumes the oracle; [None] is undefined
    behaviour. *)
Definition M (A : Type) : Type := oracle -> option (A * oracle).

Definition ret {A} (a : A) : M A := fun o => Some (a, o).

Definition bind {A B} (m : M A) (k : A -> M B) : M B :=
  fun o => match m o with
           | Some (a, o') => k a o'
           | None => None
           end.

Definition undefined {A} : M A := fun _ => None.

(** One [malloc], [calloc], [realloc] or [strndup]: [true] when it returns
    memory. *)
Definition alloc : M bool :=
  fun o => match o with
           | [] => Some (true, [])
           | b :: o' => Some (b, o')
           end.

(** [p == NULL]. *)
Definition is_null {A} (p : option A) : bool :=
  match p with
  | Some _ => false
  | None => true
  end.

(** A pointer that must not be NULL where it is used. *)
Definition deref {A} (p : option A) : M A :=
  match p with
  | Some a => ret a
  | None => undefined
  end.

Notation "'let*' x ':=' m 'in' k" := (bind m (fun x => k))
  (at level 10, x pattern, m at level 100, k at level 200).

(** ** cmdhash.h: the data of the engine *)

Inductive cmdType := TYPE_ZINCRBY | TYPE_SADD | TYPE_UNSUPPORTED.

(** The value of the enumerator as an [int]. *)
Definition cmdType_int (t : cmdType) : Z :=
  match t with
  | TYPE_ZINCRBY => 0
  | TYPE_SADD => 1
  | TYPE_UNSUPPORTED => 2
  end.

Definition BUF_INIT_ALLOC : Z := 32768.
Definition BUF_MAX_PREALLOC : Z := 1024 * 1024.

(** A node of a member chain.  [member] is NULL between the [calloc] of the
    node and the [strndup] of its string; [score_hits] is the union. *)
Record cmdMemberList := mkMember {
  member : option string;
  mlen : Z;
  score_hits : Z
}.

(** A node of a key chain; [kbucket] is NULL until the first member is
    looked up.  A node is only reachable by others once its [key] is set. *)
Record cmdKeyList := mkKey {
  key : string;
  klen : Z;
  count : Z;
  kbucket : option (list (list cmdMemberList))
}.

(** What a [next] pointer of a key chain leads to: a node, or the memory of a
    node that was given back to [free]. *)
Inductive key_cell :=
| Live (k : cmdKeyList)
| Freed.

(** [str_len] is not set by [__container_create], which gets the container
    from [malloc]: it is [None] while its value is indeterminate. *)
Record cmdHashContainer := mkContainer {
  ksize : Z;
  msize : Z;
  keys : Z;
  members : Z;
  str_len : option Z;
  bucket : list (list key_cell)
}.

Record cmdHash := mkHash {
  s_cmds : cmdHashContainer;
  z_cmds : cmdHashContainer;
  _buf : option string;
  _size : Z;
  _len : Z
}.

(** Pointers into a container: to a key node, and to a member node of a
    key. *)
Definition key_ptr : Type := nat * nat.
Definition member_ptr : Type := nat * nat.

(** A node as [calloc] returns it. *)
Definition calloc_member : cmdMemberList := mkMember None 0 0.

(** ** cmdhash.c: hashing *)

(** [djb2(str, len)]: [hash = ((hash << 5) + hash) + c] over the first [len]
    bytes in an [unsigned long], returned as an [int]. *)
Fixpoint djb2_loop (str : string) (len : nat) (hash : Z) : Z :=
  match len with
  | O => hash
  | S len' =>
      let c := code (head str) in
      djb2_loop (tail str) len' ((Z.shiftl hash 5 + hash + c) mod ULONG_MOD)
  end.

Definition djb2 (str : string) (len : Z) : Z :=
  to_int (djb2_loop str (Z.to_nat len) 5381).

(** [GET_BUCKET(str, len, size)], that is [djb2(str, len) % size] with [size]
    an [unsigned int], stored in an [unsigned int]. *)
Definition GET_BUCKET (str : string) (len : Z) (size : Z) : nat :=
  Z.to_nat (to_uint (djb2 str len) mod size).

(** ** cmdhash.c: construction *)

Definition __container_create (ksize msize : Z) : M (option cmdHashContainer) :=
  let* ok := alloc in
  if negb ok then ret None else
  let* ok := alloc in
  if negb ok then ret None else
  ret (Some (mkContainer ksize msize 0 0 None (replicate (Z.to_nat ksize) []))).

(** [cmdHashCreate]; when the second container cannot be created the first
    one is freed and the table itself is leaked. *)
Definition cmdHashCreate (ksize msize : Z) : M (option cmdHash) :=
  if (ksize <? 1) || (msize <? 1) then ret None else
  let* ok := alloc in
  if negb ok then ret None else
  let* s := __container_create ksize msize in
  match s with
  | None => ret None
  | Some s =>
      let* z := __container_create ksize msize in
      match z with
      | None => ret None
      | Some z => ret (Some (mkHash s z None 0 0))
      end
  end.

(** ** cmdhash.c: find or create *)

Inductive scan := Hit (i : nat) | Miss | Undef.

(** The [for] loop of [__find_key] from the node at position [i] on:
    [list->len == len && !strncmp(list->key, key, len)]. *)
Fixpoint scan_keys (chain : list key_cell) (str : string) (len : Z) (i : nat) : scan :=
  match chain with
  | [] => Miss
  | Freed :: _ => Undef
  | Live k :: rest =>
      if (klen k =? len) && (strncmp (key k) str (Z.to_nat len) =? 0)
      then Hit i
      else scan_keys rest str len (S i)
  end.

(** The [for] loop of [__find_member]:
    [len == item->len && !strncmp(member, item->member, len)]. *)
Fixpoint scan_members (chain : list cmdMemberList) (str : string) (len : Z) (i : nat) : scan :=
  match chain with
  | [] => Miss
  | item :: rest =>
      if len =? mlen item then
        match member item with
        | None => Undef
        | Some s =>
            if strncmp str s (Z.to_nat len) =? 0 then Hit i
            else scan_members rest str len (S i)
        end
      else scan_members rest str len (S i)
  end.

Definition set_bucket (c : cmdHashContainer) (b : list (list key_cell)) : cmdHashContainer :=
  mkContainer (ksize c) (msize c) (keys c) (members c) (str_len c) b.

(** The end of [__find_key], from "Make a copy of our key": the new node is
    linked as the last one of [chain], the chain of bucket [num].  When
    [strndup] fails the node is freed and stays linked. *)
Definition __find_key_copy (c : cmdHashContainer) (num : nat) (chain : list key_cell)
    (str : string) (len : Z) : M (option key_ptr * cmdHashContainer) :=
  let* ok := alloc in
  if negb ok then ret (None, set_bucket c (<[num := chain ++ [Freed]]> (bucket c)))
  else
    let node := mkKey (strndup str len) len 0 None in
    ret (Some (num, length chain),
         mkContainer (ksize c) (msize c) (uint_add (keys c) 1) (members c) (str_len c)
           (<[num := chain ++ [Live node]]> (bucket c))).

(** [__find_key(c, key, len)]: the key node, NULL when an allocation fails,
    and the container as the call leaves it. *)
Definition __find_key (c : cmdHashContainer) (str : string) (len : Z)
    : M (option key_ptr * cmdHashContainer) :=
  let num := GET_BUCKET str len (ksize c) in
  let* chain := deref (bucket c !! num) in
  match chain with
  | [] =>
      (* Create bucket if it doesn't exist *)
      let* ok := alloc in
      if negb ok then ret (None, c)
      else __find_key_copy c num [] str len
  | _ =>
      (* Look for it if it's not totally new *)
      match scan_keys chain str len 0 with
      | Undef => undefined
      | Hit i => ret (Some (num, i), c)
      | Miss =>
          let* ok := alloc in
          if negb ok then ret (None, c)
          else __find_key_copy c num chain str len
      end
  end.

(** [*key] for a key pointer. *)
Definition get_key (c : cmdHashContainer) (kp : key_ptr) : M cmdKeyList :=
  match bucket c !! kp.1 with
  | Some chain =>
      match chain !! kp.2 with
      | Some (Live k) => ret k
      | _ => undefined
      end
  | None => undefined
  end.

(** [*key = k]. *)
Definition put_key (c : cmdHashContainer) (kp : key_ptr) (k : cmdKeyList) : cmdHashContainer :=
  set_bucket c (alter (fun chain => <[kp.2 := Live k]> chain) kp.1 (bucket c)).

Definition set_kbucket (k : cmdKeyList) (arr : list (list cmdMemberList)) : cmdKeyList :=
  mkKey (key k) (klen k) (count k) (Some arr).

(** The end of [__find_member], from "Make a copy of our key": the new node
    is the last one of [chain], the chain of bucket [num] of the member table
    [arr] of the key.  When [strndup] fails the node stays linked, with a
    NULL [member] and a zero [len], and nothing is counted. *)
Definition __find_member_copy (c : cmdHashContainer) (kp : key_ptr) (k : cmdKeyList)
    (arr : list (list cmdMemberList)) (num : nat) (chain : list cmdMemberList)
    (str : string) (len : Z) : M (option member_ptr * cmdHashContainer) :=
  let* ok := alloc in
  if negb ok then
    ret (None, put_key c kp (set_kbucket k (<[num := chain ++ [calloc_member]]> arr)))
  else
    let item := mkMember (Some (strndup str len)) len (score_hits calloc_member) in
    let k' := mkKey (key k) (klen k) (uint_add (count k) 1)
                (Some (<[num := chain ++ [item]]> arr)) in
    let c' := mkContainer (ksize c) (msize c) (keys c) (uint_add (members c) 1)
                (option_map (fun n => uint_add n len) (str_len c)) (bucket c) in
    ret (Some (num, length chain), put_key c' kp k').

Definition hit (item : cmdMemberList) : cmdMemberList :=
  mkMember (member item) (mlen item) (hits_incr (score_hits item)).

(** [__find_member(c, key, member, len)]: the member node, NULL when an
    allocation fails, and the container as the call leaves it. *)
Definition __find_member (c : cmdHashContainer) (kp : key_ptr) (str : string) (len : Z)
    : M (option member_ptr * cmdHashContainer) :=
  let num := GET_BUCKET str len (msize c) in
  let* k := get_key c kp in
  (* Create bucket array itself if this is a new entry *)
  let* arr :=
    match kbucket k with
    | Some arr => ret (Some arr)
    | None =>
        let* ok := alloc in
        ret (if ok then Some (replicate (Z.to_nat (msize c)) []) else None)
    end in
  match arr with
  | None => ret (None, c)
  | Some arr =>
      let* chain := deref (arr !! num) in
      match chain with
      | [] =>
          let* ok := alloc in
          if negb ok then ret (None, put_key c kp (set_kbucket k arr))
          else __find_member_copy c kp k arr num [] str len
      | _ =>
          (* Bucket has data, look for our item *)
          match scan_members chain str len 0 with
          | Undef => undefined
          | Hit i =>
              (* Increment hit count *)
              ret (Some (num, i),
                   put_key c kp (set_kbucket k (<[num := alter hit i chain]> arr)))
          | Miss =>
              let* ok := alloc in
              if negb ok then ret (None, put_key c kp (set_kbucket k arr))
              else __find_member_copy c kp k arr num chain str len
          end
      end
  end.

(** ** hiredis and libc, as the code calls them *)

(** An element of a parsed command: a bulk string with its bytes, or an
    integer, whose [str] is NULL and whose [len] is 0. *)
Inductive replyElement :=
| REDIS_REPLY_STRING (str : string)
| REDIS_REPLY_INTEGER (integer : Z).

(** A reply of the reader: its own [integer] field (0 for an array, which
    hiredis gets from [calloc]) and its elements. *)
Record redisReply := mkReply {
  reply_integer : Z;
  element : list replyElement
}.

Definition elements (r : redisReply) : Z := Z.of_nat (length (element r)).

Definition elt_str (e : replyElement) : option string :=
  match e with
  | REDIS_REPLY_STRING s => Some s
  | REDIS_REPLY_INTEGER _ => None
  end.

Definition elt_len (e : replyElement) : Z :=
  match e with
  | REDIS_REPLY_STRING s => strlen_Z s
  | REDIS_REPLY_INTEGER _ => 0
  end.

(** [r->element[i]->str] where a string function reads it. *)
Definition arg_str (r : redisReply) (i : nat) : M string :=
  let* e := deref (element r !! i) in
  deref (elt_str e).

(** [r->element[i]->len]. *)
Definition arg_len (r : redisReply) (i : nat) : M Z :=
  let* e := deref (element r !! i) in
  ret (elt_len e).

(** An argument of a formatting call: a pointer and the number of bytes to
    copy from it. *)
Definition arg : Type := string * Z.

(** A name that a table holds is the block that [strndup] returned: the
    bytes of the string and its terminator.  A copy of [len] bytes from it
    stays inside the block when [len] is at most one more than the length of
    the string; a longer copy reads past the block, which C leaves
    undefined. *)
Definition in_block (a : arg) : bool := a.2 <=? strlen_Z a.1 + 1.

Definition read_block (a : arg) : M arg :=
  if in_block a then ret a else undefined.

(** The functions of libc and hiredis whose code is not part of the
    repository.  Their own allocations are taken to succeed.
    - [strtod s] is [strtod(s, NULL)];
    - [redisFormatCommandArgv argv] is the buffer that
      [redisFormatCommandArgv(&cmd, argc, argv, argvlen)] allocates, for the
      [argc] arguments of [argv];
    - [redisFormatZincrby k score m] is the buffer of
      [redisFormatCommand(&cmd, "ZINCRBY %b %f %b", k, klen, score, m, mlen)]. *)
Class Externals := {
  strtod : string -> float;
  redisFormatCommandArgv : list arg -> string;
  redisFormatZincrby : arg -> float -> arg -> string
}.

Section Engine.
Context {ext : Externals}.

(** ** cmdhash.c: adding a command *)

Definition set_z_cmds (ht : cmdHash) (c : cmdHashContainer) : cmdHash :=
  mkHash (s_cmds ht) c (_buf ht) (_size ht) (_len ht).

Definition set_s_cmds (ht : cmdHash) (c : cmdHashContainer) : cmdHash :=
  mkHash c (z_cmds ht) (_buf ht) (_size ht) (_len ht).

(** [*m] for a member pointer of the key at [kp]. *)
Definition get_member (c : cmdHashContainer) (kp : key_ptr) (mp : member_ptr)
    : M (cmdKeyList * list (list cmdMemberList) * list cmdMemberList * cmdMemberList) :=
  let* k := get_key c kp in
  let* arr := deref (kbucket k) in
  let* chain := deref (arr !! mp.1) in
  let* item := deref (chain !! mp.2) in
  ret (k, arr, chain, item).

(** [m->score += d]. *)
Definition add_score (c : cmdHashContainer) (kp : key_ptr) (mp : member_ptr) (d : float)
    : M cmdHashContainer :=
  let* (k, arr, chain, item) := get_member c kp mp in
  let item' := mkMember (member item) (mlen item) (score_add (score_hits item) d) in
  ret (put_key c kp (set_kbucket k (<[mp.1 := <[mp.2 := item']> chain]> arr))).

(** [__hash_zincrby_cmd]: the return value and the table. *)
Definition __hash_zincrby_cmd (ht : cmdHash) (r : redisReply) : M (Z * cmdHash) :=
  (* Find or create the key *)
  let* kstr := arg_str r 1 in
  let* klen := arg_len r 1 in
  let* (k, c) := __find_key (z_cmds ht) kstr klen in
  match k with
  | None => ret (-1, set_z_cmds ht c)
  | Some kp =>
      (* Find or create the member *)
      let* mstr := arg_str r 3 in
      let* mlen := arg_len r 3 in
      let* (m, c) := __find_member c kp mstr mlen in
      match m with
      | None => ret (-1, set_z_cmds ht c)
      | Some mp =>
          (* Increment our score *)
          let* dstr := arg_str r 2 in
          let* c := add_score c kp mp (strtod dstr) in
          ret (0, set_z_cmds ht c)
      end
  end.

(** The [for] loop of [__hash_sadd_cmd] over the elements from [i] on. *)
Fixpoint __hash_sadd_members (c : cmdHashContainer) (kp : key_ptr)
    (args : list replyElement) : M (Z * cmdHashContainer) :=
  match args with
  | [] => ret (0, c)
  | e :: rest =>
      let* mstr := deref (elt_str e) in
      let* (m, c) := __find_member c kp mstr (elt_len e) in
      match m with
      | None => ret (-1, c)
      | Some _ => __hash_sadd_members c kp rest
      end
  end.

(** [__hash_sadd_cmd]. *)
Definition __hash_sadd_cmd (ht : cmdHash) (r : redisReply) : M (Z * cmdHash) :=
  (* Find or create this key *)
  let* kstr := arg_str r 1 in
  let* klen := arg_len r 1 in
  let* (k, c) := __find_key (s_cmds ht) kstr klen in
  match k with
  | None => ret (-1, set_s_cmds ht c)
  | Some kp =>
      (* Find or create every member being added *)
      let* (rc, c) := __hash_sadd_members c kp (drop 2 (element r)) in
      ret (rc, set_s_cmds ht c)
  end.

(** [__get_type]: [&&] evaluates the comparison of the name only when the
    count matches. *)
Definition __get_type (r : redisReply) : M cmdType :=
  (* Check for ZINCRBY *)
  let* z :=
    if elements r =? 4 then
      let* name := arg_str r 0 in
      ret (strncasecmp name "ZINCRBY" (sizeof_lit "ZINCRBY") =? 0)
    else ret false in
  if z then ret TYPE_ZINCRBY else
  (* Check for SADD *)
  let* s :=
    if 2 <? elements r then
      let* name := arg_str r 0 in
      ret (strncasecmp name "SADD" (sizeof_lit "SADD") =? 0)
    else ret false in
  if s then ret TYPE_SADD else
  (* Not a supported command *)
  ret TYPE_UNSUPPORTED.

(** [cmdHashAdd]. *)
Definition cmdHashAdd (ht : cmdHash) (r : redisReply) : M (Z * cmdHash) :=
  let* t := __get_type r in
  match t with
  | TYPE_ZINCRBY => __hash_zincrby_cmd ht r
  | TYPE_SADD => __hash_sadd_cmd ht r
  | TYPE_UNSUPPORTED => ret (cmdType_int TYPE_UNSUPPORTED, ht)
  end.

(** ** cmdhash.c: the protocol buffer of the table

    A buffer is the bytes written to it so far, the first [_len] ones; what
    the allocation holds behind them is never read. *)

(** [memcpy(buf + pos, src, n)] on such a buffer. *)
Definition memcpy_at (buf : string) (pos : Z) (src : string) (n : Z) : string :=
  String.append (first_bytes (Z.to_nat pos) buf) (first_bytes (Z.to_nat n) src).

Definition __flush_buffer (ht : cmdHash) : cmdHash :=
  match _buf ht with
  | Some _ => mkHash (s_cmds ht) (z_cmds ht) None 0 0
  | None => ht
  end.

(** The growth rule shared by both buffers. *)
Definition grow_to (newlen : Z) : Z :=
  if newlen <? BUF_MAX_PREALLOC then newlen * 2 else newlen + BUF_MAX_PREALLOC.

Definition __realloc_buffer (ht : cmdHash) (addlen : Z) : M (Z * cmdHash) :=
  let len := _len ht in
  let newlen := grow_to (len + addlen) in
  let* ok := alloc in
  if negb ok then ret (-1, ht)
  else ret (0, mkHash (s_cmds ht) (z_cmds ht) (Some (default "" (_buf ht))) newlen (_len ht)).

Definition __append_buffer (ht : cmdHash) (buf : string) (len : Z) : M (Z * cmdHash) :=
  (* Attempt a realloc if we need one *)
  let* (rc, ht) :=
    if _size ht <? _len ht + len then __realloc_buffer ht len else ret (0, ht) in
  if negb (rc =? 0) then ret (-1, ht)
  else
    let* b := deref (_buf ht) in
    ret (0, mkHash (s_cmds ht) (z_cmds ht) (Some (memcpy_at b (_len ht) buf len))
              (_size ht) (_len ht + len)).

(** The [while] loop of [__append_zincrby_key_cmds] over one chain. *)
Fixpoint __append_zincrby_chain (ht : cmdHash) (k : cmdKeyList)
    (chain : list cmdMemberList) : M (Z * cmdHash) :=
  match chain with
  | [] => ret (0, ht)
  | mem :: rest =>
      (* Construct our ZINCRBY command *)
      let* mstr := deref (member mem) in
      (* hiredis copies klen bytes of the key and mlen bytes of the member *)
      let* karg := read_block (key k, klen k) in
      let* marg := read_block (mstr, mlen mem) in
      let cmd := redisFormatZincrby karg (score_of (score_hits mem)) marg in
      let len := strlen_Z cmd in
      (* Would this overflow our buffer *)
      let ovr := _size ht <? _len ht + len in
      let* (rc, ht) := if ovr then __realloc_buffer ht len else ret (0, ht) in
      if rc <? 0 then ret (-1, __flush_buffer ht)
      else
        (* Append this command *)
        let* (_, ht) := __append_buffer ht cmd len in
        __append_zincrby_chain ht k rest
  end.

(** Buckets [i], [i+1], ... of a member table, [n] of them, with the loop
    body [body] run on each chain. *)
Fixpoint for_buckets {A St : Type} (body : St -> list A -> M (Z * St))
    (st : St) (arr : list (list A)) (i n : nat) : M (Z * St) :=
  match n with
  | O => ret (0, st)
  | S n' =>
      let* chain := deref (arr !! i) in
      let* (rc, st) := body st chain in
      if rc <? 0 then ret (-1, st)
      else for_buckets body st arr (S i) n'
  end.

(** [__append_zincrby_key_cmds]. *)
Definition __append_zincrby_key_cmds (ht : cmdHash) (k : cmdKeyList) : M (Z * cmdHash) :=
  let* arr := deref (kbucket k) in
  for_buckets (fun ht chain => __append_zincrby_chain ht k chain)
    ht arr 0 (Z.to_nat (msize (z_cmds ht))).

(** The [while] loop of [__append_zincrby_cmds] and of [__append_sadd_cmds]
    over one key chain, with the function called on each key. *)
Fixpoint for_keys (f : cmdHash -> cmdKeyList -> M (Z * cmdHash))
    (ht : cmdHash) (chain : list key_cell) : M (Z * cmdHash) :=
  match chain with
  | [] => ret (0, ht)
  | Freed :: _ => undefined
  | Live k :: rest =>
      let* (rc, ht) := f ht k in
      if rc <? 0 then ret (-1, ht)
      else for_keys f ht rest
  end.

(** [__append_zincrby_cmds]. *)
Definition __append_zincrby_cmds (ht : cmdHash) : M (Z * cmdHash) :=
  for_buckets (for_keys __append_zincrby_key_cmds)
    ht (bucket (z_cmds ht)) 0 (Z.to_nat (ksize (z_cmds ht))).

(** The member loops of [__append_sadd_key_cmd]: the entries written to
    [argv] and [argvlen] from index 2 on. *)
Fixpoint sadd_chain_args (chain : list cmdMemberList) : M (list arg) :=
  match chain with
  | [] => ret []
  | mem :: rest =>
      let* mstr := deref (member mem) in
      let* args := sadd_chain_args rest in
      ret ((mstr, mlen mem) :: args)
  end.

Fixpoint sadd_member_args (arr : list (list cmdMemberList)) (i n : nat) : M (list arg) :=
  match n with
  | O => ret []
  | S n' =>
      let* chain := deref (arr !! i) in
      let* args := sadd_chain_args chain in
      let* more := sadd_member_args arr (S i) n' in
      ret (args ++ more)
  end.

(** [__append_sadd_key_cmd].  The two arrays have [key->count + 2] entries:
    with more members than that the loop writes past their end, with fewer
    hiredis reads entries that were never written. *)
Definition __append_sadd_key_cmd (ht : cmdHash) (k : cmdKeyList) : M (Z * cmdHash) :=
  let argc := uint_add (count k) 2 in
  (* Allocate argument array *)
  let* ok := alloc in
  if negb ok then ret (-1, ht) else
  (* Allocate size array *)
  let* ok := alloc in
  if negb ok then ret (-1, ht) else
  (* Iterate our buckets *)
  let* arr := deref (kbucket k) in
  let* margs := sadd_member_args arr 0 (Z.to_nat (msize (s_cmds ht))) in
  let argv := ("SADD", strlen_Z "SADD") :: (key k, klen k) :: margs in
  if negb (Z.of_nat (length argv) =? argc) then undefined else
  (* Attempt to format this command: hiredis copies argvlen[i] bytes of
     argv[i] *)
  if negb (forallb in_block argv) then undefined else
  let cmd := redisFormatCommandArgv argv in
  let len := to_uint (strlen_Z cmd) in
  (* Fail if there is a hiredis error *)
  if len <? 1 then ret (-1, ht) else
  (* Append to our buffer *)
  __append_buffer ht cmd len.

(** [__append_sadd_cmds]. *)
Definition __append_sadd_cmds (ht : cmdHash) : M (Z * cmdHash) :=
  for_buckets (for_keys __append_sadd_key_cmd)
    ht (bucket (s_cmds ht)) 0 (Z.to_nat (ksize (s_cmds ht))).

(** [cmdHashGetCommands(ht, &ret, &len)]: the return value, [*ret] and [*len]
    when they are set, and the table.  [_size] is not set after the first
    [malloc]. *)
Definition cmdHashGetCommands (ht : cmdHash) : M (Z * option (option string * Z) * cmdHash) :=
  (* Flush our buffer if we've already created one *)
  let ht := __flush_buffer ht in
  (* Initial buffer allocation *)
  let* ok := alloc in
  if negb ok then ret (-1, None, ht) else
  let ht := mkHash (s_cmds ht) (z_cmds ht) (Some "") (_size ht) (_len ht) in
  (* Add ZINCRBY commands *)
  let* (rc, ht) := __append_zincrby_cmds ht in
  if rc <? 0 then ret (-1, None, ht) else
  (* Append SADD commands *)
  let* (rc, ht) := __append_sadd_cmds ht in
  if rc <? 0 then ret (-1, None, ht) else
  ret (0, Some (_buf ht, _len ht), ht).

(** [cmdHashGetCount]: the number of ZINCRBY members and SADD keys. *)
Definition cmdHashGetCount (ht : cmdHash) : Z :=
  to_uint (members (z_cmds ht) + keys (s_cmds ht)).

(** ** buffer.c: the append-only command buffer *)

Definition INITIAL_ALLOC : Z := 32768.

Record cmdBuffer := mkBuffer {
  buf : string;
  b_size : Z;
  pos : Z;
  b_cmd_count : Z
}.

Definition cmdBufferCreate : M (option cmdBuffer) :=
  (* Allocate our buffer structure *)
  let* ok := alloc in
  if negb ok then ret None else
  (* Allocate our initial buffer *)
  let* ok := alloc in
  if negb ok then ret None else
  ret (Some (mkBuffer "" INITIAL_ALLOC 0 0)).

Definition cmdBufferGrow (buffer : cmdBuffer) (addlen : Z) : M (Z * cmdBuffer) :=
  let newlen := grow_to (pos buffer + addlen) in
  let* ok := alloc in
  if negb ok then ret (-1, buffer)
  else ret (0, mkBuffer (buf buffer) newlen (pos buffer) (b_cmd_count buffer)).

Definition cmdBufferAppend (buffer : cmdBuffer) (str : string) (len : Z) (cmd_count : Z)
    : M (Z * cmdBuffer) :=
  (* Reallocate if necissary *)
  let* (rc, buffer) :=
    if b_size buffer <? pos buffer + len then cmdBufferGrow buffer len
    else ret (0, buffer) in
  if negb (rc =? 0) then ret (-1, buffer)
  else
    (* Copy in the data, increment our position; add to our command count *)
    ret (0, mkBuffer (memcpy_at (buf buffer) (pos buffer) str len) (b_size buffer)
              (pos buffer + len) (uint_add (b_cmd_count buffer) cmd_count)).

(** The [switch] of [cmdBufferAddReply] on one element: the entry of [argv]
    and [argvlen].  An integer is printed from [reply->integer]. *)
Definition reply_arg (reply : redisReply) (e : replyElement) : arg :=
  match e with
  | REDIS_REPLY_STRING s => (s, strlen_Z s)
  | REDIS_REPLY_INTEGER _ =>
      let text := fmt_lld (reply_integer reply) in
      (text, strlen_Z text)
  end.

Definition cmdBufferAddReply (buffer : cmdBuffer) (reply : redisReply) : M (Z * cmdBuffer) :=
  let* ok := alloc in
  if negb ok then ret (-1, buffer) else
  let argv := map (reply_arg reply) (element reply) in
  (* Format the command *)
  let cmd := redisFormatCommandArgv argv in
  let len := to_uint (strlen_Z cmd) in
  (* Append the command *)
  cmdBufferAppend buffer cmd len 1.

(** ** buffer-optimize.c: the driver *)

Definition KHASH_SIZE : Z := 22016.
Definition MHASH_SIZE : Z := 512.

(** The fields of the context that the processing reads and writes. *)
Record optimizerContext := mkContext {
  stats : bool;
  cmd_count : Z;
  cmd_buffer : cmdBuffer;
  cmd_hash : cmdHash
}.

(** What [redisReaderGetReply] gives for the next command of the input: a
    reply, or [REDIS_ERR] on bytes that are not in the protocol. *)
Inductive reader_event :=
| REDIS_OK (reply : redisReply)
| REDIS_ERR.

(** [processBufferFile], over the replies the reader yields until the input
    ends. *)
Fixpoint processBufferFile (ctx : optimizerContext) (input : list reader_event)
    : M (Z * optimizerContext) :=
  match input with
  | [] => ret (0, ctx)
  | REDIS_ERR :: _ => ret (-1, ctx)
  | REDIS_OK reply :: rest =>
      (* Either add it to our hash or to our pass-thru buffer *)
      let* (rc, h) := cmdHashAdd (cmd_hash ctx) reply in
      let* b :=
        if rc =? cmdType_int TYPE_UNSUPPORTED then
          let* (_, b) := cmdBufferAddReply (cmd_buffer ctx) reply in
          ret b
        else ret (cmd_buffer ctx) in
      (* Increment total commands processed *)
      processBufferFile (mkContext (stats ctx) (uint_add (cmd_count ctx) 1) b h) rest
  end.

(** [appendAggCommands]. *)
Definition appendAggCommands (ctx : optimizerContext) : M (Z * optimizerContext) :=
  if negb (stats ctx) then
    (* Get aggregated and hashed commands *)
    let* (rc, out, h) := cmdHashGetCommands (cmd_hash ctx) in
    let ctx := mkContext (stats ctx) (cmd_count ctx) (cmd_buffer ctx) h in
    if negb (rc =? 0) then ret (-1, ctx) else
    let* (cmd, size) := deref out in
    let* cmd := deref cmd in
    (* Append it to our overall command buffer *)
    let* (rc, b) := cmdBufferAppend (cmd_buffer ctx) cmd size (cmdHashGetCount h) in
    let ctx := mkContext (stats ctx) (cmd_count ctx) b h in
    if rc <? 0 then ret (-1, ctx) else ret (0, ctx)
  else
    (* Just add the aggregated command count, no need to process *)
    let b := cmd_buffer ctx in
    let b := mkBuffer (buf b) (b_size b) (pos b)
               (uint_add (b_cmd_count b) (cmdHashGetCount (cmd_hash ctx))) in
    ret (0, mkContext (stats ctx) (cmd_count ctx) b (cmd_hash ctx)).

(** [initContext], without the reader, for tables of [ksize] and [msize]
    buckets: NULL when the program exits. *)
Definition initContext_sized (ksize msize : Z) : M (option optimizerContext) :=
  let* b := cmdBufferCreate in
  match b with
  | None => ret None
  | Some b =>
      let* h := cmdHashCreate ksize msize in
      match h with
      | None => ret None
      | Some h => ret (Some (mkContext false 0 b h))
      end
  end.

(** [main] with the option [--stat] or without it, on an input that the
    reader decodes to [input]: the exit status and the bytes handed to
    [writeFile], when it is called.  Opening and writing the files succeed. *)
Definition main_sized (ksize msize : Z) (stat : bool) (input : list reader_event)
    : M (Z * option string) :=
  let* ctx := initContext_sized ksize msize in
  match ctx with
  | None => ret (1, None)
  | Some ctx =>
      let ctx := mkContext stat (cmd_count ctx) (cmd_buffer ctx) (cmd_hash ctx) in
      (* Process the command buffer *)
      let* (rc, ctx) := processBufferFile ctx input in
      if rc <? 0 then ret (1, None) else
      (* Append our aggregated commands or just add to overall counts *)
      let* (rc, ctx) := appendAggCommands ctx in
      if rc <? 0 then ret (1, None) else
      (* If we're not in stats mode, attempt to write the file if it's not empty *)
      if negb (stats ctx) then
        if 0 <? cmd_count ctx then
          ret (0, Some (first_bytes (Z.to_nat (pos (cmd_buffer ctx))) (buf (cmd_buffer ctx))))
        else ret (1, None)
      else ret (0, None)
  end.

(** The program as it is built: [KHASH_SIZE] and [MHASH_SIZE] buckets. *)
Definition initContext : M (option optimizerContext) :=
  initContext_sized KHASH_SIZE MHASH_SIZE.

Definition main (stat : bool) (input : list reader_event) : M (Z * option string) :=
  main_sized KHASH_SIZE MHASH_SIZE stat input.

End Engine.

(** ** zhash.c: the add path of the ZINCRBY-only table *)

Module ZHash.

Record zMemberList := mkMember {
  member : option string;
  len : Z;
  value : float
}.

Record zKeyList := mkKey {
  key : string;
  klen : Z;
  kbucket : option (list (list zMemberList))
}.

Inductive key_cell :=
| Live (k : zKeyList)
| Freed.

(** The table comes from [calloc]: every field starts at zero. *)
Record zHash := mkHash {
  ksize : Z;
  msize : Z;
  count : Z;
  str_len : Z;
  bucket : list (list key_cell)
}.

Definition calloc_member : zMemberList := mkMember None 0 PrimFloat.zero.

Definition zHashCreate (ksize msize : Z) : M (option zHash) :=
  if (ksize <? 1) || (msize <? 1) then ret None else
  (* Allocate structure itself *)
  let* ok := alloc in
  if negb ok then ret None else
  (* Allocate hash table *)
  let* ok := alloc in
  if negb ok then ret None else
  ret (Some (mkHash ksize msize 0 0 (replicate (Z.to_nat ksize) []))).

Fixpoint scan_keys (chain : list key_cell) (str : string) (len : Z) (i : nat) : scan :=
  match chain with
  | [] => Miss
  | Freed :: _ => Undef
  | Live k :: rest =>
      if (klen k =? len) && (strncmp (key k) str (Z.to_nat len) =? 0)
      then Hit i
      else scan_keys rest str len (S i)
  end.

Fixpoint scan_members (chain : list zMemberList) (str : string) (n : Z) (i : nat) : scan :=
  match chain with
  | [] => Miss
  | item :: rest =>
      if n =? len item then
        match member item with
        | None => Undef
        | Some s =>
            if strncmp str s (Z.to_nat n) =? 0 then Hit i
            else scan_members rest str n (S i)
        end
      else scan_members rest str n (S i)
  end.

Definition set_bucket (ht : zHash) (b : list (list key_cell)) : zHash :=
  mkHash (ksize ht) (msize ht) (count ht) (str_len ht) b.

(** The end of [__findKey], from "Make a copy of our key". *)
Definition __findKey_copy (ht : zHash) (num : nat) (chain : list key_cell)
    (str : string) (n : Z) : M (option key_ptr * zHash) :=
  let* ok := alloc in
  if negb ok then ret (None, set_bucket ht (<[num := chain ++ [Freed]]> (bucket ht)))
  else
    ret (Some (num, length chain),
         set_bucket ht (<[num := chain ++ [Live (mkKey (strndup str n) n None)]]> (bucket ht))).

Definition __findKey (ht : zHash) (str : string) (n : Z) : M (option key_ptr * zHash) :=
  let num := GET_BUCKET str n (ksize ht) in
  let* chain := deref (bucket ht !! num) in
  match chain with
  | [] =>
      let* ok := alloc in
      if negb ok then ret (None, ht)
      else __findKey_copy ht num [] str n
  | _ =>
      match scan_keys chain str n 0 with
      | Undef => undefined
      | Hit i => ret (Some (num, i), ht)
      | Miss =>
          let* ok := alloc in
          if negb ok then ret (None, ht)
          else __findKey_copy ht num chain str n
      end
  end.

Definition get_key (ht : zHash) (kp : key_ptr) : M zKeyList :=
  match bucket ht !! kp.1 with
  | Some chain =>
      match chain !! kp.2 with
      | Some (Live k) => ret k
      | _ => undefined
      end
  | None => undefined
  end.

Definition put_key (ht : zHash) (kp : key_ptr) (k : zKeyList) : zHash :=
  set_bucket ht (alter (fun chain => <[kp.2 := Live k]> chain) kp.1 (bucket ht)).

Definition set_kbucket (k : zKeyList) (arr : list (list zMemberList)) : zKeyList :=
  mkKey (key k) (klen k) (Some arr).

(** The end of [__findMember], from "Make a copy of our key". *)
Definition __findMember_copy (ht : zHash) (kp : key_ptr) (k : zKeyList)
    (arr : list (list zMemberList)) (num : nat) (chain : list zMemberList)
    (str : string) (n : Z) : M (option member_ptr * zHash) :=
  let* ok := alloc in
  if negb ok then
    ret (None, put_key ht kp (set_kbucket k (<[num := chain ++ [calloc_member]]> arr)))
  else
    let item := mkMember (Some (strndup str n)) n (value calloc_member) in
    let ht' := mkHash (ksize ht) (msize ht) (uint_add (count ht) 1)
                 (uint_add (str_len ht) n) (bucket ht) in
    ret (Some (num, length chain),
         put_key ht' kp (set_kbucket k (<[num := chain ++ [item]]> arr))).

Definition __findMember (ht : zHash) (kp : key_ptr) (str : string) (n : Z)
    : M (option member_ptr * zHash) :=
  let num := GET_BUCKET str n (msize ht) in
  let* k := get_key ht kp in
  let* arr :=
    match kbucket k with
    | Some arr => ret (Some arr)
    | None =>
        let* ok := alloc in
        ret (if ok then Some (replicate (Z.to_nat (msize ht)) []) else None)
    end in
  match arr with
  | None => ret (None, ht)
  | Some arr =>
      let* chain := deref (arr !! num) in
      match chain with
      | [] =>
          let* ok := alloc in
          if negb ok then ret (None, put_key ht kp (set_kbucket k arr))
          else __findMember_copy ht kp k arr num [] str n
      | _ =>
          match scan_members chain str n 0 with
          | Undef => undefined
          | Hit i => ret (Some (num, i), put_key ht kp (set_kbucket k arr))
          | Miss =>
              let* ok := alloc in
              if negb ok then ret (None, put_key ht kp (set_kbucket k arr))
              else __findMember_copy ht kp k arr num chain str n
          end
      end
  end.

(** [mlist->value += value]. *)
Definition add_value (ht : zHash) (kp : key_ptr) (mp : member_ptr) (d : float) : M zHash :=
  let* k := get_key ht kp in
  let* arr := deref (kbucket k) in
  let* chain := deref (arr !! mp.1) in
  let* item := deref (chain !! mp.2) in
  let item' := mkMember (member item) (len item) (PrimFloat.add (value item) d) in
  ret (put_key ht kp (set_kbucket k (<[mp.1 := <[mp.2 := item']> chain]> arr))).

(** [zHashAdd(ht, key, klen, value, member, mlen)]; [key] and [member] may be
    NULL. *)
Definition zHashAdd (ht : zHash) (key : option string) (klen : Z) (value : float)
    (member : option string) (mlen : Z) : M (Z * zHash) :=
  (* Null, length and value check *)
  if is_null key || (klen <? 1) || is_null member || (mlen <? 1) || double_is_zero value
  then ret (-1, ht) else
  let* kstr := deref key in
  let* mstr := deref member in
  (* Find or create our key *)
  let* (k, ht) := __findKey ht kstr klen in
  match k with
  | None => ret (-1, ht)
  | Some kp =>
      (* Find or create our member *)
      let* (m, ht) := __findMember ht kp mstr mlen in
      match m with
      | None => ret (-1, ht)
      | Some mp =>
          (* Increment our value *)
          let* ht := add_value ht kp mp value in
          ret (0, ht)
      end
  end.

Section AddReply.
Context {ext : Externals}.

(** [zHashAddReply]. *)
Definition zHashAddReply (ht : zHash) (reply : redisReply) : M (Z * zHash) :=
  (* Quick sanity check on element count *)
  if negb (elements reply =? 4) then ret (-1, ht) else
  (* Convert score to double *)
  let* dstr := arg_str reply 2 in
  let dval := strtod dstr in
  (* Pass through *)
  let* e1 := deref (element reply !! 1%nat) in
  let* e3 := deref (element reply !! 3%nat) in
  zHashAdd ht (elt_str e1) (elt_len e1) dval (elt_str e3) (elt_len e3).

End AddReply.

End ZHash.

(** ** An instance of the external functions

    hiredis writes a command as an array of bulk strings; [printf]'s [%f]
    prints six decimals; [strtod] is covered for what the examples use. *)

Definition CRLF : string := String (ascii_of_nat 13) (String (ascii_of_nat 10) "").

Definition cat (l : list string) : string := fold_right String.append "" l.

(** The first [n] bytes of the block of the string [s]: of its bytes and its
    terminator.  The flush of a table does not ask for more of a name than
    its block holds ([read_block]), and a reply holds the bytes it counts. *)
Definition read_bytes (s : string) (n : nat) : string :=
  first_bytes n (String.append s (String NUL EmptyString)).

Definition bulk (a : arg) : string :=
  cat ["$"; fmt_lld a.2; CRLF; read_bytes a.1 (Z.to_nat a.2); CRLF].

(** [redisFormatCommandArgv] of hiredis. *)
Definition resp_command (argv : list arg) : string :=
  cat ["*"; fmt_lld (Z.of_nat (length argv)); CRLF; cat (map bulk argv)].

Fixpoint zeros (n : nat) : string :=
  match n with
  | O => ""
  | S n' => String "0" (zeros n')
  end.

Definition pad_left (n : nat) (s : string) : string :=
  String.append (zeros (n - String.length s)) s.

(** [printf("%f", d)]: the exact value rounded to six decimals, ties to
    even. *)
Definition printf_f (d : float) : string :=
  let sign (s : bool) := if s then "-" else "" in
  match Prim2SF d with
  | S754_nan => "nan"
  | S754_infinity s => String.append (sign s) "inf"
  | S754_zero s => String.append (sign s) "0.000000"
  | S754_finite s m e =>
      let num := if 0 <=? e then Zpos m * 2 ^ e * 10 ^ 6 else Zpos m * 10 ^ 6 in
      let den := if 0 <=? e then 1 else 2 ^ (- e) in
      let q := num / den in
      let r := num mod den in
      let q := if (den <? 2 * r) || ((2 * r =? den) && Z.odd q) then q + 1 else q in
      cat [sign s; fmt_lld (q / 10 ^ 6); "."; pad_left 6 (fmt_lld (q mod 10 ^ 6))]
  end.

(** [redisFormatCommand(&cmd, "ZINCRBY %b %f %b", ...)] of hiredis. *)
Definition resp_zincrby (k : arg) (score : float) (m : arg) : string :=
  let text := printf_f score in
  resp_command [("ZINCRBY", 7); k; (text, strlen_Z text); m].

Definition is_digit (c : ascii) : bool := (48 <=? code c) && (code c <=? 57).

(** The digits at the start of [s], their value continuing [acc], their
    number, and what follows them. *)
Fixpoint digits (s : string) (acc : Z) (n : nat) : Z * nat * string :=
  match s with
  | String c s' =>
      if is_digit c then digits s' (10 * acc + (code c - 48)) (S n)
      else (acc, n, s)
  | EmptyString => (acc, n, s)
  end.

Definition float_of_Z (n : Z) : float := PrimFloat.of_uint63 (Uint63.of_Z n).

(** [strtod(s, NULL)] for a sign followed by "inf" or by a decimal numeral of
    at most 15 digits without exponent, where one correctly rounded division
    gives the nearest double; 0 when [s] does not start with a number.
    Other numerals are not covered. *)
Definition strtod_decimal (s : string) : float :=
  let neg := (code (head s) =? 45) in
  let s := if neg || (code (head s) =? 43) then tail s else s in
  let v :=
    if strncasecmp s "inf" 3 =? 0 then PrimFloat.infinity
    else
      let '(ip, n1, rest) := digits s 0 0 in
      let '(fp, n2, _) :=
        if code (head rest) =? 46 then digits (tail rest) ip 0 else (ip, 0%nat, rest) in
      if ((n1 + n2)%nat =? 0)%nat then PrimFloat.zero
      else PrimFloat.div (float_of_Z fp) (float_of_Z (10 ^ Z.of_nat n2)) in
  if neg then PrimFloat.opp v else v.

#[export] Instance hiredis_libc : Externals := {|
  strtod := strtod_decimal;
  redisFormatCommandArgv := resp_command;
  redisFormatZincrby := resp_zincrby
|}.

Definition bulk_strings (l : list string) : redisReply :=
  mkReply 0 (map REDIS_REPLY_STRING l).

(** ** Definitions used to state the properties *)

(** A string without NUL byte: the C string functions see all of it. *)
Fixpoint nul_free (s : string) : bool :=
  match s with
  | EmptyString => true
  | String c s' => negb (is_nul c) && nul_free s'
  end.

(** Equality of two names of the same length, byte by byte, without regard to
    the case of letters. *)
Fixpoint ieq (a b : string) : bool :=
  match a, b with
  | EmptyString, EmptyString => true
  | String x a', String y b' => (tolower (code x) =? tolower (code y)) && ieq a' b'
  | _, _ => false
  end.

(** The classification of a command by its name and its number of elements,
    as the specification words it. *)
Definition classify (name : string) (argc : Z) : cmdType :=
  if (argc =? 4) && ieq name "ZINCRBY" then TYPE_ZINCRBY
  else if (2 <? argc) && ieq name "SADD" then TYPE_SADD
  else TYPE_UNSUPPORTED.

(** The two tests of [__get_type] on a command whose name is the string
    [name] and that has [argc] elements. *)
Definition name_type (name : string) (argc : Z) : cmdType :=
  if (argc =? 4) && (strncasecmp name "ZINCRBY" (sizeof_lit "ZINCRBY") =? 0)
  then TYPE_ZINCRBY
  else if (2 <? argc) && (strncasecmp name "SADD" (sizeof_lit "SADD") =? 0)
  then TYPE_SADD
  else TYPE_UNSUPPORTED.

(** The input that decodes to the commands [l], all of bulk strings. *)
Definition commands (l : list (list string)) : list reader_event :=
  map (fun c => REDIS_OK (bulk_strings c)) l.

(** The name ZINCRBY followed by a NUL byte and the letter X: nine bytes. *)
Definition ZINCRBY_NUL_X : string := String.append "ZINCRBY" (String NUL "X").

(** [n] allocations that succeed, then one that fails. *)
Definition fails_at (n : nat) : oracle := replicate n true ++ [false].

(** A context as [initContext] builds it, for tables of any size. *)
Definition fresh_container (ksize msize : Z) : cmdHashContainer :=
  mkContainer ksize msize 0 0 None (replicate (Z.to_nat ksize) []).

Definition fresh_hash (ksize msize : Z) : cmdHash :=
  mkHash (fresh_container ksize msize) (fresh_container ksize msize) None 0 0.

Definition fresh_buffer : cmdBuffer := mkBuffer "" INITIAL_ALLOC 0 0.

Definition fresh_context (stat : bool) (ksize msize : Z) : optimizerContext :=
  mkContext stat 0 fresh_buffer (fresh_hash ksize msize).

(** The nodes of a container in the order of the flush: bucket by bucket,
    each chain from its head. *)
Definition cell_key (cell : key_cell) : option cmdKeyList :=
  match cell with
  | Live k => Some k
  | Freed => None
  end.

Definition keys_of (c : cmdHashContainer) : list cmdKeyList :=
  omap cell_key (concat (bucket c)).

Definition members_of (k : cmdKeyList) : list cmdMemberList :=
  concat (default [] (kbucket k)).

(** The member nodes of a container, each with the key it is under. *)
Definition entries (c : cmdHashContainer) : list (cmdKeyList * cmdMemberList) :=
  flat_map (fun k => map (fun item => (k, item)) (members_of k)) (keys_of c).


Definition score_view (e : cmdKeyList * cmdMemberList) : string * option string * Z :=
  (key e.1, member e.2, score_hits e.2).

(** A table of the older module as [zHashCreate] builds it. *)
Definition fresh_zhash (ksize msize : Z) : ZHash.zHash :=
  ZHash.mkHash ksize msize 0 0 (replicate (Z.to_nat ksize) []).

(** The containers that hold one key, and one member under it with the
    union [u]; and the union after [n] increments of a zero hit counter. *)
Definition member_table (msize : Z) (m : string) (u : Z) : list (list cmdMemberList) :=
  <[GET_BUCKET m (strlen_Z m) msize :=
      [mkMember (Some (strndup m (strlen_Z m))) (strlen_Z m) u]]>
    (replicate (Z.to_nat msize) []).

Definition one_key (ksize msize : Z) (k : string) (node : cmdKeyList) (nm : Z)
    : cmdHashContainer :=
  mkContainer ksize msize 1 nm None
    (<[GET_BUCKET k (strlen_Z k) ksize := [Live node]]> (replicate (Z.to_nat ksize) [])).

Definition new_key (k : string) : cmdKeyList :=
  mkKey (strndup k (strlen_Z k)) (strlen_Z k) 0 None.

Definition key_with (msize : Z) (k m : string) (u : Z) : cmdKeyList :=
  mkKey (strndup k (strlen_Z k)) (strlen_Z k) 1 (Some (member_table msize m u)).

Definition one_member (ksize msize : Z) (k m : string) (u : Z) : cmdHashContainer :=
  one_key ksize msize k (key_with msize k m u) 1.

(** The bit patterns of 3.0 and of the next double above it. *)
Definition BITS_3 : Z := 4613937818241073152.

(** [m] returns [a] when every allocation succeeds. *)
Definition runs {A} (m : M A) (a : A) : Prop := m [] = Some (a, []).

(** The key node a pointer leads to. *)
Definition lookup_key (c : cmdHashContainer) (kp : key_ptr) : option cmdKeyList :=
  match bucket c !! kp.1 with
  | Some chain =>
      match chain !! kp.2 with
      | Some (Live k) => Some k
      | _ => None
      end
  | None => None
  end.

(** The member node a pointer leads to, under the key at [kp]. *)
Definition lookup_member (c : cmdHashContainer) (kp : key_ptr) (mp : member_ptr)
    : option cmdMemberList :=
  match lookup_key c kp with
  | Some k =>
      match kbucket k with
      | Some arr =>
          match arr !! mp.1 with
          | Some chain => chain !! mp.2
          | None => None
          end
      | None => None
      end
  | None => None
  end.

(** Counting over an array of chains. *)
Definition weight1 {A} (f : A -> nat) (l : list A) : nat := sum_list_with f l.

Definition weight {A} (f : A -> nat) (ll : list (list A)) : nat :=
  sum_list_with (weight1 f) ll.

Definition key_weight (cell : key_cell) : nat :=
  match cell with
  | Live _ => 1
  | Freed => 0
  end.

Definition member_weight (cell : key_cell) : nat :=
  match cell with
  | Live k => length (members_of k)
  | Freed => 0
  end.

(** The number of key nodes and of member nodes of a container. *)
Definition n_keys (c : cmdHashContainer) : nat := weight key_weight (bucket c).

Definition n_members (c : cmdHashContainer) : nat := weight member_weight (bucket c).

(** What holds of every key node of a container between two calls when no
    allocation has failed: its member table, once allocated, has [msize]
    buckets, every member has its string, and [count] is the number of
    members as an [unsigned int]. *)
Definition key_inv (ms : nat) (k : cmdKeyList) : Prop :=
  count k = to_uint (Z.of_nat (length (members_of k)))
  /\ Forall (fun item => member item <> None) (members_of k)
  /\ (forall arr, kbucket k = Some arr -> length arr = ms).

Definition cell_inv (ms : nat) (cell : key_cell) : Prop :=
  exists k, cell = Live k /\ key_inv ms k.

Record inv (c : cmdHashContainer) : Prop := mkInv {
  inv_size : length (bucket c) = Z.to_nat (ksize c);
  inv_ksize : 0 < ksize c;
  inv_msize : 0 < msize c;
  inv_cells : Forall (Forall (cell_inv (Z.to_nat (msize c)))) (bucket c);
  inv_keys : keys c = to_uint (Z.of_nat (n_keys c));
  inv_members : members c = to_uint (Z.of_nat (n_members c))
}.

(** Every key has its member table, but perhaps the key at [kp]; every key
    has it. *)
Definition allocated_but (c : cmdHashContainer) (kp : option key_ptr) : Prop :=
  forall i j chain k,
    bucket c !! i = Some chain -> chain !! j = Some (Live k) ->
    kp <> Some (i, j) -> kbucket k <> None.

Definition allocated (c : cmdHashContainer) : Prop := allocated_but c None.

(** The table between two commands, and the number of commands its flush
    writes. *)
Definition hinv (ht : cmdHash) : Prop :=
  inv (z_cmds ht) /\ allocated (z_cmds ht) /\ inv (s_cmds ht) /\ allocated (s_cmds ht).

Definition out_nodes (ht : cmdHash) : nat :=
  (n_members (z_cmds ht) + n_keys (s_cmds ht))%nat.

(** A node whose name the flush can copy: the length kept with the name does
    not leave the block of the copy.  A container is readable when all its
    keys and members are. *)
Definition item_readable (item : cmdMemberList) : Prop :=
  in_block (default "" (member item), mlen item) = true.

Definition key_readable (k : cmdKeyList) : Prop :=
  in_block (key k, klen k) = true /\ Forall item_readable (members_of k).

Definition readable (c : cmdHashContainer) : Prop :=
  Forall key_readable (keys_of c).

(** The bytes that [memcpy] takes from a formatted command whose length went
    through an [unsigned int]. *)
Definition truncated (cmd : string) : string :=
  first_bytes (Z.to_nat (to_uint (strlen_Z cmd))) cmd.

Section Flushed.
Context {ext : Externals}.

(** The bytes of a command that [cmdBufferAddReply] appends. *)
Definition passed_bytes (r : redisReply) : string :=
  truncated (redisFormatCommandArgv (map (reply_arg r) (element r))).

(** The ZINCRBY command of an entry, as [__append_zincrby_key_cmds] formats
    it. *)
Definition zincrby_bytes (e : cmdKeyList * cmdMemberList) : string :=
  redisFormatZincrby (key e.1, klen e.1) (score_of (score_hits e.2))
    (default "" (member e.2), mlen e.2).

(** The arguments and the bytes of the SADD command of a key, as
    [__append_sadd_key_cmd] builds them. *)
Definition sadd_argv (k : cmdKeyList) : list arg :=
  ("SADD", strlen_Z "SADD") :: (key k, klen k)
  :: map (fun item => (default "" (member item), mlen item)) (members_of k).

Definition sadd_bytes (k : cmdKeyList) : string :=
  truncated (redisFormatCommandArgv (sadd_argv k)).

(** A key whose SADD command the flush can write: it has fewer than
    2^32 - 2 members and the length of the command, as an [unsigned int], is
    not 0. *)
Definition sadd_fits (k : cmdKeyList) : Prop :=
  Z.of_nat (length (members_of k)) + 2 < UINT_MOD
  /\ 1 <= to_uint (strlen_Z (redisFormatCommandArgv (sadd_argv k))).

(** A table that the flush can write: every name can be copied and every
    SADD command fits. *)
Definition flushable (ht : cmdHash) : Prop :=
  readable (z_cmds ht) /\ readable (s_cmds ht)
  /\ Forall sadd_fits (keys_of (s_cmds ht)).

(** The aggregated part of the output: one ZINCRBY command per entry of the
    ZINCRBY container, then one SADD command per key of the SADD container. *)
Definition zincrby_part (ht : cmdHash) : string :=
  cat (map zincrby_bytes (entries (z_cmds ht))).

Definition sadd_part (ht : cmdHash) : string :=
  cat (map sadd_bytes (keys_of (s_cmds ht))).

End Flushed.

(** A step of the flush that appends the bytes [w] to the protocol buffer of
    a table with the containers [sc] and [zc], whatever the buffer holds and
    whatever its allocated size, and returns 0. *)
Definition emits (sc zc : cmdHashContainer) (m : cmdHash -> M (Z * cmdHash)) (w : string)
    : Prop :=
  forall b size, exists size',
    runs (m (mkHash sc zc (Some b) size (strlen_Z b)))
      (0, mkHash sc zc (Some (String.append b w)) size' (strlen_Z (String.append b w))).

(** The commands that [cmdHashAdd] leaves to the pass-through buffer. *)
Definition unsupported (r : redisReply) : bool :=
  match __get_type r [] with
  | Some (TYPE_UNSUPPORTED, _) => true
  | _ => false
  end.

(** The test of the loop of [__find_key] on a node. *)
Definition key_matches (k : cmdKeyList) (str : string) (len : Z) : bool :=
  (klen k =? len) && (strncmp (key k) str (Z.to_nat len) =? 0).

(** The container after [__find_key] has linked a new node for [str] behind
    the chain [chain] of bucket [num]. *)
Definition with_new_key (c : cmdHashContainer) (num : nat) (chain : list key_cell)
    (str : string) (len : Z) : cmdHashContainer :=
  mkContainer (ksize c) (msize c) (uint_add (keys c) 1) (members c) (str_len c)
    (<[num := chain ++ [Live (mkKey (strndup str len) len 0 None)]]> (bucket c)).

(** The table of zhash.c that holds the one key [k] and under it the one
    member [m] with the value [v]. *)
Definition zhash_one (ks ms : Z) (k m : string) (v : float) : ZHash.zHash :=
  ZHash.mkHash ks ms (uint_add 0 1) (uint_add 0 (strlen_Z m))
    (<[GET_BUCKET k (strlen_Z k) ks :=
         [ZHash.Live
            (ZHash.mkKey (strndup k (strlen_Z k)) (strlen_Z k)
               (Some (<[GET_BUCKET m (strlen_Z m) ms :=
                          [ZHash.mkMember (Some (strndup m (strlen_Z m))) (strlen_Z m) v]]>
                        (replicate (Z.to_nat ms) []))))]]>
       (replicate (Z.to_nat ks) [])).

(** A caller that adds the values [vs] to the member [m] of the key [k], one
    [zHashAdd] after the other, and stops at the first that fails. *)
Fixpoint zHashAdd_all (ht : ZHash.zHash) (k m : string) (vs : list float)
    : M (Z * ZHash.zHash) :=
  match vs with
  | [] => ret (0, ht)
  | v :: rest =>
      let* (rc, ht) := ZHash.zHashAdd ht (Some k) (strlen_Z k) v (Some m) (strlen_Z m) in
      if rc <? 0 then ret (rc, ht) else zHashAdd_all ht k m rest
  end.

(** The member table that [__find_member] works on: the one of the key, or
    the one it allocates when the key has none. *)
Definition table_of (c : cmdHashContainer) (k : cmdKeyList) : list (list cmdMemberList) :=
  default (replicate (Z.to_nat (msize c)) []) (kbucket k).

(** The container after [__find_member] has linked a new node for [str]
    behind the chain [chain] of bucket [num] of the key [k] at [kp]. *)
Definition with_new_member (c : cmdHashContainer) (kp : key_ptr) (k : cmdKeyList)
    (num : nat) (chain : list cmdMemberList) (str : string) (len : Z) : cmdHashContainer :=
  put_key
    (mkContainer (ksize c) (msize c) (keys c) (uint_add (members c) 1)
       (option_map (fun n => uint_add n len) (str_len c)) (bucket c))
    kp
    (mkKey (key k) (klen k) (uint_add (count k) 1)
       (Some (<[num := chain ++ [mkMember (Some (strndup str len)) len 0]]> (table_of c k)))).

(** The container after [__find_member] has found the node [j] of the chain
    [chain]. *)
Definition with_hit (c : cmdHashContainer) (kp : key_ptr) (k : cmdKeyList)
    (num : nat) (chain : list cmdMemberList) (j : nat) : cmdHashContainer :=
  put_key c kp (set_kbucket k (<[num := alter hit j chain]> (table_of c k))).

(** ** zhash.c: the flush of the ZINCRBY-only table

    The three buffer fields of [zHash] are kept beside the record of the add
    path.  [__flushBuffer] gives the buffer back to [free] and leaves the
    pointer in [_buf]: the pointer is then dangling. *)
Inductive zbuf_ptr :=
| ZNull
| ZBuf (bytes : string)
| ZDangling.

Record zBuffer := mkZBuffer {
  z_buf : zbuf_ptr;
  z_size : Z;
  z_len : Z
}.

Definition ZBUF_MAX_PREALLOC : Z := 1024 * 1024.

(** [sizeof("*4") + (sizeof("\r\n")*7) + (sizeof("$")*3)], a [size_t]. *)
Definition ZINCRBY_PROT_LEN : Z := 3 + 3 * 7 + 2 * 3.

(** [__flushBuffer]: [free] on a dangling pointer is undefined. *)
Definition __flushBuffer (b : zBuffer) : M zBuffer :=
  match z_buf b with
  | ZNull => ret b
  | ZBuf _ => ret (mkZBuffer ZDangling 0 0)
  | ZDangling => undefined
  end.

Definition __reallocBuffer (b : zBuffer) (addlen : Z) : M (Z * zBuffer) :=
  let len := z_len b in
  let newlen := len + addlen in
  (* Aggressive allocation up to a point *)
  let newlen := if newlen <? ZBUF_MAX_PREALLOC then newlen * 2
                else newlen + ZBUF_MAX_PREALLOC in
  (* Reallocate buffer *)
  match z_buf b with
  | ZDangling => undefined
  | ZNull =>
      let* ok := alloc in
      if negb ok then ret (-1, b) else ret (0, mkZBuffer (ZBuf EmptyString) newlen (z_len b))
  | ZBuf bytes =>
      let* ok := alloc in
      if negb ok then ret (-1, b) else ret (0, mkZBuffer (ZBuf bytes) newlen (z_len b))
  end.

Definition __appendBuffer (b : zBuffer) (buf : string) (len : Z) : M (Z * zBuffer) :=
  (* Attempt a realloc if we need one *)
  let* (rc, b) :=
    if z_size b <? z_len b + len then __reallocBuffer b len else ret (0, b) in
  if negb (rc =? 0) then ret (-1, b)
  else
    match z_buf b with
    | ZBuf bytes =>
        ret (0, mkZBuffer (ZBuf (memcpy_at bytes (z_len b) buf len)) (z_size b) (z_len b + len))
    | _ => undefined
    end.

Section ZFlush.
Context {ext : Externals}.

(** The [while] loop of [__appendMemberCommands] over one chain. *)
Fixpoint __appendMemberChain (b : zBuffer) (k : ZHash.zKeyList)
    (chain : list ZHash.zMemberList) : M (Z * zBuffer) :=
  match chain with
  | [] => ret (0, b)
  | mem :: rest =>
      (* Format our Redis command string *)
      let* mstr := deref (ZHash.member mem) in
      (* hiredis copies klen bytes of the key and len bytes of the member *)
      let* karg := read_block (ZHash.key k, ZHash.klen k) in
      let* marg := read_block (mstr, ZHash.len mem) in
      let cmd := redisFormatZincrby karg (ZHash.value mem) marg in
      let len := strlen_Z cmd in
      (* Would this overflow *)
      let ovr := z_size b <? z_len b + len in
      (* If we got an error from hiredis or we can't realloc, fail *)
      let* (rc, b) := if ovr then __reallocBuffer b len else ret (0, b) in
      if rc <? 0 then
        let* b := __flushBuffer b in
        ret (-1, b)
      else
        (* Append this command *)
        let* (_, b) := __appendBuffer b cmd len in
        __appendMemberChain b k rest
  end.

Definition __appendMemberCommands (ht : ZHash.zHash) (b : zBuffer) (k : ZHash.zKeyList)
    : M (Z * zBuffer) :=
  let* arr := deref (ZHash.kbucket k) in
  for_buckets (fun b chain => __appendMemberChain b k chain)
    b arr 0 (Z.to_nat (ZHash.msize ht)).

(** The [while] loop of [zHashGetCommands] over one key chain. *)
Fixpoint zHashGetCommands_chain (ht : ZHash.zHash) (b : zBuffer)
    (chain : list ZHash.key_cell) : M (Z * zBuffer) :=
  match chain with
  | [] => ret (0, b)
  | ZHash.Freed :: _ => undefined
  | ZHash.Live k :: rest =>
      (* Append member commands for this key *)
      let* (rc, b) := __appendMemberCommands ht b k in
      if rc <? 0 then
        let* b := __flushBuffer b in
        ret (-1, b)
      else zHashGetCommands_chain ht b rest
  end.

(** [zHashGetCommands(ht, &ret_str, &ret_len)], with [ret_str] not NULL: the
    return value, [*ret_str] and [*ret_len] when they are set, and the buffer
    fields.  The first size is computed partly in [unsigned int] and partly in
    [size_t]. *)
Definition zHashGetCommands (ht : ZHash.zHash) (b : zBuffer)
    : M (Z * option (zbuf_ptr * Z) * zBuffer) :=
  (* Flush our buffer if necissary *)
  let* b := __flushBuffer b in
  (* Attempt our initial allocation *)
  let size := (to_uint (ZHash.str_len ht + to_uint (8 * ZHash.count ht))
               + ZINCRBY_PROT_LEN * ZHash.count ht) mod ULONG_MOD in
  let* ok := alloc in
  if negb ok then ret (-1, None, mkZBuffer ZNull 0 (z_len b)) else
  let b := mkZBuffer (ZBuf EmptyString) size (z_len b) in
  (* Iterate over each key bucket *)
  let* (rc, b) :=
    for_buckets (zHashGetCommands_chain ht) b (ZHash.bucket ht) 0
      (Z.to_nat (ZHash.ksize ht)) in
  if rc <? 0 then ret (-1, None, b) else
  (* Set our return string and length *)
  ret (0, Some (z_buf b, z_len b), b).

End ZFlush.

(** ** The tables that an input without NUL byte builds

    The names of a container, and the invariant of a container whose names
    all came from strings without NUL byte: a node holds such a string whole,
    with its length, in the bucket that its hash names. *)

(** The name of a member node: its string, empty when it has none. *)
Definition member_name (item : cmdMemberList) : string := default "" (member item).

(** An entry as its two names, and as its names with its union. *)
Definition pair_name (e : cmdKeyList * cmdMemberList) : string * string :=
  (key e.1, member_name e.2).

Definition view (e : cmdKeyList * cmdMemberList) : string * string * Z :=
  (pair_name e, score_hits e.2).

Definition item_clean (ms : Z) (i : nat) (item : cmdMemberList) : Prop :=
  exists s, member item = Some s /\ nul_free s = true /\ mlen item = strlen_Z s
            /\ GET_BUCKET s (strlen_Z s) ms = i.

Definition key_clean (ks ms : Z) (i : nat) (k : cmdKeyList) : Prop :=
  nul_free (key k) = true /\ klen k = strlen_Z (key k)
  /\ GET_BUCKET (key k) (strlen_Z (key k)) ks = i
  /\ forall n chain, default [] (kbucket k) !! n = Some chain -> Forall (item_clean ms n) chain.

Definition cell_clean (ks ms : Z) (i : nat) (cell : key_cell) : Prop :=
  forall k, cell = Live k -> key_clean ks ms i k.

Definition clean (c : cmdHashContainer) : Prop :=
  forall i chain, bucket c !! i = Some chain -> Forall (cell_clean (ksize c) (msize c) i) chain.

(** The views of the members of a key, and of all entries of a container, in
    the order of the flush. *)
Definition vk (k : cmdKeyList) (item : cmdMemberList) : string * string * Z :=
  view (k, item).

Definition kviews (k : cmdKeyList) : list (string * string * Z) :=
  map (vk k) (members_of k).

Definition views (c : cmdHashContainer) : list (string * string * Z) :=
  flat_map kviews (keys_of c).

(** A container between two calls that have not failed, with names from
    strings without NUL byte: no two keys have the same name, and no two
    entries the same pair of names. *)
Record good (c : cmdHashContainer) : Prop := mkGood {
  good_inv : inv c;
  good_clean : clean c;
  good_keys : NoDup (map key (keys_of c));
  good_names : NoDup (map fst (views c))
}.

(** ** What the input asks for

    The pairs and keys that the commands of an input name, and the table of
    pairs that the specification describes: a pair is entered when it is
    first named, with a zero union; naming it again counts a hit; a ZINCRBY
    command then adds its delta to the score. *)

#[export] Instance string_eq_dec : EqDecision string := string_dec.

(** [x] entered behind [l] unless it is there. *)
Definition note {A} `{EqDecision A} (x : A) (l : list A) : list A :=
  if decide (elem_of x l) then l else l ++ [x].

Definition pair_table : Type := list (string * string * Z).

Definition has_name (p : string * string) (e : string * string * Z) : bool :=
  (p.1 =? e.1.1)%string && (p.2 =? e.1.2)%string.

Definition held (p : string * string) (t : pair_table) : bool := existsb (has_name p) t.

Definition update_at (p : string * string) (f : Z -> Z) (t : pair_table) : pair_table :=
  map (fun e => if has_name p e then (e.1, f e.2) else e) t.

(** The pair [p] looked up as [__find_member] does: a hit is counted when it
    is there, and it is entered with a zero union when it is not. *)
Definition touch (p : string * string) (t : pair_table) : pair_table :=
  if held p t then update_at p hits_incr t else t ++ [(p, 0)].


(** The type of a command of bulk strings, as the specification words it. *)
Definition kind (cmd : list string) : cmdType :=
  match cmd with
  | [] => TYPE_UNSUPPORTED
  | name :: _ => classify name (Z.of_nat (length cmd))
  end.

Definition passes (cmd : list string) : bool :=
  match kind cmd with
  | TYPE_UNSUPPORTED => true
  | _ => false
  end.

(** A command that has a name, without NUL byte, and, when it is a ZINCRBY
    or a SADD command, whose key and members have no NUL byte.  The delta of
    a ZINCRBY command and the arguments of any other command are free. *)
Definition names_nul_free (cmd : list string) : bool :=
  match cmd with
  | [] => false
  | name :: _ => nul_free name
  end
  && match kind cmd, cmd with
     | TYPE_ZINCRBY, [_; k; _; m] => nul_free k && nul_free m
     | TYPE_SADD, _ :: k :: ms => nul_free k && forallb nul_free ms
     | _, _ => true
     end.

(** The (key, member) pairs of the ZINCRBY commands of an input, those of its
    SADD commands, and the keys of its SADD commands, one for each time they
    are named. *)
Definition zincrby_pairs (l : list (list string)) : list (string * string) :=
  flat_map (fun cmd =>
              match kind cmd, cmd with
              | TYPE_ZINCRBY, [_; k; _; m] => [(k, m)]
              | _, _ => []
              end) l.

Definition sadd_pairs (l : list (list string)) : list (string * string) :=
  flat_map (fun cmd =>
              match kind cmd, cmd with
              | TYPE_SADD, _ :: k :: ms => map (pair k) ms
              | _, _ => []
              end) l.

Definition sadd_key_names (l : list (list string)) : list string :=
  flat_map (fun cmd =>
              match kind cmd, cmd with
              | TYPE_SADD, _ :: k :: _ => [k]
              | _, _ => []
              end) l.


(** The SADD commands of an input, one after the other: the table of their
    pairs, and their keys. *)
Definition sadd_add (cmd : list string) (t : pair_table) : pair_table :=
  match kind cmd, cmd with
  | TYPE_SADD, _ :: k :: ms => fold_left (fun t m => touch (k, m) t) ms t
  | _, _ => t
  end.

Definition sadd_key (cmd : list string) (ks : list string) : list string :=
  match kind cmd, cmd with
  | TYPE_SADD, _ :: k :: _ => note k ks
  | _, _ => ks
  end.

Definition sadd_table (l : list (list string)) : pair_table :=
  fold_left (fun t cmd => sadd_add cmd t) l [].

Definition sadd_keys (l : list (list string)) : list string :=
  fold_left (fun ks cmd => sadd_key cmd ks) l [].

Section Reference.
Context {ext : Externals}.

(** The ZINCRBY commands of an input: the pair is looked up, then the delta
    that [strtod] reads is added to the score. *)
Definition zincrby_add (cmd : list string) (t : pair_table) : pair_table :=
  match kind cmd, cmd with
  | TYPE_ZINCRBY, [_; k; d; m] =>
      update_at (k, m) (fun u => score_add u (strtod d)) (touch (k, m) t)
  | _, _ => t
  end.

Definition zincrby_table (l : list (list string)) : pair_table :=
  fold_left (fun t cmd => zincrby_add cmd t) l [].

(** A table whose two containers hold, in some order, the pairs of [zt] and
    of [st] and the keys [sk]. *)
Record related (ht : cmdHash) (zt st : pair_table) (sk : list string) : Prop := mkRelated {
  rel_z : good (z_cmds ht);
  rel_za : allocated (z_cmds ht);
  rel_s : good (s_cmds ht);
  rel_sa : allocated (s_cmds ht);
  rel_zt : Permutation (views (z_cmds ht)) zt;
  rel_st : Permutation (views (s_cmds ht)) st;
  rel_sk : Permutation (map key (keys_of (s_cmds ht))) sk
}.

(** The bytes of a command of bulk strings in the output, when it is passed
    through: every string with its length. *)
Definition command_bytes (cmd : list string) : string :=
  truncated (redisFormatCommandArgv (map (fun s => (s, strlen_Z s)) cmd)).

End Reference.

(** ** zhash.c: the table between two calls

    What holds of a table of zhash.c when no allocation has failed: every
    cell of a chain is a key node, a member table has [msize] buckets, and
    every member has its string. *)
Definition zkey_inv (ms : nat) (k : ZHash.zKeyList) : Prop :=
  Forall (Forall (fun item => ZHash.member item <> None)) (default [] (ZHash.kbucket k))
  /\ forall arr, ZHash.kbucket k = Some arr -> length arr = ms.

Definition zcell_inv (ms : nat) (cell : ZHash.key_cell) : Prop :=
  exists k, cell = ZHash.Live k /\ zkey_inv ms k.

Record zinv (ht : ZHash.zHash) : Prop := mkZinv {
  zinv_size : length (ZHash.bucket ht) = Z.to_nat (ZHash.ksize ht);
  zinv_ksize : 0 < ZHash.ksize ht;
  zinv_msize : 0 < ZHash.msize ht;
  zinv_cells : Forall (Forall (zcell_inv (Z.to_nat (ZHash.msize ht)))) (ZHash.bucket ht)
}.

Definition zlookup_key (ht : ZHash.zHash) (kp : key_ptr) : option ZHash.zKeyList :=
  match ZHash.bucket ht !! kp.1 with
  | Some chain =>
      match chain !! kp.2 with
      | Some (ZHash.Live k) => Some k
      | _ => None
      end
  | None => None
  end.

Definition zlookup_member (ht : ZHash.zHash) (kp : key_ptr) (mp : member_ptr)
    : option ZHash.zMemberList :=
  match zlookup_key ht kp with
  | Some k =>
      match ZHash.kbucket k with
      | Some arr =>
          match arr !! mp.1 with
          | Some chain => chain !! mp.2
          | None => None
          end
      | None => None
      end
  | None => None
  end.

(** * Properties *)

(** ** Classification and the frame of an unsupported command *)

Section Facts.
Context {ext : Externals}.

Lemma get_type_oracle (r : redisReply) (o o' : oracle) (t : cmdType) :
  __get_type r o = Some (t, o') -> o' = o.
Proof.
  unfold __get_type, arg_str, deref, undefined, bind, ret.
  destruct (elements r =? 4); destruct (2 <? elements r);
    destruct (element r !! 0%nat) as [[s|n]|]; cbn;
    repeat match goal with |- context [if ?b then _ else _] => destruct b end;
    intros; congruence.
Qed.

(** C10: when a command is classified as unsupported, [cmdHashAdd] returns
    the tag [TYPE_UNSUPPORTED] and the table it was given: both containers
    (buckets, key and member counts, string length) and the protocol buffer
    are the ones before the call, and no allocation is made. *)
Theorem cmdHashAdd_unsupported_frame (ht : cmdHash) (r : redisReply) (o o' : oracle) :
  __get_type r o = Some (TYPE_UNSUPPORTED, o') ->
  cmdHashAdd ht r o = Some (cmdType_int TYPE_UNSUPPORTED, ht, o).
Proof.
  intros H. pose proof (get_type_oracle _ _ _ _ H) as ->.
  unfold cmdHashAdd, bind. rewrite H. reflexivity.
Qed.

End Facts.

Lemma cmdHashAdd_unsupported_frame_witness :
  __get_type (bulk_strings ["SET"; "x"; "1"]) [] = Some (TYPE_UNSUPPORTED, [])
  /\ cmdHashAdd (fresh_hash 4 2) (bulk_strings ["SET"; "x"; "1"]) []
     = Some (2, fresh_hash 4 2, []).
Proof.
  split; [reflexivity |].
  apply (cmdHashAdd_unsupported_frame (fresh_hash 4 2) (bulk_strings ["SET"; "x"; "1"]) [] []).
  reflexivity.
Defined.

(** C8: a command of four elements whose name is the nine bytes
    "ZINCRBY", NUL, "X" is classified as [TYPE_ZINCRBY]: the comparison stops
    at the NUL byte and the length of the name is never read.  The
    specification's classification of the same command is
    [TYPE_UNSUPPORTED]. *)
Theorem get_type_stops_at_nul :
  String.length ZINCRBY_NUL_X = 9%nat
  /\ __get_type (bulk_strings [ZINCRBY_NUL_X; "k"; "1"; "m"]) [] = Some (TYPE_ZINCRBY, [])
  /\ classify ZINCRBY_NUL_X 4 = TYPE_UNSUPPORTED.
Proof. repeat split. Qed.

(** C9: an element carried as the integer 5 is written with the [integer]
    field of the enclosing reply, 0 for an array, and not with its own
    value: the command SET x 5 goes to the output as SET x 0. *)
Theorem addReply_integer_element :
  let reply := mkReply 0 [REDIS_REPLY_STRING "SET"; REDIS_REPLY_STRING "x";
                          REDIS_REPLY_INTEGER 5] in
  map (reply_arg reply) (element reply) = [("SET", 3); ("x", 1); ("0", 1)]
  /\ cmdBufferAddReply fresh_buffer reply []
     = Some (0, mkBuffer (resp_command [("SET", 3); ("x", 1); ("0", 1)])
                  INITIAL_ALLOC 27 1, [])
  /\ resp_command [("SET", 3); ("x", 1); ("0", 1)]
     <> resp_command [("SET", 3); ("x", 1); ("5", 1)].
Proof. repeat split. vm_compute. discriminate. Qed.

(** C7: the ninth allocation of a run (on tables of 4 and 2 buckets), the
    [calloc] of the key node of ZINCRBY k 1 m, fails: [cmdHashAdd] returns
    -1, which [processBufferFile] does not look at.  The run ends with status
    0 and writes SET x 1 alone. *)
Theorem failed_add_is_dropped :
  cmdHashAdd (fresh_hash 4 2) (bulk_strings ["ZINCRBY"; "k"; "1"; "m"]) [false]
  = Some (-1, fresh_hash 4 2, [])
  /\ main_sized 4 2 false (commands [["SET"; "x"; "1"]; ["ZINCRBY"; "k"; "1"; "m"]])
       (fails_at 8)
     = Some (0, Some (resp_command [("SET", 3); ("x", 1); ("1", 1)]), []).
Proof. split; vm_compute; reflexivity. Qed.

(** C1: the score of a member shares its bytes with the hit counter that
    [__find_member] increments on every later ZINCRBY of the member.  On
    tables of 4 and 2 buckets: after the deltas inf and 1 the flushed value
    is a NaN and not inf; after the same deltas in the order 1, inf it is
    inf; and after 1, 1, 1 the stored score is the double next above 3. *)
Theorem zincrby_hit_corrupts_score :
  main_sized 4 2 false
    (commands [["ZINCRBY"; "k"; "inf"; "m"]; ["ZINCRBY"; "k"; "1"; "m"]]) []
  = Some (0, Some (resp_zincrby ("k", 1) PrimFloat.nan ("m", 1)), [])
  /\ main_sized 4 2 false
       (commands [["ZINCRBY"; "k"; "1"; "m"]; ["ZINCRBY"; "k"; "inf"; "m"]]) []
     = Some (0, Some (resp_zincrby ("k", 1) PrimFloat.infinity ("m", 1)), [])
  /\ (exists ctx,
        processBufferFile (fresh_context false 4 2)
          (commands [["ZINCRBY"; "k"; "1"; "m"]; ["ZINCRBY"; "k"; "1"; "m"];
                     ["ZINCRBY"; "k"; "1"; "m"]]) []
        = Some (0, ctx, [])
        /\ map score_view (entries (z_cmds (cmd_hash ctx))) = [("k", Some "m", BITS_3 + 1)])
  /\ bits_of_double (PrimFloat.add (PrimFloat.add 1 1) 1) = BITS_3.
Proof.
  split; [vm_compute; reflexivity |].
  split; [vm_compute; reflexivity |].
  split; [| vm_compute; reflexivity].
  eexists; (split; [vm_compute; reflexivity |]); vm_compute; reflexivity.
Qed.


(** C3, the claim on both add functions: [zHashAdd] refuses a delta of
    zero, and [__hash_zincrby_cmd] accepts an empty key and an empty
    member. *)
Lemma numeric_add_checks_differ :
  ZHash.zHashAdd (fresh_zhash 4 2) (Some "k") 1 0%float (Some "m") 1 []
  = Some (-1, fresh_zhash 4 2, [])
  /\ (exists ht,
        __hash_zincrby_cmd (fresh_hash 4 2) (bulk_strings ["ZINCRBY"; ""; "1"; ""]) []
        = Some (0, ht, [])
        /\ map score_view (entries (z_cmds ht)) = [("", Some "", bits_of_double 1)]).
Proof.
  split; [vm_compute; reflexivity |].
  eexists; (split; [vm_compute; reflexivity |]); vm_compute; reflexivity.
Qed.

(** C4, the claim on the delta "abc": the run ends with status 0 and writes
    ZINCRBY k 0.000000 m. *)
Lemma malformed_delta_is_accepted :
  main_sized 4 2 false (commands [["ZINCRBY"; "k"; "abc"; "m"]]) []
  = Some (0, Some (resp_zincrby ("k", 1) 0 ("m", 1)), []).
Proof. vm_compute; reflexivity. Qed.

(** ** Running with an allocator that never fails *)

Lemma runs_ret {A} (a : A) : runs (ret a) a.
Proof. reflexivity. Qed.

Lemma runs_bind {A B} (m : M A) (k : A -> M B) (a : A) (b : B) :
  runs m a -> runs (k a) b -> runs (bind m k) b.
Proof. unfold runs, bind. intros -> H. exact H. Qed.

Lemma runs_alloc : runs alloc true.
Proof. reflexivity. Qed.

Lemma runs_deref {A} (p : option A) (a : A) : p = Some a -> runs (deref p) a.
Proof. intros ->. reflexivity. Qed.

Lemma runs_inj {A} (m : M A) (a b : A) : runs m a -> runs m b -> a = b.
Proof. unfold runs. intros H1 H2. congruence. Qed.

(** One step of a computation: a [bind] whose first part is known. *)
Ltac step :=
  lazymatch goal with
  | |- runs (ret _) _ => apply runs_ret
  | |- runs (bind alloc _) _ => eapply runs_bind; [apply runs_alloc | cbn beta iota delta [negb]]
  | |- runs (bind (ret _) _) _ => eapply runs_bind; [apply runs_ret | cbn beta iota delta [negb]]
  | |- runs (bind (deref _) _) _ =>
      eapply runs_bind; [apply runs_deref; eassumption | cbn beta iota delta [negb]]
  | |- runs (bind _ _) _ => eapply runs_bind; [eassumption | cbn beta iota delta [negb]]
  end.

(** ** Arithmetic of the counters *)

Lemma to_uint_range (x : Z) : 0 <= to_uint x < UINT_MOD.
Proof. unfold to_uint, UINT_MOD. apply Z.mod_pos_bound. lia. Qed.

Lemma to_uint_small (x : Z) : 0 <= x < UINT_MOD -> to_uint x = x.
Proof. unfold to_uint. apply Z.mod_small. Qed.

Lemma uint_add_to_uint (x n : Z) : uint_add (to_uint x) n = to_uint (x + n).
Proof. unfold uint_add, to_uint. apply Zplus_mod_idemp_l. Qed.

Lemma uint_add_succ (n : nat) : uint_add (to_uint (Z.of_nat n)) 1 = to_uint (Z.of_nat (S n)).
Proof. rewrite uint_add_to_uint. f_equal. lia. Qed.

Lemma GET_BUCKET_lt (str : string) (len size : Z) :
  0 < size -> (GET_BUCKET str len size < Z.to_nat size)%nat.
Proof.
  intros H. unfold GET_BUCKET.
  pose proof (Z.mod_pos_bound (to_uint (djb2 str len)) size H). lia.
Qed.

(** ** Counting over chains *)

Lemma weight1_app {A} (f : A -> nat) (l1 l2 : list A) :
  weight1 f (l1 ++ l2) = (weight1 f l1 + weight1 f l2)%nat.
Proof. apply sum_list_with_app. Qed.

Lemma weight1_insert {A} (f : A -> nat) (l : list A) (i : nat) (x y : A) :
  l !! i = Some x ->
  (weight1 f (<[i := y]> l) + f x = weight1 f l + f y)%nat.
Proof.
  revert i. induction l as [|a l IH]; intros [|i] H; simplify_eq/=.
  - unfold weight1; simpl. lia.
  - specialize (IH _ H). unfold weight1 in *; simpl. lia.
Qed.

Lemma weight_insert {A} (f : A -> nat) (ll : list (list A)) (i : nat) (l l' : list A) :
  ll !! i = Some l ->
  (weight f (<[i := l']> ll) + weight1 f l = weight f ll + weight1 f l')%nat.
Proof. intros H. unfold weight. apply (weight1_insert (weight1 f)). exact H. Qed.

Lemma weight_replicate_nil {A} (f : A -> nat) (n : nat) : weight f (replicate n []) = 0%nat.
Proof. induction n as [|n IH]; [reflexivity |]. unfold weight in *. simpl. exact IH. Qed.

Lemma weight_concat {A} (f : A -> nat) (ll : list (list A)) : weight f ll = weight1 f (concat ll).
Proof.
  induction ll as [|l ll IH]; [reflexivity |].
  simpl. rewrite weight1_app, <- IH. reflexivity.
Qed.

(** ** The invariant of a container under [__find_key] *)

Lemma lookup_key_Some (c : cmdHashContainer) (kp : key_ptr) (k : cmdKeyList) :
  lookup_key c kp = Some k <->
  exists chain, bucket c !! kp.1 = Some chain /\ chain !! kp.2 = Some (Live k).
Proof.
  unfold lookup_key. split.
  - destruct (bucket c !! kp.1) as [chain|]; [| discriminate].
    destruct (chain !! kp.2) as [[k'|]|] eqn:E; intros; simplify_eq. eauto.
  - intros (chain & -> & ->). reflexivity.
Qed.

Lemma runs_get_key (c : cmdHashContainer) (kp : key_ptr) (k : cmdKeyList) :
  lookup_key c kp = Some k -> runs (get_key c kp) k.
Proof.
  intros (chain & H1 & H2)%lookup_key_Some.
  unfold get_key. rewrite H1, H2. reflexivity.
Qed.

Lemma scan_keys_live (ms : nat) (chain : list key_cell) (str : string) (len : Z) (i : nat) :
  Forall (cell_inv ms) chain ->
  scan_keys chain str len i = Miss
  \/ exists j k, scan_keys chain str len i = Hit (i + j) /\ chain !! j = Some (Live k).
Proof.
  intros H. revert i. induction H as [|cell chain (k & -> & _) _ IH]; intros i; simpl.
  - left; reflexivity.
  - destruct ((klen k =? len) && (strncmp (key k) str (Z.to_nat len) =? 0)).
    + right. exists 0%nat, k. split; [f_equal; lia | reflexivity].
    + destruct (IH (S i)) as [-> | (j & k' & -> & Hj)]; [left; reflexivity |].
      right. exists (S j), k'. split; [f_equal; lia | exact Hj].
Qed.

Lemma key_inv_new (ms : nat) (str : string) (len : Z) : key_inv ms (mkKey str len 0 None).
Proof. repeat split; [constructor | intros arr [=]]. Qed.

(** The container after a key node was linked at the end of chain [num]. *)
Lemma inv_add_key (c : cmdHashContainer) (num : nat) (chain : list key_cell)
    (str : string) (len : Z) :
  inv c -> bucket c !! num = Some chain ->
  let c' := mkContainer (ksize c) (msize c) (uint_add (keys c) 1) (members c) (str_len c)
              (<[num := chain ++ [Live (mkKey str len 0 None)]]> (bucket c)) in
  inv c'
  /\ lookup_key c' (num, length chain) = Some (mkKey str len 0 None)
  /\ n_keys c' = S (n_keys c)
  /\ n_members c' = n_members c
  /\ (allocated c -> allocated_but c' (Some (num, length chain))).
Proof.
  intros [Hsize Hk Hm Hcells Hkeys Hmem] Hnum c'.
  assert (Hlt : (num < length (bucket c))%nat) by (eapply lookup_lt_Some; eauto).
  assert (Hn : n_keys c' = S (n_keys c)).
  { unfold n_keys, c'; simpl.
    pose proof (weight_insert key_weight _ _ _ (chain ++ [Live (mkKey str len 0 None)]) Hnum) as E.
    rewrite weight1_app in E. unfold weight1 at 3 in E; simpl in E. lia. }
  assert (Hn' : n_members c' = n_members c).
  { unfold n_members, c'; simpl.
    pose proof (weight_insert member_weight _ _ _ (chain ++ [Live (mkKey str len 0 None)]) Hnum) as E.
    rewrite weight1_app in E. unfold weight1 at 3 in E; simpl in E. lia. }
  split; [| split; [| split; [| split]]]; try assumption.
  - constructor; simpl.
    + rewrite length_insert. exact Hsize.
    + exact Hk.
    + exact Hm.
    + apply Forall_insert; [exact Hcells |].
      apply Forall_app. split.
      * exact (proj1 (Forall_lookup _ _) Hcells _ _ Hnum).
      * constructor; [| constructor]. eexists; split; [reflexivity | apply key_inv_new].
    + rewrite Hn, Hkeys. apply uint_add_succ.
    + rewrite Hn'. exact Hmem.
  - apply lookup_key_Some. exists (chain ++ [Live (mkKey str len 0 None)]). simpl. split.
    + apply list_lookup_insert_eq. exact Hlt.
    + rewrite lookup_app_r by lia. rewrite Nat.sub_diag. reflexivity.
  - intros Hall i j chain' k Hi Hj Hne. simpl in Hi.
    destruct (decide (i = num)) as [-> | Hin].
    + rewrite list_lookup_insert_eq in Hi by exact Hlt. simplify_eq.
      destruct (decide (j < length chain)%nat) as [Hjl | Hjl].
      * rewrite lookup_app_l in Hj by exact Hjl.
        eapply (Hall num j); eauto; discriminate.
      * apply lookup_lt_Some in Hj as Hj'. rewrite length_app in Hj'. simpl in Hj'.
        exfalso. apply Hne. f_equal. f_equal. lia.
    + rewrite list_lookup_insert_ne in Hi by congruence.
      eapply (Hall i j); eauto; discriminate.
Qed.

Lemma find_key_runs (c : cmdHashContainer) (str : string) (len : Z) :
  inv c ->
  exists kp c',
    runs (__find_key c str len) (Some kp, c')
    /\ inv c'
    /\ ksize c' = ksize c /\ msize c' = msize c
    /\ is_Some (lookup_key c' kp)
    /\ (n_keys c <= n_keys c' <= S (n_keys c))%nat
    /\ n_members c' = n_members c
    /\ (allocated c -> allocated_but c' (Some kp)).
Proof.
  intros Hinv. pose proof Hinv as [Hsize Hk Hm Hcells Hkeys Hmem].
  unfold __find_key. set (num := GET_BUCKET str len (ksize c)).
  assert (Hlt : (num < length (bucket c))%nat).
  { rewrite Hsize. apply GET_BUCKET_lt. exact Hk. }
  destruct (lookup_lt_is_Some_2 _ _ Hlt) as [chain Hchain].
  assert (Hnew : forall chain0, chain0 = chain ->
            exists kp c', runs (__find_key_copy c num chain0 str len) (Some kp, c')
              /\ inv c' /\ ksize c' = ksize c /\ msize c' = msize c
              /\ is_Some (lookup_key c' kp)
              /\ (n_keys c <= n_keys c' <= S (n_keys c))%nat
              /\ n_members c' = n_members c
              /\ (allocated c -> allocated_but c' (Some kp))).
  { intros ? ->.
    destruct (inv_add_key c num chain (strndup str len) len Hinv Hchain)
      as (H1 & H2 & H3 & H4 & H5).
    do 2 eexists. split.
    { unfold __find_key_copy. step. step. }
    split; [exact H1 |]. split; [reflexivity |]. split; [reflexivity |].
    split; [eexists; exact H2 |]. split; [lia |]. split; [exact H4 | exact H5]. }
  destruct chain as [|cell chain'] eqn:Echain.
  - destruct (Hnew [] eq_refl) as (kp & c' & Hrun & Hpost).
    exists kp, c'. split; [| exact Hpost].
    step. step. exact Hrun.
  - rewrite <- Echain in *.
    assert (Hch : Forall (cell_inv (Z.to_nat (msize c))) chain)
      by exact (proj1 (Forall_lookup _ _) Hcells _ _ Hchain).
    destruct (scan_keys_live _ chain str len 0 Hch) as [Hs | (j & k & Hs & Hj)].
    + destruct (Hnew chain eq_refl) as (kp & c' & Hrun & Hpost).
      exists kp, c'. split; [| exact Hpost].
      step. rewrite Echain at 1. rewrite Hs. step. exact Hrun.
    + exists (num, j), c. split.
      { step. rewrite Echain at 1. rewrite Hs. apply runs_ret. }
      split; [exact Hinv |]. split; [reflexivity |]. split; [reflexivity |].
      split; [exists k; apply lookup_key_Some; eauto |].
      split; [lia |]. split; [reflexivity |].
      intros Hall i j' chain0 k0 Hi Hj0 _. eapply (Hall i j'); eauto; discriminate.
Qed.

(** ** The invariant of a container under [__find_member] *)

Lemma alter_lookup {A} (f : A -> A) (l : list A) (i : nat) (x : A) :
  l !! i = Some x -> alter f i l = <[i := f x]> l.
Proof.
  revert i. induction l as [|a l IH]; intros [|i] H; simplify_eq/=; [reflexivity |].
  f_equal. apply IH. exact H.
Qed.

Lemma concat_insert_split {A} (ll : list (list A)) (i : nat) (l : list A) :
  ll !! i = Some l ->
  exists pre post,
    concat ll = pre ++ l ++ post
    /\ forall l', concat (<[i := l']> ll) = pre ++ l' ++ post.
Proof.
  intros H. exists (concat (take i ll)), (concat (drop (S i) ll)). split.
  - rewrite <- (take_drop_middle ll i l H) at 1. rewrite concat_app. reflexivity.
  - intros l'. rewrite insert_take_drop by (eapply lookup_lt_Some; eauto).
    rewrite concat_app. reflexivity.
Qed.

Lemma put_key_bucket (c : cmdHashContainer) (kp : key_ptr) (k' : cmdKeyList)
    (chain : list key_cell) :
  bucket c !! kp.1 = Some chain ->
  bucket (put_key c kp k') = <[kp.1 := <[kp.2 := Live k']> chain]> (bucket c).
Proof. intros H. unfold put_key, set_bucket; simpl. apply alter_lookup. exact H. Qed.

(** Writing a key node back leaves the other nodes as they are. *)
Lemma put_key_facts (c : cmdHashContainer) (kp : key_ptr) (k k' : cmdKeyList) :
  lookup_key c kp = Some k ->
  let c' := put_key c kp k' in
  lookup_key c' kp = Some k'
  /\ length (bucket c') = length (bucket c)
  /\ n_keys c' = n_keys c
  /\ (n_members c' + length (members_of k) = n_members c + length (members_of k'))%nat
  /\ (forall ms, Forall (Forall (cell_inv ms)) (bucket c) -> key_inv ms k' ->
      Forall (Forall (cell_inv ms)) (bucket c'))
  /\ (allocated_but c (Some kp) -> kbucket k' <> None -> allocated c').
Proof.
  intros (chain & Hi & Hj)%lookup_key_Some c'.
  assert (Hb : bucket c' = <[kp.1 := <[kp.2 := Live k']> chain]> (bucket c))
    by (apply put_key_bucket; exact Hi).
  assert (Hil : (kp.1 < length (bucket c))%nat) by (eapply lookup_lt_Some; eauto).
  assert (Hjl : (kp.2 < length chain)%nat) by (eapply lookup_lt_Some; eauto).
  split; [| split; [| split; [| split; [| split]]]].
  - apply lookup_key_Some. exists (<[kp.2 := Live k']> chain). rewrite Hb. split.
    + apply list_lookup_insert_eq. exact Hil.
    + apply list_lookup_insert_eq. exact Hjl.
  - rewrite Hb. apply length_insert.
  - unfold n_keys. rewrite Hb.
    pose proof (weight_insert key_weight _ _ _ (<[kp.2 := Live k']> chain) Hi) as E1.
    pose proof (weight1_insert key_weight _ _ _ (Live k') Hj) as E2. simpl in E2. lia.
  - unfold n_members. rewrite Hb.
    pose proof (weight_insert member_weight _ _ _ (<[kp.2 := Live k']> chain) Hi) as E1.
    pose proof (weight1_insert member_weight _ _ _ (Live k') Hj) as E2. simpl in E2. lia.
  - intros ms Hcells Hk'. rewrite Hb. apply Forall_insert; [exact Hcells |].
    apply Forall_insert; [exact (proj1 (Forall_lookup _ _) Hcells _ _ Hi) |].
    exists k'. split; [reflexivity | exact Hk'].
  - intros Hall Hk' i j chain0 k0 Hi0 Hj0 _. rewrite Hb in Hi0.
    destruct (decide (i = kp.1)) as [-> | Hne].
    + rewrite list_lookup_insert_eq in Hi0 by exact Hil. simplify_eq.
      destruct (decide (j = kp.2)) as [-> | Hne].
      * rewrite list_lookup_insert_eq in Hj0 by exact Hjl. simplify_eq. exact Hk'.
      * rewrite list_lookup_insert_ne in Hj0 by congruence.
        eapply (Hall kp.1 j); eauto. destruct kp; simpl in *; congruence.
    + rewrite list_lookup_insert_ne in Hi0 by congruence.
      eapply (Hall i j); eauto. destruct kp; simpl in *; congruence.
Qed.

Lemma scan_members_named (chain : list cmdMemberList) (str : string) (len : Z) (i : nat) :
  Forall (fun item => member item <> None) chain ->
  scan_members chain str len i = Miss
  \/ exists j item, scan_members chain str len i = Hit (i + j) /\ chain !! j = Some item.
Proof.
  intros H. revert i. induction H as [|item chain Hm _ IH]; intros i; simpl.
  - left; reflexivity.
  - destruct (IH (S i)) as [E | (j & item' & E & Hj)].
    + destruct (len =? mlen item); [| left; exact E].
      destruct (member item) as [s|]; [| congruence].
      destruct (strncmp str s (Z.to_nat len) =? 0); [| left; exact E].
      right. exists 0%nat, item. split; [f_equal; lia | reflexivity].
    + assert (Hr : exists j0 item0, Hit (i + S j) = Hit (i + j0)
                /\ (item :: chain) !! j0 = Some item0)
        by (exists (S j), item'; split; [reflexivity | exact Hj]).
      replace (S i + j)%nat with (i + S j)%nat in E by lia.
      destruct (len =? mlen item); [| right; rewrite E; exact Hr].
      destruct (member item) as [s|]; [| congruence].
      destruct (strncmp str s (Z.to_nat len) =? 0); [| right; rewrite E; exact Hr].
      right. exists 0%nat, item. split; [f_equal; lia | reflexivity].
Qed.

Lemma key_inv_table (ms : nat) (k : cmdKeyList) (arr : list (list cmdMemberList)) :
  count k = to_uint (Z.of_nat (length (concat arr))) ->
  Forall (fun item => member item <> None) (concat arr) ->
  length arr = ms ->
  key_inv ms (mkKey (key k) (klen k) (count k) (Some arr)).
Proof.
  intros H1 H2 H3. unfold key_inv, members_of; simpl.
  split; [exact H1 |]. split; [exact H2 |]. intros ? [= <-]. exact H3.
Qed.

Lemma find_member_runs (c : cmdHashContainer) (kp : key_ptr) (str : string) (len : Z) :
  inv c -> is_Some (lookup_key c kp) -> allocated_but c (Some kp) ->
  exists mp c',
    runs (__find_member c kp str len) (Some mp, c')
    /\ inv c'
    /\ ksize c' = ksize c /\ msize c' = msize c
    /\ is_Some (lookup_member c' kp mp)
    /\ n_keys c' = n_keys c
    /\ (n_members c <= n_members c' <= S (n_members c))%nat
    /\ allocated c'.
Proof.
  intros Hinv [k Hk] Hall. pose proof Hinv as [Hsize Hks Hms Hcells Hkeys Hmem].
  destruct c as [ks ms nk nm sl b]; simpl in *.
  set (c := mkContainer ks ms nk nm sl b) in *.
  (* the key node satisfies its invariant *)
  assert (Hkinv : key_inv (Z.to_nat ms) k).
  { apply lookup_key_Some in Hk as (chain & Hi & Hj).
    pose proof (proj1 (Forall_lookup _ _) Hcells _ _ Hi) as Hch.
    destruct (proj1 (Forall_lookup _ _) Hch _ _ Hj) as (k0 & [= <-] & Hk0). exact Hk0. }
  destruct Hkinv as (Hcount & Hnamed & Hlen).
  set (num := GET_BUCKET str len ms).
  assert (Hnum : (num < Z.to_nat ms)%nat) by (apply GET_BUCKET_lt; exact Hms).
  (* the member table, allocated now if it was not *)
  assert (Harr : exists arr,
            runs (match kbucket k with
                  | Some arr => ret (Some arr)
                  | None => let* ok := alloc in
                            ret (if ok then Some (replicate (Z.to_nat ms) []) else None)
                  end) (Some arr)
            /\ length arr = Z.to_nat ms /\ concat arr = members_of k).
  { unfold members_of. destruct (kbucket k) as [arr|] eqn:E.
    - exists arr. split; [apply runs_ret |]. split; [apply Hlen; reflexivity | reflexivity].
    - exists (replicate (Z.to_nat ms) []). split; [step; apply runs_ret |].
      split; [apply length_replicate |]. simpl.
      clear. induction (Z.to_nat ms) as [|n IH]; [reflexivity | exact IH]. }
  destruct Harr as (arr & Harr & Harrlen & Hconcat).
  destruct (lookup_lt_is_Some_2 arr num) as [chain Hchain]; [lia |].
  destruct (concat_insert_split arr num chain) as (pre & post & Hsplit & Hins); [exact Hchain |].
  rewrite <- Hconcat, Hsplit in Hnamed, Hcount.
  apply Forall_app in Hnamed as (Hpre & (Hchain_named & Hpost)%Forall_app).
  (* the two ways the call ends *)
  assert (Hcopy : forall chain0, chain0 = chain ->
            exists mp c',
              runs (__find_member_copy c kp k arr num chain0 str len) (Some mp, c')
              /\ inv c' /\ ksize c' = ks /\ msize c' = ms
              /\ is_Some (lookup_member c' kp mp) /\ n_keys c' = n_keys c
              /\ (n_members c <= n_members c' <= S (n_members c))%nat
              /\ allocated c').
  { intros ? ->. unfold __find_member_copy.
    set (item := mkMember (Some (strndup str len)) len (score_hits calloc_member)).
    set (k' := mkKey (key k) (klen k) (uint_add (count k) 1)
                 (Some (<[num := chain ++ [item]]> arr))).
    set (c1 := mkContainer (ksize c) (msize c) (keys c) (uint_add (members c) 1)
                 (option_map (fun n => uint_add n len) (str_len c)) (bucket c)).
    assert (Hk1 : lookup_key c1 kp = Some k) by exact Hk.
    destruct (put_key_facts c1 kp k k' Hk1) as (F1 & F2 & F3 & F4 & F5 & F6).
    assert (Hmem' : members_of k' = pre ++ (chain ++ [item]) ++ post)
      by (unfold members_of; simpl; apply Hins).
    assert (Hmemk : members_of k = pre ++ chain ++ post)
      by (rewrite <- Hconcat; exact Hsplit).
    rewrite Hmem', Hmemk in F4. rewrite !length_app in F4. simpl in F4.
    change (n_members c1) with (n_members c) in F4.
    change (n_keys c1) with (n_keys c) in F3.
    do 2 eexists. split; [step; apply runs_ret |].
    split; [| split; [reflexivity | split; [reflexivity | split; [|
      split; [exact F3 | split; [lia |]]]]]].
    2:{ exists item. unfold lookup_member. rewrite F1. simpl.
        rewrite list_lookup_insert_eq by lia.
        rewrite lookup_app_r by lia. rewrite Nat.sub_diag. reflexivity. }
    - constructor.
      + rewrite F2. exact Hsize.
      + exact Hks.
      + exact Hms.
      + apply (F5 (Z.to_nat ms) Hcells). unfold key_inv. rewrite Hmem'. simpl.
        split; [| split].
        * rewrite Hcount, uint_add_to_uint. f_equal. rewrite !length_app. simpl. lia.
        * apply Forall_app. split; [exact Hpre |]. apply Forall_app. split; [| exact Hpost].
          apply Forall_app. split; [exact Hchain_named |]. constructor; [discriminate | constructor].
        * intros ? [= <-]. rewrite length_insert. exact Harrlen.
      + rewrite F3. exact Hkeys.
      + change (members (put_key c1 kp k')) with (uint_add nm 1).
        rewrite Hmem, uint_add_to_uint. f_equal. lia.
    - apply F6; [exact Hall | discriminate]. }
  assert (Hstay : forall arr', length arr' = Z.to_nat ms ->
            (exists chain', (forall arr0, arr0 = arr' -> concat arr0 = pre ++ chain' ++ post)
               /\ length chain' = length chain
               /\ Forall (fun item => member item <> None) chain') ->
            let c' := put_key c kp (set_kbucket k arr') in
            inv c' /\ ksize c' = ks /\ msize c' = ms
            /\ lookup_key c' kp = Some (set_kbucket k arr') /\ n_keys c' = n_keys c
            /\ (n_members c <= n_members c' <= S (n_members c))%nat
            /\ allocated c').
  { intros arr' Hlen' (chain' & Hcat & Hlc & Hnc) c'. subst c'.
    destruct (put_key_facts c kp k (set_kbucket k arr') Hk) as (F1 & F2 & F3 & F4 & F5 & F6).
    set (c' := put_key c kp (set_kbucket k arr')) in *.
    assert (Hmem' : members_of (set_kbucket k arr') = pre ++ chain' ++ post)
      by (unfold members_of; simpl; apply Hcat; reflexivity).
    assert (Hmemk : members_of k = pre ++ chain ++ post)
      by (rewrite <- Hconcat; exact Hsplit).
    rewrite Hmem', Hmemk in F4. rewrite !length_app in F4.
    split; [| split; [reflexivity | split; [reflexivity | split; [exact F1 |
      split; [exact F3 | split; [lia |]]]]]].
    - constructor.
      + rewrite F2. exact Hsize.
      + exact Hks.
      + exact Hms.
      + apply (F5 (Z.to_nat ms) Hcells). unfold key_inv. rewrite Hmem'. simpl.
        split; [| split].
        * rewrite Hcount. f_equal. rewrite !length_app. lia.
        * apply Forall_app. split; [exact Hpre |]. apply Forall_app. split; assumption.
        * intros ? [= <-]. exact Hlen'.
      + rewrite F3. exact Hkeys.
      + replace (n_members c') with (n_members c) by lia. exact Hmem.
    - apply F6; [exact Hall | discriminate]. }
  unfold __find_member. fold num.
  destruct chain as [|item0 chain'] eqn:Echain.
  - destruct (Hcopy [] eq_refl) as (mp & c' & Hrun & Hres).
    exists mp, c'. split; [| exact Hres].
    eapply runs_bind; [apply runs_get_key; exact Hk | cbn beta iota].
    eapply runs_bind; [exact Harr | cbn beta iota].
    step. step. exact Hrun.
  - rewrite <- Echain in *.
    destruct (scan_members_named chain str len 0 Hchain_named) as [Hs | (j & it & Hs & Hj)].
    + destruct (Hcopy chain eq_refl) as (mp & c' & Hrun & Hres).
      exists mp, c'. split; [| exact Hres].
      eapply runs_bind; [apply runs_get_key; exact Hk | cbn beta iota].
      eapply runs_bind; [exact Harr | cbn beta iota].
      step. rewrite Echain at 1. rewrite Hs. step. exact Hrun.
    + exists (num, j), (put_key c kp (set_kbucket k (<[num := alter hit j chain]> arr))).
      split.
      { eapply runs_bind; [apply runs_get_key; exact Hk | cbn beta iota].
        eapply runs_bind; [exact Harr | cbn beta iota].
        step. rewrite Echain at 1. rewrite Hs. apply runs_ret. }
      destruct (Hstay (<[num := alter hit j chain]> arr)) as (G1 & G2 & G3 & G4 & G5);
        [rewrite length_insert; exact Harrlen | |].
      { exists (alter hit j chain). split; [intros ? ->; apply Hins |].
        split; [apply length_alter |].
        apply Forall_alter; [exact Hchain_named |]. intros x _ Hx. exact Hx. }
      split; [exact G1 |]. split; [exact G2 |]. split; [exact G3 |]. split; [| exact G5].
      exists (hit it). unfold lookup_member. rewrite G4. simpl.
      rewrite list_lookup_insert_eq by lia.
      rewrite list_lookup_alter_eq, Hj. reflexivity.
Qed.

(** ** The invariant of the table under [cmdHashAdd] *)

Lemma inv_lookup_key (c : cmdHashContainer) (kp : key_ptr) (k : cmdKeyList) :
  inv c -> lookup_key c kp = Some k -> key_inv (Z.to_nat (msize c)) k.
Proof.
  intros [_ _ _ Hcells _ _] (chain & Hi & Hj)%lookup_key_Some.
  pose proof (proj1 (Forall_lookup _ _) Hcells _ _ Hi) as Hch.
  destruct (proj1 (Forall_lookup _ _) Hch _ _ Hj) as (k0 & [= <-] & Hk0). exact Hk0.
Qed.

Lemma allocated_but_weaken (c : cmdHashContainer) (kp : option key_ptr) :
  allocated c -> allocated_but c kp.
Proof. intros H i j chain k Hi Hj _. eapply (H i j); eauto; discriminate. Qed.

Lemma lookup_member_key (c : cmdHashContainer) (kp : key_ptr) (mp : member_ptr) :
  is_Some (lookup_member c kp mp) -> is_Some (lookup_key c kp).
Proof.
  unfold lookup_member. intros [item H].
  destruct (lookup_key c kp) as [k|]; [eexists; reflexivity | discriminate].
Qed.

Lemma add_score_runs (c : cmdHashContainer) (kp : key_ptr) (mp : member_ptr) (d : float) :
  inv c -> allocated c -> is_Some (lookup_member c kp mp) ->
  exists c',
    runs (add_score c kp mp d) c'
    /\ inv c' /\ allocated c'
    /\ ksize c' = ksize c /\ msize c' = msize c
    /\ n_keys c' = n_keys c /\ n_members c' = n_members c.
Proof.
  intros Hinv Hall [item Hitem]. pose proof Hinv as [Hsize Hks Hms Hcells Hkeys Hmem].
  unfold lookup_member in Hitem.
  destruct (lookup_key c kp) as [k|] eqn:Hk; [| discriminate].
  destruct (kbucket k) as [arr|] eqn:Harr; [| discriminate].
  destruct (arr !! mp.1) as [chain|] eqn:Hchain; [| discriminate].
  destruct (inv_lookup_key c kp k Hinv Hk) as (Hcount & Hnamed & Hlen).
  destruct (concat_insert_split arr mp.1 chain Hchain) as (pre & post & Hsplit & Hins).
  unfold members_of in Hcount, Hnamed. rewrite Harr in Hcount, Hnamed. simpl in Hcount, Hnamed.
  rewrite Hsplit in Hcount, Hnamed.
  apply Forall_app in Hnamed as (Hpre & (Hchain_named & Hpost)%Forall_app).
  set (item' := mkMember (member item) (mlen item) (score_add (score_hits item) d)).
  set (k' := set_kbucket k (<[mp.1 := <[mp.2 := item']> chain]> arr)).
  destruct (put_key_facts c kp k k' Hk) as (F1 & F2 & F3 & F4 & F5 & F6).
  assert (Hmem' : members_of k' = pre ++ <[mp.2 := item']> chain ++ post)
    by (unfold members_of; simpl; apply Hins).
  assert (Hmemk : members_of k = pre ++ chain ++ post)
    by (unfold members_of; rewrite Harr; exact Hsplit).
  rewrite Hmem', Hmemk in F4. rewrite !length_app, length_insert in F4.
  exists (put_key c kp k'). split.
  { unfold add_score, get_member.
    eapply runs_bind.
    - eapply runs_bind; [apply runs_get_key; exact Hk | cbn beta iota].
      eapply runs_bind; [apply runs_deref; exact Harr | cbn beta iota].
      eapply runs_bind; [apply runs_deref; exact Hchain | cbn beta iota].
      eapply runs_bind; [apply runs_deref; exact Hitem | cbn beta iota].
      apply runs_ret.
    - cbn beta iota. apply runs_ret. }
  split; [| split; [apply F6; [apply allocated_but_weaken; exact Hall | discriminate] |
    split; [reflexivity | split; [reflexivity | split; [exact F3 | lia]]]]].
  constructor.
  - rewrite F2. exact Hsize.
  - exact Hks.
  - exact Hms.
  - apply (F5 (Z.to_nat (msize c)) Hcells). unfold key_inv. rewrite Hmem'. simpl.
    split; [| split].
    + rewrite Hcount. f_equal. rewrite !length_app, length_insert. reflexivity.
    + apply Forall_app. split; [exact Hpre |]. apply Forall_app. split; [| exact Hpost].
      apply Forall_insert; [exact Hchain_named |]. simpl.
      exact (proj1 (Forall_lookup _ _) Hchain_named _ _ Hitem).
    + intros ? [= <-]. rewrite length_insert. apply Hlen. exact Harr.
  - rewrite F3. exact Hkeys.
  - replace (n_members (put_key c kp k')) with (n_members c) by lia.
    exact Hmem.
Qed.

Lemma runs_arg_str (l : list string) (i : nat) (s : string) :
  l !! i = Some s -> runs (arg_str (bulk_strings l) i) s.
Proof.
  intros H. unfold arg_str, bulk_strings; simpl.
  eapply runs_bind; [apply runs_deref; rewrite list_lookup_fmap, H; reflexivity |].
  apply runs_ret.
Qed.

Lemma runs_arg_len (l : list string) (i : nat) (s : string) :
  l !! i = Some s -> runs (arg_len (bulk_strings l) i) (strlen_Z s).
Proof.
  intros H. unfold arg_len, bulk_strings; simpl.
  eapply runs_bind; [apply runs_deref; rewrite list_lookup_fmap, H; reflexivity |].
  apply runs_ret.
Qed.

Section AddFacts.
Context {ext : Externals}.

Lemma hash_zincrby_runs (ht : cmdHash) (name k d m : string) :
  inv (z_cmds ht) -> allocated (z_cmds ht) ->
  exists z,
    runs (__hash_zincrby_cmd ht (bulk_strings [name; k; d; m])) (0, set_z_cmds ht z)
    /\ inv z /\ allocated z
    /\ ksize z = ksize (z_cmds ht) /\ msize z = msize (z_cmds ht)
    /\ (n_keys (z_cmds ht) <= n_keys z)%nat
    /\ (n_members (z_cmds ht) <= n_members z <= S (n_members (z_cmds ht)))%nat.
Proof.
  intros Hinv Hall.
  destruct (find_key_runs (z_cmds ht) k (strlen_Z k) Hinv)
    as (kp & c1 & R1 & I1 & Ks1 & Ms1 & K1 & NK1 & NM1 & A1).
  destruct (find_member_runs c1 kp m (strlen_Z m) I1 K1 (A1 Hall))
    as (mp & c2 & R2 & I2 & Ks2 & Ms2 & K2 & NK2 & NM2 & A2).
  destruct (add_score_runs c2 kp mp (strtod d) I2 A2 K2)
    as (c3 & R3 & I3 & A3 & Ks3 & Ms3 & NK3 & NM3).
  exists c3. split.
  { unfold __hash_zincrby_cmd.
    eapply runs_bind; [apply (runs_arg_str _ 1 k); reflexivity | cbn beta iota].
    eapply runs_bind; [apply (runs_arg_len _ 1 k); reflexivity | cbn beta iota].
    eapply runs_bind; [exact R1 | cbn beta iota].
    eapply runs_bind; [apply (runs_arg_str _ 3 m); reflexivity | cbn beta iota].
    eapply runs_bind; [apply (runs_arg_len _ 3 m); reflexivity | cbn beta iota].
    eapply runs_bind; [exact R2 | cbn beta iota].
    eapply runs_bind; [apply (runs_arg_str _ 2 d); reflexivity | cbn beta iota].
    eapply runs_bind; [exact R3 | cbn beta iota].
    apply runs_ret. }
  split; [exact I3 |]. split; [exact A3 |].
  split; [congruence |]. split; [congruence |]. split; lia.
Qed.

Lemma hash_sadd_members_runs (c : cmdHashContainer) (kp : key_ptr) (args : list string) :
  inv c -> is_Some (lookup_key c kp) -> allocated_but c (Some kp) ->
  exists c',
    runs (__hash_sadd_members c kp (map REDIS_REPLY_STRING args)) (0, c')
    /\ inv c' /\ is_Some (lookup_key c' kp)
    /\ (args <> [] -> allocated c')
    /\ ksize c' = ksize c /\ msize c' = msize c
    /\ n_keys c' = n_keys c.
Proof.
  revert c. induction args as [|a args IH]; intros c Hinv Hk Hall.
  - exists c. split; [apply runs_ret |]. split; [exact Hinv |]. split; [exact Hk |].
    split; [intros H; exfalso; apply H; reflexivity |]. repeat split.
  - destruct (find_member_runs c kp a (strlen_Z a) Hinv Hk Hall)
      as (mp & c1 & R1 & I1 & Ks1 & Ms1 & K1 & NK1 & NM1 & A1).
    destruct (IH c1 I1 (lookup_member_key _ _ _ K1) (allocated_but_weaken _ _ A1))
      as (c2 & R2 & I2 & K2 & A2 & Ks2 & Ms2 & NK2).
    exists c2. split.
    { simpl. eapply runs_bind; [apply runs_ret | cbn beta iota].
      eapply runs_bind; [exact R1 | cbn beta iota]. exact R2. }
    split; [exact I2 |]. split; [exact K2 |]. split.
    { intros _. destruct args as [|b args'].
      - (* the loop ends here *)
        simpl in R2. pose proof (runs_inj _ _ _ R2 (runs_ret (0, c1))) as [= ->]. exact A1.
      - apply A2. discriminate. }
    split; [congruence |]. split; [congruence | lia].
Qed.

Lemma hash_sadd_runs (ht : cmdHash) (name k a : string) (args : list string) :
  inv (s_cmds ht) -> allocated (s_cmds ht) ->
  exists s,
    runs (__hash_sadd_cmd ht (bulk_strings (name :: k :: a :: args))) (0, set_s_cmds ht s)
    /\ inv s /\ allocated s
    /\ ksize s = ksize (s_cmds ht) /\ msize s = msize (s_cmds ht)
    /\ (n_keys (s_cmds ht) <= n_keys s <= S (n_keys (s_cmds ht)))%nat.
Proof.
  intros Hinv Hall.
  destruct (find_key_runs (s_cmds ht) k (strlen_Z k) Hinv)
    as (kp & c1 & R1 & I1 & Ks1 & Ms1 & K1 & NK1 & NM1 & A1).
  destruct (hash_sadd_members_runs c1 kp (a :: args) I1 K1 (A1 Hall))
    as (c2 & R2 & I2 & K2 & A2 & Ks2 & Ms2 & NK2).
  exists c2. split.
  { unfold __hash_sadd_cmd.
    eapply runs_bind; [apply (runs_arg_str _ 1 k); reflexivity | cbn beta iota].
    eapply runs_bind; [apply (runs_arg_len _ 1 k); reflexivity | cbn beta iota].
    eapply runs_bind; [exact R1 | cbn beta iota].
    eapply runs_bind; [exact R2 | cbn beta iota].
    apply runs_ret. }
  split; [exact I2 |]. split; [apply A2; discriminate |].
  split; [congruence |]. split; [congruence | lia].
Qed.

End AddFacts.

(** ** Strings and buffers *)

Lemma append_nil_r (s : string) : String.append s "" = s.
Proof. induction s as [|c s IH]; simpl; [reflexivity | rewrite IH; reflexivity]. Qed.

Lemma append_assoc (a b c : string) :
  String.append (String.append a b) c = String.append a (String.append b c).
Proof. induction a as [|x a IH]; simpl; [reflexivity | rewrite IH; reflexivity]. Qed.

Lemma length_append (a b : string) :
  String.length (String.append a b) = (String.length a + String.length b)%nat.
Proof. induction a as [|x a IH]; simpl; [reflexivity | rewrite IH; reflexivity]. Qed.

Lemma first_bytes_all (s : string) : first_bytes (String.length s) s = s.
Proof. induction s as [|c s IH]; simpl; [reflexivity | rewrite IH; reflexivity]. Qed.

Lemma length_first_bytes (n : nat) (s : string) :
  (n <= String.length s)%nat -> String.length (first_bytes n s) = n.
Proof.
  revert s. induction n as [|n IH]; intros [|c s] H; simpl in *; try reflexivity; try lia.
  rewrite IH by lia. reflexivity.
Qed.

Lemma first_bytes_strlen (s : string) : first_bytes (Z.to_nat (strlen_Z s)) s = s.
Proof. unfold strlen_Z. rewrite Nat2Z.id. apply first_bytes_all. Qed.

Lemma cat_app (l1 l2 : list string) : cat (l1 ++ l2) = String.append (cat l1) (cat l2).
Proof.
  induction l1 as [|a l1 IH]; simpl; [reflexivity |].
  unfold cat in *. simpl. rewrite IH, append_assoc. reflexivity.
Qed.

Lemma cat_cons (a : string) (l : list string) : cat (a :: l) = String.append a (cat l).
Proof. reflexivity. Qed.

Lemma to_uint_le (x : Z) : 0 <= x -> to_uint x <= x.
Proof. intros H. unfold to_uint, UINT_MOD. apply Z.mod_le; lia. Qed.

Lemma strlen_truncated (cmd : string) : strlen_Z (truncated cmd) = to_uint (strlen_Z cmd).
Proof.
  unfold truncated, strlen_Z at 1.
  pose proof (to_uint_range (strlen_Z cmd)) as [H0 _].
  pose proof (to_uint_le (strlen_Z cmd)) as H1. unfold strlen_Z in *.
  rewrite length_first_bytes by lia. lia.
Qed.

Lemma strlen_append (a b : string) :
  strlen_Z (String.append a b) = strlen_Z a + strlen_Z b.
Proof. unfold strlen_Z. rewrite length_append. lia. Qed.

(** Copying [n] bytes behind the bytes written so far. *)
Lemma memcpy_at_end (b src : string) (n : Z) :
  memcpy_at b (strlen_Z b) src n = String.append b (first_bytes (Z.to_nat n) src).
Proof.
  unfold memcpy_at, strlen_Z. rewrite Nat2Z.id, first_bytes_all. reflexivity.
Qed.

Lemma cmdBufferAppend_runs (b : cmdBuffer) (cmd : string) (len n : Z) :
  pos b = strlen_Z (buf b) ->
  exists size,
    runs (cmdBufferAppend b cmd len n)
      (0, mkBuffer (String.append (buf b) (first_bytes (Z.to_nat len) cmd)) size
            (pos b + len) (uint_add (b_cmd_count b) n)).
Proof.
  intros Hpos. unfold cmdBufferAppend.
  destruct (b_size b <? pos b + len).
  - eexists. unfold cmdBufferGrow.
    eapply runs_bind; [step; apply runs_ret | cbn].
    rewrite Hpos, memcpy_at_end. apply runs_ret.
  - eexists. step. cbn. rewrite Hpos at 1. rewrite memcpy_at_end. apply runs_ret.
Qed.

Section PipelineFacts.
Context {ext : Externals}.

Lemma cmdBufferAddReply_runs (b : cmdBuffer) (r : redisReply) :
  pos b = strlen_Z (buf b) ->
  exists b',
    runs (cmdBufferAddReply b r) (0, b')
    /\ buf b' = String.append (buf b) (passed_bytes r)
    /\ pos b' = strlen_Z (buf b')
    /\ b_cmd_count b' = uint_add (b_cmd_count b) 1.
Proof.
  intros Hpos. unfold cmdBufferAddReply.
  set (cmd := redisFormatCommandArgv (map (reply_arg r) (element r))).
  destruct (cmdBufferAppend_runs b cmd (to_uint (strlen_Z cmd)) 1 Hpos) as [size Hrun].
  eexists. split; [step; exact Hrun |]. simpl.
  split; [reflexivity |]. split; [| reflexivity].
  fold (truncated cmd). rewrite strlen_append, strlen_truncated, Hpos. reflexivity.
Qed.

Lemma get_type_named (i : Z) (name : string) (args : list replyElement) (o : oracle) :
  __get_type (mkReply i (REDIS_REPLY_STRING name :: args)) o
  = Some (name_type name (Z.of_nat (S (length args))), o).
Proof.
  unfold __get_type, name_type, elements, arg_str, deref, bind, ret.
  cbn -[strncasecmp Z.of_nat Z.eqb Z.ltb sizeof_lit].
  destruct (Z.of_nat (S (length args)) =? 4); destruct (2 <? Z.of_nat (S (length args)));
    destruct (strncasecmp name "ZINCRBY" (sizeof_lit "ZINCRBY") =? 0);
    destruct (strncasecmp name "SADD" (sizeof_lit "SADD") =? 0); reflexivity.
Qed.

Lemma get_type_runs (l : list string) :
  exists t,
    runs (__get_type (bulk_strings l)) t
    /\ (t = TYPE_ZINCRBY -> exists n k d m, l = [n; k; d; m])
    /\ (t = TYPE_SADD -> exists n k a args, l = n :: k :: a :: args).
Proof.
  destruct l as [|n rest].
  { exists TYPE_UNSUPPORTED. split; [reflexivity | split; intros [=]]. }
  exists (name_type n (Z.of_nat (S (length rest)))). split.
  { unfold runs, bulk_strings. simpl map. rewrite get_type_named, length_map. reflexivity. }
  unfold name_type. split.
  - destruct (Z.of_nat (S (length rest)) =? 4) eqn:E4; simpl.
    + intros _. apply Z.eqb_eq in E4.
      destruct rest as [|k [|d [|m [|x rest]]]]; simpl in E4; try lia. eauto.
    + destruct ((2 <? Z.of_nat (S (length rest))) && _); intros [=].
  - destruct ((Z.of_nat (S (length rest)) =? 4) && _); [intros [=] |].
    destruct (2 <? Z.of_nat (S (length rest))) eqn:E2; simpl; [| intros [=]].
    intros _. apply Z.ltb_lt in E2.
    destruct rest as [|k [|a args]]; simpl in E2; try lia. eauto.
Qed.

Lemma unsupported_runs (r : redisReply) (t : cmdType) :
  runs (__get_type r) t ->
  unsupported r = match t with TYPE_UNSUPPORTED => true | _ => false end.
Proof. unfold runs, unsupported. intros ->. reflexivity. Qed.

Lemma cmdHashAdd_runs (ht : cmdHash) (l : list string) :
  hinv ht ->
  exists rc ht',
    runs (cmdHashAdd ht (bulk_strings l)) (rc, ht')
    /\ hinv ht'
    /\ _buf ht' = _buf ht /\ _size ht' = _size ht /\ _len ht' = _len ht
    /\ ksize (z_cmds ht') = ksize (z_cmds ht) /\ msize (z_cmds ht') = msize (z_cmds ht)
    /\ ksize (s_cmds ht') = ksize (s_cmds ht) /\ msize (s_cmds ht') = msize (s_cmds ht)
    /\ ((rc = 2 /\ unsupported (bulk_strings l) = true /\ ht' = ht)
        \/ (rc = 0 /\ unsupported (bulk_strings l) = false
            /\ (out_nodes ht <= out_nodes ht' <= S (out_nodes ht))%nat)).
Proof.
  intros (Iz & Az & Is & As).
  destruct (get_type_runs l) as (t & Rt & Hz & Hs).
  pose proof (unsupported_runs _ _ Rt) as Hu.
  unfold cmdHashAdd. destruct t.
  - destruct (Hz eq_refl) as (n & k & d & m & ->).
    destruct (hash_zincrby_runs ht n k d m Iz Az) as (z & R & I & A & Ks & Ms & NK & NM).
    exists 0, (set_z_cmds ht z). split; [eapply runs_bind; [exact Rt | exact R] |].
    split; [exact (conj I (conj A (conj Is As))) |].
    repeat (split; [first [reflexivity | assumption] |]).
    right. split; [reflexivity |]. split; [exact Hu |]. unfold out_nodes; simpl. lia.
  - destruct (Hs eq_refl) as (n & k & a & args & ->).
    destruct (hash_sadd_runs ht n k a args Is As) as (s & R & I & A & Ks & Ms & NK).
    exists 0, (set_s_cmds ht s). split; [eapply runs_bind; [exact Rt | exact R] |].
    split; [exact (conj Iz (conj Az (conj I A))) |].
    repeat (split; [first [reflexivity | assumption] |]).
    right. split; [reflexivity |]. split; [exact Hu |]. unfold out_nodes; simpl. lia.
  - exists 2, ht. split; [eapply runs_bind; [exact Rt | apply runs_ret] |].
    split; [exact (conj Iz (conj Az (conj Is As))) |].
    repeat (split; [reflexivity |]).
    left. repeat split. exact Hu.
Qed.

(** The driver loop on commands of bulk strings. *)
Lemma processBufferFile_runs (l : list (list string)) (ctx : optimizerContext) (n0 p0 : Z) :
  hinv (cmd_hash ctx) -> pos (cmd_buffer ctx) = strlen_Z (buf (cmd_buffer ctx)) ->
  cmd_count ctx = to_uint n0 -> b_cmd_count (cmd_buffer ctx) = to_uint p0 ->
  exists ctx',
    runs (processBufferFile ctx (commands l)) (0, ctx')
    /\ hinv (cmd_hash ctx')
    /\ stats ctx' = stats ctx
    /\ (_buf (cmd_hash ctx') = _buf (cmd_hash ctx)
        /\ _size (cmd_hash ctx') = _size (cmd_hash ctx)
        /\ _len (cmd_hash ctx') = _len (cmd_hash ctx))
    /\ buf (cmd_buffer ctx')
       = String.append (buf (cmd_buffer ctx))
           (cat (map passed_bytes (List.filter unsupported (map bulk_strings l))))
    /\ pos (cmd_buffer ctx') = strlen_Z (buf (cmd_buffer ctx'))
    /\ cmd_count ctx' = to_uint (n0 + Z.of_nat (length l))
    /\ b_cmd_count (cmd_buffer ctx')
       = to_uint (p0 + Z.of_nat (length (List.filter unsupported (map bulk_strings l))))
    /\ (out_nodes (cmd_hash ctx')
        + length (List.filter unsupported (map bulk_strings l))
        <= out_nodes (cmd_hash ctx) + length l)%nat.
Proof.
  revert ctx n0 p0. induction l as [|c l IH]; intros ctx n0 p0 Hh Hpos Hn Hp.
  - exists ctx. split; [apply runs_ret |]. simpl.
    rewrite append_nil_r, !Z.add_0_r.
    split; [exact Hh |]. split; [reflexivity |]. split; [repeat split |].
    split; [reflexivity |]. split; [exact Hpos |]. split; [exact Hn |].
    split; [exact Hp | lia].
  - destruct (cmdHashAdd_runs (cmd_hash ctx) c Hh)
      as (rc & h & R & Hh' & B1 & B2 & B3 & _ & _ & _ & _ & Hcase).
    destruct Hcase as [(-> & Hu & ->) | (-> & Hu & Hnodes)].
    + (* passed through *)
      destruct (cmdBufferAddReply_runs (cmd_buffer ctx) (bulk_strings c) Hpos)
        as (b & Rb & Eb & Pb & Cb).
      set (ctx1 := mkContext (stats ctx) (uint_add (cmd_count ctx) 1) b (cmd_hash ctx)).
      destruct (IH ctx1 (n0 + 1) (p0 + 1)) as (ctx' & R' & H1 & H2 & H3 & H4 & H5 & H6 & H7 & H8).
      { exact Hh. }
      { exact Pb. }
      { simpl. rewrite Hn. apply uint_add_to_uint. }
      { simpl. rewrite Cb, Hp. apply uint_add_to_uint. }
      exists ctx'. split.
      { simpl. eapply runs_bind; [exact R | cbn beta iota].
        eapply runs_bind; [| exact R'].
        change (2 =? cmdType_int TYPE_UNSUPPORTED) with true. cbn beta iota.
        eapply runs_bind; [exact Rb | apply runs_ret]. }
      simpl. rewrite Hu. simpl.
      split; [exact H1 |]. split; [exact H2 |]. split; [exact H3 |].
      split; [rewrite H4; simpl; rewrite Eb, append_assoc; reflexivity |].
      split; [exact H5 |].
      split; [rewrite H6; f_equal; lia |].
      split; [rewrite H7; f_equal; lia |].
      simpl in H8. lia.
    + (* aggregated *)
      set (ctx1 := mkContext (stats ctx) (uint_add (cmd_count ctx) 1) (cmd_buffer ctx) h).
      destruct (IH ctx1 (n0 + 1) p0) as (ctx' & R' & H1 & H2 & H3 & H4 & H5 & H6 & H7 & H8).
      { exact Hh'. }
      { exact Hpos. }
      { simpl. rewrite Hn. apply uint_add_to_uint. }
      { exact Hp. }
      exists ctx'. split.
      { simpl. eapply runs_bind; [exact R | cbn beta iota].
        eapply runs_bind; [| exact R'].
        change (0 =? cmdType_int TYPE_UNSUPPORTED) with false. cbn beta iota.
        apply runs_ret. }
      simpl. rewrite Hu.
      split; [exact H1 |]. split; [exact H2 |].
      split; [simpl in H3; destruct H3 as (? & ? & ?); repeat split; congruence |].
      split; [exact H4 |]. split; [exact H5 |].
      split; [rewrite H6; f_equal; lia |].
      split; [exact H7 |].
      simpl in H8. lia.
Qed.

Lemma inv_fresh (ksize msize : Z) :
  0 < ksize -> 0 < msize -> inv (fresh_container ksize msize).
Proof.
  intros Hk Hm. constructor; simpl; try assumption.
  - apply length_replicate.
  - apply Forall_replicate. constructor.
  - unfold n_keys; simpl. rewrite weight_replicate_nil. reflexivity.
  - unfold n_members; simpl. rewrite weight_replicate_nil. reflexivity.
Qed.

Lemma allocated_fresh (ksize msize : Z) : allocated (fresh_container ksize msize).
Proof.
  intros i j chain k Hi Hj _. simpl in Hi.
  apply lookup_replicate_1 in Hi as [-> _]. discriminate.
Qed.

Lemma hinv_fresh (ksize msize : Z) :
  0 < ksize -> 0 < msize -> hinv (fresh_hash ksize msize).
Proof.
  intros Hk Hm. pose proof (inv_fresh _ _ Hk Hm) as I.
  pose proof (allocated_fresh ksize msize) as A.
  exact (conj I (conj A (conj I A))).
Qed.

End PipelineFacts.

(** ** The flush *)

Lemma cat_map_concat {A} (g : A -> string) (ll : list (list A)) :
  cat (map (fun l => cat (map g l)) ll) = cat (map g (concat ll)).
Proof.
  induction ll as [|l ll IH]; [reflexivity |].
  simpl. rewrite map_app, cat_app, <- IH. reflexivity.
Qed.

Lemma cat_map_keys (g : cmdKeyList -> string) (b : list (list key_cell)) :
  cat (map (fun chain => cat (map g (omap cell_key chain))) b)
  = cat (map g (omap cell_key (concat b))).
Proof.
  induction b as [|chain b IH]; [reflexivity |].
  simpl. rewrite omap_app, map_app, cat_app, <- IH. reflexivity.
Qed.

Lemma cat_flat_map {A B} (g : B -> string) (h : A -> list B) (l : list A) :
  cat (map g (flat_map h l)) = cat (map (fun x => cat (map g (h x))) l).
Proof.
  induction l as [|x l IH]; [reflexivity |].
  simpl. rewrite map_app, cat_app, IH. reflexivity.
Qed.

Lemma emits_ret (sc zc : cmdHashContainer) : emits sc zc (fun ht => ret (0, ht)) "".
Proof. intros b size. exists size. rewrite append_nil_r. apply runs_ret. Qed.

(** Two steps in a row, the second one skipped when the first fails. *)
Lemma emits_then (sc zc : cmdHashContainer) (m1 m2 : cmdHash -> M (Z * cmdHash))
    (w1 w2 : string) :
  emits sc zc m1 w1 -> emits sc zc m2 w2 ->
  emits sc zc (fun ht => let* (rc, ht) := m1 ht in
                         if rc <? 0 then ret (-1, ht) else m2 ht)
    (String.append w1 w2).
Proof.
  intros H1 H2 b size.
  destruct (H1 b size) as [size1 R1]. destruct (H2 (String.append b w1) size1) as [size2 R2].
  exists size2. rewrite <- append_assoc.
  eapply runs_bind; [exact R1 | cbn]. exact R2.
Qed.

Lemma append_buffer_emits (sc zc : cmdHashContainer) (cmd : string) (len : Z) :
  0 <= len <= strlen_Z cmd ->
  emits sc zc (fun ht => __append_buffer ht cmd len) (first_bytes (Z.to_nat len) cmd).
Proof.
  intros Hlen b size.
  assert (E : strlen_Z (String.append b (first_bytes (Z.to_nat len) cmd)) = strlen_Z b + len).
  { rewrite strlen_append. unfold strlen_Z in *. rewrite length_first_bytes by lia. lia. }
  rewrite E. unfold __append_buffer. simpl.
  destruct (size <? strlen_Z b + len).
  - eexists. unfold __realloc_buffer.
    eapply runs_bind; [step; apply runs_ret | cbn].
    eapply runs_bind; [apply runs_ret | cbn beta iota].
    rewrite memcpy_at_end. apply runs_ret.
  - eexists. eapply runs_bind; [apply runs_ret | cbn].
    eapply runs_bind; [apply runs_ret | cbn beta iota].
    rewrite memcpy_at_end. apply runs_ret.
Qed.

Lemma for_buckets_emits {A} (sc zc : cmdHashContainer)
    (body : cmdHash -> list A -> M (Z * cmdHash)) (g : list A -> string)
    (arr : list (list A)) :
  (forall chain, In chain arr -> emits sc zc (fun ht => body ht chain) (g chain)) ->
  forall n i, (i + n = length arr)%nat ->
    emits sc zc (fun ht => for_buckets body ht arr i n) (cat (map g (drop i arr))).
Proof.
  intros Hbody. induction n as [|n IH]; intros i Hi.
  - rewrite drop_ge by lia. apply emits_ret.
  - destruct (lookup_lt_is_Some_2 arr i) as [chain Hchain]; [lia |].
    rewrite (drop_S _ _ _ Hchain). simpl map. rewrite cat_cons.
    intros b size. simpl for_buckets.
    assert (Hin : In chain arr) by (apply list_elem_of_In; eapply list_elem_of_lookup_2; eauto).
    destruct (emits_then sc zc _ _ _ _ (Hbody chain Hin) (IH (S i) ltac:(lia)) b size)
      as [size' R].
    exists size'. eapply runs_bind; [apply runs_deref; exact Hchain | exact R].
Qed.

Lemma for_keys_emits (sc zc : cmdHashContainer)
    (f : cmdHash -> cmdKeyList -> M (Z * cmdHash)) (g : cmdKeyList -> string)
    (chain : list key_cell) :
  (forall k, In (Live k) chain -> emits sc zc (fun ht => f ht k) (g k)) ->
  Forall (fun cell => cell <> Freed) chain ->
  emits sc zc (fun ht => for_keys f ht chain) (cat (map g (omap cell_key chain))).
Proof.
  intros Hf Hlive. induction Hlive as [|cell chain Hc _ IH].
  - apply emits_ret.
  - destruct cell as [k|]; [| congruence]. simpl omap. simpl map. rewrite cat_cons.
    apply (emits_then sc zc (fun ht => f ht k) (fun ht => for_keys f ht chain)).
    + apply Hf. left. reflexivity.
    + apply IH. intros k' Hk'. apply Hf. right. exact Hk'.
Qed.

Section FlushFacts.
Context {ext : Externals}.

Lemma zincrby_chain_emits (sc zc : cmdHashContainer) (k : cmdKeyList)
    (chain : list cmdMemberList) :
  in_block (key k, klen k) = true ->
  Forall (fun item => member item <> None) chain ->
  Forall item_readable chain ->
  emits sc zc (fun ht => __append_zincrby_chain ht k chain)
    (cat (map (fun item => zincrby_bytes (k, item)) chain)).
Proof.
  intros Hkb H. induction H as [|item chain Hm _ IH]; intros Hread.
  - apply emits_ret.
  - apply Forall_cons in Hread as [Hitem Hread]. specialize (IH Hread).
    simpl map. rewrite cat_cons. intros b size.
    destruct (member item) as [mstr|] eqn:Em; [| congruence].
    unfold item_readable in Hitem. rewrite Em in Hitem. simpl default in Hitem.
    set (cmd := zincrby_bytes (k, item)).
    assert (Hcmd : redisFormatZincrby (key k, klen k) (score_of (score_hits item))
                     (mstr, mlen item) = cmd)
      by (unfold cmd, zincrby_bytes; simpl; rewrite Em; reflexivity).
    assert (Hlen : 0 <= strlen_Z cmd <= strlen_Z cmd) by (unfold strlen_Z; lia).
    pose proof (append_buffer_emits sc zc cmd (strlen_Z cmd) Hlen) as Happ.
    rewrite first_bytes_strlen in Happ.
    simpl __append_zincrby_chain.
    assert (Hgrow : exists size1,
              runs (if size <? strlen_Z b + strlen_Z cmd
                    then __realloc_buffer (mkHash sc zc (Some b) size (strlen_Z b)) (strlen_Z cmd)
                    else ret (0, mkHash sc zc (Some b) size (strlen_Z b)))
                (0, mkHash sc zc (Some b) size1 (strlen_Z b))).
    { destruct (size <? strlen_Z b + strlen_Z cmd).
      - eexists. unfold __realloc_buffer. step. apply runs_ret.
      - eexists. apply runs_ret. }
    destruct Hgrow as [size1 Rg].
    destruct (Happ b size1) as [size2 Ra].
    destruct (IH (String.append b cmd) size2) as [size3 Rr].
    exists size3. rewrite <- append_assoc.
    eapply runs_bind; [apply runs_deref; exact Em | cbn beta iota zeta].
    eapply runs_bind; [unfold read_block; rewrite Hkb; apply runs_ret | cbn beta iota zeta].
    eapply runs_bind; [unfold read_block; rewrite Hitem; apply runs_ret | cbn beta iota zeta].
    rewrite Hcmd. simpl _size. simpl _len.
    eapply runs_bind; [exact Rg | cbn].
    eapply runs_bind; [exact Ra | cbn beta iota]. exact Rr.
Qed.

Lemma zincrby_key_emits (sc zc : cmdHashContainer) (k : cmdKeyList) :
  key_inv (Z.to_nat (msize zc)) k -> kbucket k <> None -> key_readable k ->
  emits sc zc (fun ht => __append_zincrby_key_cmds ht k)
    (cat (map zincrby_bytes (map (fun item => (k, item)) (members_of k)))).
Proof.
  intros (_ & Hnamed & Hlen) Hk (Hkb & Hread) b size.
  destruct (kbucket k) as [arr|] eqn:Earr; [| congruence].
  unfold members_of in *. rewrite Earr in *. simpl in Hnamed, Hread |- *.
  rewrite map_map, <- cat_map_concat.
  destruct (for_buckets_emits sc zc (fun ht chain => __append_zincrby_chain ht k chain)
              (fun chain => cat (map (fun item => zincrby_bytes (k, item)) chain)) arr)
    with (n := length arr) (i := 0%nat) (b := b) (size := size) as [size' R].
  { intros chain Hin. apply zincrby_chain_emits; [exact Hkb | |].
    - apply Forall_concat in Hnamed. rewrite Forall_forall in Hnamed. apply Hnamed.
      apply list_elem_of_In. exact Hin.
    - apply Forall_concat in Hread. rewrite Forall_forall in Hread. apply Hread.
      apply list_elem_of_In. exact Hin. }
  { reflexivity. }
  exists size'. unfold __append_zincrby_key_cmds.
  eapply runs_bind; [apply runs_deref; exact Earr | cbn beta iota].
  simpl msize. rewrite <- (Hlen arr eq_refl). exact R.
Qed.

Lemma inv_cells_live (c : cmdHashContainer) (chain : list key_cell) :
  inv c -> In chain (bucket c) -> Forall (fun cell => cell <> Freed) chain.
Proof.
  intros [_ _ _ Hcells _ _] Hin.
  rewrite Forall_forall in Hcells. apply list_elem_of_In, Hcells in Hin.
  eapply Forall_impl; [exact Hin |]. intros cell (k & -> & _). discriminate.
Qed.

Lemma inv_cell_key (c : cmdHashContainer) (chain : list key_cell) (k : cmdKeyList) :
  inv c -> allocated c -> In chain (bucket c) -> In (Live k) chain ->
  key_inv (Z.to_nat (msize c)) k /\ kbucket k <> None.
Proof.
  intros Hinv Hall Hin Hk.
  apply list_elem_of_In, list_elem_of_lookup in Hin as [i Hi].
  apply list_elem_of_In, list_elem_of_lookup in Hk as [j Hj].
  split.
  - apply (inv_lookup_key c (i, j) k Hinv). apply lookup_key_Some. eauto.
  - eapply (Hall i j); eauto; discriminate.
Qed.

Lemma readable_cell (c : cmdHashContainer) (chain : list key_cell) (k : cmdKeyList) :
  readable c -> In chain (bucket c) -> In (Live k) chain -> key_readable k.
Proof.
  intros Hread Hin Hk. unfold readable in Hread. rewrite Forall_forall in Hread.
  apply Hread. unfold keys_of. apply list_elem_of_omap. exists (Live k).
  split; [| reflexivity]. apply list_elem_of_In, in_concat. exists chain. split; assumption.
Qed.

Lemma zincrby_cmds_emits (sc zc : cmdHashContainer) :
  inv zc -> allocated zc -> readable zc ->
  emits sc zc __append_zincrby_cmds (cat (map zincrby_bytes (entries zc))).
Proof.
  intros Hinv Hall Hread b size. unfold entries, keys_of.
  rewrite cat_flat_map.
  rewrite <- (cat_map_keys
    (fun k => cat (map zincrby_bytes (map (fun item => (k, item)) (members_of k))))).
  destruct (for_buckets_emits sc zc (for_keys __append_zincrby_key_cmds)
              (fun chain => cat (map (fun k => cat (map zincrby_bytes
                 (map (fun item => (k, item)) (members_of k)))) (omap cell_key chain)))
              (bucket zc))
    with (n := length (bucket zc)) (i := 0%nat) (b := b) (size := size) as [size' R].
  { intros chain Hin. apply for_keys_emits.
    - intros k Hk. destruct (inv_cell_key zc chain k Hinv Hall Hin Hk) as [H1 H2].
      apply zincrby_key_emits; try assumption. eapply readable_cell; eauto.
    - eapply inv_cells_live; eauto. }
  { reflexivity. }
  exists size'. unfold __append_zincrby_cmds. simpl z_cmds.
  rewrite <- (inv_size zc Hinv). exact R.
Qed.

Lemma sadd_chain_args_runs (chain : list cmdMemberList) :
  Forall (fun item => member item <> None) chain ->
  runs (sadd_chain_args chain)
    (map (fun item => (default "" (member item), mlen item)) chain).
Proof.
  intros H. induction H as [|item chain Hm _ IH]; [apply runs_ret |].
  simpl. destruct (member item) as [mstr|] eqn:Em; [| congruence].
  eapply runs_bind; [apply runs_ret | cbn beta iota].
  eapply runs_bind; [exact IH | apply runs_ret].
Qed.

Lemma sadd_member_args_runs (arr : list (list cmdMemberList)) :
  Forall (fun item => member item <> None) (concat arr) ->
  forall n i, (i + n = length arr)%nat ->
    runs (sadd_member_args arr i n)
      (map (fun item => (default "" (member item), mlen item)) (concat (drop i arr))).
Proof.
  intros Hnamed. induction n as [|n IH]; intros i Hi.
  - rewrite drop_ge by lia. apply runs_ret.
  - destruct (lookup_lt_is_Some_2 arr i) as [chain Hchain]; [lia |].
    rewrite (drop_S _ _ _ Hchain). simpl concat. rewrite map_app. simpl.
    eapply runs_bind; [apply runs_deref; exact Hchain | cbn beta iota].
    eapply runs_bind; [apply sadd_chain_args_runs | cbn beta iota].
    { apply Forall_concat in Hnamed. rewrite Forall_forall in Hnamed. apply Hnamed.
      eapply list_elem_of_lookup_2; eauto. }
    eapply runs_bind; [apply IH; lia | apply runs_ret].
Qed.

Lemma sadd_argv_in_block (k : cmdKeyList) :
  key_readable k -> forallb in_block (sadd_argv k) = true.
Proof.
  intros (Hkb & Hread). unfold sadd_argv. cbn [forallb]. rewrite Hkb.
  change (in_block ("SADD", strlen_Z "SADD")) with true. cbn [andb].
  induction Hread as [|item l Hitem _ IH]; [reflexivity |].
  cbn [map forallb]. rewrite IH. unfold item_readable in Hitem. rewrite Hitem. reflexivity.
Qed.

Lemma sadd_key_emits (sc zc : cmdHashContainer) (k : cmdKeyList) :
  key_inv (Z.to_nat (msize sc)) k -> kbucket k <> None -> key_readable k -> sadd_fits k ->
  emits sc zc (fun ht => __append_sadd_key_cmd ht k) (sadd_bytes k).
Proof.
  intros (Hcount & Hnamed & Hlen) Hk Hread (Hfit1 & Hfit2) b size.
  destruct (kbucket k) as [arr|] eqn:Earr; [| congruence].
  assert (Hmem : members_of k = concat arr) by (unfold members_of; rewrite Earr; reflexivity).
  set (cmd := redisFormatCommandArgv (sadd_argv k)) in *.
  assert (Hlen' : 0 <= to_uint (strlen_Z cmd) <= strlen_Z cmd).
  { split; [apply to_uint_range | apply to_uint_le; unfold strlen_Z; lia]. }
  destruct (append_buffer_emits sc zc cmd (to_uint (strlen_Z cmd)) Hlen' b size) as [size' R].
  exists size'. unfold __append_sadd_key_cmd.
  step. step.
  eapply runs_bind; [apply runs_deref; exact Earr | cbn beta iota].
  eapply runs_bind.
  { simpl msize. rewrite <- (Hlen arr eq_refl).
    apply (sadd_member_args_runs arr); [rewrite <- Hmem; exact Hnamed | reflexivity]. }
  cbn beta iota. rewrite drop_0, <- Hmem. fold (sadd_argv k).
  match goal with |- context [negb ?c] => assert (Hargc : c = true) end.
  { apply Z.eqb_eq. rewrite Hcount, uint_add_to_uint.
    unfold sadd_argv. simpl length. rewrite length_map.
    rewrite to_uint_small; [lia |]. split; [lia | ].
    replace (Z.of_nat (S (S (length (members_of k))))) with
      (Z.of_nat (length (members_of k)) + 2) in * by lia. lia. }
  rewrite Hargc. cbn [negb]. cbn beta iota.
  rewrite (sadd_argv_in_block k Hread). cbn [negb]. cbn beta iota. fold cmd.
  destruct (to_uint (strlen_Z cmd) <? 1) eqn:E; [apply Z.ltb_lt in E; lia |].
  exact R.
Qed.

Lemma sadd_cmds_emits (sc zc : cmdHashContainer) :
  inv sc -> allocated sc -> readable sc -> Forall sadd_fits (keys_of sc) ->
  emits sc zc __append_sadd_cmds (cat (map sadd_bytes (keys_of sc))).
Proof.
  intros Hinv Hall Hread Hfits b size. unfold keys_of.
  rewrite <- (cat_map_keys sadd_bytes).
  destruct (for_buckets_emits sc zc (for_keys __append_sadd_key_cmd)
              (fun chain => cat (map sadd_bytes (omap cell_key chain))) (bucket sc))
    with (n := length (bucket sc)) (i := 0%nat) (b := b) (size := size) as [size' R].
  { intros chain Hin. apply for_keys_emits.
    - intros k Hk. destruct (inv_cell_key sc chain k Hinv Hall Hin Hk) as [H1 H2].
      apply sadd_key_emits; try assumption; [eapply readable_cell; eauto |].
      rewrite Forall_forall in Hfits. apply Hfits.
      unfold keys_of. apply list_elem_of_omap. exists (Live k). split; [| reflexivity].
      apply list_elem_of_In, in_concat. exists chain. split; assumption.
    - eapply inv_cells_live; eauto. }
  { reflexivity. }
  exists size'. unfold __append_sadd_cmds. simpl s_cmds.
  rewrite <- (inv_size sc Hinv). exact R.
Qed.

(** The flush of a table that has not been flushed before. *)
Lemma cmdHashGetCommands_runs (ht : cmdHash) :
  hinv ht -> _buf ht = None -> _len ht = 0 ->
  readable (z_cmds ht) -> readable (s_cmds ht) ->
  Forall sadd_fits (keys_of (s_cmds ht)) ->
  let w := String.append (zincrby_part ht) (sadd_part ht) in
  exists size,
    runs (cmdHashGetCommands ht)
      (0, Some (Some w, strlen_Z w), mkHash (s_cmds ht) (z_cmds ht) (Some w) size (strlen_Z w)).
Proof.
  intros (Iz & Az & Is & As) Hbuf Hlen Rz Rs Hfits w.
  destruct (zincrby_cmds_emits (s_cmds ht) (z_cmds ht) Iz Az Rz "" (_size ht)) as [size1 R1].
  destruct (sadd_cmds_emits (s_cmds ht) (z_cmds ht) Is As Rs Hfits
              (String.append "" (zincrby_part ht)) size1) as [size2 R2].
  simpl String.append in R1, R2. fold (zincrby_part ht) in R1.
  exists size2. unfold cmdHashGetCommands, __flush_buffer. rewrite Hbuf.
  step. rewrite Hlen. change 0 with (strlen_Z "").
  eapply runs_bind; [exact R1 | cbn].
  eapply runs_bind; [exact R2 | cbn]. apply runs_ret.
Qed.

Lemma cmdHashGetCount_inv (ht : cmdHash) :
  hinv ht -> cmdHashGetCount ht = to_uint (Z.of_nat (out_nodes ht)).
Proof.
  intros (Iz & _ & Is & _). unfold cmdHashGetCount, out_nodes.
  rewrite (inv_members _ Iz), (inv_keys _ Is). unfold to_uint.
  rewrite <- Zplus_mod. f_equal. lia.
Qed.

End FlushFacts.

(** ** The whole run *)

Lemma weight1_keys (l : list key_cell) : weight1 key_weight l = length (omap cell_key l).
Proof.
  induction l as [|[k|] l IH]; [reflexivity | |]; unfold weight1 in *; simpl; rewrite IH;
    reflexivity.
Qed.

Lemma weight1_members (l : list key_cell) :
  weight1 member_weight l
  = length (flat_map (fun k => map (fun item => (k, item)) (members_of k)) (omap cell_key l)).
Proof.
  induction l as [|[k|] l IH]; [reflexivity | |]; unfold weight1 in *; simpl; rewrite IH.
  - rewrite length_app, length_map. reflexivity.
  - reflexivity.
Qed.

Lemma n_keys_length (c : cmdHashContainer) : n_keys c = length (keys_of c).
Proof. unfold n_keys, keys_of. rewrite weight_concat. apply weight1_keys. Qed.

Lemma n_members_length (c : cmdHashContainer) : n_members c = length (entries c).
Proof. unfold n_members, entries, keys_of. rewrite weight_concat. apply weight1_members. Qed.

Section RunFacts.
Context {ext : Externals}.

Lemma appendAggCommands_runs (ctx : optimizerContext) :
  hinv (cmd_hash ctx) -> _buf (cmd_hash ctx) = None -> _len (cmd_hash ctx) = 0 ->
  pos (cmd_buffer ctx) = strlen_Z (buf (cmd_buffer ctx)) ->
  stats ctx = true \/ flushable (cmd_hash ctx) ->
  exists ctx',
    runs (appendAggCommands ctx) (0, ctx')
    /\ stats ctx' = stats ctx
    /\ cmd_count ctx' = cmd_count ctx
    /\ b_cmd_count (cmd_buffer ctx')
       = to_uint (b_cmd_count (cmd_buffer ctx) + Z.of_nat (out_nodes (cmd_hash ctx)))
    /\ pos (cmd_buffer ctx') = strlen_Z (buf (cmd_buffer ctx'))
    /\ (stats ctx = false ->
        buf (cmd_buffer ctx')
        = String.append (buf (cmd_buffer ctx))
            (String.append (zincrby_part (cmd_hash ctx)) (sadd_part (cmd_hash ctx)))).
Proof.
  intros Hh Hbuf Hlen Hpos Hmode. unfold appendAggCommands.
  destruct (stats ctx) eqn:Estat; cbn [negb].
  - eexists. split; [apply runs_ret |]. simpl.
    split; [reflexivity |]. split; [reflexivity |].
    split; [rewrite (cmdHashGetCount_inv _ Hh); unfold uint_add, to_uint;
            rewrite Zplus_mod_idemp_r; reflexivity |].
    split; [exact Hpos | intros [=]].
  - destruct Hmode as [[=] | (Rz & Rs & Hfits)].
    destruct (cmdHashGetCommands_runs (cmd_hash ctx) Hh Hbuf Hlen Rz Rs Hfits) as [size R].
    set (w := String.append (zincrby_part (cmd_hash ctx)) (sadd_part (cmd_hash ctx))) in *.
    set (h := mkHash (s_cmds (cmd_hash ctx)) (z_cmds (cmd_hash ctx)) (Some w) size
                (strlen_Z w)) in *.
    destruct (cmdBufferAppend_runs (cmd_buffer ctx) w (strlen_Z w) (cmdHashGetCount h) Hpos)
      as [size' Rb].
    rewrite first_bytes_strlen in Rb.
    eexists. split.
    { eapply runs_bind; [exact R | cbn].
      eapply runs_bind; [apply runs_ret | cbn].
      eapply runs_bind; [apply runs_ret | cbn].
      eapply runs_bind; [exact Rb | cbn]. apply runs_ret. }
    simpl. split; [reflexivity |]. split; [reflexivity |].
    split; [| split; [| reflexivity]].
    + assert (Hh' : hinv h) by exact Hh.
      rewrite (cmdHashGetCount_inv _ Hh'). unfold uint_add, to_uint.
      rewrite Zplus_mod_idemp_r. reflexivity.
    + rewrite strlen_append, Hpos. reflexivity.
Qed.

End RunFacts.

(** ** One key and one member, added again and again *)

Lemma strncmp_strndup_l (s : string) (n : nat) : strncmp (c_str (first_bytes n s)) s n = 0.
Proof.
  revert s. induction n as [|n IH]; intros s; [reflexivity |].
  destruct s as [|c s]; [reflexivity |]. cbn [first_bytes c_str].
  destruct (is_nul c) eqn:E.
  - assert (E' : code c = 0) by (apply Z.eqb_eq; exact E).
    cbn [strncmp head]. change (code NUL) with 0. rewrite E'. reflexivity.
  - cbn [strncmp head tail]. rewrite Z.eqb_refl. cbn [negb]. rewrite E. apply IH.
Qed.

Lemma strncmp_strndup_r (s : string) (n : nat) : strncmp s (c_str (first_bytes n s)) n = 0.
Proof.
  revert s. induction n as [|n IH]; intros s; [reflexivity |].
  destruct s as [|c s]; [reflexivity |]. cbn [first_bytes c_str].
  destruct (is_nul c) eqn:E.
  - assert (E' : code c = 0) by (apply Z.eqb_eq; exact E).
    cbn [strncmp head]. change (code NUL) with 0. rewrite E'. cbn [Z.eqb negb].
    rewrite E. reflexivity.
  - cbn [strncmp head tail]. rewrite Z.eqb_refl. cbn [negb]. rewrite E. apply IH.
Qed.

Lemma c_str_nul_free (s : string) : nul_free s = true -> c_str s = s.
Proof.
  induction s as [|c s IH]; [reflexivity |]. simpl.
  intros [H1 H2]%andb_true_iff. apply negb_true_iff in H1. rewrite H1, IH; auto.
Qed.

Lemma strndup_nul_free (s : string) : nul_free s = true -> strndup s (strlen_Z s) = s.
Proof.
  intros H. unfold strndup. rewrite first_bytes_strlen. apply c_str_nul_free. exact H.
Qed.

Lemma alter_insert_eq {A} (f : A -> A) (l : list A) (i : nat) (x : A) :
  (i < length l)%nat -> alter f i (<[i := x]> l) = <[i := f x]> l.
Proof.
  intros H. rewrite (alter_lookup f _ i x) by (apply list_lookup_insert_eq; exact H).
  apply list_insert_insert_eq.
Qed.

Lemma uint_add_0_1 : uint_add 0 1 = 1.
Proof. reflexivity. Qed.

Lemma hits_incr_small (u : Z) : 0 <= u < UINT_MOD -> hits_incr u = to_uint (u + 1).
Proof.
  intros H. unfold hits_incr, hits_of, uint_add.
  rewrite Z.div_small by exact H. rewrite (Z.mod_small u) by exact H. lia.
Qed.

Lemma hits_iter (n : nat) : Nat.iter n hits_incr 0 = to_uint (Z.of_nat n).
Proof.
  induction n as [|n IH]; [reflexivity |].
  simpl Nat.iter. rewrite IH, hits_incr_small by apply to_uint_range.
  unfold to_uint. rewrite Zplus_mod_idemp_l. f_equal. lia.
Qed.

Lemma concat_replicate_nil {A} (n : nat) : concat (replicate n (@nil A)) = [].
Proof. induction n as [|n IH]; [reflexivity | exact IH]. Qed.

Lemma concat_one {A} (n i : nat) (l : list A) :
  (i < n)%nat -> concat (<[i := l]> (replicate n [])) = l.
Proof.
  revert i. induction n as [|n IH]; intros [|i] H; try lia; simpl.
  - rewrite concat_replicate_nil. apply app_nil_r.
  - apply IH. lia.
Qed.

Section OneKey.
Variables (ks ms : Z) (k m : string).
Hypotheses (Hksize : 0 < ks) (Hmsize : 0 < ms).

Let hk := GET_BUCKET k (strlen_Z k) ks.
Let hm := GET_BUCKET m (strlen_Z m) ms.

Lemma hk_lt : (hk < Z.to_nat ks)%nat.
Proof. apply GET_BUCKET_lt. exact Hksize. Qed.

Lemma hm_lt : (hm < Z.to_nat ms)%nat.
Proof. apply GET_BUCKET_lt. exact Hmsize. Qed.

Lemma lookup_one_key (node : cmdKeyList) (nm : Z) :
  lookup_key (one_key ks ms k node nm) (hk, 0%nat) = Some node.
Proof.
  apply lookup_key_Some. exists [Live node]. split; [| reflexivity].
  simpl. apply list_lookup_insert_eq. rewrite length_replicate. apply hk_lt.
Qed.

Lemma put_one_key (node node' : cmdKeyList) (nm : Z) :
  put_key (one_key ks ms k node nm) (hk, 0%nat) node' = one_key ks ms k node' nm.
Proof.
  unfold put_key, set_bucket, one_key. simpl. f_equal.
  rewrite alter_insert_eq by (rewrite length_replicate; apply hk_lt). reflexivity.
Qed.

Lemma find_key_fresh :
  runs (__find_key (fresh_container ks ms) k (strlen_Z k))
    (Some (hk, 0%nat), one_key ks ms k (new_key k) 0).
Proof.
  unfold __find_key. fold hk.
  eapply runs_bind; [apply runs_deref; apply lookup_replicate_2; apply hk_lt | cbn beta iota].
  step. unfold __find_key_copy. step. apply runs_ret.
Qed.

Lemma find_key_again (node : cmdKeyList) (nm : Z) :
  key node = strndup k (strlen_Z k) -> klen node = strlen_Z k ->
  runs (__find_key (one_key ks ms k node nm) k (strlen_Z k))
    (Some (hk, 0%nat), one_key ks ms k node nm).
Proof.
  intros Hkey Hlen. unfold __find_key. fold hk.
  eapply runs_bind.
  { apply runs_deref. simpl. apply list_lookup_insert_eq.
    rewrite length_replicate. apply hk_lt. }
  cbn beta iota. simpl scan_keys.
  rewrite Hlen, Z.eqb_refl, Hkey. unfold strndup.
  rewrite strncmp_strndup_l. simpl. apply runs_ret.
Qed.

Lemma find_member_first :
  runs (__find_member (one_key ks ms k (new_key k) 0) (hk, 0%nat) m (strlen_Z m))
    (Some (hm, 0%nat), one_member ks ms k m 0).
Proof.
  unfold __find_member.
  eapply runs_bind; [apply runs_get_key; apply lookup_one_key | cbn beta iota].
  cbn [kbucket new_key msize one_key]. fold hm.
  eapply runs_bind; [step; apply runs_ret | cbn beta iota].
  eapply runs_bind; [apply runs_deref; apply lookup_replicate_2; apply hm_lt | cbn beta iota].
  step. unfold __find_member_copy. step.
  match goal with |- runs (ret (_, ?c)) _ => replace c with (one_member ks ms k m 0) end;
    [apply runs_ret |].
  unfold one_member, key_with, member_table. fold hm.
  rewrite <- (put_one_key (new_key k)). reflexivity.
Qed.

Lemma find_member_again (u : Z) :
  runs (__find_member (one_member ks ms k m u) (hk, 0%nat) m (strlen_Z m))
    (Some (hm, 0%nat), one_member ks ms k m (hits_incr u)).
Proof.
  unfold __find_member.
  eapply runs_bind; [unfold one_member; apply runs_get_key; apply lookup_one_key |
                     cbn beta iota].
  cbn [kbucket key_with msize one_key one_member]. fold hm. step.
  eapply runs_bind.
  { apply runs_deref. unfold member_table. fold hm. apply list_lookup_insert_eq.
    rewrite length_replicate. apply hm_lt. }
  cbn beta iota. simpl scan_members. rewrite Z.eqb_refl. unfold strndup at 1.
  rewrite strncmp_strndup_r. simpl.
  match goal with |- runs (ret (_, ?c)) _ =>
    replace c with (one_member ks ms k m (hits_incr u)) end; [apply runs_ret |].
  unfold one_member. rewrite put_one_key. unfold key_with, set_kbucket, member_table. simpl.
  fold hm. rewrite list_insert_insert_eq. reflexivity.
Qed.

Lemma lookup_one_member (u : Z) :
  lookup_member (one_member ks ms k m u) (hk, 0%nat) (hm, 0%nat)
  = Some (mkMember (Some (strndup m (strlen_Z m))) (strlen_Z m) u).
Proof.
  unfold lookup_member, one_member. rewrite lookup_one_key. simpl.
  unfold member_table. fold hm.
  rewrite list_lookup_insert_eq by (rewrite length_replicate; apply hm_lt). reflexivity.
Qed.

Lemma add_score_one (u : Z) (d : float) :
  runs (add_score (one_member ks ms k m u) (hk, 0%nat) (hm, 0%nat) d)
    (one_member ks ms k m (score_add u d)).
Proof.
  unfold add_score, get_member.
  eapply runs_bind.
  - eapply runs_bind; [unfold one_member; apply runs_get_key; apply lookup_one_key |
                       cbn beta iota].
    cbn [kbucket key_with]. eapply runs_bind; [apply runs_ret | cbn beta iota].
    eapply runs_bind.
    { apply runs_deref. unfold member_table. fold hm. apply list_lookup_insert_eq.
      rewrite length_replicate. apply hm_lt. }
    cbn beta iota. eapply runs_bind; [apply runs_ret | apply runs_ret].
  - cbn beta iota.
    match goal with |- runs (ret ?c) _ =>
      replace c with (one_member ks ms k m (score_add u d)) end; [apply runs_ret |].
    unfold one_member. rewrite put_one_key. unfold key_with, set_kbucket, member_table. simpl.
    fold hm. rewrite list_insert_insert_eq. reflexivity.
Qed.

Lemma keys_of_one_key (node : cmdKeyList) (nm : Z) :
  keys_of (one_key ks ms k node nm) = [node].
Proof.
  unfold keys_of, one_key. cbn [bucket].
  rewrite (concat_one _ _ _ hk_lt). reflexivity.
Qed.

Lemma entries_one_member (u : Z) :
  entries (one_member ks ms k m u)
  = [(key_with ms k m u, mkMember (Some (strndup m (strlen_Z m))) (strlen_Z m) u)].
Proof.
  unfold entries, one_member. rewrite keys_of_one_key. simpl.
  unfold members_of, key_with, member_table. simpl.
  rewrite concat_one by apply hm_lt. reflexivity.
Qed.

End OneKey.

(** ** The same command, again and again *)

Section Repeated.
Context {ext : Externals}.
Variables (ks ms : Z) (k m : string).
Hypotheses (Hksize : 0 < ks) (Hmsize : 0 < ms).

Lemma sadd_cmd_first (ht : cmdHash) :
  s_cmds ht = fresh_container ks ms ->
  runs (cmdHashAdd ht (bulk_strings ["SADD"; k; m]))
    (0, set_s_cmds ht (one_member ks ms k m 0)).
Proof.
  intros Hs. unfold cmdHashAdd.
  eapply runs_bind; [unfold runs, bulk_strings; simpl map; apply get_type_named |].
  change (name_type "SADD" (Z.of_nat 3)) with TYPE_SADD. cbn beta iota.
  unfold __hash_sadd_cmd.
  eapply runs_bind; [apply (runs_arg_str _ 1 k); reflexivity | cbn beta iota].
  eapply runs_bind; [apply (runs_arg_len _ 1 k); reflexivity | cbn beta iota].
  rewrite Hs.
  eapply runs_bind; [apply find_key_fresh; assumption | cbn beta iota].
  eapply runs_bind.
  { simpl. eapply runs_bind; [apply runs_ret | cbn beta iota].
    eapply runs_bind; [apply find_member_first; assumption | apply runs_ret]. }
  cbn beta iota. apply runs_ret.
Qed.

Lemma sadd_cmd_again (ht : cmdHash) (u : Z) :
  s_cmds ht = one_member ks ms k m u ->
  runs (cmdHashAdd ht (bulk_strings ["SADD"; k; m]))
    (0, set_s_cmds ht (one_member ks ms k m (hits_incr u))).
Proof.
  intros Hs. unfold cmdHashAdd.
  eapply runs_bind; [unfold runs, bulk_strings; simpl map; apply get_type_named |].
  change (name_type "SADD" (Z.of_nat 3)) with TYPE_SADD. cbn beta iota.
  unfold __hash_sadd_cmd.
  eapply runs_bind; [apply (runs_arg_str _ 1 k); reflexivity | cbn beta iota].
  eapply runs_bind; [apply (runs_arg_len _ 1 k); reflexivity | cbn beta iota].
  rewrite Hs.
  eapply runs_bind; [apply find_key_again; try assumption; reflexivity | cbn beta iota].
  eapply runs_bind.
  { simpl. eapply runs_bind; [apply runs_ret | cbn beta iota].
    eapply runs_bind; [apply find_member_again; assumption | apply runs_ret]. }
  cbn beta iota. apply runs_ret.
Qed.

Lemma zincrby_cmd_first (ht : cmdHash) (d : string) :
  z_cmds ht = fresh_container ks ms ->
  runs (cmdHashAdd ht (bulk_strings ["ZINCRBY"; k; d; m]))
    (0, set_z_cmds ht (one_member ks ms k m (score_add 0 (strtod d)))).
Proof.
  intros Hz. unfold cmdHashAdd.
  eapply runs_bind; [unfold runs, bulk_strings; simpl map; apply get_type_named |].
  change (name_type "ZINCRBY" (Z.of_nat 4)) with TYPE_ZINCRBY. cbn beta iota.
  unfold __hash_zincrby_cmd.
  eapply runs_bind; [apply (runs_arg_str _ 1 k); reflexivity | cbn beta iota].
  eapply runs_bind; [apply (runs_arg_len _ 1 k); reflexivity | cbn beta iota].
  rewrite Hz.
  eapply runs_bind; [apply find_key_fresh; assumption | cbn beta iota].
  eapply runs_bind; [apply (runs_arg_str _ 3 m); reflexivity | cbn beta iota].
  eapply runs_bind; [apply (runs_arg_len _ 3 m); reflexivity | cbn beta iota].
  eapply runs_bind; [apply find_member_first; assumption | cbn beta iota].
  eapply runs_bind; [apply (runs_arg_str _ 2 d); reflexivity | cbn beta iota].
  eapply runs_bind; [apply add_score_one; assumption | apply runs_ret].
Qed.

Lemma zincrby_cmd_again (ht : cmdHash) (u : Z) (d : string) :
  z_cmds ht = one_member ks ms k m u ->
  runs (cmdHashAdd ht (bulk_strings ["ZINCRBY"; k; d; m]))
    (0, set_z_cmds ht (one_member ks ms k m (score_add (hits_incr u) (strtod d)))).
Proof.
  intros Hz. unfold cmdHashAdd.
  eapply runs_bind; [unfold runs, bulk_strings; simpl map; apply get_type_named |].
  change (name_type "ZINCRBY" (Z.of_nat 4)) with TYPE_ZINCRBY. cbn beta iota.
  unfold __hash_zincrby_cmd.
  eapply runs_bind; [apply (runs_arg_str _ 1 k); reflexivity | cbn beta iota].
  eapply runs_bind; [apply (runs_arg_len _ 1 k); reflexivity | cbn beta iota].
  rewrite Hz.
  eapply runs_bind; [apply find_key_again; try assumption; reflexivity | cbn beta iota].
  eapply runs_bind; [apply (runs_arg_str _ 3 m); reflexivity | cbn beta iota].
  eapply runs_bind; [apply (runs_arg_len _ 3 m); reflexivity | cbn beta iota].
  eapply runs_bind; [apply find_member_again; assumption | cbn beta iota].
  eapply runs_bind; [apply (runs_arg_str _ 2 d); reflexivity | cbn beta iota].
  eapply runs_bind; [apply add_score_one; assumption | apply runs_ret].
Qed.

Lemma process_sadd_again (stat : bool) (b : cmdBuffer) (zc : cmdHashContainer) (n : nat) :
  forall (u x : Z),
    runs (processBufferFile
            (mkContext stat (to_uint x) b (mkHash (one_member ks ms k m u) zc None 0 0))
            (commands (repeat ["SADD"; k; m] n)))
      (0, mkContext stat (to_uint (x + Z.of_nat n)) b
            (mkHash (one_member ks ms k m (Nat.iter n hits_incr u)) zc None 0 0)).
Proof.
  induction n as [|n IH]; intros u x.
  - rewrite Z.add_0_r. apply runs_ret.
  - simpl repeat. simpl commands. simpl processBufferFile.
    eapply runs_bind; [apply sadd_cmd_again; reflexivity | cbn beta iota].
    change (0 =? cmdType_int TYPE_UNSUPPORTED) with false. cbn beta iota.
    eapply runs_bind; [apply runs_ret | cbn beta iota].
    simpl cmd_count. simpl stats. rewrite uint_add_to_uint.
    replace (x + Z.of_nat (S n)) with (x + 1 + Z.of_nat n) by lia.
    rewrite Nat.iter_succ_r. apply IH.
Qed.

Lemma process_sadd_repeat (stat : bool) (n : nat) :
  runs (processBufferFile (fresh_context stat ks ms)
          (commands (repeat ["SADD"; k; m] (S n))))
    (0, mkContext stat (to_uint (Z.of_nat (S n))) fresh_buffer
          (mkHash (one_member ks ms k m (to_uint (Z.of_nat n))) (fresh_container ks ms)
             None 0 0)).
Proof.
  simpl repeat. simpl commands. simpl processBufferFile.
  eapply runs_bind; [apply sadd_cmd_first; reflexivity | cbn beta iota].
  change (0 =? cmdType_int TYPE_UNSUPPORTED) with false. cbn beta iota.
  eapply runs_bind; [apply runs_ret | cbn beta iota].
  simpl cmd_count. simpl stats. change (uint_add 0 1) with (to_uint 1).
  replace (Z.of_nat (S n)) with (1 + Z.of_nat n) by lia.
  rewrite <- hits_iter. apply process_sadd_again.
Qed.

End Repeated.

(** ** Whole runs *)

Section Runs.
Context {ext : Externals}.

Lemma process_fresh (stat : bool) (ks ms : Z) (l : list (list string)) :
  0 < ks -> 0 < ms ->
  exists ctx,
    runs (processBufferFile (fresh_context stat ks ms) (commands l)) (0, ctx)
    /\ hinv (cmd_hash ctx) /\ stats ctx = stat
    /\ _buf (cmd_hash ctx) = None /\ _len (cmd_hash ctx) = 0
    /\ buf (cmd_buffer ctx)
       = cat (map passed_bytes (List.filter unsupported (map bulk_strings l)))
    /\ pos (cmd_buffer ctx) = strlen_Z (buf (cmd_buffer ctx))
    /\ cmd_count ctx = to_uint (Z.of_nat (length l))
    /\ b_cmd_count (cmd_buffer ctx)
       = to_uint (Z.of_nat (length (List.filter unsupported (map bulk_strings l))))
    /\ (out_nodes (cmd_hash ctx) + length (List.filter unsupported (map bulk_strings l))
        <= length l)%nat.
Proof.
  intros Hks Hms.
  destruct (processBufferFile_runs l (fresh_context stat ks ms) 0 0)
    as (ctx & R & H1 & H2 & (H3 & _ & H4) & H5 & H6 & H7 & H8 & H9);
    [apply hinv_fresh; assumption | reflexivity | reflexivity | reflexivity |].
  exists ctx. split; [exact R |]. split; [exact H1 |]. split; [exact H2 |].
  split; [exact H3 |]. split; [exact H4 |]. split; [exact H5 |]. split; [exact H6 |].
  split; [exact H7 |]. split; [exact H8 |].
  unfold out_nodes in H9 at 2. simpl in H9. unfold n_members, n_keys in H9. simpl in H9.
  rewrite !weight_replicate_nil in H9. exact H9.
Qed.

End Runs.

(** C6, the claim on 2^32 commands: after SADD s a, 2^32 times, in
    statistics mode, the count of commands read is 0 and the count of
    commands to write is 1. *)
Lemma counts_wrap_at_2_32 :
  exists ctx ctx',
    runs (processBufferFile (fresh_context true 4 2)
            (commands (repeat ["SADD"; "s"; "a"] (Z.to_nat UINT_MOD)))) (0, ctx)
    /\ runs (appendAggCommands ctx) (0, ctx')
    /\ cmd_count ctx' = 0
    /\ b_cmd_count (cmd_buffer ctx') = 1.
Proof.
  assert (Hn : exists n, Z.to_nat UINT_MOD = S n /\ Z.of_nat (S n) = UINT_MOD).
  { exists (Z.to_nat (UINT_MOD - 1)). unfold UINT_MOD. lia. }
  destruct Hn as (n & -> & Hn).
  pose proof (process_sadd_repeat 4 2 "s" "a" ltac:(lia) ltac:(lia) true n) as R.
  rewrite Hn in R. change (to_uint UINT_MOD) with 0 in R.
  eexists. eexists. split; [exact R |].
  unfold appendAggCommands. cbn [stats negb cmd_buffer cmd_hash cmd_count].
  split; [apply runs_ret |]. split; reflexivity.
Qed.

(** ** One pair under one key; the run of [main] *)


Lemma members_of_key_with (ms : Z) (k m : string) (u : Z) :
  0 < ms ->
  members_of (key_with ms k m u)
  = [mkMember (Some (strndup m (strlen_Z m))) (strlen_Z m) u].
Proof.
  intros Hms. unfold members_of.
  apply (concat_one (Z.to_nat ms) (GET_BUCKET m (strlen_Z m) ms)).
  apply GET_BUCKET_lt. exact Hms.
Qed.

Section Pairs.
Context {ext : Externals}.

Lemma main_sized_runs (ks ms : Z) (l : list (list string)) :
  0 < ks -> 0 < ms ->
  exists ctx,
    runs (processBufferFile (fresh_context false ks ms) (commands l)) (0, ctx)
    /\ (flushable (cmd_hash ctx) ->
        1 <= to_uint (Z.of_nat (length l)) ->
        runs (main_sized ks ms false (commands l))
          (0, Some (String.append
                      (cat (map passed_bytes (List.filter unsupported (map bulk_strings l))))
                      (String.append (zincrby_part (cmd_hash ctx))
                                     (sadd_part (cmd_hash ctx)))))).
Proof.
  intros Hks Hms.
  destruct (process_fresh false ks ms l Hks Hms)
    as (ctx & R & Hh & Hst & Hb & Hl & Hbuf & Hpos & Hn & _).
  exists ctx. split; [exact R |]. intros Hfits Hcount.
  destruct (appendAggCommands_runs ctx Hh Hb Hl Hpos (or_intror Hfits))
    as (ctx' & R' & Hst' & Hc & _ & Hpos' & Hout).
  unfold main_sized, initContext_sized, cmdBufferCreate, cmdHashCreate, __container_create.
  assert (Hk : (ks <? 1) = false) by lia. assert (Hm : (ms <? 1) = false) by lia.
  rewrite Hk, Hm. cbn [orb].
  eapply runs_bind.
  { repeat (eapply runs_bind; [first [apply runs_alloc | apply runs_ret] |
                               cbn beta iota delta [negb]]).
    apply runs_ret. }
  cbn beta iota. cbn [cmd_count cmd_buffer cmd_hash].
  eapply runs_bind; [exact R | cbn beta iota].
  change (0 <? 0) with false. cbn beta iota.
  eapply runs_bind; [exact R' | cbn beta iota].
  change (0 <? 0) with false. cbn beta iota.
  rewrite Hst', Hst, Hc, Hn. cbn [negb].
  assert (Hpos0 : (0 <? to_uint (Z.of_nat (length l))) = true) by lia.
  rewrite Hpos0, Hpos', first_bytes_strlen, (Hout Hst), Hbuf. apply runs_ret.
Qed.

End Pairs.

(** ** The checks of the two add functions *)

Lemma zHashAdd_rejects (ht : ZHash.zHash) (key : option string) (klen : Z) (value : float)
    (member : option string) (mlen : Z) (o : oracle) :
  key = None \/ klen < 1 \/ member = None \/ mlen < 1 \/ double_is_zero value = true ->
  ZHash.zHashAdd ht key klen value member mlen o = Some (-1, ht, o).
Proof.
  intros H. unfold ZHash.zHashAdd.
  assert (Hc : is_null key || (klen <? 1) || is_null member || (mlen <? 1)
               || double_is_zero value = true).
  { destruct H as [-> | [H | [-> | [H | H]]]].
    - reflexivity.
    - apply Z.ltb_lt in H. rewrite H. rewrite orb_true_r. reflexivity.
    - rewrite orb_true_r. reflexivity.
    - apply Z.ltb_lt in H. rewrite H. rewrite orb_true_r. reflexivity.
    - rewrite H. apply orb_true_r. }
  rewrite Hc. reflexivity.
Qed.

Lemma zHashAdd_fresh (ks ms : Z) (k m : string) (v : float) :
  0 < ks -> 0 < ms -> 1 <= strlen_Z k -> 1 <= strlen_Z m -> double_is_zero v = false ->
  exists ht,
    runs (ZHash.zHashAdd (fresh_zhash ks ms) (Some k) (strlen_Z k) v (Some m) (strlen_Z m))
      (0, ht).
Proof.
  intros Hks Hms Hk Hm Hv.
  pose proof (GET_BUCKET_lt k (strlen_Z k) ks Hks) as Hhk.
  pose proof (GET_BUCKET_lt m (strlen_Z m) ms Hms) as Hhm.
  set (hk := GET_BUCKET k (strlen_Z k) ks) in *.
  set (hm := GET_BUCKET m (strlen_Z m) ms) in *.
  unfold ZHash.zHashAdd.
  assert (Hk' : (strlen_Z k <? 1) = false) by lia.
  assert (Hm' : (strlen_Z m <? 1) = false) by lia.
  rewrite Hk', Hm', Hv. cbn [is_null orb].
  eexists.
  eapply runs_bind; [apply runs_deref; reflexivity | cbn beta iota].
  eapply runs_bind; [apply runs_deref; reflexivity | cbn beta iota].
  eapply runs_bind.
  { unfold ZHash.__findKey. cbn [ZHash.ksize ZHash.bucket fresh_zhash]. fold hk.
    eapply runs_bind; [apply runs_deref; apply lookup_replicate_2; exact Hhk | cbn beta iota].
    step. unfold ZHash.__findKey_copy. step. apply runs_ret. }
  cbn beta iota.
  eapply runs_bind.
  { unfold ZHash.__findMember, ZHash.get_key.
    cbn [ZHash.bucket ZHash.set_bucket ZHash.msize ZHash.ksize fresh_zhash fst snd length].
    fold hm.
    rewrite list_lookup_insert_eq by (rewrite length_replicate; exact Hhk).
    cbn [lookup list_lookup app ZHash.kbucket].
    step. cbn [ZHash.kbucket].
    eapply runs_bind; [step; apply runs_ret | cbn beta iota].
    eapply runs_bind; [apply runs_deref; apply lookup_replicate_2; exact Hhm | cbn beta iota].
    step. unfold ZHash.__findMember_copy. step. apply runs_ret. }
  cbn beta iota.
  eapply runs_bind; [| apply runs_ret].
  unfold ZHash.add_value, ZHash.get_key, ZHash.put_key.
  cbn [ZHash.bucket ZHash.set_bucket ZHash.msize ZHash.ksize fresh_zhash fst snd length app].
  rewrite alter_insert_eq by (rewrite length_replicate; exact Hhk).
  rewrite list_lookup_insert_eq by (rewrite length_replicate; exact Hhk).
  cbn [lookup list_lookup insert list_insert ZHash.kbucket ZHash.set_kbucket].
  step.
  eapply runs_bind; [apply runs_deref; reflexivity | cbn beta iota].
  eapply runs_bind.
  { apply runs_deref. apply list_lookup_insert_eq. rewrite length_replicate. exact Hhm. }
  cbn beta iota.
  eapply runs_bind; [apply runs_deref; reflexivity | cbn beta iota].
  apply runs_ret.
Qed.

(** ** The comparison of names without NUL byte *)

Lemma code_nonneg (c : ascii) : 0 <= code c.
Proof. unfold code. lia. Qed.

Lemma tolower_zero (c : Z) : 0 <= c -> (tolower c =? 0) = (c =? 0).
Proof.
  intros H. unfold tolower.
  destruct ((65 <=? c) && (c <=? 90)) eqn:E; [| reflexivity].
  apply andb_true_iff in E. lia.
Qed.

Lemma strncasecmp_ieq (b a : string) :
  nul_free a = true -> nul_free b = true ->
  (strncasecmp a b (S (String.length b)) =? 0) = ieq a b.
Proof.
  revert a. induction b as [|y b IH]; intros [|x a] Ha Hb.
  - reflexivity.
  - simpl in Ha. apply andb_true_iff in Ha as [Hx _]. apply negb_true_iff in Hx.
    unfold is_nul in Hx. cbn [strncasecmp String.length head tail ieq].
    change (tolower (code NUL)) with 0.
    pose proof (tolower_zero (code x) (code_nonneg x)) as Hz. rewrite Hx in Hz.
    rewrite Hz. cbn [negb]. lia.
  - simpl in Hb. apply andb_true_iff in Hb as [Hy _]. apply negb_true_iff in Hy.
    unfold is_nul in Hy. cbn [strncasecmp String.length head tail ieq].
    change (tolower (code NUL)) with 0.
    pose proof (tolower_zero (code y) (code_nonneg y)) as Hz. rewrite Hy in Hz.
    rewrite Z.eqb_sym in Hz. rewrite Hz. cbn [negb]. apply Z.eqb_neq in Hz. lia.
  - simpl in Ha, Hb. apply andb_true_iff in Ha as [Hx Ha]. apply andb_true_iff in Hb as [_ Hb].
    apply negb_true_iff in Hx. unfold is_nul in Hx.
    cbn [strncasecmp String.length head tail ieq].
    pose proof (tolower_zero (code x) (code_nonneg x)) as Hz. rewrite Hx in Hz.
    destruct (tolower (code x) =? tolower (code y)) eqn:E; cbn [negb andb].
    + rewrite Hz. apply IH; assumption.
    + apply Z.eqb_neq in E. lia.
Qed.

Lemma name_type_classify (name : string) (argc : Z) :
  nul_free name = true -> name_type name argc = classify name argc.
Proof.
  intros H. unfold name_type, classify, sizeof_lit.
  rewrite !strncasecmp_ieq by (exact H || reflexivity). reflexivity.
Qed.

Section Classified.
Context {ext : Externals}.

(** X5: on a command whose first element is a string without NUL byte,
    [__get_type] returns ZINCRBY exactly when there are four elements and the
    name is ZINCRBY in any case of letters, SADD exactly when this is not so,
    there are more than two elements and the name is SADD in any case, and
    unsupported otherwise; it makes no allocation. *)
Lemma get_type_classify (i : Z) (name : string) (args : list replyElement) (o : oracle) :
  nul_free name = true ->
  __get_type (mkReply i (REDIS_REPLY_STRING name :: args)) o
  = Some (classify name (Z.of_nat (S (length args))), o).
Proof. intros H. rewrite get_type_named, name_type_classify by exact H. reflexivity. Qed.

End Classified.

(** * Further properties of the code *)

(** ** [__find_key]: what it returns and what it leaves alone *)

Lemma scan_keys_found (chain : list key_cell) (str : string) (len : Z) (i n : nat) :
  scan_keys chain str len i = Hit n ->
  exists j k,
    n = (i + j)%nat /\ chain !! j = Some (Live k) /\ key_matches k str len = true.
Proof.
  revert i. induction chain as [|[k|] chain IH]; intros i; simpl; try discriminate.
  fold (key_matches k str len). destruct (key_matches k str len) eqn:E.
  - intros [= <-]. exists 0%nat, k. split; [lia |]. split; [reflexivity | exact E].
  - intros (j & k' & -> & Hj & Hk)%IH. exists (S j), k'.
    split; [lia |]. split; [exact Hj | exact Hk].
Qed.

Lemma scan_keys_app (chain rest : list key_cell) (str : string) (len : Z) (i : nat) :
  scan_keys chain str len i = Miss ->
  scan_keys (chain ++ rest) str len i = scan_keys rest str len (i + length chain).
Proof.
  revert i. induction chain as [|[k|] chain IH]; intros i; simpl; try discriminate.
  - intros _. f_equal. lia.
  - destruct ((klen k =? len) && (strncmp (key k) str (Z.to_nat len) =? 0));
      [discriminate |].
    intros H. rewrite (IH _ H). f_equal. lia.
Qed.

Lemma new_key_matches (str : string) (len : Z) :
  key_matches (mkKey (strndup str len) len 0 None) str len = true.
Proof.
  unfold key_matches, strndup. cbn [klen key].
  rewrite Z.eqb_refl, strncmp_strndup_l. reflexivity.
Qed.

(** The two ways [__find_key] ends when no allocation fails. *)
Lemma find_key_cases (c : cmdHashContainer) (str : string) (len : Z) :
  inv c ->
  exists chain,
    bucket c !! GET_BUCKET str len (ksize c) = Some chain
    /\ ((exists j k,
           scan_keys chain str len 0 = Hit j
           /\ chain !! j = Some (Live k) /\ key_matches k str len = true
           /\ runs (__find_key c str len) (Some (GET_BUCKET str len (ksize c), j), c))
        \/ (scan_keys chain str len 0 = Miss
            /\ runs (__find_key c str len)
                 (Some (GET_BUCKET str len (ksize c), length chain),
                  with_new_key c (GET_BUCKET str len (ksize c)) chain str len))).
Proof.
  intros Hinv. pose proof Hinv as [Hsize Hk Hm Hcells Hkeys Hmem].
  unfold __find_key. set (num := GET_BUCKET str len (ksize c)).
  assert (Hlt : (num < length (bucket c))%nat).
  { rewrite Hsize. apply GET_BUCKET_lt. exact Hk. }
  destruct (lookup_lt_is_Some_2 _ _ Hlt) as [chain Hchain].
  exists chain. split; [exact Hchain |].
  assert (Hnew : runs (__find_key_copy c num chain str len)
                   (Some (num, length chain), with_new_key c num chain str len)).
  { unfold __find_key_copy. step. apply runs_ret. }
  destruct chain as [|cell chain'] eqn:Echain.
  - right. split; [reflexivity |]. step. step. exact Hnew.
  - rewrite <- Echain in *.
    assert (Hch : Forall (cell_inv (Z.to_nat (msize c))) chain)
      by exact (proj1 (Forall_lookup _ _) Hcells _ _ Hchain).
    destruct (scan_keys_live _ chain str len 0 Hch) as [Hs | (j & k & Hs & Hj)].
    + right. split; [exact Hs |].
      step. rewrite Echain at 1. rewrite Hs. step. exact Hnew.
    + left. destruct (scan_keys_found _ _ _ _ _ Hs) as (j' & k' & Ej & Hj' & Hm').
      assert (j' = j) by lia. subst j'. exists j, k'.
      split; [exact Hs |]. split; [exact Hj' |]. split; [exact Hm' |].
      step. rewrite Echain at 1. rewrite Hs. apply runs_ret.
Qed.

Lemma with_new_key_lookup (c : cmdHashContainer) (num : nat) (chain : list key_cell)
    (str : string) (len : Z) (kp0 : key_ptr) (k0 : cmdKeyList) :
  bucket c !! num = Some chain ->
  lookup_key c kp0 = Some k0 ->
  lookup_key (with_new_key c num chain str len) kp0 = Some k0.
Proof.
  intros Hnum (chain0 & H1 & H2)%lookup_key_Some. apply lookup_key_Some.
  unfold with_new_key. cbn [bucket].
  destruct (decide (kp0.1 = num)) as [E | E].
  - rewrite E in *. rewrite Hnum in H1. injection H1 as <-.
    exists (chain ++ [Live (mkKey (strndup str len) len 0 None)]). split.
    + apply list_lookup_insert_eq. eapply lookup_lt_Some; eauto.
    + rewrite lookup_app_l by (eapply lookup_lt_Some; eauto). exact H2.
  - exists chain0. split; [| exact H2].
    rewrite list_lookup_insert_ne by congruence. exact H1.
Qed.

(** X1: [__find_key] on a container that satisfies the invariant, with
    every allocation succeeding, returns a pointer into the bucket of the
    hash of the name, to a node whose length is [len] and whose key compares
    equal to the name over [len] bytes.  The container still satisfies the
    invariant, has the same sizes and member nodes and at most one key node
    more, and every key pointer that was valid before leads to the same node
    after. *)
Theorem find_key_finds_or_creates (c : cmdHashContainer) (str : string) (len : Z) :
  inv c ->
  exists kp c' k,
    runs (__find_key c str len) (Some kp, c')
    /\ kp.1 = GET_BUCKET str len (ksize c)
    /\ lookup_key c' kp = Some k
    /\ klen k = len /\ strncmp (key k) str (Z.to_nat len) = 0
    /\ inv c'
    /\ ksize c' = ksize c /\ msize c' = msize c
    /\ (n_keys c <= n_keys c' <= S (n_keys c))%nat
    /\ n_members c' = n_members c
    /\ (forall kp0 k0, lookup_key c kp0 = Some k0 -> lookup_key c' kp0 = Some k0).
Proof.
  intros Hinv.
  destruct (find_key_cases c str len Hinv)
    as (chain & Hchain & [(j & k & Hs & Hj & Hm & R) | (Hs & R)]).
  - exists (GET_BUCKET str len (ksize c), j), c, k.
    apply andb_true_iff in Hm as [Hl Hc]. apply Z.eqb_eq in Hl, Hc.
    split; [exact R |]. split; [reflexivity |].
    split; [apply lookup_key_Some; eauto |].
    split; [exact Hl |]. split; [exact Hc |]. split; [exact Hinv |].
    split; [reflexivity |]. split; [reflexivity |]. split; [lia |].
    split; [reflexivity |]. intros kp0 k0 H. exact H.
  - destruct (inv_add_key c _ chain (strndup str len) len Hinv Hchain)
      as (H1 & H2 & H3 & H4 & _).
    pose proof (new_key_matches str len) as Hm.
    apply andb_true_iff in Hm as [Hl Hc]. apply Z.eqb_eq in Hl, Hc.
    exists (GET_BUCKET str len (ksize c), length chain),
      (with_new_key c (GET_BUCKET str len (ksize c)) chain str len),
      (mkKey (strndup str len) len 0 None).
    split; [exact R |]. split; [reflexivity |]. split; [exact H2 |].
    split; [exact Hl |]. split; [exact Hc |]. split; [exact H1 |].
    split; [reflexivity |]. split; [reflexivity |].
    split; [unfold with_new_key; lia |]. split; [exact H4 |].
    intros kp0 k0 H. apply with_new_key_lookup; assumption.
Qed.

Lemma find_key_finds_or_creates_witness :
  inv (fresh_container 4 2)
  /\ exists kp c' k,
       runs (__find_key (fresh_container 4 2) "k" 1) (Some kp, c')
       /\ kp.1 = GET_BUCKET "k" 1 (ksize (fresh_container 4 2))
       /\ lookup_key c' kp = Some k
       /\ klen k = 1 /\ strncmp (key k) "k" (Z.to_nat 1) = 0
       /\ inv c'
       /\ ksize c' = ksize (fresh_container 4 2) /\ msize c' = msize (fresh_container 4 2)
       /\ (n_keys (fresh_container 4 2) <= n_keys c' <= S (n_keys (fresh_container 4 2)))%nat
       /\ n_members c' = n_members (fresh_container 4 2)
       /\ (forall kp0 k0, lookup_key (fresh_container 4 2) kp0 = Some k0 ->
           lookup_key c' kp0 = Some k0).
Proof.
  assert (H : inv (fresh_container 4 2)) by (apply inv_fresh; lia).
  split; [exact H |]. exact (find_key_finds_or_creates (fresh_container 4 2) "k" 1 H).
Defined.

Lemma find_key_hit (c : cmdHashContainer) (str : string) (len : Z)
    (chain : list key_cell) (j : nat) (o : oracle) :
  bucket c !! GET_BUCKET str len (ksize c) = Some chain ->
  scan_keys chain str len 0 = Hit j ->
  __find_key c str len o = Some (Some (GET_BUCKET str len (ksize c), j), c, o).
Proof.
  intros Hchain Hs. unfold __find_key, bind, deref. rewrite Hchain. cbn beta iota.
  unfold ret at 1. destruct chain as [|x l]; [discriminate |].
  rewrite Hs. reflexivity.
Qed.

(** X2: looking a key up again.  After [__find_key] has returned a node
    for a name, found or created, a second [__find_key] of the same name
    returns the same node and leaves the container as the first call left
    it, and it does so without an allocation: whatever the allocator would
    do next. *)
Theorem find_key_again_same_node (c : cmdHashContainer) (str : string) (len : Z) :
  inv c ->
  exists kp c',
    runs (__find_key c str len) (Some kp, c')
    /\ forall o, __find_key c' str len o = Some (Some kp, c', o).
Proof.
  intros Hinv.
  destruct (find_key_cases c str len Hinv)
    as (chain & Hchain & [(j & k & Hs & Hj & Hm & R) | (Hs & R)]).
  - exists (GET_BUCKET str len (ksize c), j), c. split; [exact R |].
    intros o. apply (find_key_hit c str len chain j o Hchain Hs).
  - set (num := GET_BUCKET str len (ksize c)) in *.
    exists (num, length chain), (with_new_key c num chain str len).
    split; [exact R |]. intros o.
    apply (find_key_hit (with_new_key c num chain str len) str len
             (chain ++ [Live (mkKey (strndup str len) len 0 None)]) (length chain) o).
    + unfold with_new_key. cbn [ksize bucket]. fold num.
      apply list_lookup_insert_eq. eapply lookup_lt_Some; eauto.
    + rewrite (scan_keys_app _ _ _ _ _ Hs). cbn [scan_keys].
      fold (key_matches (mkKey (strndup str len) len 0 None) str len).
      rewrite new_key_matches. reflexivity.
Qed.

Lemma find_key_again_same_node_witness :
  inv (fresh_container 4 2)
  /\ exists kp c',
       runs (__find_key (fresh_container 4 2) "k" 1) (Some kp, c')
       /\ forall o, __find_key c' "k" 1 o = Some (Some kp, c', o).
Proof.
  assert (H : inv (fresh_container 4 2)) by (apply inv_fresh; lia).
  split; [exact H |]. exact (find_key_again_same_node (fresh_container 4 2) "k" 1 H).
Defined.

(** ** [__find_member] and [cmdHashAdd]: the invariant *)

Lemma inv_one_key (ks ms : Z) (k : string) :
  0 < ks -> 0 < ms ->
  inv (one_key ks ms k (new_key k) 0)
  /\ allocated_but (one_key ks ms k (new_key k) 0)
       (Some (GET_BUCKET k (strlen_Z k) ks, 0%nat)).
Proof.
  intros Hks Hms.
  destruct (find_key_runs (fresh_container ks ms) k (strlen_Z k) (inv_fresh ks ms Hks Hms))
    as (kp & c' & R & Hinv & _ & _ & _ & _ & _ & Ha).
  pose proof (runs_inj _ _ _ R (find_key_fresh ks ms k Hks)) as E.
  injection E as -> ->. split; [exact Hinv |]. apply Ha, allocated_fresh.
Qed.

Section MoreAdd.
Context {ext : Externals}.

(** X3: [__find_member] under a key of a container that satisfies the
    invariant, with every allocation succeeding, returns a pointer to a
    member node of that key.  The container still satisfies the invariant
    (the counters are the numbers of nodes, every member node has its
    string), has the same sizes and key nodes and at most one member node
    more, and every key then has its member table. *)
Theorem find_member_keeps_invariant (c : cmdHashContainer) (kp : key_ptr)
    (str : string) (len : Z) :
  inv c -> is_Some (lookup_key c kp) -> allocated_but c (Some kp) ->
  exists mp c',
    runs (__find_member c kp str len) (Some mp, c')
    /\ is_Some (lookup_member c' kp mp)
    /\ inv c' /\ allocated c'
    /\ ksize c' = ksize c /\ msize c' = msize c
    /\ n_keys c' = n_keys c
    /\ (n_members c <= n_members c' <= S (n_members c))%nat.
Proof.
  intros Hinv Hk Ha.
  destruct (find_member_runs c kp str len Hinv Hk Ha)
    as (mp & c' & R & H1 & H2 & H3 & H4 & H5 & H6 & H7).
  exists mp, c'. repeat (split; [assumption |]). assumption.
Qed.

(** X4: [cmdHashAdd] on a table that satisfies the invariant and a
    command of bulk strings, with every allocation succeeding: it returns 2
    and the table as it was, for an unsupported command, or 0 and a table
    that still satisfies the invariant, for a ZINCRBY or SADD command.  The
    protocol buffer and the sizes are not touched, and the number of commands
    that the flush will write grows by one at most. *)
Theorem cmdHashAdd_keeps_invariant (ht : cmdHash) (l : list string) :
  hinv ht ->
  exists rc ht',
    runs (cmdHashAdd ht (bulk_strings l)) (rc, ht')
    /\ hinv ht'
    /\ _buf ht' = _buf ht /\ _size ht' = _size ht /\ _len ht' = _len ht
    /\ ksize (z_cmds ht') = ksize (z_cmds ht) /\ msize (z_cmds ht') = msize (z_cmds ht)
    /\ ksize (s_cmds ht') = ksize (s_cmds ht) /\ msize (s_cmds ht') = msize (s_cmds ht)
    /\ ((rc = 2 /\ unsupported (bulk_strings l) = true /\ ht' = ht)
        \/ (rc = 0 /\ unsupported (bulk_strings l) = false
            /\ (out_nodes ht <= out_nodes ht' <= S (out_nodes ht))%nat)).
Proof. intros H. exact (cmdHashAdd_runs ht l H). Qed.

End MoreAdd.

Lemma find_member_keeps_invariant_witness :
  inv (one_key 4 2 "k" (new_key "k") 0)
  /\ is_Some (lookup_key (one_key 4 2 "k" (new_key "k") 0) (GET_BUCKET "k" 1 4, 0%nat))
  /\ allocated_but (one_key 4 2 "k" (new_key "k") 0) (Some (GET_BUCKET "k" 1 4, 0%nat))
  /\ exists mp c',
       runs (__find_member (one_key 4 2 "k" (new_key "k") 0) (GET_BUCKET "k" 1 4, 0%nat) "m" 1)
         (Some mp, c')
       /\ is_Some (lookup_member c' (GET_BUCKET "k" 1 4, 0%nat) mp)
       /\ inv c' /\ allocated c'.
Proof.
  assert (H4 : 0 < 4) by lia. assert (H2 : 0 < 2) by lia.
  pose proof (inv_one_key 4 2 "k" H4 H2) as (Hi & Ha).
  assert (Hl : is_Some (lookup_key (one_key 4 2 "k" (new_key "k") 0)
                          (GET_BUCKET "k" 1 4, 0%nat))).
  { eexists. apply (lookup_one_key 4 2 "k" H4). }
  split; [exact Hi |]. split; [exact Hl |]. split; [exact Ha |].
  destruct (find_member_keeps_invariant _ _ "m" 1 Hi Hl Ha)
    as (mp & c' & R & Q1 & Q2 & Q3 & _).
  exists mp, c'. split; [exact R |]. split; [exact Q1 |]. split; [exact Q2 | exact Q3].
Defined.

Lemma cmdHashAdd_keeps_invariant_witness :
  hinv (fresh_hash 4 2)
  /\ exists rc ht',
       runs (cmdHashAdd (fresh_hash 4 2) (bulk_strings ["SADD"; "s"; "a"])) (rc, ht')
       /\ hinv ht'.
Proof.
  assert (H : hinv (fresh_hash 4 2)) by (apply hinv_fresh; lia).
  split; [exact H |].
  destruct (cmdHashAdd_keeps_invariant (fresh_hash 4 2) ["SADD"; "s"; "a"] H)
    as (rc & ht' & R & Hi & _).
  exists rc, ht'. split; [exact R | exact Hi].
Defined.

Lemma get_type_classify_witness :
  nul_free "zincrby" = true
  /\ __get_type (mkReply 0 (REDIS_REPLY_STRING "zincrby"
                             :: map REDIS_REPLY_STRING ["k"; "1"; "m"])) []
     = Some (classify "zincrby" 4, []).
Proof.
  split; [reflexivity |].
  exact (get_type_classify 0 "zincrby" (map REDIS_REPLY_STRING ["k"; "1"; "m"]) [] eq_refl).
Defined.

(** ** The two buffers: growth and bounds *)

Lemma grow_to_ge (n : Z) : 0 <= n -> n <= grow_to n.
Proof.
  intros H. unfold grow_to, BUF_MAX_PREALLOC.
  destruct (n <? 1024 * 1024); lia.
Qed.

(** X6: [cmdBufferAppend] of [len] bytes, whatever the allocator does.
    Either it returns -1 and the buffer is as it was, or it returns 0, the
    position has moved by [len] and is within the recorded size, which has
    not shrunk, and the command count has grown by [cmd_count] modulo 2^32;
    a buffer that was full up to its position then holds the old bytes
    followed by the first [len] bytes of the string. *)
Theorem cmdBufferAppend_within_size (b : cmdBuffer) (str : string) (len n : Z) (o : oracle) :
  0 <= pos b -> 0 <= len ->
  exists rc b' o',
    cmdBufferAppend b str len n o = Some (rc, b', o')
    /\ ((rc = -1 /\ b' = b)
        \/ (rc = 0
            /\ pos b' = pos b + len
            /\ pos b' <= b_size b'
            /\ b_size b <= b_size b'
            /\ b_cmd_count b' = uint_add (b_cmd_count b) n
            /\ (pos b = strlen_Z (buf b) ->
                buf b' = String.append (buf b) (first_bytes (Z.to_nat len) str)))).
Proof.
  intros Hpos Hlen. unfold cmdBufferAppend, cmdBufferGrow, bind, ret, alloc.
  destruct (b_size b <? pos b + len) eqn:E.
  - apply Z.ltb_lt in E.
    pose proof (grow_to_ge (pos b + len) ltac:(lia)) as Hg.
    destruct o as [|[|] o]; cbn.
    + do 3 eexists. split; [reflexivity |]. right.
      split; [reflexivity |]. split; [reflexivity |]. split; [exact Hg |].
      split; [cbn; lia |]. split; [reflexivity |]. intros ->. apply memcpy_at_end.
    + do 3 eexists. split; [reflexivity |]. right.
      split; [reflexivity |]. split; [reflexivity |]. split; [exact Hg |].
      split; [cbn; lia |]. split; [reflexivity |]. intros ->. apply memcpy_at_end.
    + do 3 eexists. split; [reflexivity |]. left. split; reflexivity.
  - apply Z.ltb_ge in E.
    cbn. do 3 eexists. split; [reflexivity |]. right.
    split; [reflexivity |]. split; [reflexivity |]. split; [cbn; lia |].
    split; [cbn; lia |]. split; [reflexivity |]. intros ->. apply memcpy_at_end.
Qed.

Lemma cmdBufferAppend_within_size_witness :
  0 <= pos fresh_buffer /\ 0 <= 3
  /\ exists rc b' o',
       cmdBufferAppend fresh_buffer "abc" 3 1 [] = Some (rc, b', o')
       /\ ((rc = -1 /\ b' = fresh_buffer)
           \/ (rc = 0
               /\ pos b' = pos fresh_buffer + 3
               /\ pos b' <= b_size b'
               /\ b_size fresh_buffer <= b_size b'
               /\ b_cmd_count b' = uint_add (b_cmd_count fresh_buffer) 1
               /\ (pos fresh_buffer = strlen_Z (buf fresh_buffer) ->
                   buf b' = String.append (buf fresh_buffer)
                              (first_bytes (Z.to_nat 3) "abc")))).
Proof.
  assert (H0 : 0 <= pos fresh_buffer) by (simpl; lia). assert (H3 : 0 <= 3) by lia.
  split; [exact H0 |]. split; [exact H3 |].
  exact (cmdBufferAppend_within_size fresh_buffer "abc" 3 1 [] H0 H3).
Defined.

(** X7: [__append_buffer] of [len] bytes to the protocol buffer of a
    table, whatever the allocator does.  Either it returns -1 and the table
    is as it was, or it returns 0, the length has grown by [len] and is
    within the recorded size, and both containers are the ones before. *)
Theorem append_buffer_within_size (ht : cmdHash) (str : string) (len : Z) (o : oracle) :
  0 <= _len ht -> 0 <= len -> _buf ht <> None ->
  exists rc ht' o',
    __append_buffer ht str len o = Some (rc, ht', o')
    /\ ((rc = -1 /\ ht' = ht)
        \/ (rc = 0
            /\ _len ht' = _len ht + len
            /\ _len ht' <= _size ht'
            /\ _size ht <= _size ht'
            /\ s_cmds ht' = s_cmds ht /\ z_cmds ht' = z_cmds ht
            /\ (forall b, _buf ht = Some b -> _len ht = strlen_Z b ->
                _buf ht' = Some (String.append b (first_bytes (Z.to_nat len) str))))).
Proof.
  intros Hpos Hlen Hbuf. destruct (_buf ht) as [b0|] eqn:Eb; [| congruence].
  unfold __append_buffer, __realloc_buffer, bind, ret, alloc, deref.
  destruct (_size ht <? _len ht + len) eqn:E.
  - apply Z.ltb_lt in E.
    pose proof (grow_to_ge (_len ht + len) ltac:(lia)) as Hg.
    destruct o as [|[|] o]; cbn; rewrite ?Eb; cbn.
    + do 3 eexists. split; [reflexivity |]. right.
      split; [reflexivity |]. split; [reflexivity |]. split; [exact Hg |].
      split; [cbn; lia |]. split; [reflexivity |]. split; [reflexivity |].
      intros b [= <-] Hl. cbn. rewrite ?Eb, Hl. cbn. f_equal. apply memcpy_at_end.
    + do 3 eexists. split; [reflexivity |]. right.
      split; [reflexivity |]. split; [reflexivity |]. split; [exact Hg |].
      split; [cbn; lia |]. split; [reflexivity |]. split; [reflexivity |].
      intros b [= <-] Hl. cbn. rewrite ?Eb, Hl. cbn. f_equal. apply memcpy_at_end.
    + do 3 eexists. split; [reflexivity |]. left. split; reflexivity.
  - apply Z.ltb_ge in E. cbn. rewrite Eb. cbn. do 3 eexists. split; [reflexivity |]. right.
    split; [reflexivity |]. split; [reflexivity |]. split; [cbn; lia |].
    split; [cbn; lia |]. split; [reflexivity |]. split; [reflexivity |].
    intros b [= <-] Hl. cbn. rewrite ?Eb, Hl. cbn. f_equal. apply memcpy_at_end.
Qed.

Lemma append_buffer_within_size_witness :
  0 <= _len (mkHash (fresh_container 4 2) (fresh_container 4 2) (Some "") 0 0)
  /\ 0 <= 3
  /\ _buf (mkHash (fresh_container 4 2) (fresh_container 4 2) (Some "") 0 0) <> None
  /\ exists rc ht' o',
       __append_buffer (mkHash (fresh_container 4 2) (fresh_container 4 2) (Some "") 0 0)
         "abc" 3 [] = Some (rc, ht', o').
Proof.
  assert (H0 : 0 <= _len (mkHash (fresh_container 4 2) (fresh_container 4 2) (Some "") 0 0))
    by (simpl; lia).
  assert (H3 : 0 <= 3) by lia.
  assert (Hb : _buf (mkHash (fresh_container 4 2) (fresh_container 4 2) (Some "") 0 0) <> None)
    by discriminate.
  split; [exact H0 |]. split; [exact H3 |]. split; [exact Hb |].
  destruct (append_buffer_within_size _ "abc" 3 [] H0 H3 Hb) as (rc & ht' & o' & E & _).
  exists rc, ht', o'. exact E.
Defined.

(** ** The flush, function by function *)

Section MoreFlush.
Context {ext : Externals}.

(** X8: [cmdHashGetCommands] can be called again.  On a table that
    satisfies the invariant, whose names can all be copied (no stored length
    leaves the block of its copy) and whose SADD commands all fit, with every
    allocation succeeding, and whether or not a protocol buffer is left from
    an earlier call, it returns the ZINCRBY commands followed by the SADD
    commands; a second call on the table it leaves returns the same bytes,
    and the containers are never changed. *)
Theorem cmdHashGetCommands_again (ht : cmdHash) :
  hinv ht -> (_buf ht = None -> _len ht = 0) ->
  flushable ht ->
  exists ht1 ht2,
    let w := String.append (zincrby_part ht) (sadd_part ht) in
    runs (cmdHashGetCommands ht) (0, Some (Some w, strlen_Z w), ht1)
    /\ runs (cmdHashGetCommands ht1) (0, Some (Some w, strlen_Z w), ht2)
    /\ s_cmds ht1 = s_cmds ht /\ z_cmds ht1 = z_cmds ht
    /\ s_cmds ht2 = s_cmds ht /\ z_cmds ht2 = z_cmds ht.
Proof.
  intros Hh Hlen (Rz & Rs & Hfits).
  set (ht0 := mkHash (s_cmds ht) (z_cmds ht) None 0 0).
  assert (H0 : forall h, s_cmds h = s_cmds ht -> z_cmds h = z_cmds ht ->
                 (_buf h = None -> _len h = 0) ->
                 exists size,
                   let w := String.append (zincrby_part ht) (sadd_part ht) in
                   runs (cmdHashGetCommands h)
                     (0, Some (Some w, strlen_Z w),
                      mkHash (s_cmds ht) (z_cmds ht) (Some w) size (strlen_Z w))).
  { intros [s z b sz ln] Es Ez Hl. cbn in Es, Ez, Hl. subst s z.
    destruct b as [b|].
    - change (cmdHashGetCommands (mkHash (s_cmds ht) (z_cmds ht) (Some b) sz ln))
        with (cmdHashGetCommands ht0).
      exact (cmdHashGetCommands_runs ht0 Hh eq_refl eq_refl Rz Rs Hfits).
    - rewrite (Hl eq_refl).
      exact (cmdHashGetCommands_runs (mkHash (s_cmds ht) (z_cmds ht) None sz 0)
               Hh eq_refl eq_refl Rz Rs Hfits). }
  destruct (H0 ht eq_refl eq_refl Hlen) as (size1 & R1).
  destruct (H0 (mkHash (s_cmds ht) (z_cmds ht)
                  (Some (String.append (zincrby_part ht) (sadd_part ht))) size1
                  (strlen_Z (String.append (zincrby_part ht) (sadd_part ht))))
              eq_refl eq_refl) as (size2 & R2); [discriminate |].
  do 2 eexists. cbn zeta. split; [exact R1 |]. split; [exact R2 |].
  repeat split.
Qed.

(** X9: [__append_zincrby_key_cmds] on a key that satisfies the invariant,
    has its member table and whose names can be copied (the length kept
    with the key, and with each member, does not leave the block of the
    copy), with every allocation succeeding, appends to the protocol buffer
    one ZINCRBY command per member of the key, in the order of the buckets
    and of each chain, and returns 0. *)
Theorem append_zincrby_key_cmds_writes (sc zc : cmdHashContainer) (k : cmdKeyList)
    (b : string) (size : Z) :
  key_inv (Z.to_nat (msize zc)) k -> kbucket k <> None -> key_readable k ->
  exists size',
    let w := cat (map (fun item => zincrby_bytes (k, item)) (members_of k)) in
    runs (__append_zincrby_key_cmds (mkHash sc zc (Some b) size (strlen_Z b)) k)
      (0, mkHash sc zc (Some (String.append b w)) size' (strlen_Z (String.append b w))).
Proof.
  intros Hk Hb Hr. cbn zeta.
  destruct (zincrby_key_emits sc zc k Hk Hb Hr b size) as (size' & R).
  exists size'. rewrite map_map in R. exact R.
Qed.


End MoreFlush.

Lemma key_inv_key_with (ms : Z) (k m : string) (u : Z) :
  0 < ms -> key_inv (Z.to_nat ms) (key_with ms k m u).
Proof.
  intros Hms. unfold key_inv. rewrite members_of_key_with by exact Hms.
  split; [reflexivity |]. split; [constructor; [discriminate | constructor] |].
  intros arr [= <-]. unfold member_table. rewrite length_insert. apply length_replicate.
Qed.

Lemma inv_one_member (ks ms : Z) (k m : string) (u : Z) :
  0 < ks -> 0 < ms ->
  inv (one_member ks ms k m u) /\ allocated (one_member ks ms k m u).
Proof.
  intros Hks Hms.
  pose proof (GET_BUCKET_lt k (strlen_Z k) ks Hks) as Hhk.
  split.
  - constructor.
    + cbn. rewrite length_insert, length_replicate. reflexivity.
    + exact Hks.
    + exact Hms.
    + cbn [bucket one_member one_key msize]. apply Forall_insert.
      * apply Forall_replicate. constructor.
      * constructor; [| constructor]. eexists. split; [reflexivity |].
        apply key_inv_key_with. exact Hms.
    + rewrite n_keys_length. unfold one_member.
      rewrite (keys_of_one_key ks ms k Hks). reflexivity.
    + rewrite n_members_length, (entries_one_member ks ms k m Hks Hms). reflexivity.
  - intros i j chain k0 Hi Hj _. cbn [bucket one_member one_key] in Hi.
    destruct (decide (i = GET_BUCKET k (strlen_Z k) ks)) as [-> | Hne].
    + rewrite list_lookup_insert_eq in Hi by (rewrite length_replicate; exact Hhk).
      injection Hi as <-. destruct j as [|j]; [| discriminate Hj].
      injection Hj as <-. discriminate.
    + rewrite list_lookup_insert_ne in Hi by congruence.
      apply lookup_replicate in Hi as [-> _]. discriminate Hj.
Qed.

Lemma readable_one_member (ks ms : Z) (k m : string) (u : Z) :
  0 < ks -> 0 < ms -> nul_free k = true -> nul_free m = true ->
  readable (one_member ks ms k m u).
Proof.
  intros Hks Hms Hk Hm. unfold readable, one_member.
  rewrite (keys_of_one_key ks ms k Hks). constructor; [| constructor].
  unfold key_readable. rewrite members_of_key_with by exact Hms.
  unfold key_with, in_block, item_readable, in_block. cbn [key klen member mlen default fst snd].
  rewrite !strndup_nul_free by assumption.
  split; [apply Z.leb_le; lia |].
  constructor; [| constructor]. cbn [member mlen default fst snd].
  rewrite ?strndup_nul_free by assumption. unfold id. apply Z.leb_le. lia.
Qed.

Lemma cmdHashGetCommands_again_witness :
  hinv (mkHash (one_member 4 2 "s" "a" 0) (one_member 4 2 "z" "m" BITS_3) None 0 0)
  /\ (_buf (mkHash (one_member 4 2 "s" "a" 0) (one_member 4 2 "z" "m" BITS_3) None 0 0) = None
       -> _len (mkHash (one_member 4 2 "s" "a" 0) (one_member 4 2 "z" "m" BITS_3) None 0 0)
          = 0)
  /\ flushable (mkHash (one_member 4 2 "s" "a" 0) (one_member 4 2 "z" "m" BITS_3) None 0 0)
  /\ exists w ht1 ht2,
       w = String.append
             (resp_zincrby ("z", 1) 3%float ("m", 1))
             (resp_command [("SADD", 4); ("s", 1); ("a", 1)])
       /\ runs (cmdHashGetCommands
                  (mkHash (one_member 4 2 "s" "a" 0) (one_member 4 2 "z" "m" BITS_3) None 0 0))
            (0, Some (Some w, strlen_Z w), ht1)
       /\ runs (cmdHashGetCommands ht1) (0, Some (Some w, strlen_Z w), ht2).
Proof.
  set (ht := mkHash (one_member 4 2 "s" "a" 0) (one_member 4 2 "z" "m" BITS_3) None 0 0).
  assert (H : hinv ht).
  { destruct (inv_one_member 4 2 "s" "a" 0) as [I1 A1]; [lia | lia |].
    destruct (inv_one_member 4 2 "z" "m" BITS_3) as [I2 A2]; [lia | lia |].
    exact (conj I2 (conj A2 (conj I1 A1))). }
  assert (Hl : _buf ht = None -> _len ht = 0) by (intros _; reflexivity).
  assert (Hf : flushable ht).
  { split; [apply readable_one_member; (lia || reflexivity) |].
    split; [apply readable_one_member; (lia || reflexivity) |].
    unfold ht. cbn [s_cmds]. unfold one_member.
    rewrite (keys_of_one_key 4 2 "s") by lia. constructor; [| constructor].
    unfold sadd_fits. split; vm_compute; [reflexivity | discriminate]. }
  split; [exact H |]. split; [exact Hl |]. split; [exact Hf |].
  destruct (cmdHashGetCommands_again ht H Hl Hf) as (ht1 & ht2 & R1 & R2 & _).
  eexists. exists ht1, ht2. split; [| split; [exact R1 | exact R2]].
  vm_compute. reflexivity.
Defined.

Lemma append_zincrby_key_cmds_writes_witness :
  key_inv (Z.to_nat (msize (fresh_container 4 2))) (key_with 2 "k" "m" BITS_3)
  /\ kbucket (key_with 2 "k" "m" BITS_3) <> None
  /\ key_readable (key_with 2 "k" "m" BITS_3)
  /\ exists size',
       runs (__append_zincrby_key_cmds
               (mkHash (fresh_container 4 2) (fresh_container 4 2) (Some "") 0 (strlen_Z ""))
               (key_with 2 "k" "m" BITS_3))
         (0, mkHash (fresh_container 4 2) (fresh_container 4 2)
               (Some (String.append ""
                        (cat (map (fun item => zincrby_bytes (key_with 2 "k" "m" BITS_3, item))
                                (members_of (key_with 2 "k" "m" BITS_3))))))
               size'
               (strlen_Z (String.append ""
                            (cat (map (fun item =>
                                         zincrby_bytes (key_with 2 "k" "m" BITS_3, item))
                                    (members_of (key_with 2 "k" "m" BITS_3))))))).
Proof.
  assert (Hk : key_inv (Z.to_nat (msize (fresh_container 4 2))) (key_with 2 "k" "m" BITS_3))
    by (apply key_inv_key_with; lia).
  assert (Hb : kbucket (key_with 2 "k" "m" BITS_3) <> None) by discriminate.
  assert (Hr : key_readable (key_with 2 "k" "m" BITS_3)).
  { split; [reflexivity |]. rewrite members_of_key_with by lia.
    constructor; [reflexivity | constructor]. }
  split; [exact Hk |]. split; [exact Hb |]. split; [exact Hr |].
  exact (append_zincrby_key_cmds_writes (fresh_container 4 2) (fresh_container 4 2)
           (key_with 2 "k" "m" BITS_3) "" 0 Hk Hb Hr).
Defined.


(** ** The driver: composition, reader errors, modes and start-up *)

Section MoreDriver.
Context {ext : Externals}.

Lemma process_app (a b : list reader_event) (ctx : optimizerContext) (o : oracle) :
  processBufferFile ctx (a ++ b) o
  = match processBufferFile ctx a o with
    | Some (rc, ctx', o') => if rc =? 0 then processBufferFile ctx' b o' else Some (rc, ctx', o')
    | None => None
    end.
Proof.
  revert ctx o. induction a as [|[r|] a IH]; intros ctx o.
  - reflexivity.
  - cbn [app processBufferFile]. unfold bind, ret.
    destruct (cmdHashAdd (cmd_hash ctx) r o) as [[[rc h] o1]|]; [| reflexivity].
    destruct (rc =? cmdType_int TYPE_UNSUPPORTED).
    + destruct (cmdBufferAddReply (cmd_buffer ctx) r o1) as [[[rc2 b1] o2]|];
        [| reflexivity].
      apply IH.
    + apply IH.
  - reflexivity.
Qed.


Lemma init_runs (ks ms : Z) :
  0 < ks -> 0 < ms ->
  runs (initContext_sized ks ms) (Some (fresh_context false ks ms)).
Proof.
  intros Hks Hms.
  unfold initContext_sized, cmdBufferCreate, cmdHashCreate, __container_create.
  assert (Hk : (ks <? 1) = false) by lia. assert (Hm : (ms <? 1) = false) by lia.
  rewrite Hk, Hm. reflexivity.
Qed.

(** X12: bytes that are not in the protocol.  When the reader reports an
    error after the commands [l], [processBufferFile] returns -1 with the
    context as the commands [l] left it and reads nothing of what follows,
    and the run ends with status 1 and writes no output, in either mode. *)
Theorem reader_error_ends_run (ks ms : Z) (stat : bool) (l : list (list string))
    (rest : list reader_event) :
  0 < ks -> 0 < ms ->
  exists ctx,
    runs (processBufferFile (fresh_context stat ks ms) (commands l)) (0, ctx)
    /\ runs (processBufferFile (fresh_context stat ks ms) (commands l ++ REDIS_ERR :: rest))
         (-1, ctx)
    /\ runs (main_sized ks ms stat (commands l ++ REDIS_ERR :: rest)) (1, None).
Proof.
  intros Hks Hms.
  destruct (process_fresh stat ks ms l Hks Hms) as (ctx & R & _).
  assert (R' : runs (processBufferFile (fresh_context stat ks ms)
                       (commands l ++ REDIS_ERR :: rest)) (-1, ctx)).
  { unfold runs. rewrite process_app, R. reflexivity. }
  exists ctx. split; [exact R |]. split; [exact R' |].
  unfold main_sized.
  eapply runs_bind; [apply init_runs; assumption | cbn beta iota].
  eapply runs_bind; [exact R' | cbn beta iota]. apply runs_ret.
Qed.

(** X13: the two modes at the end of a run, every allocation succeeding.
    With [--stat] a run on any commands of bulk strings ends with status 0
    and writes nothing.  Without it a run on an input that holds no command
    ends with status 1 and writes nothing. *)
Theorem main_stat_or_empty (ks ms : Z) :
  0 < ks -> 0 < ms ->
  (forall l : list (list string), runs (main_sized ks ms true (commands l)) (0, None))
  /\ runs (main_sized ks ms false []) (1, None).
Proof.
  intros Hks Hms. split.
  - intros l.
    destruct (process_fresh true ks ms l Hks Hms)
      as (ctx & R & Hh & Hst & Hb & Hl & _ & Hpos & _).
    destruct (appendAggCommands_runs ctx Hh Hb Hl Hpos (or_introl Hst))
      as (ctx' & R' & Hst' & _).
    unfold main_sized.
    eapply runs_bind; [apply init_runs; assumption | cbn beta iota].
    eapply runs_bind; [exact R | cbn beta iota].
    change (0 <? 0) with false. cbn beta iota.
    eapply runs_bind; [exact R' | cbn beta iota].
    change (0 <? 0) with false. cbn beta iota.
    rewrite Hst', Hst. apply runs_ret.
  - destruct (process_fresh false ks ms [] Hks Hms)
      as (ctx & R & Hh & Hst & Hb & Hl & _ & Hpos & Hn & _).
    assert (Hf : flushable (cmd_hash ctx)).
    { injection R as <-. unfold flushable, readable, keys_of.
      cbn [cmd_hash fresh_context fresh_hash s_cmds z_cmds fresh_container bucket].
      rewrite concat_replicate_nil. repeat split; constructor. }
    destruct (appendAggCommands_runs ctx Hh Hb Hl Hpos (or_intror Hf))
      as (ctx' & R' & Hst' & Hc & _).
    unfold main_sized.
    eapply runs_bind; [apply init_runs; assumption | cbn beta iota].
    eapply runs_bind; [exact R | cbn beta iota].
    change (0 <? 0) with false. cbn beta iota.
    eapply runs_bind; [exact R' | cbn beta iota].
    change (0 <? 0) with false. cbn beta iota.
    rewrite Hst', Hst, Hc, Hn. apply runs_ret.
Qed.

(** X14: start-up.  [cmdHashCreate] returns NULL without allocating when
    a size is below 1; with sizes of at least 1 and every allocation
    succeeding it returns a table that satisfies the invariant; and when any
    of the seven allocations of [initContext] fails, the run ends with status
    1 before anything is read. *)
Theorem start_up (ks ms : Z) :
  (forall o, ks < 1 \/ ms < 1 -> cmdHashCreate ks ms o = Some (None, o))
  /\ (0 < ks -> 0 < ms ->
      runs (cmdHashCreate ks ms) (Some (fresh_hash ks ms)) /\ hinv (fresh_hash ks ms))
  /\ (forall (n : nat) (stat : bool) (input : list reader_event) (o : oracle),
        0 < ks -> 0 < ms -> (n < 7)%nat ->
        main_sized ks ms stat input (replicate n true ++ false :: o) = Some (1, None, o)).
Proof.
  split; [| split].
  - intros o H. unfold cmdHashCreate.
    assert (E : (ks <? 1) || (ms <? 1) = true).
    { apply orb_true_iff. destruct H; [left | right]; lia. }
    rewrite E. reflexivity.
  - intros Hks Hms. split; [| apply hinv_fresh; assumption].
    unfold cmdHashCreate, __container_create.
    assert (Hk : (ks <? 1) = false) by lia. assert (Hm : (ms <? 1) = false) by lia.
    rewrite Hk, Hm. reflexivity.
  - intros n stat input o Hks Hms Hn.
    unfold main_sized, initContext_sized, cmdBufferCreate, cmdHashCreate, __container_create.
    assert (Hk : (ks <? 1) = false) by lia. assert (Hm : (ms <? 1) = false) by lia.
    rewrite Hk, Hm.
    do 7 (destruct n as [|n]; [reflexivity |]). lia.
Qed.

End MoreDriver.

Lemma reader_error_ends_run_witness :
  0 < 4 /\ 0 < 2
  /\ exists ctx,
       runs (processBufferFile (fresh_context false 4 2) (commands [["SET"; "x"; "1"]])) (0, ctx)
       /\ runs (processBufferFile (fresh_context false 4 2)
                  (commands [["SET"; "x"; "1"]] ++ REDIS_ERR :: commands [["SET"; "y"; "2"]]))
            (-1, ctx)
       /\ runs (main_sized 4 2 false
                  (commands [["SET"; "x"; "1"]] ++ REDIS_ERR :: commands [["SET"; "y"; "2"]]))
            (1, None).
Proof.
  assert (H4 : 0 < 4) by lia. assert (H2 : 0 < 2) by lia.
  split; [exact H4 |]. split; [exact H2 |].
  exact (reader_error_ends_run 4 2 false [["SET"; "x"; "1"]] (commands [["SET"; "y"; "2"]])
           H4 H2).
Defined.

Lemma main_stat_or_empty_witness :
  0 < 4 /\ 0 < 2
  /\ runs (main_sized 4 2 true (commands [["ZINCRBY"; "k"; "1"; "m"]; ["SET"; "x"; "1"]]))
       (0, None)
  /\ runs (main_sized 4 2 false []) (1, None).
Proof.
  assert (H4 : 0 < 4) by lia. assert (H2 : 0 < 2) by lia.
  split; [exact H4 |]. split; [exact H2 |].
  destruct (main_stat_or_empty 4 2 H4 H2) as (Ha & Hb).
  split; [apply Ha | exact Hb].
Defined.

(** ** zhash.c: values add up *)

Section ZOne.
Variables (ks ms : Z) (k m : string).
Hypotheses (Hks : 0 < ks) (Hms : 0 < ms).
Hypotheses (Hk : 1 <= strlen_Z k) (Hm : 1 <= strlen_Z m).

Lemma zHashAdd_first (v : float) :
  double_is_zero v = false ->
  runs (ZHash.zHashAdd (fresh_zhash ks ms) (Some k) (strlen_Z k) v (Some m) (strlen_Z m))
    (0, zhash_one ks ms k m (PrimFloat.add PrimFloat.zero v)).
Proof.
  intros Hv.
  pose proof (GET_BUCKET_lt k (strlen_Z k) ks Hks) as Hhk.
  pose proof (GET_BUCKET_lt m (strlen_Z m) ms Hms) as Hhm.
  unfold zhash_one.
  set (hk := GET_BUCKET k (strlen_Z k) ks) in *.
  set (hm := GET_BUCKET m (strlen_Z m) ms) in *.
  unfold ZHash.zHashAdd.
  assert (Hk' : (strlen_Z k <? 1) = false) by lia.
  assert (Hm' : (strlen_Z m <? 1) = false) by lia.
  rewrite Hk', Hm', Hv. cbn [is_null orb].
  eapply runs_bind; [apply runs_deref; reflexivity | cbn beta iota].
  eapply runs_bind; [apply runs_deref; reflexivity | cbn beta iota].
  eapply runs_bind.
  { unfold ZHash.__findKey. cbn [ZHash.ksize ZHash.bucket fresh_zhash]. fold hk.
    eapply runs_bind; [apply runs_deref; apply lookup_replicate_2; exact Hhk | cbn beta iota].
    step. unfold ZHash.__findKey_copy. step. apply runs_ret. }
  cbn beta iota.
  eapply runs_bind.
  { unfold ZHash.__findMember, ZHash.get_key.
    cbn [ZHash.bucket ZHash.set_bucket ZHash.msize ZHash.ksize fresh_zhash fst snd length].
    fold hm.
    rewrite list_lookup_insert_eq by (rewrite length_replicate; exact Hhk).
    cbn [lookup list_lookup app ZHash.kbucket].
    step. cbn [ZHash.kbucket].
    eapply runs_bind; [step; apply runs_ret | cbn beta iota].
    eapply runs_bind; [apply runs_deref; apply lookup_replicate_2; exact Hhm | cbn beta iota].
    step. unfold ZHash.__findMember_copy. step. apply runs_ret. }
  cbn beta iota.
  eapply runs_bind.
  { unfold ZHash.add_value, ZHash.get_key, ZHash.put_key.
    cbn [ZHash.bucket ZHash.set_bucket ZHash.msize ZHash.ksize fresh_zhash fst snd length app].
    rewrite alter_insert_eq by (rewrite length_replicate; exact Hhk).
    rewrite list_lookup_insert_eq by (rewrite length_replicate; exact Hhk).
    cbn [lookup list_lookup insert list_insert ZHash.kbucket ZHash.set_kbucket].
    step.
    eapply runs_bind; [apply runs_deref; reflexivity | cbn beta iota].
    eapply runs_bind.
    { apply runs_deref. apply list_lookup_insert_eq. rewrite length_replicate. exact Hhm. }
    cbn beta iota.
    eapply runs_bind; [apply runs_deref; reflexivity | cbn beta iota].
    apply runs_ret. }
  cbn beta iota.
  match goal with |- runs (ret (_, ?c)) (_, ?c') => replace c with c' end;
    [apply runs_ret |].
  unfold ZHash.put_key, ZHash.set_bucket, ZHash.set_kbucket.
  cbn [ZHash.bucket ZHash.ksize ZHash.msize ZHash.count ZHash.str_len fresh_zhash fst snd
       ZHash.key ZHash.klen ZHash.member ZHash.len ZHash.value ZHash.calloc_member
       insert list_insert].
  rewrite alter_insert_eq by (rewrite length_replicate; exact Hhk).
  cbn [insert list_insert]. rewrite list_insert_insert_eq. reflexivity.
Qed.

Lemma zHashAdd_next (u v : float) :
  double_is_zero v = false ->
  runs (ZHash.zHashAdd (zhash_one ks ms k m u) (Some k) (strlen_Z k) v (Some m) (strlen_Z m))
    (0, zhash_one ks ms k m (PrimFloat.add u v)).
Proof.
  intros Hv.
  pose proof (GET_BUCKET_lt k (strlen_Z k) ks Hks) as Hhk.
  pose proof (GET_BUCKET_lt m (strlen_Z m) ms Hms) as Hhm.
  unfold zhash_one.
  set (hk := GET_BUCKET k (strlen_Z k) ks) in *.
  set (hm := GET_BUCKET m (strlen_Z m) ms) in *.
  unfold ZHash.zHashAdd.
  assert (Hk' : (strlen_Z k <? 1) = false) by lia.
  assert (Hm' : (strlen_Z m <? 1) = false) by lia.
  rewrite Hk', Hm', Hv. cbn [is_null orb].
  eapply runs_bind; [apply runs_deref; reflexivity | cbn beta iota].
  eapply runs_bind; [apply runs_deref; reflexivity | cbn beta iota].
  eapply runs_bind.
  { unfold ZHash.__findKey. cbn [ZHash.ksize ZHash.bucket]. fold hk.
    eapply runs_bind.
    { apply runs_deref. apply list_lookup_insert_eq. rewrite length_replicate. exact Hhk. }
    cbn beta iota. cbn [ZHash.scan_keys ZHash.klen ZHash.key].
    rewrite Z.eqb_refl. unfold strndup at 1. rewrite strncmp_strndup_l.
    cbn [andb Z.eqb]. apply runs_ret. }
  cbn beta iota.
  eapply runs_bind.
  { unfold ZHash.__findMember, ZHash.get_key.
    cbn [ZHash.bucket ZHash.msize fst snd]. fold hm.
    rewrite list_lookup_insert_eq by (rewrite length_replicate; exact Hhk).
    cbn [lookup list_lookup ZHash.kbucket].
    step. cbn [ZHash.kbucket]. step.
    eapply runs_bind.
    { apply runs_deref. apply list_lookup_insert_eq. rewrite length_replicate. exact Hhm. }
    cbn beta iota. cbn [ZHash.scan_members ZHash.len ZHash.member].
    rewrite Z.eqb_refl. unfold strndup at 1. rewrite strncmp_strndup_r.
    cbn [Z.eqb]. apply runs_ret. }
  cbn beta iota.
  eapply runs_bind.
  { unfold ZHash.add_value, ZHash.get_key, ZHash.put_key, ZHash.set_bucket.
    cbn [ZHash.bucket ZHash.msize ZHash.ksize fst snd].
    rewrite alter_insert_eq by (rewrite length_replicate; exact Hhk).
    rewrite list_lookup_insert_eq by (rewrite length_replicate; exact Hhk).
    cbn [lookup list_lookup insert list_insert ZHash.kbucket ZHash.set_kbucket].
    step.
    eapply runs_bind; [apply runs_deref; reflexivity | cbn beta iota].
    eapply runs_bind.
    { apply runs_deref. apply list_lookup_insert_eq. rewrite length_replicate. exact Hhm. }
    cbn beta iota.
    eapply runs_bind; [apply runs_deref; reflexivity | cbn beta iota].
    apply runs_ret. }
  cbn beta iota.
  match goal with |- runs (ret (_, ?c)) (_, ?c') => replace c with c' end;
    [apply runs_ret |].
  unfold ZHash.put_key, ZHash.set_bucket, ZHash.set_kbucket.
  cbn [ZHash.bucket ZHash.ksize ZHash.msize ZHash.count ZHash.str_len fst snd
       ZHash.key ZHash.klen ZHash.member ZHash.len ZHash.value insert list_insert].
  rewrite !alter_insert_eq by (rewrite ?length_insert, length_replicate; exact Hhk).
  cbn [insert list_insert]. rewrite !list_insert_insert_eq. reflexivity.
Qed.

Lemma zHashAdd_all_next (vs : list float) (u : float) :
  Forall (fun v => double_is_zero v = false) vs ->
  runs (zHashAdd_all (zhash_one ks ms k m u) k m vs)
    (0, zhash_one ks ms k m (fold_left PrimFloat.add vs u)).
Proof.
  intros H. revert u. induction H as [|v vs Hv _ IH]; intros u.
  - apply runs_ret.
  - cbn [zHashAdd_all fold_left].
    eapply runs_bind; [apply zHashAdd_next; exact Hv | cbn beta iota].
    change (0 <? 0) with false. cbn beta iota. apply IH.
Qed.

End ZOne.

(** X15: in zhash.c the values add up.  On a new table, for a key and a
    member of at least one byte and values none of which is zero, the calls
    [zHashAdd] leave one key with one member, counted once, whose value is
    the values added from 0 in the order of the calls; a value of zero is
    refused and changes nothing. *)
Theorem zHashAdd_adds_up (ks ms : Z) (k m : string) (v : float) (vs : list float) :
  0 < ks -> 0 < ms -> 1 <= strlen_Z k -> 1 <= strlen_Z m ->
  Forall (fun v => double_is_zero v = false) (v :: vs) ->
  runs (zHashAdd_all (fresh_zhash ks ms) k m (v :: vs))
    (0, zhash_one ks ms k m (fold_left PrimFloat.add (v :: vs) PrimFloat.zero))
  /\ runs (ZHash.zHashAdd
             (zhash_one ks ms k m (fold_left PrimFloat.add (v :: vs) PrimFloat.zero))
             (Some k) (strlen_Z k) PrimFloat.zero (Some m) (strlen_Z m))
       (-1, zhash_one ks ms k m (fold_left PrimFloat.add (v :: vs) PrimFloat.zero)).
Proof.
  intros Hks Hms Hk Hm H. inversion H as [|? ? Hv Hvs]; subst. split.
  - cbn [zHashAdd_all fold_left].
    eapply runs_bind; [apply zHashAdd_first; assumption | cbn beta iota].
    change (0 <? 0) with false. cbn beta iota.
    apply zHashAdd_all_next; assumption.
  - apply zHashAdd_rejects. right. right. right. right. reflexivity.
Qed.

Lemma zHashAdd_adds_up_witness :
  0 < 4 /\ 0 < 2 /\ 1 <= strlen_Z "k" /\ 1 <= strlen_Z "m"
  /\ Forall (fun v => double_is_zero v = false) [1%float; 2%float; 0.5%float]
  /\ runs (zHashAdd_all (fresh_zhash 4 2) "k" "m" [1%float; 2%float; 0.5%float])
       (0, zhash_one 4 2 "k" "m" 3.5%float).
Proof.
  assert (H4 : 0 < 4) by lia. assert (H2 : 0 < 2) by lia.
  assert (Hk : 1 <= strlen_Z "k") by (vm_compute; discriminate).
  assert (Hm : 1 <= strlen_Z "m") by (vm_compute; discriminate).
  assert (Hv : Forall (fun v => double_is_zero v = false) [1%float; 2%float; 0.5%float])
    by (repeat constructor).
  split; [exact H4 |]. split; [exact H2 |]. split; [exact Hk |]. split; [exact Hm |].
  split; [exact Hv |].
  exact (proj1 (zHashAdd_adds_up 4 2 "k" "m" 1%float [2%float; 0.5%float] H4 H2 Hk Hm Hv)).
Defined.

Section ZReply.
Context {ext : Externals}.

(** X16: [zHashAddReply] looks at the number of elements and at the
    delta only.  A reply that has not four elements is refused, and so is
    one of four bulk strings whose delta [strtod] reads as zero, which
    includes every delta that starts with no number; the table is not
    changed.  With a delta that is not zero, a key and a member of at least
    one byte, the command is added whatever its name is. *)
Theorem zHashAddReply_checks (ks ms : Z) :
  0 < ks -> 0 < ms ->
  (forall (ht : ZHash.zHash) (r : redisReply) (o : oracle),
     elements r <> 4 -> ZHash.zHashAddReply ht r o = Some (-1, ht, o))
  /\ (forall (ht : ZHash.zHash) (name k d m : string) (o : oracle),
        double_is_zero (strtod d) = true ->
        ZHash.zHashAddReply ht (bulk_strings [name; k; d; m]) o = Some (-1, ht, o))
  /\ (forall name k d m : string,
        1 <= strlen_Z k -> 1 <= strlen_Z m -> double_is_zero (strtod d) = false ->
        runs (ZHash.zHashAddReply (fresh_zhash ks ms) (bulk_strings [name; k; d; m]))
          (0, zhash_one ks ms k m (PrimFloat.add PrimFloat.zero (strtod d)))).
Proof.
  intros Hks Hms. split; [| split].
  - intros ht r o H. unfold ZHash.zHashAddReply.
    apply Z.eqb_neq in H. rewrite H. reflexivity.
  - intros ht name k d m o H. unfold ZHash.zHashAddReply. cbn.
    apply zHashAdd_rejects. right. right. right. right. exact H.
  - intros name k d m Hk Hm H. unfold ZHash.zHashAddReply. cbn.
    change (runs (ZHash.zHashAdd (fresh_zhash ks ms) (Some k) (strlen_Z k) (strtod d)
                    (Some m) (strlen_Z m))
              (0, zhash_one ks ms k m (PrimFloat.add PrimFloat.zero (strtod d)))).
    apply zHashAdd_first; assumption.
Qed.

End ZReply.

Lemma zHashAddReply_checks_witness :
  0 < 4 /\ 0 < 2
  /\ double_is_zero (strtod "abc") = true
  /\ ZHash.zHashAddReply (fresh_zhash 4 2) (bulk_strings ["ZINCRBY"; "k"; "abc"; "m"]) []
     = Some (-1, fresh_zhash 4 2, [])
  /\ ZHash.zHashAddReply (fresh_zhash 4 2) (bulk_strings ["ZINCRBY"; "k"; "1"]) []
     = Some (-1, fresh_zhash 4 2, []).
Proof.
  assert (H4 : 0 < 4) by lia. assert (H2 : 0 < 2) by lia.
  assert (Hz : double_is_zero (strtod "abc") = true) by (vm_compute; reflexivity).
  destruct (zHashAddReply_checks 4 2 H4 H2) as (Ha & Hb & _).
  split; [exact H4 |]. split; [exact H2 |]. split; [exact Hz |]. split.
  - apply Hb. exact Hz.
  - apply Ha. vm_compute. discriminate.
Defined.

(** ** What a run never does *)

Section Never.
Context {ext : Externals}.

Lemma process_stats (input : list reader_event) (ctx ctx' : optimizerContext)
    (o o' : oracle) (rc : Z) :
  processBufferFile ctx input o = Some (rc, ctx', o') ->
  stats ctx' = stats ctx /\ (rc = 0 \/ rc = -1).
Proof.
  revert ctx o. induction input as [|[r|] input IH]; intros ctx o; cbn [processBufferFile].
  - intros [= <- <- <-]. split; [reflexivity | left; reflexivity].
  - unfold bind, ret.
    destruct (cmdHashAdd (cmd_hash ctx) r o) as [[[rc1 h] o1]|]; [| discriminate].
    destruct (rc1 =? cmdType_int TYPE_UNSUPPORTED).
    + destruct (cmdBufferAddReply (cmd_buffer ctx) r o1) as [[[rc2 b1] o2]|];
        [| discriminate].
      intros H. apply IH in H. exact H.
    + intros H. apply IH in H. exact H.
  - intros [= <- <- <-]. split; [reflexivity | right; reflexivity].
Qed.

Lemma append_agg_stats (ctx ctx' : optimizerContext) (o o' : oracle) (rc : Z) :
  appendAggCommands ctx o = Some (rc, ctx', o') ->
  stats ctx' = stats ctx /\ (rc = 0 \/ rc = -1).
Proof.
  unfold appendAggCommands. destruct (stats ctx) eqn:Es; cbn [negb].
  - intros [= <- <- <-]. split; [reflexivity | left; reflexivity].
  - unfold bind, ret.
    destruct (cmdHashGetCommands (cmd_hash ctx) o) as [[[[rc1 out] h] o1]|]; [| discriminate].
    destruct (negb (rc1 =? 0)).
    + intros [= <- <- <-]. split; [reflexivity | right; reflexivity].
    + unfold deref, undefined, ret.
      destruct out as [[cmd size]|]; [| discriminate].
      destruct cmd as [cmd|]; [| discriminate].
      cbn [stats cmd_count cmd_buffer cmd_hash].
      destruct (cmdBufferAppend (cmd_buffer ctx) cmd size (cmdHashGetCount h) o1)
        as [[[rc2 b] o2]|]; [| discriminate].
      cbn [stats cmd_count cmd_buffer].
      destruct (rc2 <? 0); intros [= <- <- <-];
        (split; [reflexivity |]); [right | left]; reflexivity.
Qed.

(** X17: whatever the input is and whatever the allocator does, with the
    files opening and the write succeeding, a run that ends does so with
    status 0 or 1, and it hands bytes to [writeFile] only when its status is
    0 and the mode is not [--stat]. *)
Theorem main_writes_only_on_success (ks ms : Z) (stat : bool) (input : list reader_event)
    (o o' : oracle) (rc : Z) (out : option string) :
  main_sized ks ms stat input o = Some (rc, out, o') ->
  (rc = 0 \/ rc = 1) /\ (out <> None -> rc = 0 /\ stat = false).
Proof.
  unfold main_sized. unfold bind at 1.
  destruct (initContext_sized ks ms o) as [[[ctx|] o1]|]; [| | discriminate].
  2:{ intros [= <- <- <-]. split; [right; reflexivity | congruence]. }
  unfold bind at 1.
  destruct (processBufferFile _ input o1) as [[[rc1 ctx1] o2]|] eqn:E1; [| discriminate].
  apply process_stats in E1 as [Hs1 _]. cbn [stats] in Hs1.
  destruct (rc1 <? 0).
  { intros [= <- <- <-]. split; [right; reflexivity | congruence]. }
  unfold bind at 1.
  destruct (appendAggCommands ctx1 o2) as [[[rc2 ctx2] o3]|] eqn:E2; [| discriminate].
  apply append_agg_stats in E2 as [Hs2 _].
  destruct (rc2 <? 0).
  { intros [= <- <- <-]. split; [right; reflexivity | congruence]. }
  rewrite Hs2, Hs1. destruct stat; cbn [negb].
  - intros [= <- <- <-]. split; [left; reflexivity | congruence].
  - destruct (0 <? cmd_count ctx2); intros [= <- <- <-].
    + split; [left; reflexivity |]. intros _. split; reflexivity.
    + split; [right; reflexivity | congruence].
Qed.

End Never.

Lemma main_writes_only_on_success_witness :
  main_sized 4 2 false (commands [["SET"; "x"; "1"]; ["ZINCRBY"; "k"; "1"; "m"]]) (fails_at 8)
  = Some (0, Some (resp_command [("SET", 3); ("x", 1); ("1", 1)]), [])
  /\ (0 = 0 \/ 0 = 1)
  /\ (Some (resp_command [("SET", 3); ("x", 1); ("1", 1)]) <> None -> 0 = 0 /\ false = false).
Proof.
  assert (E : main_sized 4 2 false
                (commands [["SET"; "x"; "1"]; ["ZINCRBY"; "k"; "1"; "m"]]) (fails_at 8)
              = Some (0, Some (resp_command [("SET", 3); ("x", 1); ("1", 1)]), []))
    by (vm_compute; reflexivity).
  split; [exact E |].
  exact (main_writes_only_on_success 4 2 false _ _ _ _ _ E).
Defined.

Lemma start_up_witness :
  (0 < 1 \/ 2 < 1)
  /\ cmdHashCreate 0 2 [] = Some (None, [])
  /\ runs (cmdHashCreate 4 2) (Some (fresh_hash 4 2))
  /\ main_sized 4 2 false (commands [["SET"; "x"; "1"]]) (replicate 3 true ++ [false])
     = Some (1, None, []).
Proof.
  assert (H4 : 0 < 4) by lia. assert (H2 : 0 < 2) by lia.
  assert (H0 : 0 < 1 \/ 2 < 1) by (left; lia).
  split; [exact H0 |]. split; [| split].
  - exact (proj1 (start_up 0 2) [] H0).
  - exact (proj1 (proj1 (proj2 (start_up 4 2)) H4 H2)).
  - apply (proj2 (proj2 (start_up 4 2)) 3%nat false _ [] H4 H2). lia.
Defined.

(** ** SADD with several members *)

Ltac crack H :=
  repeat match type of H with
         | context [match ?x with _ => _ end] => destruct x eqn:?
         end.

(** The container that [__find_member] leaves, whatever the allocator does:
    the one it was given, or that one with the key node at [kp] replaced by a
    node of the same name. *)
Lemma find_member_shape (c : cmdHashContainer) (kp : key_ptr) (str : string) (len : Z)
    (o o' : oracle) (r : option member_ptr) (c' : cmdHashContainer) :
  __find_member c kp str len o = Some (r, c', o') ->
  ksize c' = ksize c
  /\ exists k,
       lookup_key c kp = Some k
       /\ (c' = c
           \/ exists k', key k' = key k /\ klen k' = klen k
                         /\ bucket c' = bucket (put_key c kp k')).
Proof.
  unfold __find_member, __find_member_copy, get_key, lookup_key, bind, ret, alloc, deref,
    undefined.
  intros H.
  destruct (bucket c !! kp.1) as [chain|] eqn:E1; cbn beta iota in H; [| discriminate].
  destruct (chain !! kp.2) as [[k|]|] eqn:E2; cbn beta iota in H; try discriminate.
  crack H; try discriminate; injection H as <- <- <-;
    (split; [reflexivity |]); eexists; (split; [reflexivity |]);
    first [ left; reflexivity
          | right; eexists; split; [| split; [| reflexivity]]; reflexivity ].
Qed.

Lemma scan_keys_insert_same (chain : list key_cell) (j : nat) (k k' : cmdKeyList)
    (str : string) (len : Z) (i : nat) :
  chain !! j = Some (Live k) -> key k' = key k -> klen k' = klen k ->
  scan_keys (<[j := Live k']> chain) str len i = scan_keys chain str len i.
Proof.
  intros Hj Hkey Hlen. revert j i Hj.
  induction chain as [|cell chain IH]; intros [|j] i Hj; try discriminate.
  - injection Hj as ->. cbn [insert list_insert scan_keys]. rewrite Hkey, Hlen. reflexivity.
  - cbn [insert list_insert scan_keys]. destruct cell as [k0|]; [| reflexivity].
    rewrite <- (IH j (S i) Hj). reflexivity.
Qed.

Lemma find_key_result (c c1 : cmdHashContainer) (str : string) (len : Z) (kp : key_ptr) :
  inv c -> runs (__find_key c str len) (Some kp, c1) ->
  ksize c1 = ksize c
  /\ exists chain1,
       kp.1 = GET_BUCKET str len (ksize c)
       /\ bucket c1 !! kp.1 = Some chain1
       /\ scan_keys chain1 str len 0 = Hit kp.2.
Proof.
  intros Hinv R.
  destruct (find_key_cases c str len Hinv)
    as (chain & Hchain & [(j & k & Hs & Hj & Hm & R') | (Hs & R')]);
    pose proof (runs_inj _ _ _ R R') as E; injection E as -> ->.
  - split; [reflexivity |]. exists chain. split; [reflexivity |]. split; assumption.
  - split; [reflexivity |].
    exists (chain ++ [Live (mkKey (strndup str len) len 0 None)]).
    split; [reflexivity |]. split.
    + unfold with_new_key. cbn [bucket fst].
      apply list_lookup_insert_eq. eapply lookup_lt_Some; eauto.
    + cbn [snd]. rewrite (scan_keys_app _ _ _ _ _ Hs). cbn [scan_keys].
      fold (key_matches (mkKey (strndup str len) len 0 None) str len).
      rewrite new_key_matches. reflexivity.
Qed.

(** Looking the key up again after a member was looked up under it. *)
Lemma find_key_after_member (c c1 c2 : cmdHashContainer) (str s : string) (len n : Z)
    (kp : key_ptr) (mp : member_ptr) :
  inv c ->
  runs (__find_key c str len) (Some kp, c1) ->
  runs (__find_member c1 kp s n) (Some mp, c2) ->
  runs (__find_key c2 str len) (Some kp, c2).
Proof.
  intros Hinv Rk Rm.
  destruct (find_key_result c c1 str len kp Hinv Rk) as (Ks & chain1 & Hnum & Hb & Hscan).
  destruct (find_member_shape _ _ _ _ _ _ _ _ Rm) as (Ks2 & k & Hk & Hshape).
  assert (Hgoal : forall chain2,
            bucket c2 !! kp.1 = Some chain2 -> scan_keys chain2 str len 0 = Hit kp.2 ->
            runs (__find_key c2 str len) (Some kp, c2)).
  { intros chain2 Hb2 Hs2. unfold __find_key. rewrite Ks2, Ks, <- Hnum.
    eapply runs_bind; [apply runs_deref; exact Hb2 | cbn beta iota].
    destruct chain2 as [|x l]; [discriminate |].
    rewrite Hs2. destruct kp. apply runs_ret. }
  destruct Hshape as [-> | (k' & Hkey & Hlen & Hbucket)].
  - apply (Hgoal chain1); assumption.
  - apply lookup_key_Some in Hk as (chain & Hc & Hj).
    rewrite Hb in Hc. injection Hc as <-.
    apply (Hgoal (<[kp.2 := Live k']> chain1)).
    + rewrite Hbucket, (put_key_bucket c1 kp k' chain1 Hb).
      apply list_lookup_insert_eq. eapply lookup_lt_Some; eauto.
    + rewrite (scan_keys_insert_same chain1 kp.2 k k' str len 0 Hj Hkey Hlen). exact Hscan.
Qed.

Lemma name_type_sadd (n : Z) : 2 < n -> name_type "SADD" n = TYPE_SADD.
Proof.
  intros H. unfold name_type.
  change (strncasecmp "SADD" "ZINCRBY" (sizeof_lit "ZINCRBY") =? 0) with false.
  change (strncasecmp "SADD" "SADD" (sizeof_lit "SADD") =? 0) with true.
  rewrite andb_false_r, andb_true_r. apply Z.ltb_lt in H. rewrite H. reflexivity.
Qed.

Section Several.
Context {ext : Externals}.

Lemma cmdHashAdd_sadd (ht : cmdHash) (k a : string) (rest : list string)
    (kp : key_ptr) (c1 c2 : cmdHashContainer) :
  runs (__find_key (s_cmds ht) k (strlen_Z k)) (Some kp, c1) ->
  runs (__hash_sadd_members c1 kp (map REDIS_REPLY_STRING (a :: rest))) (0, c2) ->
  runs (cmdHashAdd ht (bulk_strings ("SADD" :: k :: a :: rest))) (0, set_s_cmds ht c2).
Proof.
  intros Rk Rm. unfold cmdHashAdd.
  eapply runs_bind; [unfold runs, bulk_strings; cbn [map]; apply get_type_named |].
  rewrite name_type_sadd by (cbn [length]; lia). cbn beta iota.
  unfold __hash_sadd_cmd.
  eapply runs_bind; [apply (runs_arg_str _ 1 k); reflexivity | cbn beta iota].
  eapply runs_bind; [apply (runs_arg_len _ 1 k); reflexivity | cbn beta iota].
  eapply runs_bind; [exact Rk | cbn beta iota].
  eapply runs_bind; [exact Rm | cbn beta iota].
  apply runs_ret.
Qed.

(** X18: a SADD command with several members is the same as one SADD per
    member.  On a table that satisfies the invariant and with every
    allocation succeeding, [cmdHashAdd] of SADD k a b ... leaves the table
    that [cmdHashAdd] of SADD k a followed by [cmdHashAdd] of SADD k b ...
    leaves, and all three calls return 0. *)
Theorem sadd_members_one_by_one (ht : cmdHash) (k a b : string) (rest : list string) :
  hinv ht ->
  exists ht1 ht2,
    runs (cmdHashAdd ht (bulk_strings ("SADD" :: k :: a :: b :: rest))) (0, ht2)
    /\ runs (cmdHashAdd ht (bulk_strings ["SADD"; k; a])) (0, ht1)
    /\ runs (cmdHashAdd ht1 (bulk_strings ("SADD" :: k :: b :: rest))) (0, ht2)
    /\ hinv ht1 /\ hinv ht2.
Proof.
  intros (Iz & Az & Is & As).
  destruct (find_key_runs (s_cmds ht) k (strlen_Z k) Is)
    as (kp & c1 & Rk & I1 & Ks1 & Ms1 & L1 & _ & _ & A1).
  destruct (find_member_runs c1 kp a (strlen_Z a) I1 L1 (A1 As))
    as (mp & c2 & Rm & I2 & Ks2 & Ms2 & Lm & _ & _ & A2).
  pose proof (lookup_member_key _ _ _ Lm) as L2.
  destruct (hash_sadd_members_runs c2 kp (b :: rest) I2 L2 (allocated_but_weaken _ _ A2))
    as (c3 & Rr & I3 & _ & A3 & _).
  pose proof (find_key_after_member _ _ _ _ _ _ _ _ _ Is Rk Rm) as Rk2.
  exists (set_s_cmds ht c2), (set_s_cmds ht c3).
  split; [| split; [| split; [| split]]].
  - apply (cmdHashAdd_sadd ht k a (b :: rest) kp c1 c3 Rk).
    cbn [map __hash_sadd_members].
    eapply runs_bind; [apply runs_ret | cbn beta iota].
    eapply runs_bind; [exact Rm | cbn beta iota]. exact Rr.
  - apply (cmdHashAdd_sadd ht k a [] kp c1 c2 Rk).
    cbn [map __hash_sadd_members].
    eapply runs_bind; [apply runs_ret | cbn beta iota].
    eapply runs_bind; [exact Rm | cbn beta iota]. apply runs_ret.
  - change (set_s_cmds ht c3) with (set_s_cmds (set_s_cmds ht c2) c3).
    apply (cmdHashAdd_sadd (set_s_cmds ht c2) k b rest kp c2 c3); [exact Rk2 | exact Rr].
  - exact (conj Iz (conj Az (conj I2 A2))).
  - refine (conj Iz (conj Az (conj I3 _))). apply A3. discriminate.
Qed.

End Several.

Lemma sadd_members_one_by_one_witness :
  hinv (fresh_hash 4 2)
  /\ exists ht1 ht2,
       runs (cmdHashAdd (fresh_hash 4 2) (bulk_strings ["SADD"; "s"; "a"; "b"; "a"])) (0, ht2)
       /\ runs (cmdHashAdd (fresh_hash 4 2) (bulk_strings ["SADD"; "s"; "a"])) (0, ht1)
       /\ runs (cmdHashAdd ht1 (bulk_strings ["SADD"; "s"; "b"; "a"])) (0, ht2)
       /\ hinv ht1 /\ hinv ht2.
Proof.
  assert (H : hinv (fresh_hash 4 2)) by (apply hinv_fresh; lia).
  split; [exact H |].
  exact (sadd_members_one_by_one (fresh_hash 4 2) "s" "a" "b" ["a"] H).
Defined.

(** ** zhash.c: the flush *)

Lemma for_buckets_rest {A St : Type} (body : St -> list A -> M (Z * St)) (N i : nat)
    (l : list A) :
  (forall st o, body st [] o = Some (0, st, o)) ->
  forall n j st o, (i < j)%nat -> (j + n = N)%nat ->
    for_buckets body st (<[i := l]> (replicate N [])) j n o = Some (0, st, o).
Proof.
  intros Hnil. induction n as [|n IH]; intros j st o Hij Hn; [reflexivity |].
  cbn [for_buckets]. unfold bind, deref.
  rewrite list_lookup_insert_ne by lia.
  rewrite lookup_replicate_2 by lia. cbn.
  rewrite Hnil. cbn. apply IH; lia.
Qed.

Lemma for_buckets_one {A St : Type} (body : St -> list A -> M (Z * St)) (N i : nat)
    (l : list A) :
  (forall st o, body st [] o = Some (0, st, o)) -> (i < N)%nat ->
  forall n j st o, (j <= i)%nat -> (j + n = N)%nat ->
    for_buckets body st (<[i := l]> (replicate N [])) j n o
    = match body st l o with
      | Some (rc, st', o') => if rc <? 0 then Some (-1, st', o') else Some (0, st', o')
      | None => None
      end.
Proof.
  intros Hnil Hi. induction n as [|n IH]; intros j st o Hji Hn; [lia |].
  cbn [for_buckets]. unfold bind, deref.
  destruct (decide (j = i)) as [-> | Hne].
  - rewrite list_lookup_insert_eq by (rewrite length_replicate; exact Hi). cbn.
    destruct (body st l o) as [[[rc st'] o']|]; [| reflexivity].
    destruct (rc <? 0); [reflexivity |].
    apply (for_buckets_rest body N i l Hnil); lia.
  - rewrite list_lookup_insert_ne by lia.
    rewrite lookup_replicate_2 by lia. cbn.
    rewrite Hnil. cbn. apply IH; lia.
Qed.

Section ZFlushFacts.
Context {ext : Externals}.
Variables (ks ms : Z) (k m : string) (v : float).
Hypotheses (Hks : 0 < ks) (Hms : 0 < ms).

Let kname := strndup k (strlen_Z k).
Let mname := strndup m (strlen_Z m).
Let w := redisFormatZincrby (kname, strlen_Z k) v (mname, strlen_Z m).
Let mem := ZHash.mkMember (Some mname) (strlen_Z m) v.
Let knode :=
  ZHash.mkKey kname (strlen_Z k)
    (Some (<[GET_BUCKET m (strlen_Z m) ms := [mem]]> (replicate (Z.to_nat ms) []))).

(** The flush of the table [zhash_one ks ms k m v], for any allocator, from
    the one command of its one member. *)
Lemma zHashGetCommands_one (b : zBuffer) (o : oracle) :
  for_buckets (zHashGetCommands_chain (zhash_one ks ms k m v)) b
    (ZHash.bucket (zhash_one ks ms k m v)) 0 (Z.to_nat ks) o
  = match __appendMemberChain b knode [mem] o with
    | Some (rc, b', o') =>
        if rc <? 0 then
          match __flushBuffer b' o' with
          | Some (b'', o'') => Some (-1, b'', o'')
          | None => None
          end
        else Some (0, b', o')
    | None => None
    end.
Proof.
  pose proof (GET_BUCKET_lt k (strlen_Z k) ks Hks) as Hhk.
  pose proof (GET_BUCKET_lt m (strlen_Z m) ms Hms) as Hhm.
  unfold zhash_one. cbn [ZHash.bucket].
  rewrite (for_buckets_one _ (Z.to_nat ks) _ _ (fun st o => eq_refl) Hhk) by lia.
  cbn [zHashGetCommands_chain]. unfold bind at 1.
  unfold __appendMemberCommands at 1. unfold bind at 1, deref at 1.
  cbn [ZHash.kbucket]. cbn beta iota. unfold ret at 1. cbn [ZHash.msize].
  rewrite (for_buckets_one _ (Z.to_nat ms) _ _ (fun st o => eq_refl) Hhm) by lia.
  fold kname mname mem knode.
  destruct (__appendMemberChain b knode [mem] o) as [[[rc b'] o']|]; [| reflexivity].
  destruct (rc <? 0) eqn:E.
  - change (-1 <? 0) with true. cbn beta iota. unfold bind, ret.
    destruct (__flushBuffer b' o') as [[b'' o'']|]; reflexivity.
  - change (0 <? 0) with false. cbn beta iota. reflexivity.
Qed.

Lemma zgrow_ge (n : Z) :
  0 <= n -> n <= (if n <? ZBUF_MAX_PREALLOC then n * 2 else n + ZBUF_MAX_PREALLOC).
Proof. intros H. unfold ZBUF_MAX_PREALLOC. destruct (n <? 1024 * 1024); lia. Qed.

Lemma appendMemberChain_one (size : Z) :
  in_block (kname, strlen_Z k) = true -> in_block (mname, strlen_Z m) = true ->
  exists size',
    runs (__appendMemberChain (mkZBuffer (ZBuf "") size 0) knode [mem])
      (0, mkZBuffer (ZBuf w) size' (strlen_Z w)).
Proof.
  intros Hkb Hmb.
  assert (Hw : 0 <= strlen_Z w) by (unfold strlen_Z; lia).
  pose proof (zgrow_ge (strlen_Z w) Hw) as Hg.
  destruct (size <? strlen_Z w) eqn:E; eapply ex_intro;
    unfold knode, mem;
    cbn [__appendMemberChain ZHash.member ZHash.value ZHash.len ZHash.key ZHash.klen];
    (eapply runs_bind; [apply runs_deref; reflexivity | cbn beta iota]);
    (eapply runs_bind; [unfold read_block; rewrite Hkb; apply runs_ret | cbn beta iota]);
    (eapply runs_bind; [unfold read_block; rewrite Hmb; apply runs_ret | cbn beta iota]);
    fold w; cbn [z_size z_len]; rewrite Z.add_0_l, E.
  - unfold __reallocBuffer. cbn [z_buf z_len]. rewrite Z.add_0_l.
    eapply runs_bind; [step; apply runs_ret | cbn beta iota].
    change (0 <? 0) with false. cbn beta iota.
    unfold __appendBuffer. cbn [z_size z_len z_buf]. rewrite Z.add_0_l.
    match goal with |- context [?a <? strlen_Z w] =>
      assert (Hno : (a <? strlen_Z w) = false) by lia; rewrite Hno end.
    eapply runs_bind; [eapply runs_bind; [apply runs_ret | cbn beta iota; apply runs_ret] |].
    cbn beta iota. unfold memcpy_at. cbn [Z.to_nat first_bytes String.append].
    rewrite first_bytes_strlen. apply runs_ret.
  - eapply runs_bind; [apply runs_ret | cbn beta iota].
    change (0 <? 0) with false. cbn beta iota.
    unfold __appendBuffer. cbn [z_size z_len z_buf]. rewrite Z.add_0_l, E.
    eapply runs_bind; [eapply runs_bind; [apply runs_ret | cbn beta iota; apply runs_ret] |].
    cbn beta iota. unfold memcpy_at. cbn [Z.to_nat first_bytes String.append].
    rewrite first_bytes_strlen. apply runs_ret.
Qed.

End ZFlushFacts.

Section ZFlushClaims.
Context {ext : Externals}.

(** X19: the flush of zhash.c on a table with one member.  For a key [k]
    and a member [m] without NUL byte and with every allocation succeeding,
    [zHashGetCommands] on the table that holds the value [v] for the member
    [m] of the key [k] returns 0 and a buffer that holds the one command
    ZINCRBY k v m, whether it is the first flush or the buffer of an earlier
    flush is still there. *)
Theorem zHashGetCommands_one_member (ks ms : Z) (k m : string) (v : float) (b0 : zBuffer) :
  0 < ks -> 0 < ms -> nul_free k = true -> nul_free m = true ->
  z_buf b0 <> ZDangling -> (z_buf b0 = ZNull -> z_len b0 = 0) ->
  exists size',
    let w := redisFormatZincrby (k, strlen_Z k) v (m, strlen_Z m) in
    runs (zHashGetCommands (zhash_one ks ms k m v) b0)
      (0, Some (ZBuf w, strlen_Z w), mkZBuffer (ZBuf w) size' (strlen_Z w)).
Proof.
  intros Hks Hms Hfk Hfm Hd Hn. cbn zeta.
  assert (Hw : redisFormatZincrby (k, strlen_Z k) v (m, strlen_Z m)
               = redisFormatZincrby (strndup k (strlen_Z k), strlen_Z k) v
                   (strndup m (strlen_Z m), strlen_Z m))
    by (rewrite !strndup_nul_free by assumption; reflexivity).
  rewrite Hw.
  set (size := (to_uint (ZHash.str_len (zhash_one ks ms k m v)
                         + to_uint (8 * ZHash.count (zhash_one ks ms k m v)))
                + ZINCRBY_PROT_LEN * ZHash.count (zhash_one ks ms k m v)) mod ULONG_MOD).
  destruct (appendMemberChain_one ms k m v size) as (size' & R).
  { rewrite (strndup_nul_free k Hfk). apply Z.leb_le. cbn. lia. }
  { rewrite (strndup_nul_free m Hfm). apply Z.leb_le. cbn. lia. }
  exists size'.
  assert (Hflush : exists b1, runs (__flushBuffer b0) b1 /\ z_len b1 = 0).
  { unfold __flushBuffer. destruct b0 as [[| bytes |] sz ln]; cbn in *.
    - eexists. split; [apply runs_ret |]. cbn. apply Hn. reflexivity.
    - eexists. split; [apply runs_ret | reflexivity].
    - congruence. }
  destruct Hflush as (b1 & Rf & Hlen).
  unfold zHashGetCommands. fold size.
  eapply runs_bind; [exact Rf | cbn beta iota].
  step. rewrite Hlen.
  eapply runs_bind.
  { unfold runs. rewrite (zHashGetCommands_one ks ms k m v Hks Hms). rewrite R.
    change (0 <? 0) with false. cbn beta iota. reflexivity. }
  cbn beta iota. change (0 <? 0) with false. cbn beta iota. apply runs_ret.
Qed.

(** X20: the allocation failure that zhash.c does not survive.  When the
    first command does not fit the first allocation and the [realloc] for it
    fails, [__appendMemberCommands] frees the buffer, and [zHashGetCommands]
    then frees it a second time through the pointer that [__flushBuffer] left
    in place: the behaviour is undefined. *)
Theorem zHashGetCommands_frees_twice (ks ms : Z) (k m : string) (v : float) (o : oracle) :
  0 < ks -> 0 < ms ->
  (to_uint (ZHash.str_len (zhash_one ks ms k m v)
            + to_uint (8 * ZHash.count (zhash_one ks ms k m v)))
   + ZINCRBY_PROT_LEN * ZHash.count (zhash_one ks ms k m v)) mod ULONG_MOD
  < strlen_Z (redisFormatZincrby (strndup k (strlen_Z k), strlen_Z k) v
                (strndup m (strlen_Z m), strlen_Z m)) ->
  zHashGetCommands (zhash_one ks ms k m v) (mkZBuffer ZNull 0 0) (true :: false :: o) = None.
Proof.
  intros Hks Hms Hsize.
  unfold zHashGetCommands.
  set (size := (to_uint (ZHash.str_len (zhash_one ks ms k m v)
                         + to_uint (8 * ZHash.count (zhash_one ks ms k m v)))
                + ZINCRBY_PROT_LEN * ZHash.count (zhash_one ks ms k m v)) mod ULONG_MOD) in *.
  unfold bind at 1. cbn [__flushBuffer z_buf ret].
  unfold bind at 1. cbn [alloc negb z_len].
  unfold bind at 1. rewrite (zHashGetCommands_one ks ms k m v Hks Hms).
  cbn [__appendMemberChain ZHash.member ZHash.value ZHash.len ZHash.key ZHash.klen].
  unfold bind at 1. cbn [deref ret].
  unfold bind at 1. unfold read_block at 1.
  destruct (in_block (strndup k (strlen_Z k), strlen_Z k)); [| reflexivity].
  cbn [ret]. unfold bind at 1. unfold read_block at 1.
  destruct (in_block (strndup m (strlen_Z m), strlen_Z m)); [| reflexivity].
  cbn [ret]. cbn [z_size z_len]. rewrite Z.add_0_l.
  apply Z.ltb_lt in Hsize. rewrite Hsize.
  unfold bind at 1. unfold __reallocBuffer. cbn [z_buf]. unfold bind at 1.
  cbn [alloc negb ret]. cbn beta iota. change (-1 <? 0) with true. cbn beta iota.
  unfold bind at 1. cbn [__flushBuffer z_buf ret]. cbn beta iota.
  change (-1 <? 0) with true. cbn beta iota. reflexivity.
Qed.

End ZFlushClaims.

Lemma zHashGetCommands_one_member_witness :
  0 < 4 /\ 0 < 2
  /\ nul_free "k" = true /\ nul_free "m" = true
  /\ z_buf (mkZBuffer ZNull 0 0) <> ZDangling
  /\ (z_buf (mkZBuffer ZNull 0 0) = ZNull -> z_len (mkZBuffer ZNull 0 0) = 0)
  /\ exists size',
       runs (zHashGetCommands (zhash_one 4 2 "k" "m" 3.5%float) (mkZBuffer ZNull 0 0))
         (0, Some (ZBuf (resp_zincrby ("k", 1) 3.5%float ("m", 1)), 45),
          mkZBuffer (ZBuf (resp_zincrby ("k", 1) 3.5%float ("m", 1))) size' 45).
Proof.
  assert (H4 : 0 < 4) by lia. assert (H2 : 0 < 2) by lia.
  assert (Hd : z_buf (mkZBuffer ZNull 0 0) <> ZDangling) by discriminate.
  assert (Hn : z_buf (mkZBuffer ZNull 0 0) = ZNull -> z_len (mkZBuffer ZNull 0 0) = 0)
    by (intros _; reflexivity).
  split; [exact H4 |]. split; [exact H2 |]. split; [reflexivity |]. split; [reflexivity |].
  split; [exact Hd |]. split; [exact Hn |].
  exact (zHashGetCommands_one_member 4 2 "k" "m" 3.5%float _ H4 H2 eq_refl eq_refl Hd Hn).
Defined.

Lemma zHashGetCommands_frees_twice_witness :
  0 < 4 /\ 0 < 2
  /\ 39 < strlen_Z (resp_zincrby ("k", 1) 3.5%float ("m", 1))
  /\ zHashGetCommands (zhash_one 4 2 "k" "m" 3.5%float) (mkZBuffer ZNull 0 0) [true; false]
     = None.
Proof.
  assert (H4 : 0 < 4) by lia. assert (H2 : 0 < 2) by lia.
  assert (Hs : 39 < strlen_Z (resp_zincrby ("k", 1) 3.5%float ("m", 1)))
    by (vm_compute; reflexivity).
  split; [exact H4 |]. split; [exact H2 |]. split; [exact Hs |].
  exact (zHashGetCommands_frees_twice 4 2 "k" "m" 3.5%float [] H4 H2 Hs).
Defined.

(** ** [__find_member]: the other keys, and looking a member up again *)

Lemma lookup_key_bucket (c c' : cmdHashContainer) (kp : key_ptr) :
  bucket c' = bucket c -> lookup_key c' kp = lookup_key c kp.
Proof. unfold lookup_key. intros ->. reflexivity. Qed.

Lemma lookup_key_put_key_ne (c : cmdHashContainer) (kp kp0 : key_ptr) (k' : cmdKeyList) :
  kp0 <> kp -> lookup_key (put_key c kp k') kp0 = lookup_key c kp0.
Proof.
  intros Hne. unfold lookup_key, put_key, set_bucket. cbn [bucket].
  destruct (decide (kp0.1 = kp.1)) as [E | E].
  - rewrite E. rewrite list_lookup_alter_eq.
    destruct (bucket c !! kp.1) as [chain|]; [| reflexivity]. cbn.
    rewrite list_lookup_insert_ne; [reflexivity |].
    intros E2. apply Hne. destruct kp0, kp; cbn in *; congruence.
  - rewrite list_lookup_alter_ne by congruence. reflexivity.
Qed.

(** X21: [__find_member] touches the key it is given and no other.
    Whatever the allocator does, and whether it returns a node or NULL, the
    key node of every other pointer is the one before the call, and the node
    at the pointer itself keeps its name and its length; the size of the key
    table is not changed. *)
Theorem find_member_frame (c : cmdHashContainer) (kp : key_ptr) (str : string) (len : Z)
    (o o' : oracle) (r : option member_ptr) (c' : cmdHashContainer) :
  __find_member c kp str len o = Some (r, c', o') ->
  ksize c' = ksize c
  /\ (forall kp0, kp0 <> kp -> lookup_key c' kp0 = lookup_key c kp0)
  /\ exists k k',
       lookup_key c kp = Some k /\ lookup_key c' kp = Some k'
       /\ key k' = key k /\ klen k' = klen k.
Proof.
  intros H. destruct (find_member_shape _ _ _ _ _ _ _ _ H) as (Ks & k & Hk & Hshape).
  split; [exact Ks |].
  destruct Hshape as [-> | (k' & Hkey & Hlen & Hb)].
  - split; [reflexivity |]. exists k, k. repeat split; assumption.
  - split.
    + intros kp0 Hne. rewrite (lookup_key_bucket _ _ kp0 Hb).
      apply lookup_key_put_key_ne. exact Hne.
    + exists k, k'. split; [exact Hk |]. split; [| split; assumption].
      rewrite (lookup_key_bucket _ _ kp Hb).
      exact (proj1 (put_key_facts c kp k k' Hk)).
Qed.

Lemma find_member_frame_witness :
  __find_member (one_key 4 2 "k" (new_key "k") 0) (GET_BUCKET "k" 1 4, 0%nat) "m" 1 []
  = Some (Some (GET_BUCKET "m" 1 2, 0%nat), one_member 4 2 "k" "m" 0, [])
  /\ ksize (one_member 4 2 "k" "m" 0) = ksize (one_key 4 2 "k" (new_key "k") 0)
  /\ (forall kp0, kp0 <> (GET_BUCKET "k" 1 4, 0%nat) ->
      lookup_key (one_member 4 2 "k" "m" 0) kp0
      = lookup_key (one_key 4 2 "k" (new_key "k") 0) kp0).
Proof.
  assert (E : __find_member (one_key 4 2 "k" (new_key "k") 0) (GET_BUCKET "k" 1 4, 0%nat)
                "m" 1 []
              = Some (Some (GET_BUCKET "m" 1 2, 0%nat), one_member 4 2 "k" "m" 0, []))
    by (vm_compute; reflexivity).
  split; [exact E |].
  destruct (find_member_frame _ _ _ _ _ _ _ _ E) as (H1 & H2 & _).
  split; [exact H1 | exact H2].
Defined.

Lemma scan_members_found (chain : list cmdMemberList) (str : string) (len : Z) (i n : nat) :
  scan_members chain str len i = Hit n ->
  exists j item s,
    n = (i + j)%nat /\ chain !! j = Some item
    /\ mlen item = len /\ member item = Some s /\ strncmp str s (Z.to_nat len) = 0.
Proof.
  revert i. induction chain as [|item chain IH]; intros i; cbn [scan_members];
    [discriminate |].
  assert (Hrest : scan_members chain str len (S i) = Hit n ->
            exists j item0 s,
              n = (i + j)%nat /\ (item :: chain) !! j = Some item0
              /\ mlen item0 = len /\ member item0 = Some s
              /\ strncmp str s (Z.to_nat len) = 0).
  { intros (j & item0 & s & -> & Hj & H1 & H2 & H3)%IH.
    exists (S j), item0, s. split; [lia |]. repeat split; assumption. }
  destruct (len =? mlen item) eqn:E1; [| exact Hrest].
  destruct (member item) as [s|] eqn:E2; [| discriminate].
  destruct (strncmp str s (Z.to_nat len) =? 0) eqn:E3; [| exact Hrest].
  intros [= <-]. exists 0%nat, item, s.
  split; [lia |]. split; [reflexivity |]. split; [lia |]. split; [exact E2 | lia].
Qed.

Lemma scan_members_app (chain rest : list cmdMemberList) (str : string) (len : Z) (i : nat) :
  scan_members chain str len i = Miss ->
  scan_members (chain ++ rest) str len i = scan_members rest str len (i + length chain).
Proof.
  revert i. induction chain as [|item chain IH]; intros i; cbn [scan_members app length].
  - intros _. f_equal. lia.
  - assert (Hrest : scan_members chain str len (S i) = Miss ->
              scan_members (chain ++ rest) str len (S i)
              = scan_members rest str len (i + S (length chain))).
    { intros H. rewrite (IH _ H). f_equal. lia. }
    destruct (len =? mlen item); [| exact Hrest].
    destruct (member item) as [s|]; [| discriminate].
    destruct (strncmp str s (Z.to_nat len) =? 0); [discriminate | exact Hrest].
Qed.

Lemma scan_members_alter_hit (chain : list cmdMemberList) (j : nat) (str : string)
    (len : Z) (i : nat) :
  scan_members (alter hit j chain) str len i = scan_members chain str len i.
Proof.
  revert j i. induction chain as [|item chain IH]; intros [|j] i; try reflexivity.
  cbn [alter list_alter scan_members].
  change (list_alter hit j chain) with (alter hit j chain). rewrite IH. reflexivity.
Qed.

Lemma table_of_facts (c : cmdHashContainer) (k : cmdKeyList) :
  key_inv (Z.to_nat (msize c)) k ->
  length (table_of c k) = Z.to_nat (msize c)
  /\ Forall (Forall (fun item => member item <> None)) (table_of c k)
  /\ runs (match kbucket k with
           | Some arr => ret (Some arr)
           | None => let* ok := alloc in
                     ret (if ok then Some (replicate (Z.to_nat (msize c)) []) else None)
           end) (Some (table_of c k)).
Proof.
  intros (_ & Hnamed & Hlen). unfold table_of, members_of in *.
  destruct (kbucket k) as [arr|]; cbn [default] in *.
  - split; [apply Hlen; reflexivity |]. split; [apply Forall_concat; exact Hnamed |].
    apply runs_ret.
  - split; [apply length_replicate |]. split; [| step; apply runs_ret].
    apply Forall_replicate. constructor.
Qed.

(** The two ways [__find_member] ends when no allocation fails. *)
Lemma find_member_cases (c : cmdHashContainer) (kp : key_ptr) (k : cmdKeyList)
    (str : string) (len : Z) :
  lookup_key c kp = Some k -> 0 < msize c -> key_inv (Z.to_nat (msize c)) k ->
  exists chain,
    table_of c k !! GET_BUCKET str len (msize c) = Some chain
    /\ ((exists j item s,
           scan_members chain str len 0 = Hit j /\ chain !! j = Some item
           /\ mlen item = len /\ member item = Some s
           /\ strncmp str s (Z.to_nat len) = 0
           /\ runs (__find_member c kp str len)
                (Some (GET_BUCKET str len (msize c), j),
                 with_hit c kp k (GET_BUCKET str len (msize c)) chain j))
        \/ (scan_members chain str len 0 = Miss
            /\ runs (__find_member c kp str len)
                 (Some (GET_BUCKET str len (msize c), length chain),
                  with_new_member c kp k (GET_BUCKET str len (msize c)) chain str len))).
Proof.
  intros Hk Hms Hkinv.
  destruct (table_of_facts c k Hkinv) as (Hlen & Hnamed & Rarr).
  set (num := GET_BUCKET str len (msize c)).
  assert (Hnum : (num < Z.to_nat (msize c))%nat) by (apply GET_BUCKET_lt; exact Hms).
  destruct (lookup_lt_is_Some_2 (table_of c k) num) as [chain Hchain]; [lia |].
  exists chain. split; [exact Hchain |].
  pose proof (proj1 (Forall_lookup _ _) Hnamed _ _ Hchain) as Hch.
  assert (Hnew : runs (__find_member_copy c kp k (table_of c k) num chain str len)
                   (Some (num, length chain), with_new_member c kp k num chain str len)).
  { unfold __find_member_copy. step. apply runs_ret. }
  destruct (scan_members_named chain str len 0 Hch) as [Hs | (j & it & Hs & Hj)].
  - right. split; [exact Hs |].
    unfold __find_member. fold num.
    eapply runs_bind; [apply runs_get_key; exact Hk | cbn beta iota].
    eapply runs_bind; [exact Rarr | cbn beta iota].
    eapply runs_bind; [apply runs_deref; exact Hchain | cbn beta iota].
    destruct chain as [|x l].
    + step. exact Hnew.
    + cbn beta iota. rewrite Hs. step. exact Hnew.
  - left. destruct (scan_members_found _ _ _ _ _ Hs) as (j' & item & s & Ej & Hj' & H1 & H2 & H3).
    assert (j' = j) by lia. subst j'.
    exists j, item, s. split; [exact Hs |]. repeat (split; [assumption |]).
    unfold __find_member. fold num.
    eapply runs_bind; [apply runs_get_key; exact Hk | cbn beta iota].
    eapply runs_bind; [exact Rarr | cbn beta iota].
    eapply runs_bind; [apply runs_deref; exact Hchain | cbn beta iota].
    destruct chain as [|x l]; [discriminate |].
    cbn beta iota. rewrite Hs. apply runs_ret.
Qed.

Lemma find_member_hit_again (c1 : cmdHashContainer) (kp : key_ptr) (k1 : cmdKeyList)
    (str : string) (len : Z) (chain1 : list cmdMemberList) (j : nat) :
  lookup_key c1 kp = Some k1 -> 0 < msize c1 -> key_inv (Z.to_nat (msize c1)) k1 ->
  table_of c1 k1 !! GET_BUCKET str len (msize c1) = Some chain1 ->
  scan_members chain1 str len 0 = Hit j ->
  exists item s,
    runs (__find_member c1 kp str len)
      (Some (GET_BUCKET str len (msize c1), j),
       with_hit c1 kp k1 (GET_BUCKET str len (msize c1)) chain1 j)
    /\ lookup_member c1 kp (GET_BUCKET str len (msize c1), j) = Some item
    /\ member item = Some s /\ mlen item = len /\ strncmp str s (Z.to_nat len) = 0
    /\ lookup_member (with_hit c1 kp k1 (GET_BUCKET str len (msize c1)) chain1 j) kp
         (GET_BUCKET str len (msize c1), j) = Some (hit item).
Proof.
  intros Hk Hms Hkinv Hchain Hscan.
  destruct (find_member_cases c1 kp k1 str len Hk Hms Hkinv)
    as (chain & Hchain' & [(j' & item & s & Hs & Hj & H1 & H2 & H3 & R) | (Hs & _)]);
    rewrite Hchain in Hchain'; injection Hchain' as <-; [| congruence].
  rewrite Hscan in Hs. injection Hs as <-.
  set (num := GET_BUCKET str len (msize c1)) in *.
  exists item, s. split; [exact R |].
  assert (Hlt : (num < length (table_of c1 k1))%nat) by (eapply lookup_lt_Some; eauto).
  assert (Harr : kbucket k1 = Some (table_of c1 k1)).
  { unfold table_of in *. destruct (kbucket k1) as [arr|]; [reflexivity |].
    cbn [default] in Hchain. apply lookup_replicate in Hchain as [-> _]. discriminate Hscan. }
  split.
  { unfold lookup_member. rewrite Hk, Harr. cbn [fst snd]. rewrite Hchain. exact Hj. }
  split; [exact H2 |]. split; [exact H1 |]. split; [exact H3 |].
  unfold lookup_member, with_hit.
  rewrite (proj1 (put_key_facts c1 kp k1 _ Hk)). cbn [kbucket set_kbucket fst snd].
  rewrite list_lookup_insert_eq by exact Hlt.
  rewrite list_lookup_alter_eq, Hj. reflexivity.
Qed.

(** X22: looking a member up again.  Under a key of a container that
    satisfies the invariant, with every allocation succeeding: after
    [__find_member] has returned a node for a name, found or created, a
    second [__find_member] of the same name returns the same node.  The node
    has the length [len] and a string that compares equal to the name over
    [len] bytes; the second call increments its union as a hit counter and
    counts no new key or member. *)
Theorem find_member_again_counts_hit (c : cmdHashContainer) (kp : key_ptr)
    (str : string) (len : Z) :
  inv c -> is_Some (lookup_key c kp) -> allocated_but c (Some kp) ->
  exists mp c1 c2 item s,
    runs (__find_member c kp str len) (Some mp, c1)
    /\ runs (__find_member c1 kp str len) (Some mp, c2)
    /\ lookup_member c1 kp mp = Some item
    /\ member item = Some s /\ mlen item = len /\ strncmp str s (Z.to_nat len) = 0
    /\ lookup_member c2 kp mp = Some (hit item)
    /\ keys c2 = keys c1 /\ members c2 = members c1.
Proof.
  intros Hinv [k Hk] Hall.
  pose proof (inv_msize _ Hinv) as Hms.
  pose proof (inv_lookup_key c kp k Hinv Hk) as Hkinv.
  destruct (table_of_facts c k Hkinv) as (Hlen & _ & _).
  destruct (find_member_runs c kp str len Hinv (ex_intro _ k Hk) Hall)
    as (mp' & c1' & R' & I1 & _ & Ms1 & _).
  set (num := GET_BUCKET str len (msize c)) in *.
  assert (Hnum : (num < length (table_of c k))%nat).
  { rewrite Hlen. apply GET_BUCKET_lt. exact Hms. }
  assert (Hfinish : forall c1 k1 chain1 j,
            runs (__find_member c kp str len) (Some (num, j), c1) ->
            lookup_key c1 kp = Some k1 -> msize c1 = msize c ->
            table_of c1 k1 !! num = Some chain1 ->
            scan_members chain1 str len 0 = Hit j ->
            exists mp c1 c2 item s,
              runs (__find_member c kp str len) (Some mp, c1)
              /\ runs (__find_member c1 kp str len) (Some mp, c2)
              /\ lookup_member c1 kp mp = Some item
              /\ member item = Some s /\ mlen item = len
              /\ strncmp str s (Z.to_nat len) = 0
              /\ lookup_member c2 kp mp = Some (hit item)
              /\ keys c2 = keys c1 /\ members c2 = members c1).
  { intros c1 k1 chain1 j R L1 M1 Hc1 Hs1.
    pose proof (runs_inj _ _ _ R R') as E. injection E as <- <-.
    pose proof (inv_lookup_key c1 kp k1 I1 L1) as Hkinv1.
    assert (Hms1 : 0 < msize c1) by (rewrite M1; exact Hms).
    destruct (find_member_hit_again c1 kp k1 str len chain1 j L1 Hms1 Hkinv1)
      as (item & s & R2 & Q1 & Q2 & Q3 & Q4 & Q5);
      [rewrite M1; exact Hc1 | exact Hs1 |].
    rewrite M1 in *. fold num in R2, Q1, Q5.
    exists (num, j), c1, (with_hit c1 kp k1 num chain1 j), item, s.
    repeat (split; [assumption |]). split; reflexivity. }
  destruct (find_member_cases c kp k str len Hk Hms Hkinv)
    as (chain & Hchain & [(j & item & s & Hs & Hj & H1 & H2 & H3 & R) | (Hs & R)]);
    fold num in Hchain, R.
  - apply (Hfinish _ (set_kbucket k (<[num := alter hit j chain]> (table_of c k)))
             (alter hit j chain) j R).
    + exact (proj1 (put_key_facts c kp k _ Hk)).
    + reflexivity.
    + unfold table_of at 1. cbn [kbucket set_kbucket default].
      apply list_lookup_insert_eq. exact Hnum.
    + rewrite scan_members_alter_hit. exact Hs.
  - apply (Hfinish _
             (mkKey (key k) (klen k) (uint_add (count k) 1)
                (Some (<[num := chain ++ [mkMember (Some (strndup str len)) len 0]]>
                         (table_of c k))))
             (chain ++ [mkMember (Some (strndup str len)) len 0]) (length chain) R).
    + unfold with_new_member.
      refine (proj1 (put_key_facts _ kp k _ _)). exact Hk.
    + reflexivity.
    + unfold table_of at 1. cbn [kbucket default].
      apply list_lookup_insert_eq. exact Hnum.
    + rewrite (scan_members_app _ _ _ _ _ Hs). cbn [scan_members mlen member].
      rewrite Z.eqb_refl. unfold strndup. rewrite strncmp_strndup_r. reflexivity.
Qed.

Lemma find_member_again_counts_hit_witness :
  inv (one_key 4 2 "k" (new_key "k") 0)
  /\ is_Some (lookup_key (one_key 4 2 "k" (new_key "k") 0) (GET_BUCKET "k" 1 4, 0%nat))
  /\ allocated_but (one_key 4 2 "k" (new_key "k") 0) (Some (GET_BUCKET "k" 1 4, 0%nat))
  /\ exists mp c1 c2 item,
       runs (__find_member (one_key 4 2 "k" (new_key "k") 0) (GET_BUCKET "k" 1 4, 0%nat)
               "m" 1) (Some mp, c1)
       /\ runs (__find_member c1 (GET_BUCKET "k" 1 4, 0%nat) "m" 1) (Some mp, c2)
       /\ lookup_member c1 (GET_BUCKET "k" 1 4, 0%nat) mp = Some item
       /\ lookup_member c2 (GET_BUCKET "k" 1 4, 0%nat) mp = Some (hit item).
Proof.
  assert (H4 : 0 < 4) by lia. assert (H2 : 0 < 2) by lia.
  pose proof (inv_one_key 4 2 "k" H4 H2) as (Hi & Ha).
  assert (Hl : is_Some (lookup_key (one_key 4 2 "k" (new_key "k") 0)
                          (GET_BUCKET "k" 1 4, 0%nat))).
  { eexists. apply (lookup_one_key 4 2 "k" H4). }
  split; [exact Hi |]. split; [exact Hl |]. split; [exact Ha |].
  destruct (find_member_again_counts_hit _ _ "m" 1 Hi Hl Ha)
    as (mp & c1 & c2 & item & s & R1 & R2 & Q1 & _ & _ & _ & Q2 & _).
  exists mp, c1, c2, item. split; [exact R1 |]. split; [exact R2 |].
  split; [exact Q1 | exact Q2].
Defined.

(** ** A key whose copy could not be allocated *)

(** X23: when [__find_key] gets the node of a new key and [strndup] then
    fails, it frees the node, returns NULL and leaves the node linked at the
    end of its chain.  A later [__find_key] of the same name walks the chain
    into the freed node: its behaviour is undefined, whatever the allocator
    does then. *)
Theorem find_key_failed_copy_dangles (c : cmdHashContainer) (str : string) (len : Z)
    (chain : list key_cell) (o : oracle) :
  bucket c !! GET_BUCKET str len (ksize c) = Some chain ->
  scan_keys chain str len 0 = Miss ->
  __find_key c str len (true :: false :: o)
  = Some (None,
          set_bucket c (<[GET_BUCKET str len (ksize c) := chain ++ [Freed]]> (bucket c)), o)
  /\ forall o2,
       __find_key
         (set_bucket c (<[GET_BUCKET str len (ksize c) := chain ++ [Freed]]> (bucket c)))
         str len o2 = None.
Proof.
  intros Hchain Hs. set (num := GET_BUCKET str len (ksize c)) in *. split.
  - unfold __find_key, bind, deref. fold num. rewrite Hchain. cbn beta iota.
    unfold ret at 1. destruct chain as [|x l]; [reflexivity |].
    rewrite Hs. reflexivity.
  - intros o2. unfold __find_key, bind, deref. cbn [ksize set_bucket bucket]. fold num.
    rewrite list_lookup_insert_eq by (eapply lookup_lt_Some; eauto).
    cbn beta iota. unfold ret at 1.
    assert (Hscan : scan_keys (chain ++ [Freed]) str len 0 = Undef).
    { rewrite (scan_keys_app _ _ _ _ _ Hs). reflexivity. }
    destruct (chain ++ [Freed]) as [|x l] eqn:E; [destruct chain; discriminate |].
    rewrite Hscan. reflexivity.
Qed.

Lemma find_key_failed_copy_dangles_witness :
  bucket (fresh_container 4 2) !! GET_BUCKET "k" 1 (ksize (fresh_container 4 2)) = Some []
  /\ scan_keys [] "k" 1 0 = Miss
  /\ __find_key (fresh_container 4 2) "k" 1 [true; false]
     = Some (None,
             set_bucket (fresh_container 4 2)
               (<[GET_BUCKET "k" 1 (ksize (fresh_container 4 2)) := [] ++ [Freed]]>
                  (bucket (fresh_container 4 2))), [])
  /\ forall o2,
       __find_key
         (set_bucket (fresh_container 4 2)
            (<[GET_BUCKET "k" 1 (ksize (fresh_container 4 2)) := [] ++ [Freed]]>
               (bucket (fresh_container 4 2))))
         "k" 1 o2 = None.
Proof.
  assert (H1 : bucket (fresh_container 4 2) !! GET_BUCKET "k" 1 (ksize (fresh_container 4 2))
               = Some []) by (vm_compute; reflexivity).
  assert (H2 : scan_keys [] "k" 1 0 = Miss) by reflexivity.
  split; [exact H1 |]. split; [exact H2 |].
  exact (find_key_failed_copy_dangles (fresh_container 4 2) "k" 1 [] [] H1 H2).
Defined.

(** ** The tables and the input *)

(** *** Names compared whole *)

Lemma code_inj (a b : ascii) : code a = code b -> a = b.
Proof.
  unfold code. intros H. apply N2Z.inj in H.
  rewrite <- (ascii_N_embedding a), <- (ascii_N_embedding b), H. reflexivity.
Qed.

Lemma strncmp_refl (s : string) (n : nat) : strncmp s s n = 0.
Proof.
  revert s. induction n as [|n IH]; intros s; simpl; [reflexivity |].
  rewrite Z.eqb_refl. simpl. destruct (is_nul (head s)); [reflexivity |].
  apply IH.
Qed.

Lemma strncmp_nul_free (a b : string) :
  nul_free a = true -> String.length a = String.length b ->
  strncmp a b (String.length a) = 0 -> a = b.
Proof.
  revert b. induction a as [|c a IH]; intros [|d b] Hn Hl H; simpl in *;
    try reflexivity; try discriminate.
  apply andb_true_iff in Hn as [Hc Hn].
  destruct (code c =? code d) eqn:E; simpl in H.
  - apply Z.eqb_eq, code_inj in E. subst d.
    apply negb_true_iff in Hc. rewrite Hc in H. f_equal. apply IH; [exact Hn | lia | exact H].
  - apply Z.eqb_neq in E. lia.
Qed.

Lemma scan_keys_miss (chain : list key_cell) (str : string) (len : Z) (i : nat) :
  scan_keys chain str len i = Miss ->
  forall k, In (Live k) chain -> key_matches k str len = false.
Proof.
  revert i. induction chain as [|[k0|] chain IH]; intros i H k Hin; simpl in *;
    [contradiction | | discriminate].
  destruct ((klen k0 =? len) && (strncmp (key k0) str (Z.to_nat len) =? 0)) eqn:E;
    [discriminate |].
  destruct Hin as [[= ->] | Hin]; [exact E | eapply IH; eauto].
Qed.

Lemma scan_members_miss (chain : list cmdMemberList) (str : string) (len : Z) (i : nat) :
  scan_members chain str len i = Miss ->
  forall item s, In item chain -> member item = Some s -> mlen item = len ->
    strncmp str s (Z.to_nat len) <> 0.
Proof.
  revert i. induction chain as [|it chain IH]; intros i H item s Hin Hs Hl; simpl in *;
    [contradiction |].
  destruct Hin as [-> | Hin].
  - rewrite Hl, Z.eqb_refl, Hs in H.
    destruct (strncmp str s (Z.to_nat len) =? 0) eqn:E; [discriminate |].
    apply Z.eqb_neq in E. exact E.
  - destruct (len =? mlen it).
    + destruct (member it); [| discriminate].
      destruct (strncmp str s0 (Z.to_nat len) =? 0); [discriminate |]. eapply IH; eauto.
    + eapply IH; eauto.
Qed.

(** *** The table of pairs *)

Lemma has_name_spec (p : string * string) (e : string * string * Z) :
  has_name p e = true <-> e.1 = p.
Proof.
  unfold has_name. destruct p as [a b], e as [[a' b'] u]. simpl.
  rewrite andb_true_iff, !String.eqb_eq. split; [intros [-> ->]; reflexivity |].
  intros [= -> ->]. split; reflexivity.
Qed.

Lemma held_spec (p : string * string) (t : pair_table) : held p t = true <-> In p (map fst t).
Proof.
  unfold held. rewrite existsb_exists, in_map_iff. split.
  - intros (e & Hin & Hs). exists e. split; [apply has_name_spec; exact Hs | exact Hin].
  - intros (e & He & Hin). exists e. split; [exact Hin | apply has_name_spec; exact He].
Qed.

Lemma names_update (p : string * string) (f : Z -> Z) (t : pair_table) :
  map fst (update_at p f t) = map fst t.
Proof.
  unfold update_at. rewrite map_map. apply map_ext. intros e. destruct (has_name p e); reflexivity.
Qed.

Lemma names_touch (p : string * string) (t : pair_table) :
  map fst (touch p t) = if held p t then map fst t else map fst t ++ [p].
Proof.
  unfold touch. destruct (held p t); [apply names_update |].
  rewrite map_app. reflexivity.
Qed.

Lemma held_perm (p : string * string) (t t' : pair_table) :
  Permutation t t' -> held p t = held p t'.
Proof.
  intros H. apply eq_true_iff_eq. rewrite !held_spec.
  split; intros Hin; eapply Permutation_in; try exact Hin; apply Permutation_map;
    [exact H | symmetry; exact H].
Qed.

Lemma update_perm (p : string * string) (f : Z -> Z) (t t' : pair_table) :
  Permutation t t' -> Permutation (update_at p f t) (update_at p f t').
Proof. apply Permutation_map. Qed.

Lemma touch_perm (p : string * string) (t t' : pair_table) :
  Permutation t t' -> Permutation (touch p t) (touch p t').
Proof.
  intros H. unfold touch. rewrite (held_perm p t t' H). destruct (held p t').
  - apply update_perm. exact H.
  - apply Permutation_app_tail. exact H.
Qed.

Lemma update_other (p : string * string) (f : Z -> Z) (t : pair_table) :
  ~ In p (map fst t) -> update_at p f t = t.
Proof.
  intros H. unfold update_at. rewrite <- (map_id t) at 2. apply map_ext_in.
  intros e He. destruct (has_name p e) eqn:E; [| reflexivity].
  apply has_name_spec in E. exfalso. apply H. rewrite <- E. apply in_map. exact He.
Qed.

Lemma update_middle (p : string * string) (f : Z -> Z) (A B : pair_table) (u : Z) :
  NoDup (map fst (A ++ (p, u) :: B)) ->
  update_at p f (A ++ (p, u) :: B) = A ++ (p, f u) :: B.
Proof.
  intros H. rewrite map_app in H. simpl in H.
  apply NoDup_app in H as (HA & Hdis & HB).
  apply NoDup_cons in HB as [HpB HB].
  unfold update_at. rewrite map_app. simpl.
  assert (Hs : has_name p (p, u) = true) by (apply has_name_spec; reflexivity).
  rewrite Hs. simpl. f_equal; [| f_equal].
  - apply (update_other p f A). intros Hin. apply (Hdis p).
    + apply list_elem_of_In. exact Hin.
    + left.
  - apply (update_other p f B). intros Hin. apply HpB. apply list_elem_of_In. exact Hin.
Qed.

Lemma touch_nodup (p : string * string) (t : pair_table) :
  NoDup (map fst t) -> NoDup (map fst (touch p t)).
Proof.
  intros H. rewrite names_touch. destruct (held p t) eqn:E; [exact H |].
  apply NoDup_app. split; [exact H |]. split.
  - intros q Hq Hq'. apply list_elem_of_In in Hq'. destruct Hq' as [<- | []].
    apply list_elem_of_In in Hq. apply held_spec in Hq. congruence.
  - apply NoDup_singleton.
Qed.

(** *** The names of a container when a node is written *)

Lemma views_entries (c : cmdHashContainer) : map view (entries c) = views c.
Proof.
  unfold views, entries, kviews. induction (keys_of c) as [|k l IH]; [reflexivity |].
  simpl. rewrite map_app, IH, map_map. reflexivity.
Qed.


Lemma flat_map_middle {A B} (f : A -> list B) (pre post : list A) (x : A) :
  flat_map f (pre ++ x :: post) = flat_map f pre ++ f x ++ flat_map f post.
Proof. rewrite flat_map_app. reflexivity. Qed.

Lemma keys_of_put_key (c : cmdHashContainer) (kp : key_ptr) (k k' : cmdKeyList) :
  lookup_key c kp = Some k ->
  exists pre post,
    keys_of c = pre ++ k :: post /\ keys_of (put_key c kp k') = pre ++ k' :: post.
Proof.
  intros (chain & Hi & Hj)%lookup_key_Some.
  unfold keys_of. rewrite (put_key_bucket c kp k' chain Hi).
  destruct (concat_insert_split (bucket c) kp.1 chain Hi) as (P & Q & E1 & E2).
  rewrite E1, E2.
  rewrite insert_take_drop by (eapply lookup_lt_Some; eauto).
  pose proof (take_drop_middle chain kp.2 (Live k) Hj) as Em.
  set (c1 := take kp.2 chain) in *. set (c2 := drop (S kp.2) chain) in *.
  clearbody c1 c2. rewrite <- Em.
  exists (omap cell_key P ++ omap cell_key c1), (omap cell_key c2 ++ omap cell_key Q).
  rewrite !omap_app. simpl. rewrite <- !app_assoc. split; reflexivity.
Qed.

Lemma keys_of_with_new_key (c : cmdHashContainer) (num : nat) (chain : list key_cell)
    (str : string) (len : Z) :
  bucket c !! num = Some chain ->
  exists pre post,
    keys_of c = pre ++ post
    /\ keys_of (with_new_key c num chain str len)
       = pre ++ mkKey (strndup str len) len 0 None :: post.
Proof.
  intros Hi. unfold keys_of, with_new_key. cbn [bucket].
  destruct (concat_insert_split (bucket c) num chain Hi) as (P & Q & E1 & E2).
  rewrite E1, E2.
  exists (omap cell_key P ++ omap cell_key chain), (omap cell_key Q).
  rewrite !omap_app. simpl. rewrite <- !app_assoc. split; reflexivity.
Qed.

Lemma views_put_key (c : cmdHashContainer) (kp : key_ptr) (k k' : cmdKeyList) :
  lookup_key c kp = Some k -> key k' = key k ->
  exists A B,
    views c = A ++ kviews k ++ B
    /\ views (put_key c kp k') = A ++ kviews k' ++ B
    /\ map key (keys_of (put_key c kp k')) = map key (keys_of c).
Proof.
  intros Hk Hkey. destruct (keys_of_put_key c kp k k' Hk) as (pre & post & E1 & E2).
  exists (flat_map kviews pre), (flat_map kviews post). unfold views.
  rewrite E1, E2, !flat_map_middle, !map_app. simpl. rewrite Hkey. repeat split.
Qed.

Lemma members_of_table (c : cmdHashContainer) (k : cmdKeyList) :
  members_of k = concat (table_of c k).
Proof.
  unfold members_of, table_of. destruct (kbucket k); [reflexivity |].
  simpl. rewrite concat_replicate_nil. reflexivity.
Qed.

(** One member replaced by a node of the same name; one member added. *)
Lemma kviews_replace (c : cmdHashContainer) (k k' : cmdKeyList) (num j : nat)
    (chain : list cmdMemberList) (item item' : cmdMemberList) :
  table_of c k !! num = Some chain -> chain !! j = Some item ->
  key k' = key k ->
  kbucket k' = Some (<[num := <[j := item']> chain]> (table_of c k)) ->
  exists P Q, kviews k = P ++ vk k item :: Q /\ kviews k' = P ++ vk k item' :: Q.
Proof.
  intros Hn Hj Hkey Hb. unfold kviews.
  assert (E : forall it, vk k' it = vk k it)
    by (intros it; unfold vk, view, pair_name; simpl; rewrite Hkey; reflexivity).
  rewrite (map_ext _ _ E). rewrite (members_of_table c k).
  unfold members_of at 1. rewrite Hb. simpl.
  destruct (concat_insert_split (table_of c k) num chain Hn) as (P & Q & E1 & E2).
  rewrite E1, E2.
  rewrite insert_take_drop by (eapply lookup_lt_Some; eauto).
  pose proof (take_drop_middle chain j item Hj) as Em.
  set (c1 := take j chain) in *. set (c2 := drop (S j) chain) in *.
  clearbody c1 c2. rewrite <- Em.
  exists (map (vk k) P ++ map (vk k) c1), (map (vk k) c2 ++ map (vk k) Q).
  rewrite !map_app. simpl. rewrite ?map_app, <- ?app_assoc. simpl. split; reflexivity.
Qed.

Lemma kviews_append (c : cmdHashContainer) (k k' : cmdKeyList) (num : nat)
    (chain : list cmdMemberList) (item' : cmdMemberList) :
  table_of c k !! num = Some chain ->
  key k' = key k ->
  kbucket k' = Some (<[num := chain ++ [item']]> (table_of c k)) ->
  exists P Q, kviews k = P ++ Q /\ kviews k' = P ++ vk k item' :: Q.
Proof.
  intros Hn Hkey Hb. unfold kviews.
  assert (E : forall it, vk k' it = vk k it)
    by (intros it; unfold vk, view, pair_name; simpl; rewrite Hkey; reflexivity).
  rewrite (map_ext _ _ E). rewrite (members_of_table c k).
  unfold members_of at 1. rewrite Hb. simpl.
  destruct (concat_insert_split (table_of c k) num chain Hn) as (P & Q & E1 & E2).
  rewrite E1, E2.
  exists (map (vk k) P ++ map (vk k) chain), (map (vk k) Q).
  rewrite !map_app. simpl. rewrite <- !app_assoc. split; reflexivity.
Qed.

Lemma keys_of_lookup (c : cmdHashContainer) (k : cmdKeyList) :
  In k (keys_of c) <-> exists kp, lookup_key c kp = Some k.
Proof.
  unfold keys_of. split.
  - intros H. apply list_elem_of_In, list_elem_of_omap in H as (cell & Hc & Hk).
    destruct cell as [k0|]; [| discriminate]. injection Hk as ->.
    apply list_elem_of_In, in_concat in Hc as (chain & Hch & Hin).
    apply list_elem_of_In, list_elem_of_lookup in Hch as [i Hi].
    apply list_elem_of_In, list_elem_of_lookup in Hin as [j Hj].
    exists (i, j). apply lookup_key_Some. exists chain. split; assumption.
  - intros (kp & (chain & Hi & Hj)%lookup_key_Some).
    apply list_elem_of_In, list_elem_of_omap. exists (Live k). split; [| reflexivity].
    apply list_elem_of_In, in_concat. exists chain.
    split; apply list_elem_of_In; eapply list_elem_of_lookup_2; eauto.
Qed.

Lemma NoDup_map_inj {A B} (f : A -> B) (l : list A) (x y : A) :
  NoDup (map f l) -> In x l -> In y l -> f x = f y -> x = y.
Proof.
  induction l as [|a l IH]; intros H Hx Hy E; [contradiction |].
  simpl in H. apply NoDup_cons in H as [Ha H].
  destruct Hx as [-> | Hx], Hy as [-> | Hy].
  - reflexivity.
  - exfalso. apply Ha. rewrite E. apply list_elem_of_In, in_map. exact Hy.
  - exfalso. apply Ha. rewrite <- E. apply list_elem_of_In, in_map. exact Hx.
  - apply IH; assumption.
Qed.

(** *** [__find_key] and [__find_member] on names without NUL byte *)

Lemma note_in {A} `{EqDecision A} (x : A) (l : list A) : elem_of x l -> note x l = l.
Proof. intros H. unfold note. destruct (decide (elem_of x l)); [reflexivity | contradiction]. Qed.

Lemma note_new {A} `{EqDecision A} (x : A) (l : list A) : ~ elem_of x l -> note x l = l ++ [x].
Proof. intros H. unfold note. destruct (decide (elem_of x l)); [contradiction | reflexivity]. Qed.

Lemma clean_lookup (c : cmdHashContainer) (kp : key_ptr) (k : cmdKeyList) :
  clean c -> lookup_key c kp = Some k -> key_clean (ksize c) (msize c) kp.1 k.
Proof.
  intros Hc (chain & Hi & Hj)%lookup_key_Some.
  exact (Forall_lookup_1 _ _ _ _ (Hc _ _ Hi) Hj k eq_refl).
Qed.

Lemma clean_table_of (c : cmdHashContainer) (i : nat) (k : cmdKeyList) :
  key_clean (ksize c) (msize c) i k ->
  forall n chain, table_of c k !! n = Some chain -> Forall (item_clean (msize c) n) chain.
Proof.
  intros (_ & _ & _ & H) n chain Hn. unfold table_of in Hn.
  destruct (kbucket k) as [arr|] eqn:E; simpl in *.
  - apply (H n chain Hn).
  - apply lookup_replicate in Hn as [-> _]. constructor.
Qed.

Lemma clean_put_key (c : cmdHashContainer) (kp : key_ptr) (k k' : cmdKeyList) :
  clean c -> lookup_key c kp = Some k ->
  key_clean (ksize c) (msize c) kp.1 k' ->
  clean (put_key c kp k').
Proof.
  intros Hc (chain & Hi & Hj)%lookup_key_Some Hk' i chain0 Hi0.
  rewrite (put_key_bucket c kp k' chain Hi) in Hi0.
  change (ksize (put_key c kp k')) with (ksize c).
  change (msize (put_key c kp k')) with (msize c).
  destruct (decide (i = kp.1)) as [-> | Hne].
  - rewrite list_lookup_insert_eq in Hi0 by (eapply lookup_lt_Some; eauto).
    injection Hi0 as <-. apply Forall_insert; [exact (Hc _ _ Hi) |].
    intros k0 [= <-]. exact Hk'.
  - rewrite list_lookup_insert_ne in Hi0 by congruence. exact (Hc _ _ Hi0).
Qed.

Lemma key_matches_same (k : cmdKeyList) :
  klen k = strlen_Z (key k) -> key_matches k (key k) (strlen_Z (key k)) = true.
Proof.
  intros H. unfold key_matches. rewrite H, Z.eqb_refl, strncmp_refl. reflexivity.
Qed.

Lemma key_matches_name (ks ms : Z) (i : nat) (k : cmdKeyList) (str : string) :
  key_clean ks ms i k -> key_matches k str (strlen_Z str) = true -> key k = str.
Proof.
  intros (Hnf & Hlen & _) H. unfold key_matches in H.
  apply andb_true_iff in H as [H1 H2]. apply Z.eqb_eq in H1, H2.
  assert (El : String.length (key k) = String.length str)
    by (unfold strlen_Z in *; lia).
  apply strncmp_nul_free; [exact Hnf | exact El |].
  rewrite El. unfold strlen_Z in H2. rewrite Nat2Z.id in H2. exact H2.
Qed.

Lemma find_key_good (c : cmdHashContainer) (str : string) :
  good c -> nul_free str = true ->
  exists kp c' k,
    runs (__find_key c str (strlen_Z str)) (Some kp, c')
    /\ lookup_key c' kp = Some k /\ key k = str
    /\ good c'
    /\ ksize c' = ksize c /\ msize c' = msize c
    /\ (allocated c -> allocated_but c' (Some kp))
    /\ views c' = views c
    /\ Permutation (map key (keys_of c')) (note str (map key (keys_of c))).
Proof.
  intros [Hinv Hclean Hkeys Hnames] Hnf.
  destruct (find_key_runs c str (strlen_Z str) Hinv)
    as (kp0 & c0 & R0 & Hinv' & Hks & Hms & _ & _ & _ & Hall).
  destruct (find_key_cases c str (strlen_Z str) Hinv)
    as (chain & Hchain & [(j & k & Hscan & Hj & Hmatch & R) | (Hscan & R)]);
    pose proof (runs_inj _ _ _ R0 R) as E; injection E as -> ->.
  - set (num := GET_BUCKET str (strlen_Z str) (ksize c)) in *.
    assert (Hk : lookup_key c (num, j) = Some k)
      by (apply lookup_key_Some; exists chain; split; assumption).
    pose proof (clean_lookup c _ k Hclean Hk) as Hkc.
    pose proof (key_matches_name _ _ _ _ _ Hkc Hmatch) as Hname.
    exists (num, j), c, k.
    split; [exact R |]. split; [exact Hk |]. split; [exact Hname |].
    split; [constructor; assumption |]. split; [reflexivity |]. split; [reflexivity |].
    split; [exact Hall |]. split; [reflexivity |].
    assert (Hin : In str (map key (keys_of c))).
    { rewrite <- Hname. apply in_map. apply keys_of_lookup. eauto. }
    apply list_elem_of_In in Hin. rewrite (note_in _ _ Hin). reflexivity.
  - set (num := GET_BUCKET str (strlen_Z str) (ksize c)) in *.
    set (c' := with_new_key c num chain str (strlen_Z str)) in *.
    pose proof (strndup_nul_free str Hnf) as Edup.
    assert (Hnot : ~ In str (map key (keys_of c))).
    { intros (k0 & Hk0 & Hin)%in_map_iff.
      apply keys_of_lookup in Hin as (kp1 & Hl).
      pose proof (clean_lookup c kp1 k0 Hclean Hl) as Hkc.
      pose proof Hkc as (_ & Hlen & Hb & _).
      apply lookup_key_Some in Hl as (chain1 & Hi1 & Hj1).
      rewrite Hk0 in Hb. fold num in Hb. rewrite <- Hb in Hi1.
      assert (chain1 = chain) by congruence. subst chain1.
      assert (Hin : In (Live k0) chain)
        by (apply list_elem_of_In; eapply list_elem_of_lookup_2; eauto).
      pose proof (scan_keys_miss chain str (strlen_Z str) 0 Hscan k0 Hin) as Hf.
      pose proof (key_matches_same k0 Hlen) as Ht. rewrite Hk0 in Ht. congruence. }
    destruct (keys_of_with_new_key c num chain str (strlen_Z str) Hchain)
      as (pre & post & E1 & E2). fold c' in E2. rewrite Edup in E2.
    assert (Hv : views c' = views c).
    { unfold views. rewrite E1, E2, flat_map_middle, flat_map_app. reflexivity. }
    assert (Hp : Permutation (map key (keys_of c')) (map key (keys_of c) ++ [str])).
    { rewrite E1, E2, !map_app. simpl. rewrite <- Permutation_middle.
      rewrite <- map_app. apply Permutation_cons_append. }
    assert (Hl : lookup_key c' (num, length chain) = Some (mkKey str (strlen_Z str) 0 None)).
    { apply lookup_key_Some. exists (chain ++ [Live (mkKey str (strlen_Z str) 0 None)]).
      unfold c', with_new_key. cbn [bucket fst snd]. rewrite Edup. split.
      - apply list_lookup_insert_eq. eapply lookup_lt_Some; eauto.
      - rewrite lookup_app_r by lia. rewrite Nat.sub_diag. reflexivity. }
    exists (num, length chain), c', (mkKey str (strlen_Z str) 0 None).
    split; [exact R |]. split; [exact Hl |]. split; [reflexivity |].
    split; [| split; [reflexivity | split; [reflexivity | split; [exact Hall |
      split; [exact Hv |]]]]].
    + constructor.
      * exact Hinv'.
      * intros i chain0 Hi0. unfold c', with_new_key in Hi0 |- *. cbn [bucket ksize msize] in *.
        destruct (decide (i = num)) as [-> | Hne].
        -- rewrite list_lookup_insert_eq in Hi0 by (eapply lookup_lt_Some; eauto).
           injection Hi0 as <-. apply Forall_app. split; [exact (Hclean _ _ Hchain) |].
           constructor; [| constructor]. intros k0 [= <-]. rewrite Edup.
           split; [exact Hnf |]. split; [reflexivity |]. split; [reflexivity |].
           intros n ch Hn. simpl in Hn. rewrite lookup_nil in Hn. discriminate.
        -- rewrite list_lookup_insert_ne in Hi0 by congruence. exact (Hclean _ _ Hi0).
      * rewrite Hp. apply NoDup_app. split; [exact Hkeys |]. split.
        -- intros x Hx Hx'. apply list_elem_of_In in Hx'. destruct Hx' as [<- | []].
           apply Hnot. apply list_elem_of_In. exact Hx.
        -- apply NoDup_singleton.
      * rewrite Hv. exact Hnames.
    + rewrite note_new; [exact Hp |]. intros Hin. apply Hnot, list_elem_of_In, Hin.
Qed.

Lemma item_clean_name (ms : Z) (n : nat) (item : cmdMemberList) :
  item_clean ms n item ->
  member item = Some (member_name item) /\ nul_free (member_name item) = true
  /\ mlen item = strlen_Z (member_name item)
  /\ GET_BUCKET (member_name item) (strlen_Z (member_name item)) ms = n.
Proof.
  intros (s & Hs & H1 & H2 & H3). unfold member_name. rewrite Hs. simpl.
  repeat split; assumption.
Qed.

Lemma key_clean_put (c : cmdHashContainer) (i : nat) (k k' : cmdKeyList) (num : nat)
    (chain' : list cmdMemberList) :
  key_clean (ksize c) (msize c) i k ->
  key k' = key k -> klen k' = klen k ->
  kbucket k' = Some (<[num := chain']> (table_of c k)) ->
  Forall (item_clean (msize c) num) chain' ->
  key_clean (ksize c) (msize c) i k'.
Proof.
  intros Hk Hkey Hlen Hb Hch. pose proof Hk as (H1 & H2 & H3 & _).
  rewrite <- Hkey in H1, H2, H3. rewrite <- Hlen in H2.
  split; [exact H1 |]. split; [exact H2 |]. split; [exact H3 |].
  intros n ch Hn. rewrite Hb in Hn. simpl in Hn.
  destruct (decide (n = num)) as [-> | Hne].
  - apply list_lookup_insert_Some in Hn as [(_ & <- & _) | (Hne & _)]; [exact Hch | congruence].
  - rewrite list_lookup_insert_ne in Hn by congruence.
    exact (clean_table_of c i k Hk n ch Hn).
Qed.

Lemma views_split (A P Q B : pair_table) (x : string * string * Z) :
  A ++ (P ++ x :: Q) ++ B = (A ++ P) ++ x :: (Q ++ B).
Proof. rewrite <- !app_assoc. reflexivity. Qed.

Lemma find_member_good (c : cmdHashContainer) (kp : key_ptr) (k : cmdKeyList)
    (str : string) :
  good c -> lookup_key c kp = Some k -> allocated_but c (Some kp) ->
  nul_free str = true ->
  exists mp c' k' item,
    runs (__find_member c kp str (strlen_Z str)) (Some mp, c')
    /\ good c' /\ allocated c'
    /\ ksize c' = ksize c /\ msize c' = msize c
    /\ lookup_key c' kp = Some k' /\ key k' = key k
    /\ lookup_member c' kp mp = Some item /\ member item = Some str
    /\ map key (keys_of c') = map key (keys_of c)
    /\ Permutation (views c') (touch (key k, str) (views c)).
Proof.
  intros [Hinv Hclean Hkeys Hnames] Hk Hall Hnf.
  pose proof (inv_lookup_key c kp k Hinv Hk) as Hki.
  pose proof (inv_msize c Hinv) as Hms.
  pose proof (clean_lookup c kp k Hclean Hk) as Hkc.
  destruct (find_member_runs c kp str (strlen_Z str) Hinv (ex_intro _ k Hk) Hall)
    as (mp0 & c0 & R0 & Hinv' & Hks' & Hms' & _ & _ & _ & Hall').
  pose proof (GET_BUCKET_lt str (strlen_Z str) (msize c) Hms) as Hnum.
  destruct (table_of_facts c k Hki) as (Htl & _ & _).
  destruct (find_member_cases c kp k str (strlen_Z str) Hk Hms Hki)
    as (chain & Hchain & [(j & item & s & Hscan & Hj & Hlen & Hs & Hcmp & R) | (Hscan & R)]);
    pose proof (runs_inj _ _ _ R0 R) as E; injection E as -> ->;
    set (num := GET_BUCKET str (strlen_Z str) (msize c)) in *.
  - (* the member is there *)
    pose proof (Forall_lookup_1 _ _ _ _ (clean_table_of c _ k Hkc num chain Hchain) Hj) as Hic.
    pose proof Hic as (s' & Hs' & Hnf' & Hlen' & Hb').
    assert (s' = s) by congruence. subst s'.
    assert (Hname : str = s).
    { assert (El : String.length str = String.length s) by (unfold strlen_Z in *; lia).
      apply strncmp_nul_free; [exact Hnf | exact El |].
      unfold strlen_Z in Hcmp. rewrite Nat2Z.id in Hcmp. exact Hcmp. }
    subst s.
    set (k' := set_kbucket k (<[num := alter hit j chain]> (table_of c k))) in *.
    assert (Ealt : alter hit j chain = <[j := hit item]> chain) by (apply alter_lookup; exact Hj).
    destruct (put_key_facts c kp k k' Hk) as (Hk' & _).
    destruct (views_put_key c kp k k' Hk eq_refl) as (A & B & EA & EB & Ekeys).
    destruct (kviews_replace c k k' num j chain item (hit item) Hchain Hj eq_refl)
      as (P & Q & EP & EQ); [unfold k'; simpl; rewrite Ealt; reflexivity |].
    assert (Ev : vk k item = ((key k, str), score_hits item))
      by (unfold vk, view, pair_name, member_name; simpl; rewrite Hs; reflexivity).
    assert (Ev' : vk k (hit item) = ((key k, str), hits_incr (score_hits item)))
      by (unfold vk, view, pair_name, member_name; simpl; rewrite Hs; reflexivity).
    rewrite EP, Ev, views_split in EA. rewrite EQ, Ev', views_split in EB.
    assert (Htouch : touch (key k, str) (views c) = views (with_hit c kp k num chain j)).
    { unfold with_hit. fold k'. rewrite EB. unfold touch.
      assert (Hh : held (key k, str) (views c) = true).
      { apply held_spec. rewrite EA, map_app. apply in_or_app. right. left. reflexivity. }
      rewrite Hh. rewrite EA in Hnames |- *. apply update_middle. exact Hnames. }
    exists (num, j), (with_hit c kp k num chain j), k', (hit item).
    split; [exact R |]. split; [| split; [exact Hall' | split; [exact Hks' | split;
      [exact Hms' | split; [exact Hk' | split; [reflexivity | split; [| split;
      [exact Hs | split; [exact Ekeys | rewrite Htouch; reflexivity]]]]]]]]].
    + constructor.
      * exact Hinv'.
      * apply (clean_put_key c kp k k' Hclean Hk).
        apply (key_clean_put c _ k k' num (alter hit j chain) Hkc eq_refl eq_refl eq_refl).
        rewrite Ealt. apply Forall_insert.
        -- exact (clean_table_of c _ k Hkc num chain Hchain).
        -- exists str. repeat split; assumption.
      * unfold with_hit. fold k'. rewrite Ekeys. exact Hkeys.
      * unfold with_hit. fold k'. rewrite EB. rewrite EA in Hnames.
        rewrite map_app in Hnames |- *. exact Hnames.
    + unfold lookup_member, with_hit. fold k'. rewrite Hk'. unfold k'. simpl.
      rewrite list_lookup_insert_eq by (rewrite Htl; exact Hnum).
      rewrite Ealt. apply list_lookup_insert_eq. eapply lookup_lt_Some; eauto.
  - (* a new member *)
    pose proof (strndup_nul_free str Hnf) as Edup.
    set (item' := mkMember (Some str) (strlen_Z str) 0).
    set (c1 := mkContainer (ksize c) (msize c) (keys c) (uint_add (members c) 1)
                 (option_map (fun n => uint_add n (strlen_Z str)) (str_len c)) (bucket c)).
    set (k' := mkKey (key k) (klen k) (uint_add (count k) 1)
                 (Some (<[num := chain ++ [item']]> (table_of c k)))).
    assert (Ec : with_new_member c kp k num chain str (strlen_Z str) = put_key c1 kp k').
    { unfold with_new_member. rewrite Edup. reflexivity. }
    rewrite Ec in *.
    assert (Hk1 : lookup_key c1 kp = Some k) by exact Hk.
    destruct (put_key_facts c1 kp k k' Hk1) as (Hk' & _).
    destruct (views_put_key c1 kp k k' Hk1 eq_refl) as (A & B & EA & EB & Ekeys).
    change (views c1) with (views c) in EA.
    change (keys_of c1) with (keys_of c) in Ekeys.
    destruct (kviews_append c k k' num chain item' Hchain eq_refl eq_refl)
      as (P & Q & EP & EQ).
    assert (Ev' : vk k item' = ((key k, str), 0)) by reflexivity.
    rewrite EP in EA. rewrite EQ, Ev', views_split in EB.
    assert (Hnot : ~ In (key k, str) (map fst (views c))).
    { intros (e & He & Hin)%in_map_iff. unfold views in Hin.
      apply in_flat_map in Hin as (k0 & Hk0 & Hin).
      unfold kviews in Hin. apply in_map_iff in Hin as (item0 & <- & Hin).
      unfold vk, view, pair_name in He. simpl in He. injection He as Hkey Hmem.
      assert (k0 = k).
      { apply (NoDup_map_inj key (keys_of c)); [exact Hkeys | exact Hk0 | | exact Hkey].
        apply keys_of_lookup. eauto. }
      subst k0. rewrite (members_of_table c k) in Hin.
      apply in_concat in Hin as (chain0 & Hch & Hin).
      apply list_elem_of_In, list_elem_of_lookup in Hch as [n0 Hn0].
      pose proof (clean_table_of c _ k Hkc n0 chain0 Hn0) as Hcl.
      rewrite Forall_forall in Hcl. apply list_elem_of_In in Hin.
      pose proof (item_clean_name _ _ _ (Hcl item0 Hin)) as (Hm0 & _ & Hl0 & Hb0).
      rewrite Hmem in Hm0, Hl0, Hb0. fold num in Hb0. subst n0.
      assert (chain0 = chain) by congruence. subst chain0.
      apply list_elem_of_In in Hin.
      apply (scan_members_miss chain str (strlen_Z str) 0 Hscan item0 str Hin Hm0 Hl0).
      apply strncmp_refl. }
    assert (Htouch : touch (key k, str) (views c) = views c ++ [((key k, str), 0)]).
    { unfold touch. destruct (held (key k, str) (views c)) eqn:Hh; [| reflexivity].
      apply held_spec in Hh. contradiction. }
    assert (Hperm : Permutation (views (put_key c1 kp k')) (views c ++ [((key k, str), 0)])).
    { rewrite EB, EA. rewrite <- Permutation_middle.
      etransitivity; [| apply Permutation_cons_append].
      apply perm_skip. rewrite <- !app_assoc. reflexivity. }
    exists (num, length chain), (put_key c1 kp k'), k', item'.
    split; [exact R |]. split; [| split; [exact Hall' | split; [exact Hks' | split;
      [exact Hms' | split; [exact Hk' | split; [reflexivity | split; [| split;
      [reflexivity | split; [exact Ekeys | rewrite Htouch; exact Hperm]]]]]]]]].
    + constructor.
      * exact Hinv'.
      * apply (clean_put_key c1 kp k k' Hclean Hk1).
        apply (key_clean_put c _ k k' num (chain ++ [item']) Hkc eq_refl eq_refl eq_refl).
        apply Forall_app. split; [exact (clean_table_of c _ k Hkc num chain Hchain) |].
        constructor; [| constructor]. exists str. repeat split; assumption.
      * rewrite Ekeys. exact Hkeys.
      * rewrite Hperm, map_app. apply NoDup_app. split; [exact Hnames |]. split.
        -- intros x Hx Hx'. apply list_elem_of_In in Hx'. destruct Hx' as [<- | []].
           apply Hnot. apply list_elem_of_In. exact Hx.
        -- apply NoDup_singleton.
    + unfold lookup_member. rewrite Hk'. unfold k'. simpl.
      rewrite list_lookup_insert_eq by (rewrite Htl; exact Hnum).
      rewrite lookup_app_r by lia. rewrite Nat.sub_diag. reflexivity.
Qed.

(** *** A command and the table of pairs *)

Section Agg.
Context {ext : Externals}.

Lemma add_score_good (c : cmdHashContainer) (kp : key_ptr) (mp : member_ptr)
    (k : cmdKeyList) (item : cmdMemberList) (d : float) :
  good c -> allocated c -> lookup_key c kp = Some k -> lookup_member c kp mp = Some item ->
  exists c',
    runs (add_score c kp mp d) c'
    /\ good c' /\ allocated c'
    /\ ksize c' = ksize c /\ msize c' = msize c
    /\ map key (keys_of c') = map key (keys_of c)
    /\ views c' = update_at (key k, member_name item) (fun u => score_add u d) (views c).
Proof.
  intros [Hinv Hclean Hkeys Hnames] Hall Hk Hm.
  pose proof (clean_lookup c kp k Hclean Hk) as Hkc.
  destruct (add_score_runs c kp mp d Hinv Hall (ex_intro _ item Hm))
    as (c0 & R0 & Hinv' & Hall' & Hks' & Hms' & _).
  unfold lookup_member in Hm. rewrite Hk in Hm.
  destruct (kbucket k) as [arr|] eqn:Eb; [| discriminate].
  destruct (arr !! mp.1) as [chain|] eqn:En; [| discriminate].
  assert (Et : table_of c k = arr) by (unfold table_of; rewrite Eb; reflexivity).
  set (item' := mkMember (member item) (mlen item) (score_add (score_hits item) d)).
  set (k' := set_kbucket k (<[mp.1 := <[mp.2 := item']> chain]> arr)).
  assert (R : runs (add_score c kp mp d) (put_key c kp k')).
  { unfold add_score, get_member.
    eapply runs_bind.
    { eapply runs_bind; [apply runs_get_key; exact Hk | cbn beta iota].
      eapply runs_bind; [apply runs_deref; exact Eb | cbn beta iota].
      eapply runs_bind; [apply runs_deref; exact En | cbn beta iota].
      eapply runs_bind; [apply runs_deref; exact Hm | cbn beta iota].
      apply runs_ret. }
    cbn beta iota. apply runs_ret. }
  pose proof (runs_inj _ _ _ R0 R) as ->.
  rewrite <- Et in En.
  pose proof (Forall_lookup_1 _ _ _ _ (clean_table_of c _ k Hkc mp.1 chain En) Hm) as Hic.
  pose proof (item_clean_name _ _ _ Hic) as (Hs & Hnf & Hlen & Hb).
  destruct (views_put_key c kp k k' Hk eq_refl) as (A & B & EA & EB & Ekeys).
  destruct (kviews_replace c k k' mp.1 mp.2 chain item item' En Hm eq_refl)
    as (P & Q & EP & EQ); [unfold k'; simpl; rewrite Et; reflexivity |].
  assert (Ev : vk k item = ((key k, member_name item), score_hits item)) by reflexivity.
  assert (Ev' : vk k item' = ((key k, member_name item), score_add (score_hits item) d))
    by reflexivity.
  rewrite EP, Ev, views_split in EA. rewrite EQ, Ev', views_split in EB.
  exists (put_key c kp k').
  split; [exact R |]. split; [| split; [exact Hall' | split; [exact Hks' | split;
    [exact Hms' | split; [exact Ekeys |]]]]].
  - constructor.
    + exact Hinv'.
    + apply (clean_put_key c kp k k' Hclean Hk).
      apply (key_clean_put c _ k k' mp.1 (<[mp.2 := item']> chain) Hkc eq_refl eq_refl).
      * unfold k'. simpl. rewrite Et. reflexivity.
      * apply Forall_insert; [exact (clean_table_of c _ k Hkc mp.1 chain En) |].
        exists (member_name item). repeat split; assumption.
    + rewrite Ekeys. exact Hkeys.
    + rewrite EB. rewrite EA in Hnames. rewrite map_app in Hnames |- *. exact Hnames.
  - rewrite EB. rewrite EA in Hnames |- *. symmetry.
    apply (update_middle _ (fun u => score_add u d)). exact Hnames.
Qed.

Lemma zincrby_good (ht : cmdHash) (name k d m : string) :
  good (z_cmds ht) -> allocated (z_cmds ht) ->
  nul_free k = true -> nul_free m = true ->
  exists z,
    runs (__hash_zincrby_cmd ht (bulk_strings [name; k; d; m])) (0, set_z_cmds ht z)
    /\ good z /\ allocated z
    /\ ksize z = ksize (z_cmds ht) /\ msize z = msize (z_cmds ht)
    /\ Permutation (views z)
         (update_at (k, m) (fun u => score_add u (strtod d)) (touch (k, m) (views (z_cmds ht)))).
Proof.
  intros Hg Hall Hk Hm.
  destruct (find_key_good (z_cmds ht) k Hg Hk)
    as (kp & c1 & k1 & R1 & L1 & N1 & G1 & Ks1 & Ms1 & A1 & V1 & _).
  destruct (find_member_good c1 kp k1 m G1 L1 (A1 Hall) Hm)
    as (mp & c2 & k2 & item & R2 & G2 & A2 & Ks2 & Ms2 & L2 & N2 & M2 & Hs2 & _ & V2).
  destruct (add_score_good c2 kp mp k2 item (strtod d) G2 A2 L2 M2)
    as (c3 & R3 & G3 & A3 & Ks3 & Ms3 & _ & V3).
  exists c3. split.
  { unfold __hash_zincrby_cmd.
    eapply runs_bind; [apply (runs_arg_str _ 1 k); reflexivity | cbn beta iota].
    eapply runs_bind; [apply (runs_arg_len _ 1 k); reflexivity | cbn beta iota].
    eapply runs_bind; [exact R1 | cbn beta iota].
    eapply runs_bind; [apply (runs_arg_str _ 3 m); reflexivity | cbn beta iota].
    eapply runs_bind; [apply (runs_arg_len _ 3 m); reflexivity | cbn beta iota].
    eapply runs_bind; [exact R2 | cbn beta iota].
    eapply runs_bind; [apply (runs_arg_str _ 2 d); reflexivity | cbn beta iota].
    eapply runs_bind; [exact R3 | cbn beta iota].
    apply runs_ret. }
  split; [exact G3 |]. split; [exact A3 |].
  split; [congruence |]. split; [congruence |].
  rewrite V3. unfold member_name. rewrite Hs2. simpl. rewrite N2, N1.
  apply update_perm. rewrite V2, N1, V1. reflexivity.
Qed.

Lemma fold_touch_perm (k : string) (args : list string) (t t' : pair_table) :
  Permutation t t' ->
  Permutation (fold_left (fun t m => touch (k, m) t) args t)
              (fold_left (fun t m => touch (k, m) t) args t').
Proof.
  revert t t'. induction args as [|a args IH]; intros t t' H; simpl; [exact H |].
  apply IH, touch_perm, H.
Qed.

Lemma sadd_members_good (c : cmdHashContainer) (kp : key_ptr) (k : cmdKeyList)
    (args : list string) :
  good c -> lookup_key c kp = Some k -> allocated_but c (Some kp) ->
  forallb nul_free args = true ->
  exists c',
    runs (__hash_sadd_members c kp (map REDIS_REPLY_STRING args)) (0, c')
    /\ good c' /\ (args <> [] -> allocated c')
    /\ ksize c' = ksize c /\ msize c' = msize c
    /\ map key (keys_of c') = map key (keys_of c)
    /\ Permutation (views c') (fold_left (fun t m => touch (key k, m) t) args (views c)).
Proof.
  revert c k. induction args as [|a args IH]; intros c k Hg Hk Hall Hnf.
  - exists c. split; [apply runs_ret |]. split; [exact Hg |].
    split; [intros H; exfalso; apply H; reflexivity |].
    split; [reflexivity |]. split; [reflexivity |]. split; reflexivity.
  - simpl in Hnf. apply andb_true_iff in Hnf as [Ha Hnf].
    destruct (find_member_good c kp k a Hg Hk Hall Ha)
      as (mp & c1 & k1 & item & R1 & G1 & A1 & Ks1 & Ms1 & L1 & N1 & _ & _ & K1 & V1).
    destruct (IH c1 k1 G1 L1 (allocated_but_weaken _ _ A1) Hnf)
      as (c2 & R2 & G2 & A2 & Ks2 & Ms2 & K2 & V2).
    exists c2. split.
    { simpl. eapply runs_bind; [apply runs_ret | cbn beta iota].
      eapply runs_bind; [exact R1 | cbn beta iota]. exact R2. }
    split; [exact G2 |]. split.
    { intros _. destruct args as [|b args'].
      - simpl in R2. pose proof (runs_inj _ _ _ R2 (runs_ret (0, c1))) as [= ->]. exact A1.
      - apply A2. discriminate. }
    split; [congruence |]. split; [congruence |]. split; [congruence |].
    simpl. rewrite V2, N1. apply fold_touch_perm. exact V1.
Qed.

Lemma sadd_good (ht : cmdHash) (name k a : string) (args : list string) :
  good (s_cmds ht) -> allocated (s_cmds ht) ->
  nul_free k = true -> forallb nul_free (a :: args) = true ->
  exists s,
    runs (__hash_sadd_cmd ht (bulk_strings (name :: k :: a :: args))) (0, set_s_cmds ht s)
    /\ good s /\ allocated s
    /\ ksize s = ksize (s_cmds ht) /\ msize s = msize (s_cmds ht)
    /\ Permutation (map key (keys_of s)) (note k (map key (keys_of (s_cmds ht))))
    /\ Permutation (views s)
         (fold_left (fun t m => touch (k, m) t) (a :: args) (views (s_cmds ht))).
Proof.
  intros Hg Hall Hk Hnf.
  destruct (find_key_good (s_cmds ht) k Hg Hk)
    as (kp & c1 & k1 & R1 & L1 & N1 & G1 & Ks1 & Ms1 & A1 & V1 & K1).
  destruct (sadd_members_good c1 kp k1 (a :: args) G1 L1 (A1 Hall) Hnf)
    as (c2 & R2 & G2 & A2 & Ks2 & Ms2 & K2 & V2).
  exists c2. split.
  { unfold __hash_sadd_cmd.
    eapply runs_bind; [apply (runs_arg_str _ 1 k); reflexivity | cbn beta iota].
    eapply runs_bind; [apply (runs_arg_len _ 1 k); reflexivity | cbn beta iota].
    eapply runs_bind; [exact R1 | cbn beta iota].
    eapply runs_bind; [exact R2 | cbn beta iota].
    apply runs_ret. }
  split; [exact G2 |]. split; [apply A2; discriminate |].
  split; [congruence |]. split; [congruence |].
  split; [rewrite K2; exact K1 |].
  rewrite V2, N1, V1. reflexivity.
Qed.

End Agg.

(** *** An input and the table of pairs *)

Section Ref.
Context {ext : Externals}.

Lemma kind_runs (cmd : list string) :
  nul_free (hd "" cmd) = true -> runs (__get_type (bulk_strings cmd)) (kind cmd).
Proof.
  destruct cmd as [|n rest]; [reflexivity |]. intros Hn.
  unfold runs, bulk_strings. simpl map. rewrite get_type_named, length_map.
  rewrite (name_type_classify n _ Hn). reflexivity.
Qed.

Lemma kind_shape (cmd : list string) :
  nul_free (hd "" cmd) = true ->
  (kind cmd = TYPE_ZINCRBY -> exists n k d m, cmd = [n; k; d; m])
  /\ (kind cmd = TYPE_SADD -> exists n k a args, cmd = n :: k :: a :: args).
Proof.
  intros Hn. destruct (get_type_runs cmd) as (t & R & Hz & Hs).
  pose proof (runs_inj _ _ _ R (kind_runs cmd Hn)) as ->. split; assumption.
Qed.

Lemma kind_unsupported (cmd : list string) :
  nul_free (hd "" cmd) = true ->
  unsupported (bulk_strings cmd)
  = match kind cmd with TYPE_UNSUPPORTED => true | _ => false end.
Proof. intros Hn. apply unsupported_runs, kind_runs, Hn. Qed.

Lemma note_perm {A} `{EqDecision A} (k : A) (ks ks' : list A) :
  Permutation ks ks' -> Permutation (note k ks) (note k ks').
Proof.
  intros H. unfold note.
  destruct (decide (elem_of k ks)) as [Hin | Hin]; destruct (decide (elem_of k ks')) as [Hin' | Hin'].
  - exact H.
  - exfalso. apply Hin'. rewrite <- H. exact Hin.
  - exfalso. apply Hin. rewrite H. exact Hin'.
  - apply Permutation_app_tail. exact H.
Qed.

Lemma names_nul_free_name (cmd : list string) :
  names_nul_free cmd = true -> nul_free (hd "" cmd) = true.
Proof.
  unfold names_nul_free. intros [H _]%andb_true_iff.
  destruct cmd; [discriminate | exact H].
Qed.

Lemma cmdHashAdd_good (ht : cmdHash) (cmd : list string) (zt st : pair_table)
    (sk : list string) :
  related ht zt st sk -> names_nul_free cmd = true ->
  exists rc ht',
    runs (cmdHashAdd ht (bulk_strings cmd)) (rc, ht')
    /\ related ht' (zincrby_add cmd zt) (sadd_add cmd st) (sadd_key cmd sk)
    /\ rc = (if unsupported (bulk_strings cmd) then 2 else 0).
Proof.
  intros [Gz Az Gs As Pz Ps Pk] Hnf.
  pose proof (names_nul_free_name cmd Hnf) as Hn.
  unfold names_nul_free in Hnf. apply andb_true_iff in Hnf as [_ Hnf].
  pose proof (kind_runs cmd Hn) as Rt. pose proof (kind_unsupported cmd Hn) as Hu.
  destruct (kind_shape cmd Hn) as [Hz Hs].
  unfold zincrby_add, sadd_add, sadd_key.
  unfold cmdHashAdd. destruct (kind cmd) eqn:Ek.
  - destruct (Hz eq_refl) as (n & k & d & m & ->).
    apply andb_true_iff in Hnf as [Hk Hm].
    destruct (zincrby_good ht n k d m Gz Az Hk Hm) as (z & R & G & A & _ & _ & V).
    exists 0, (set_z_cmds ht z). split; [eapply runs_bind; [exact Rt | exact R] |].
    split; [| rewrite Hu; reflexivity].
    constructor; try assumption. cbn [z_cmds set_z_cmds].
    rewrite V. apply update_perm, touch_perm, Pz.
  - destruct (Hs eq_refl) as (n & k & a & args & ->).
    apply andb_true_iff in Hnf as [Hk Hm].
    destruct (sadd_good ht n k a args Gs As Hk Hm) as (s & R & G & A & _ & _ & K & V).
    exists 0, (set_s_cmds ht s). split; [eapply runs_bind; [exact Rt | exact R] |].
    split; [| rewrite Hu; reflexivity].
    constructor; try assumption; cbn [s_cmds set_s_cmds].
    + rewrite V. apply fold_touch_perm, Ps.
    + rewrite K. apply note_perm, Pk.
  - exists 2, ht. split; [eapply runs_bind; [exact Rt | apply runs_ret] |].
    split; [| rewrite Hu; reflexivity].
    destruct cmd; constructor; assumption.
Qed.

Lemma process_good (l : list (list string)) (ctx : optimizerContext) (zt st : pair_table)
    (sk : list string) :
  related (cmd_hash ctx) zt st sk ->
  pos (cmd_buffer ctx) = strlen_Z (buf (cmd_buffer ctx)) ->
  forallb names_nul_free l = true ->
  exists ctx',
    runs (processBufferFile ctx (commands l)) (0, ctx')
    /\ related (cmd_hash ctx')
         (fold_left (fun t cmd => zincrby_add cmd t) l zt)
         (fold_left (fun t cmd => sadd_add cmd t) l st)
         (fold_left (fun ks cmd => sadd_key cmd ks) l sk).
Proof.
  revert ctx zt st sk. induction l as [|c l IH]; intros ctx zt st sk Hr Hpos Hnf.
  - exists ctx. split; [apply runs_ret | exact Hr].
  - simpl in Hnf. apply andb_true_iff in Hnf as [Hc Hnf].
    destruct (cmdHashAdd_good (cmd_hash ctx) c zt st sk Hr Hc) as (rc & h & R & Hr' & Hrc).
    destruct (unsupported (bulk_strings c)); subst rc.
    + destruct (cmdBufferAddReply_runs (cmd_buffer ctx) (bulk_strings c) Hpos)
        as (b & Rb & _ & Pb & _).
      destruct (IH (mkContext (stats ctx) (uint_add (cmd_count ctx) 1) b h) _ _ _ Hr' Pb Hnf)
        as (ctx' & R' & Hr'').
      exists ctx'. split; [| exact Hr''].
      simpl. eapply runs_bind; [exact R | cbn beta iota].
      eapply runs_bind; [| exact R'].
      change (2 =? cmdType_int TYPE_UNSUPPORTED) with true. cbn beta iota.
      eapply runs_bind; [exact Rb | apply runs_ret].
    + destruct (IH (mkContext (stats ctx) (uint_add (cmd_count ctx) 1) (cmd_buffer ctx) h)
                  _ _ _ Hr' Hpos Hnf) as (ctx' & R' & Hr'').
      exists ctx'. split; [| exact Hr''].
      simpl. eapply runs_bind; [exact R | cbn beta iota].
      eapply runs_bind; [| exact R'].
      change (0 =? cmdType_int TYPE_UNSUPPORTED) with false. cbn beta iota.
      apply runs_ret.
Qed.

Lemma good_fresh (ks ms : Z) : 0 < ks -> 0 < ms -> good (fresh_container ks ms).
Proof.
  intros Hks Hms.
  assert (Hk : keys_of (fresh_container ks ms) = [])
    by (unfold keys_of; simpl; rewrite concat_replicate_nil; reflexivity).
  constructor.
  - apply inv_fresh; assumption.
  - intros i chain Hi. simpl in Hi. apply lookup_replicate in Hi as [-> _]. constructor.
  - rewrite Hk. constructor.
  - unfold views. rewrite Hk. constructor.
Qed.

Lemma related_fresh (ks ms : Z) :
  0 < ks -> 0 < ms -> related (fresh_hash ks ms) [] [] [].
Proof.
  intros Hks Hms.
  assert (Hk : keys_of (fresh_container ks ms) = [])
    by (unfold keys_of; simpl; rewrite concat_replicate_nil; reflexivity).
  constructor; cbn [fresh_hash z_cmds s_cmds];
    try (apply good_fresh; assumption); try apply allocated_fresh;
    unfold views; rewrite Hk; reflexivity.
Qed.

Lemma process_related (stat : bool) (ks ms : Z) (l : list (list string)) :
  0 < ks -> 0 < ms -> forallb names_nul_free l = true ->
  exists ctx,
    runs (processBufferFile (fresh_context stat ks ms) (commands l)) (0, ctx)
    /\ related (cmd_hash ctx) (zincrby_table l) (sadd_table l) (sadd_keys l).
Proof.
  intros Hks Hms Hnf.
  apply (process_good l (fresh_context stat ks ms) [] [] []);
    [apply related_fresh; assumption | reflexivity | exact Hnf].
Qed.

End Ref.

(** *** The pairs of an input, without repetition, and their hit counts *)

Lemma names_touch_note (p : string * string) (t : pair_table) :
  map fst (touch p t) = note p (map fst t).
Proof.
  rewrite names_touch. destruct (held p t) eqn:E.
  - apply held_spec, list_elem_of_In in E. rewrite (note_in _ _ E). reflexivity.
  - rewrite note_new; [reflexivity |]. intros Hin.
    apply list_elem_of_In, held_spec in Hin. congruence.
Qed.

Lemma note_fold_spec {A} `{EqDecision A} (xs l0 : list A) :
  NoDup l0 ->
  NoDup (fold_left (fun l x => note x l) xs l0)
  /\ forall y, elem_of y (fold_left (fun l x => note x l) xs l0) <-> elem_of y l0 \/ elem_of y xs.
Proof.
  revert l0. induction xs as [|a xs IH]; intros l0 H0; simpl.
  - split; [exact H0 |]. intros y. rewrite elem_of_nil. tauto.
  - assert (Hn : NoDup (note a l0)).
    { unfold note. destruct (decide (elem_of a l0)) as [Hin | Hin]; [exact H0 |].
      apply NoDup_app. split; [exact H0 |]. split; [| apply NoDup_singleton].
      intros x Hx Hx'. apply list_elem_of_singleton in Hx'. subst x. contradiction. }
    destruct (IH (note a l0) Hn) as [H1 H2]. split; [exact H1 |].
    intros y. rewrite H2, elem_of_cons. unfold note.
    destruct (decide (elem_of a l0)) as [Hin | Hin].
    + split; [tauto |]. intros [Hy | [-> | Hy]]; tauto.
    + rewrite elem_of_app, list_elem_of_singleton. tauto.
Qed.

Lemma note_fold_perm {A} `{EqDecision A} (xs : list A) :
  Permutation (fold_left (fun l x => note x l) xs []) (remove_dups xs).
Proof.
  destruct (note_fold_spec xs [] (NoDup_nil_2)) as [H1 H2].
  apply NoDup_Permutation; [exact H1 | apply NoDup_remove_dups |].
  intros y. rewrite H2, elem_of_remove_dups, elem_of_nil. tauto.
Qed.

Lemma touch_fold_key (k : string) (ms : list string) (t : pair_table) :
  fold_left (fun t m => touch (k, m) t) ms t
  = fold_left (fun t q => touch q t) (map (pair k) ms) t.
Proof. revert t. induction ms as [|m ms IH]; intros t; simpl; [reflexivity | apply IH]. Qed.

Lemma sadd_add_flat (cmd : list string) (t : pair_table) :
  sadd_add cmd t = fold_left (fun t q => touch q t) (sadd_pairs [cmd]) t.
Proof.
  unfold sadd_add, sadd_pairs. simpl. rewrite app_nil_r.
  destruct (kind cmd); try reflexivity.
  destruct cmd as [|n [|k ms]]; try reflexivity. apply touch_fold_key.
Qed.

Lemma sadd_table_flat (l : list (list string)) (t : pair_table) :
  fold_left (fun t cmd => sadd_add cmd t) l t
  = fold_left (fun t q => touch q t) (sadd_pairs l) t.
Proof.
  revert t. induction l as [|cmd l IH]; intros t; [reflexivity |].
  simpl fold_left at 1. rewrite IH, sadd_add_flat.
  unfold sadd_pairs. simpl flat_map. rewrite app_nil_r, fold_left_app. reflexivity.
Qed.

Lemma names_fold_touch (ps : list (string * string)) (t : pair_table) :
  map fst (fold_left (fun t q => touch q t) ps t)
  = fold_left (fun l q => note q l) ps (map fst t).
Proof.
  revert t. induction ps as [|q ps IH]; intros t; simpl; [reflexivity |].
  rewrite IH, names_touch_note. reflexivity.
Qed.

Lemma sadd_keys_flat (l : list (list string)) (ks : list string) :
  fold_left (fun ks cmd => sadd_key cmd ks) l ks
  = fold_left (fun l k => note k l) (sadd_key_names l) ks.
Proof.
  revert ks. induction l as [|cmd l IH]; intros ks; [reflexivity |].
  simpl fold_left at 1. rewrite IH.
  unfold sadd_key_names. simpl flat_map. rewrite fold_left_app. f_equal.
  unfold sadd_key. destruct (kind cmd); try reflexivity.
  destruct cmd as [|n [|k ms]]; reflexivity.
Qed.

Section RefFacts.
Context {ext : Externals}.

Lemma names_zincrby_add (cmd : list string) (t : pair_table) :
  map fst (zincrby_add cmd t)
  = fold_left (fun l q => note q l) (zincrby_pairs [cmd]) (map fst t).
Proof.
  unfold zincrby_add, zincrby_pairs. simpl. rewrite app_nil_r.
  destruct (kind cmd); try reflexivity.
  destruct cmd as [|n [|k [|d [|m [|x r]]]]]; try reflexivity.
  simpl. rewrite names_update. apply names_touch_note.
Qed.

Lemma names_zincrby_table (l : list (list string)) (t : pair_table) :
  map fst (fold_left (fun t cmd => zincrby_add cmd t) l t)
  = fold_left (fun l q => note q l) (zincrby_pairs l) (map fst t).
Proof.
  revert t. induction l as [|cmd l IH]; intros t; [reflexivity |].
  simpl fold_left at 1. rewrite IH, names_zincrby_add.
  unfold zincrby_pairs. simpl flat_map. rewrite app_nil_r, fold_left_app. reflexivity.
Qed.

Lemma length_zincrby_table (l : list (list string)) :
  length (zincrby_table l) = length (remove_dups (zincrby_pairs l)).
Proof.
  rewrite <- (length_map fst). unfold zincrby_table. rewrite names_zincrby_table.
  apply Permutation_length, note_fold_perm.
Qed.

End RefFacts.

Lemma length_sadd_keys (l : list (list string)) :
  length (sadd_keys l) = length (remove_dups (sadd_key_names l)).
Proof.
  unfold sadd_keys. rewrite sadd_keys_flat. apply Permutation_length, note_fold_perm.
Qed.

Lemma names_sadd_table (l : list (list string)) :
  Permutation (map fst (sadd_table l)) (remove_dups (sadd_pairs l)).
Proof.
  unfold sadd_table. rewrite sadd_table_flat, names_fold_touch. apply note_fold_perm.
Qed.









(** *** The run on an input without NUL byte in its names *)

Section Input.
Context {ext : Externals}.

Lemma passed_bytes_bulk (cmd : list string) :
  passed_bytes (bulk_strings cmd) = command_bytes cmd.
Proof.
  unfold passed_bytes, command_bytes, bulk_strings. simpl. rewrite map_map. reflexivity.
Qed.

Lemma passed_commands (l : list (list string)) :
  forallb names_nul_free l = true ->
  List.filter unsupported (map bulk_strings l) = map bulk_strings (List.filter passes l).
Proof.
  induction l as [|cmd l IH]; intros H; [reflexivity |].
  simpl in H. apply andb_true_iff in H as [Hc H].
  pose proof (names_nul_free_name cmd Hc) as Hn.
  simpl. rewrite (kind_unsupported cmd Hn). fold (passes cmd).
  destruct (passes cmd); simpl; rewrite (IH H); reflexivity.
Qed.

Lemma good_readable (c : cmdHashContainer) : good c -> readable c.
Proof.
  intros [_ Hclean _ _]. unfold readable. apply Forall_forall. intros k Hk.
  apply list_elem_of_In, keys_of_lookup in Hk as (kp & Hl).
  pose proof (clean_lookup c kp k Hclean Hl) as (_ & Hlen & _ & Hm).
  split.
  - unfold in_block. simpl. apply Z.leb_le. lia.
  - unfold members_of. apply Forall_concat, Forall_lookup. intros n chain Hn.
    eapply Forall_impl; [exact (Hm n chain Hn) |].
    intros item (s & Hs & _ & Hl' & _). unfold item_readable, in_block. rewrite Hs. simpl.
    apply Z.leb_le. lia.
Qed.

Lemma related_flushable (ht : cmdHash) (zt st : pair_table) (sk : list string) :
  related ht zt st sk -> Forall sadd_fits (keys_of (s_cmds ht)) -> flushable ht.
Proof.
  intros [Gz _ Gs _ _ _ _] Hf.
  split; [apply good_readable; exact Gz |]. split; [apply good_readable; exact Gs | exact Hf].
Qed.

Lemma related_lengths (ht : cmdHash) (l : list (list string)) :
  related ht (zincrby_table l) (sadd_table l) (sadd_keys l) ->
  length (entries (z_cmds ht)) = length (remove_dups (zincrby_pairs l))
  /\ length (keys_of (s_cmds ht)) = length (remove_dups (sadd_key_names l)).
Proof.
  intros [_ _ _ _ Pz _ Pk]. split.
  - rewrite <- (length_map view), views_entries, (Permutation_length Pz).
    apply length_zincrby_table.
  - rewrite <- (length_map key), (Permutation_length Pk). apply length_sadd_keys.
Qed.

(** The run on commands without NUL byte in their names: what the buffer
    holds, the counters, and the tables. *)
Lemma process_input (stat : bool) (ks ms : Z) (l : list (list string)) :
  0 < ks -> 0 < ms -> forallb names_nul_free l = true ->
  exists ctx,
    runs (processBufferFile (fresh_context stat ks ms) (commands l)) (0, ctx)
    /\ related (cmd_hash ctx) (zincrby_table l) (sadd_table l) (sadd_keys l)
    /\ hinv (cmd_hash ctx) /\ stats ctx = stat
    /\ _buf (cmd_hash ctx) = None /\ _len (cmd_hash ctx) = 0
    /\ buf (cmd_buffer ctx) = cat (map command_bytes (List.filter passes l))
    /\ pos (cmd_buffer ctx) = strlen_Z (buf (cmd_buffer ctx))
    /\ cmd_count ctx = to_uint (Z.of_nat (length l))
    /\ b_cmd_count (cmd_buffer ctx) = to_uint (Z.of_nat (length (List.filter passes l)))
    /\ (out_nodes (cmd_hash ctx) + length (List.filter passes l) <= length l)%nat.
Proof.
  intros Hks Hms Hnf.
  destruct (process_fresh stat ks ms l Hks Hms)
    as (ctx & R & Hh & Hst & Hb & Hl & Hbuf & Hpos & Hn & Hp & Hle).
  destruct (process_related stat ks ms l Hks Hms Hnf) as (ctx2 & R2 & Hrel).
  pose proof (runs_inj _ _ _ R2 R) as [= ->].
  rewrite (passed_commands l Hnf) in Hbuf, Hp, Hle.
  rewrite length_map in Hp, Hle.
  rewrite map_map in Hbuf. rewrite (map_ext _ _ passed_bytes_bulk) in Hbuf.
  exists ctx. repeat (split; [assumption |]). assumption.
Qed.

End Input.

(** ** zhash.c: the invariant of the table *)

Lemma zlookup_key_Some (ht : ZHash.zHash) (kp : key_ptr) (k : ZHash.zKeyList) :
  zlookup_key ht kp = Some k <->
  exists chain, ZHash.bucket ht !! kp.1 = Some chain /\ chain !! kp.2 = Some (ZHash.Live k).
Proof.
  unfold zlookup_key. split.
  - destruct (ZHash.bucket ht !! kp.1) as [chain|]; [| discriminate].
    destruct (chain !! kp.2) as [[k'|]|] eqn:E; intros; simplify_eq. eauto.
  - intros (chain & -> & ->). reflexivity.
Qed.

Lemma zruns_get_key (ht : ZHash.zHash) (kp : key_ptr) (k : ZHash.zKeyList) :
  zlookup_key ht kp = Some k -> runs (ZHash.get_key ht kp) k.
Proof.
  intros (chain & H1 & H2)%zlookup_key_Some.
  unfold ZHash.get_key. rewrite H1, H2. reflexivity.
Qed.

Lemma zscan_keys_live (ms : nat) (chain : list ZHash.key_cell) (str : string) (n : Z)
    (i : nat) :
  Forall (zcell_inv ms) chain ->
  ZHash.scan_keys chain str n i = Miss
  \/ exists j k, ZHash.scan_keys chain str n i = Hit (i + j)
                 /\ chain !! j = Some (ZHash.Live k).
Proof.
  intros H. revert i. induction H as [|cell chain (k & -> & _) _ IH]; intros i; simpl.
  - left; reflexivity.
  - destruct ((ZHash.klen k =? n) && (strncmp (ZHash.key k) str (Z.to_nat n) =? 0)).
    + right. exists 0%nat, k. split; [f_equal; lia | reflexivity].
    + destruct (IH (S i)) as [-> | (j & k' & -> & Hj)]; [left; reflexivity |].
      right. exists (S j), k'. split; [f_equal; lia | exact Hj].
Qed.

Lemma zscan_members_named (chain : list ZHash.zMemberList) (str : string) (n : Z) (i : nat) :
  Forall (fun item => ZHash.member item <> None) chain ->
  ZHash.scan_members chain str n i = Miss
  \/ exists j item, ZHash.scan_members chain str n i = Hit (i + j) /\ chain !! j = Some item.
Proof.
  intros H. revert i. induction H as [|item chain Hm _ IH]; intros i; simpl.
  - left; reflexivity.
  - destruct (IH (S i)) as [E | (j & item' & E & Hj)].
    + destruct (n =? ZHash.len item); [| left; exact E].
      destruct (ZHash.member item) as [s|]; [| congruence].
      destruct (strncmp str s (Z.to_nat n) =? 0); [| left; exact E].
      right. exists 0%nat, item. split; [f_equal; lia | reflexivity].
    + destruct (n =? ZHash.len item).
      * destruct (ZHash.member item) as [s|]; [| congruence].
        destruct (strncmp str s (Z.to_nat n) =? 0).
        -- right. exists 0%nat, item. split; [f_equal; lia | reflexivity].
        -- right. exists (S j), item'. split; [rewrite E; f_equal; lia | exact Hj].
      * right. exists (S j), item'. split; [rewrite E; f_equal; lia | exact Hj].
Qed.

(** Writing a key node back. *)
Lemma zput_key_inv (ht ht0 : ZHash.zHash) (kp : key_ptr) (k k' : ZHash.zKeyList) :
  zinv ht -> zlookup_key ht kp = Some k ->
  ZHash.ksize ht0 = ZHash.ksize ht -> ZHash.msize ht0 = ZHash.msize ht ->
  ZHash.bucket ht0 = ZHash.bucket ht ->
  zkey_inv (Z.to_nat (ZHash.msize ht)) k' ->
  zinv (ZHash.put_key ht0 kp k') /\ zlookup_key (ZHash.put_key ht0 kp k') kp = Some k'.
Proof.
  intros [Hsize Hk Hm Hcells] (chain & Hi & Hj)%zlookup_key_Some Eks Ems Eb Hk'.
  assert (Hb : ZHash.bucket (ZHash.put_key ht0 kp k')
               = <[kp.1 := <[kp.2 := ZHash.Live k']> chain]> (ZHash.bucket ht)).
  { unfold ZHash.put_key, ZHash.set_bucket. simpl. rewrite Eb. apply alter_lookup. exact Hi. }
  assert (Hil : (kp.1 < length (ZHash.bucket ht))%nat) by (eapply lookup_lt_Some; eauto).
  assert (Hjl : (kp.2 < length chain)%nat) by (eapply lookup_lt_Some; eauto).
  split.
  - constructor.
    + rewrite Hb, length_insert. simpl. rewrite Eks. exact Hsize.
    + simpl. rewrite Eks. exact Hk.
    + simpl. rewrite Ems. exact Hm.
    + rewrite Hb. simpl. rewrite Ems. apply Forall_insert; [exact Hcells |].
      apply Forall_insert; [exact (proj1 (Forall_lookup _ _) Hcells _ _ Hi) |].
      exists k'. split; [reflexivity | exact Hk'].
  - apply zlookup_key_Some. exists (<[kp.2 := ZHash.Live k']> chain). rewrite Hb. split.
    + apply list_lookup_insert_eq. exact Hil.
    + apply list_lookup_insert_eq. exact Hjl.
Qed.

Lemma zinv_lookup_key (ht : ZHash.zHash) (kp : key_ptr) (k : ZHash.zKeyList) :
  zinv ht -> zlookup_key ht kp = Some k -> zkey_inv (Z.to_nat (ZHash.msize ht)) k.
Proof.
  intros [_ _ _ Hcells] (chain & Hi & Hj)%zlookup_key_Some.
  pose proof (proj1 (Forall_lookup _ _) Hcells _ _ Hi) as Hch.
  destruct (proj1 (Forall_lookup _ _) Hch _ _ Hj) as (k0 & [= <-] & H). exact H.
Qed.

Lemma zfind_key_runs (ht : ZHash.zHash) (str : string) (n : Z) :
  zinv ht ->
  exists kp ht',
    runs (ZHash.__findKey ht str n) (Some kp, ht')
    /\ zinv ht' /\ is_Some (zlookup_key ht' kp).
Proof.
  intros Hinv. pose proof Hinv as [Hsize Hk Hm Hcells].
  unfold ZHash.__findKey. set (num := GET_BUCKET str n (ZHash.ksize ht)).
  assert (Hlt : (num < length (ZHash.bucket ht))%nat).
  { rewrite Hsize. apply GET_BUCKET_lt. exact Hk. }
  destruct (lookup_lt_is_Some_2 _ _ Hlt) as [chain Hchain].
  assert (Hch : Forall (zcell_inv (Z.to_nat (ZHash.msize ht))) chain)
    by exact (proj1 (Forall_lookup _ _) Hcells _ _ Hchain).
  assert (Hnew : exists kp ht',
            runs (ZHash.__findKey_copy ht num chain str n) (Some kp, ht')
            /\ zinv ht' /\ is_Some (zlookup_key ht' kp)).
  { do 2 eexists. split; [unfold ZHash.__findKey_copy; step; step |]. split.
    - constructor; simpl; try assumption.
      + rewrite length_insert. exact Hsize.
      + apply Forall_insert; [exact Hcells |]. apply Forall_app. split; [exact Hch |].
        constructor; [| constructor]. eexists. split; [reflexivity |].
        split; [constructor | intros arr [=]].
    - eexists. apply zlookup_key_Some. eexists. simpl. split.
      + apply list_lookup_insert_eq. exact Hlt.
      + rewrite lookup_app_r by lia. rewrite Nat.sub_diag. reflexivity. }
  destruct chain as [|cell chain'] eqn:Echain.
  - destruct Hnew as (kp & ht' & Hrun & Hpost).
    exists kp, ht'. split; [| exact Hpost]. step. step. exact Hrun.
  - rewrite <- Echain in *.
    destruct (zscan_keys_live _ chain str n 0 Hch) as [Hs | (j & k & Hs & Hj)].
    + destruct Hnew as (kp & ht' & Hrun & Hpost).
      exists kp, ht'. split; [| exact Hpost].
      step. rewrite Echain at 1. rewrite Hs. step. exact Hrun.
    + exists (num, j), ht. split.
      { step. rewrite Echain at 1. rewrite Hs. apply runs_ret. }
      split; [exact Hinv |]. exists k. apply zlookup_key_Some. eauto.
Qed.

Lemma zfind_member_runs (ht : ZHash.zHash) (kp : key_ptr) (str : string) (n : Z) :
  zinv ht -> is_Some (zlookup_key ht kp) ->
  exists mp ht',
    runs (ZHash.__findMember ht kp str n) (Some mp, ht')
    /\ zinv ht' /\ is_Some (zlookup_member ht' kp mp).
Proof.
  intros Hinv [k Hk]. pose proof Hinv as [Hsize Hks Hms Hcells].
  pose proof (zinv_lookup_key ht kp k Hinv Hk) as [Hnamed Hlen].
  set (ms := Z.to_nat (ZHash.msize ht)) in *.
  set (tbl := default (replicate ms []) (ZHash.kbucket k)).
  assert (Htl : length tbl = ms).
  { unfold tbl. destruct (ZHash.kbucket k) as [arr|]; simpl;
      [apply Hlen; reflexivity | apply length_replicate]. }
  assert (Htn : Forall (Forall (fun item => ZHash.member item <> None)) tbl).
  { unfold tbl. destruct (ZHash.kbucket k) as [arr|]; simpl; [exact Hnamed |].
    apply Forall_replicate. constructor. }
  assert (Rt : runs (match ZHash.kbucket k with
                     | Some arr => ret (Some arr)
                     | None => let* ok := alloc in
                               ret (if ok then Some (replicate ms []) else None)
                     end) (Some tbl)).
  { unfold tbl. destruct (ZHash.kbucket k); reflexivity. }
  set (num := GET_BUCKET str n (ZHash.msize ht)).
  assert (Hnum : (num < length tbl)%nat) by (rewrite Htl; apply GET_BUCKET_lt; exact Hms).
  destruct (lookup_lt_is_Some_2 _ _ Hnum) as [chain Hchain].
  assert (Hcn : Forall (fun item => ZHash.member item <> None) chain)
    by exact (proj1 (Forall_lookup _ _) Htn _ _ Hchain).
  (* the three ways out *)
  assert (Hput : forall ht0 chain' j item,
            ZHash.ksize ht0 = ZHash.ksize ht -> ZHash.msize ht0 = ZHash.msize ht ->
            ZHash.bucket ht0 = ZHash.bucket ht ->
            Forall (fun item => ZHash.member item <> None) chain' ->
            chain' !! j = Some item ->
            let ht' := ZHash.put_key ht0 kp (ZHash.set_kbucket k (<[num := chain']> tbl)) in
            zinv ht' /\ is_Some (zlookup_member ht' kp (num, j))).
  { intros ht0 chain' j item E1 E2 E3 Hc' Hj ht'. subst ht'.
    destruct (zput_key_inv ht ht0 kp k (ZHash.set_kbucket k (<[num := chain']> tbl))
                Hinv Hk E1 E2 E3) as [H1 H2].
    { split; simpl.
      - apply Forall_insert; assumption.
      - intros arr [= <-]. rewrite length_insert. exact Htl. }
    split; [exact H1 |]. exists item. unfold zlookup_member. rewrite H2. simpl.
    rewrite list_lookup_insert_eq by exact Hnum. exact Hj. }
  assert (Hnew : exists mp ht',
            runs (ZHash.__findMember_copy ht kp k tbl num chain str n) (Some mp, ht')
            /\ zinv ht' /\ is_Some (zlookup_member ht' kp mp)).
  { do 2 eexists. split; [unfold ZHash.__findMember_copy; step; step |].
    eapply Hput; try reflexivity.
    - apply Forall_app. split; [exact Hcn |]. constructor; [discriminate | constructor].
    - rewrite lookup_app_r by lia. rewrite Nat.sub_diag. reflexivity. }
  unfold ZHash.__findMember. fold num.
  destruct chain as [|item0 chain'] eqn:Echain.
  - destruct Hnew as (mp & ht' & Hrun & Hpost). exists mp, ht'. split; [| exact Hpost].
    eapply runs_bind; [apply zruns_get_key; exact Hk | cbn beta iota].
    eapply runs_bind; [exact Rt | cbn beta iota].
    eapply runs_bind; [apply runs_deref; exact Hchain | cbn beta iota].
    step. exact Hrun.
  - rewrite <- Echain in *.
    destruct (zscan_members_named chain str n 0 Hcn) as [Hs | (j & item & Hs & Hj)].
    + destruct Hnew as (mp & ht' & Hrun & Hpost). exists mp, ht'. split; [| exact Hpost].
      eapply runs_bind; [apply zruns_get_key; exact Hk | cbn beta iota].
      eapply runs_bind; [exact Rt | cbn beta iota].
      eapply runs_bind; [apply runs_deref; exact Hchain | cbn beta iota].
      rewrite Echain at 1. rewrite Hs. step. exact Hrun.
    + exists (num, j), (ZHash.put_key ht kp (ZHash.set_kbucket k tbl)). split.
      { eapply runs_bind; [apply zruns_get_key; exact Hk | cbn beta iota].
        eapply runs_bind; [exact Rt | cbn beta iota].
        eapply runs_bind; [apply runs_deref; exact Hchain | cbn beta iota].
        rewrite Echain at 1. rewrite Hs. apply runs_ret. }
      rewrite <- (list_insert_id tbl num chain Hchain) at 1 2.
      eapply Hput; try reflexivity; eassumption.
Qed.

Lemma zadd_value_runs (ht : ZHash.zHash) (kp : key_ptr) (mp : member_ptr) (d : float) :
  zinv ht -> is_Some (zlookup_member ht kp mp) ->
  exists ht', runs (ZHash.add_value ht kp mp d) ht' /\ zinv ht'.
Proof.
  intros Hinv [item Hm]. unfold zlookup_member in Hm.
  destruct (zlookup_key ht kp) as [k|] eqn:Hk; [| discriminate].
  destruct (ZHash.kbucket k) as [arr|] eqn:Eb; [| discriminate].
  destruct (arr !! mp.1) as [chain|] eqn:En; [| discriminate].
  pose proof (zinv_lookup_key ht kp k Hinv Hk) as [Hnamed Hlen].
  rewrite Eb in Hnamed. simpl in Hnamed.
  eexists. split.
  { unfold ZHash.add_value.
    eapply runs_bind; [apply zruns_get_key; exact Hk | cbn beta iota].
    eapply runs_bind; [apply runs_deref; exact Eb | cbn beta iota].
    eapply runs_bind; [apply runs_deref; exact En | cbn beta iota].
    eapply runs_bind; [apply runs_deref; exact Hm | cbn beta iota].
    apply runs_ret. }
  eapply (zput_key_inv ht ht kp k); try reflexivity; try assumption.
  split; simpl.
  - apply Forall_insert; [exact Hnamed |].
    apply Forall_insert; [exact (proj1 (Forall_lookup _ _) Hnamed _ _ En) |].
    simpl. pose proof (proj1 (Forall_lookup _ _) Hnamed _ _ En) as Hc.
    exact (proj1 (Forall_lookup _ _) Hc _ _ Hm).
  - intros arr' [= <-]. rewrite length_insert. apply Hlen. exact Eb.
Qed.

Lemma zinv_fresh (ks ms : Z) : 0 < ks -> 0 < ms -> zinv (fresh_zhash ks ms).
Proof.
  intros Hks Hms. constructor; simpl; try assumption.
  - apply length_replicate.
  - apply Forall_replicate. constructor.
Qed.

Lemma zHashAdd_accepts (ht : ZHash.zHash) (k m : string) (v : float) :
  zinv ht -> 1 <= strlen_Z k -> 1 <= strlen_Z m -> double_is_zero v = false ->
  exists ht',
    runs (ZHash.zHashAdd ht (Some k) (strlen_Z k) v (Some m) (strlen_Z m)) (0, ht')
    /\ zinv ht'.
Proof.
  intros Hinv Hk Hm Hv.
  destruct (zfind_key_runs ht k (strlen_Z k) Hinv) as (kp & h1 & R1 & I1 & K1).
  destruct (zfind_member_runs h1 kp m (strlen_Z m) I1 K1) as (mp & h2 & R2 & I2 & M2).
  destruct (zadd_value_runs h2 kp mp v I2 M2) as (h3 & R3 & I3).
  exists h3. split; [| exact I3].
  unfold ZHash.zHashAdd.
  assert (Hk' : (strlen_Z k <? 1) = false) by lia.
  assert (Hm' : (strlen_Z m <? 1) = false) by lia.
  rewrite Hk', Hm', Hv. cbn [is_null orb].
  eapply runs_bind; [apply runs_deref; reflexivity | cbn beta iota].
  eapply runs_bind; [apply runs_deref; reflexivity | cbn beta iota].
  eapply runs_bind; [exact R1 | cbn beta iota].
  eapply runs_bind; [exact R2 | cbn beta iota].
  eapply runs_bind; [exact R3 | cbn beta iota]. apply runs_ret.
Qed.

(** ** The claims on an input, whatever it builds *)

Section Claims.
Context {ext : Externals}.

(** C6, amended: both counters are [unsigned int] and wrap at 2^32.  On an
    input of commands of bulk strings whose command names, and whose keys and
    members in ZINCRBY and SADD commands, have no NUL byte, with every
    allocation succeeding, and with [--stat] or with every SADD command of
    the flush fitting: after [processBufferFile] and [appendAggCommands] the
    count of the context is the number of commands modulo 2^32, and the count
    of the command buffer is, modulo 2^32, the number of commands that are
    neither ZINCRBY nor SADD, plus the number of distinct (key, member) pairs
    that the ZINCRBY commands name, plus the number of distinct keys that the
    SADD commands name; on fewer than 2^32 commands both are these numbers
    themselves and the second is at most the first. *)
Theorem counts_modulo_2_32 (stat : bool) (ks ms : Z) (l : list (list string)) :
  0 < ks -> 0 < ms -> forallb names_nul_free l = true ->
  exists ctx,
    runs (processBufferFile (fresh_context stat ks ms) (commands l)) (0, ctx)
    /\ (stat = true \/ Forall sadd_fits (keys_of (s_cmds (cmd_hash ctx))) ->
        exists ctx',
          runs (appendAggCommands ctx) (0, ctx')
          /\ cmd_count ctx' = to_uint (Z.of_nat (length l))
          /\ b_cmd_count (cmd_buffer ctx')
             = to_uint (Z.of_nat
                 (length (List.filter passes l)
                  + length (remove_dups (zincrby_pairs l))
                  + length (remove_dups (sadd_key_names l))))
          /\ (Z.of_nat (length l) < UINT_MOD ->
              cmd_count ctx' = Z.of_nat (length l)
              /\ b_cmd_count (cmd_buffer ctx')
                 = Z.of_nat
                     (length (List.filter passes l)
                      + length (remove_dups (zincrby_pairs l))
                      + length (remove_dups (sadd_key_names l)))
              /\ b_cmd_count (cmd_buffer ctx') <= cmd_count ctx')).
Proof.
  intros Hks Hms Hnf.
  destruct (process_input stat ks ms l Hks Hms Hnf)
    as (ctx & R & Hrel & Hh & Hst & Hb & Hl & Hbuf & Hpos & Hn & Hp & Hle).
  exists ctx. split; [exact R |]. intros Hmode.
  destruct (appendAggCommands_runs ctx Hh Hb Hl Hpos) as (ctx' & R' & _ & Hc & Hbc & _).
  { rewrite Hst. destruct Hmode as [-> | Hf]; [left; reflexivity | right].
    eapply related_flushable; eauto. }
  destruct (related_lengths _ _ Hrel) as [Ez Es].
  exists ctx'. split; [exact R' |].
  unfold out_nodes in *. rewrite n_members_length, n_keys_length, Ez, Es in *.
  set (p := length (List.filter passes l)) in *.
  set (e := length (remove_dups (zincrby_pairs l))) in *.
  set (s := length (remove_dups (sadd_key_names l))) in *.
  assert (Hout : b_cmd_count (cmd_buffer ctx') = to_uint (Z.of_nat (p + e + s))).
  { rewrite Hbc, Hp. unfold to_uint. rewrite Zplus_mod_idemp_l. f_equal. lia. }
  split; [rewrite Hc; exact Hn |]. split; [exact Hout |].
  intros Hsmall. rewrite Hout, Hc, Hn.
  rewrite !to_uint_small by lia. split; [reflexivity |]. split; [reflexivity | lia].
Qed.


Lemma add_score_at (c : cmdHashContainer) (kp : key_ptr) (mp : member_ptr)
    (item : cmdMemberList) (d : float) :
  lookup_member c kp mp = Some item ->
  exists c',
    runs (add_score c kp mp d) c'
    /\ lookup_member c' kp mp
       = Some (mkMember (member item) (mlen item) (score_add (score_hits item) d)).
Proof.
  intros Hm. unfold lookup_member in Hm.
  destruct (lookup_key c kp) as [k|] eqn:Hk; [| discriminate].
  destruct (kbucket k) as [arr|] eqn:Eb; [| discriminate].
  destruct (arr !! mp.1) as [chain|] eqn:En; [| discriminate].
  eexists. split.
  { unfold add_score, get_member.
    eapply runs_bind.
    { eapply runs_bind; [apply runs_get_key; exact Hk | cbn beta iota].
      eapply runs_bind; [apply runs_deref; exact Eb | cbn beta iota].
      eapply runs_bind; [apply runs_deref; exact En | cbn beta iota].
      eapply runs_bind; [apply runs_deref; exact Hm | cbn beta iota].
      apply runs_ret. }
    cbn beta iota. apply runs_ret. }
  unfold lookup_member.
  destruct (put_key_facts c kp k
              (set_kbucket k
                 (<[mp.1 := <[mp.2 := mkMember (member item) (mlen item)
                                        (score_add (score_hits item) d)]> chain]> arr)) Hk)
    as (Hk' & _).
  rewrite Hk'. simpl.
  rewrite list_lookup_insert_eq by (eapply lookup_lt_Some; eauto).
  apply list_lookup_insert_eq. eapply lookup_lt_Some; eauto.
Qed.

(** C4, amended: no step checks the delta of a ZINCRBY command.  On every
    table that satisfies the invariant, whatever the table holds and whatever
    the strings [k], [d] and [m] are, with every allocation succeeding,
    [cmdHashAdd] returns 0 for ZINCRBY k d m, and the score of the member
    that [__find_key] and [__find_member] return is the one they left with
    [strtod d] added.  And a run on an input of commands of bulk strings whose
    command names, keys and members have no NUL byte (the deltas are any
    strings) and whose number is not 0 modulo 2^32 leaves in the ZINCRBY
    container the pairs of all its ZINCRBY commands, each with the union that
    the hit counts and the deltas read by [strtod] give; when its SADD
    commands all fit, it ends with status 0 and writes an output buffer. *)
Theorem delta_is_not_validated :
  (forall (ht : cmdHash) (k d m : string),
     hinv ht ->
     exists kp mp c1 c2 item ht',
       runs (__find_key (z_cmds ht) k (strlen_Z k)) (Some kp, c1)
       /\ runs (__find_member c1 kp m (strlen_Z m)) (Some mp, c2)
       /\ lookup_member c2 kp mp = Some item
       /\ runs (cmdHashAdd ht (bulk_strings ["ZINCRBY"; k; d; m])) (0, ht')
       /\ hinv ht'
       /\ lookup_member (z_cmds ht') kp mp
          = Some (mkMember (member item) (mlen item)
                    (score_add (score_hits item) (strtod d))))
  /\ (forall (ks ms : Z) (l : list (list string)),
        0 < ks -> 0 < ms -> forallb names_nul_free l = true ->
        1 <= to_uint (Z.of_nat (length l)) ->
        exists ctx,
          runs (processBufferFile (fresh_context false ks ms) (commands l)) (0, ctx)
          /\ Permutation (map view (entries (z_cmds (cmd_hash ctx)))) (zincrby_table l)
          /\ (Forall sadd_fits (keys_of (s_cmds (cmd_hash ctx))) ->
              exists out, runs (main_sized ks ms false (commands l)) (0, Some out))).
Proof.
  split.
  - intros ht k d m (Iz & Az & Is & As).
    destruct (find_key_runs (z_cmds ht) k (strlen_Z k) Iz)
      as (kp & c1 & R1 & I1 & _ & _ & K1 & _ & _ & A1).
    destruct (find_member_runs c1 kp m (strlen_Z m) I1 K1 (A1 Az))
      as (mp & c2 & R2 & I2 & _ & _ & [item K2] & _ & _ & A2).
    destruct (add_score_runs c2 kp mp (strtod d) I2 A2 (ex_intro _ item K2))
      as (c3 & R3 & I3 & A3 & _).
    destruct (add_score_at c2 kp mp item (strtod d) K2) as (c3' & R3' & L3).
    pose proof (runs_inj _ _ _ R3' R3) as ->.
    exists kp, mp, c1, c2, item, (set_z_cmds ht c3).
    split; [exact R1 |]. split; [exact R2 |]. split; [exact K2 |].
    split; [| split; [exact (conj I3 (conj A3 (conj Is As))) | exact L3]].
    unfold cmdHashAdd.
    eapply runs_bind; [reflexivity | cbn beta iota].
    unfold __hash_zincrby_cmd.
    eapply runs_bind; [apply (runs_arg_str _ 1 k); reflexivity | cbn beta iota].
    eapply runs_bind; [apply (runs_arg_len _ 1 k); reflexivity | cbn beta iota].
    eapply runs_bind; [exact R1 | cbn beta iota].
    eapply runs_bind; [apply (runs_arg_str _ 3 m); reflexivity | cbn beta iota].
    eapply runs_bind; [apply (runs_arg_len _ 3 m); reflexivity | cbn beta iota].
    eapply runs_bind; [exact R2 | cbn beta iota].
    eapply runs_bind; [apply (runs_arg_str _ 2 d); reflexivity | cbn beta iota].
    eapply runs_bind; [exact R3 | cbn beta iota].
    apply runs_ret.
  - intros ks ms l Hks Hms Hnf Hcount.
    destruct (process_input false ks ms l Hks Hms Hnf) as (ctx & R & Hrel & _).
    destruct (main_sized_runs ks ms l Hks Hms) as (ctx2 & R2 & Hmain).
    pose proof (runs_inj _ _ _ R2 R) as [= ->].
    exists ctx. split; [exact R |].
    split; [rewrite views_entries; exact (rel_zt _ _ _ _ Hrel) |].
    intros Hfits. eexists.
    apply Hmain; [eapply related_flushable; eauto | exact Hcount].
Qed.


(** C3, amended: the two add functions check different things.  [zHashAdd]
    returns -1 and leaves the table as it is when the key or the member is
    NULL or shorter than one byte, and when the value is zero; on every table
    that satisfies the invariant of zhash.c (a new table does), with every
    allocation succeeding, it returns 0 for a key and a member of at least
    one byte and a value that is not zero.  [__hash_zincrby_cmd] makes no
    such check: on every container that satisfies the invariant it returns 0
    for any four strings, an empty key, an empty member and a delta that
    [strtod] reads as zero included. *)
Theorem numeric_add_checks :
  (forall (ht : ZHash.zHash) (key : option string) (klen : Z) (value : float)
          (member : option string) (mlen : Z) (o : oracle),
     key = None \/ klen < 1 \/ member = None \/ mlen < 1 \/ double_is_zero value = true ->
     ZHash.zHashAdd ht key klen value member mlen o = Some (-1, ht, o))
  /\ (forall ks ms : Z, 0 < ks -> 0 < ms -> zinv (fresh_zhash ks ms))
  /\ (forall (ht : ZHash.zHash) (k m : string) (v : float),
        zinv ht -> 1 <= strlen_Z k -> 1 <= strlen_Z m -> double_is_zero v = false ->
        exists ht',
          runs (ZHash.zHashAdd ht (Some k) (strlen_Z k) v (Some m) (strlen_Z m)) (0, ht')
          /\ zinv ht')
  /\ (forall (ht : cmdHash) (name k d m : string),
        inv (z_cmds ht) -> allocated (z_cmds ht) ->
        exists z,
          runs (__hash_zincrby_cmd ht (bulk_strings [name; k; d; m])) (0, set_z_cmds ht z)
          /\ inv z /\ allocated z).
Proof.
  split; [exact zHashAdd_rejects |].
  split; [exact zinv_fresh |].
  split; [exact zHashAdd_accepts |].
  intros ht name k d m Hi Ha.
  destruct (hash_zincrby_runs ht name k d m Hi Ha) as (z & R & I & A & _).
  exists z. split; [exact R |]. split; [exact I | exact A].
Qed.

End Claims.

(** C5: the eighth allocation of a run (on tables of 4 and 2 buckets), the
    [malloc] of the argument array of SET x 1 in [cmdBufferAddReply], fails:
    [cmdBufferAddReply] returns -1, which [processBufferFile] does not look
    at.  The run ends with status 0 and writes SET y 2 alone, where the run
    without the failure writes SET x 1 and SET y 2. *)
Theorem failed_append_drops_passed_command :
  main_sized 4 2 false (commands [["SET"; "x"; "1"]; ["SET"; "y"; "2"]]) (fails_at 7)
  = Some (0, Some (resp_command [("SET", 3); ("y", 1); ("2", 1)]), [])
  /\ main_sized 4 2 false (commands [["SET"; "x"; "1"]; ["SET"; "y"; "2"]]) []
     = Some (0, Some (String.append (resp_command [("SET", 3); ("x", 1); ("1", 1)])
                        (resp_command [("SET", 3); ("y", 1); ("2", 1)])), []).
Proof. split; vm_compute; reflexivity. Qed.

Lemma counts_modulo_2_32_witness :
  0 < 4 /\ 0 < 2
  /\ forallb names_nul_free
       [["SADD"; "s"; "a"]; ["SET"; "x"; "1"]; ["SADD"; "t"; "a"]; ["SADD"; "s"; "b"; "a"];
        ["ZINCRBY"; "z"; "1"; "a"]; ["sadd"; "s"; "a"]] = true
  /\ exists ctx ctx',
       runs (processBufferFile (fresh_context true 4 2)
               (commands [["SADD"; "s"; "a"]; ["SET"; "x"; "1"]; ["SADD"; "t"; "a"];
                          ["SADD"; "s"; "b"; "a"]; ["ZINCRBY"; "z"; "1"; "a"];
                          ["sadd"; "s"; "a"]])) (0, ctx)
       /\ runs (appendAggCommands ctx) (0, ctx')
       /\ cmd_count ctx' = 6
       /\ b_cmd_count (cmd_buffer ctx') = 4.
Proof.
  assert (H4 : 0 < 4) by lia. assert (H2 : 0 < 2) by lia.
  assert (Hn : forallb names_nul_free
                 [["SADD"; "s"; "a"]; ["SET"; "x"; "1"]; ["SADD"; "t"; "a"];
                  ["SADD"; "s"; "b"; "a"]; ["ZINCRBY"; "z"; "1"; "a"]; ["sadd"; "s"; "a"]]
               = true) by reflexivity.
  split; [exact H4 |]. split; [exact H2 |]. split; [exact Hn |].
  destruct (counts_modulo_2_32 true 4 2 _ H4 H2 Hn) as (ctx & R & H).
  destruct (H (or_introl eq_refl)) as (ctx' & R' & Hc & Hb & _).
  exists ctx, ctx'. split; [exact R |]. split; [exact R' |]. split; [exact Hc | exact Hb].
Defined.


Lemma delta_is_not_validated_witness :
  hinv (mkHash (fresh_container 4 2) (one_member 4 2 "k" "m" BITS_3) None 0 0)
  /\ exists kp mp item ht',
       runs (cmdHashAdd (mkHash (fresh_container 4 2) (one_member 4 2 "k" "m" BITS_3) None 0 0)
               (bulk_strings ["ZINCRBY"; "k"; "abc"; "m"])) (0, ht')
       /\ lookup_member (z_cmds ht') kp mp
          = Some (mkMember (member item) (mlen item)
                    (score_add (score_hits item) (strtod "abc"))).
Proof.
  assert (H : hinv (mkHash (fresh_container 4 2) (one_member 4 2 "k" "m" BITS_3) None 0 0)).
  { destruct (inv_one_member 4 2 "k" "m" BITS_3) as [I A]; [lia | lia |].
    refine (conj I (conj A (conj _ _))); [apply inv_fresh; lia | apply allocated_fresh]. }
  split; [exact H |].
  destruct delta_is_not_validated as [Hadd _].
  destruct (Hadd _ "k" "abc" "m" H) as (kp & mp & c1 & c2 & item & ht' & _ & _ & _ & R & _ & L).
  exists kp, mp, item, ht'. split; [exact R | exact L].
Defined.

Lemma numeric_add_checks_witness :
  exists ht1 ht2,
    runs (ZHash.zHashAdd (fresh_zhash 4 2) (Some "k") 1 1.5 (Some "m") 1) (0, ht1)
    /\ runs (ZHash.zHashAdd ht1 (Some "j") 1 2.5 (Some "m") 1) (0, ht2)
    /\ ZHash.zHashAdd ht2 (Some "k") 1 0 (Some "m") 1 [] = Some (-1, ht2, []).
Proof.
  destruct numeric_add_checks as (Hrej & Hfresh & Hacc & _).
  assert (H1 : 1 <= strlen_Z "k") by (vm_compute; discriminate).
  assert (I0 : zinv (fresh_zhash 4 2)) by (apply Hfresh; lia).
  destruct (Hacc (fresh_zhash 4 2) "k" "m" 1.5%float I0 H1 H1 eq_refl) as (ht1 & R1 & I1).
  destruct (Hacc ht1 "j" "m" 2.5%float I1 H1 H1 eq_refl) as (ht2 & R2 & I2).
  exists ht1, ht2. split; [exact R1 |]. split; [exact R2 |].
  apply Hrej. right. right. right. right. reflexivity.
Defined.

